(** * Payroll reports of the ERP backend: a shallow embedding

    The development follows [app/api/routes/payroll.py] (calendar-month
    report, date-range report, payment status, sheet entries) and
    [app/api/routes/payroll2.py] (the second date-range engine).

    Conventions of the embedding:
    - a Python [int] is a [Z]; a Python [float] amount is an exact rational
      [Qc]: the rounding of a binary64, its infinities and NaN are outside
      the embedding, so a statement on an amount gives the expression the
      code evaluates, in the order the code evaluates it, and none states an
      identity between two different expressions;
    - a nullable column or attribute is an [option];
    - a [datetime.date] is its proleptic Gregorian ordinal
      ([date.toordinal()]), which is what comparison, difference and
      [timedelta] addition of dates are defined by;
    - a raised exception is a value of [exn] carried by [result];
    - a table of the record store is the list of its rows, a Python [dict]
      is a [gmap]. *)

From Stdlib Require Import ZArith QArith Qcanon List String Ascii Bool Lia.
From Stdlib Require Import Sorting.Sorted.
From stdpp Require Import base option list gmap strings pretty.
From Equations Require Import Equations.

Open Scope string_scope.
Open Scope list_scope.
Open Scope Z_scope.

(** ** Exceptions and results *)

Inductive exn : Type :=
| HTTPException (status_code : Z) (detail : string)
| ValueError
| OverflowError.

Inductive result (A : Type) : Type :=
| Ok (a : A)
| Raise (e : exn).

Arguments Ok {A} a.
Arguments Raise {A} e.

Definition bind {A B : Type} (r : result A) (k : A -> result B) : result B :=
  match r with
  | Ok a => k a
  | Raise e => Raise e
  end.

Notation "'let*' x ':=' r 'in' k" := (bind r (fun x => k))
  (at level 10, x pattern, r at level 100, k at level 200).

(** [try: ... except Exception as e: raise HTTPException(400, detail) from e] *)
Definition except_400 {A : Type} (detail : string) (r : result A) : result A :=
  match r with
  | Ok a => Ok a
  | Raise _ => Raise (HTTPException 400 detail)
  end.

(** ** Python strings and numbers *)

Module Py.

(** [str.isspace] on the ASCII range: TAB..CR, FS..US and the space. *)
Definition is_space (c : ascii) : bool :=
  let n := Z.of_nat (nat_of_ascii c) in
  ((9 <=? n) && (n <=? 13)) || ((28 <=? n) && (n <=? 32)).

Fixpoint lstrip (s : string) : string :=
  match s with
  | EmptyString => EmptyString
  | String c s' => if is_space c then lstrip s' else s
  end.

Fixpoint rstrip (s : string) : string :=
  match s with
  | EmptyString => EmptyString
  | String c s' =>
      match rstrip s' with
      | EmptyString => if is_space c then EmptyString else String c EmptyString
      | r => String c r
      end
  end.

Definition strip (s : string) : string := rstrip (lstrip s).

Definition lower_ascii (c : ascii) : ascii :=
  let n := nat_of_ascii c in
  if ((65 <=? n) && (n <=? 90))%nat then ascii_of_nat (n + 32) else c.

Fixpoint lower (s : string) : string :=
  match s with
  | EmptyString => EmptyString
  | String c s' => String (lower_ascii c) (lower s')
  end.

(** [s.split(sep)] for a one-character separator. *)
Fixpoint split (sep : ascii) (s : string) : list string :=
  match s with
  | EmptyString => [EmptyString]
  | String c s' =>
      if Ascii.eqb c sep then EmptyString :: split sep s'
      else match split sep s' with
           | [] => [String c EmptyString]
           | w :: ws => String c w :: ws
           end
  end.

Definition digit (c : ascii) : option Z :=
  let n := Z.of_nat (nat_of_ascii c) in
  if (48 <=? n) && (n <=? 57) then Some (n - 48) else None.

(** The digit part of an integer literal: decimal digits, single
    underscores allowed between two digits. *)
Fixpoint digits (acc : Z) (after_digit : bool) (s : string) : option Z :=
  match s with
  | EmptyString => if after_digit then Some acc else None
  | String c s' =>
      if Ascii.eqb c "_"%char then
        if after_digit then digits acc false s' else None
      else
        match digit c with
        | Some d => digits (10 * acc + d) true s'
        | None => None
        end
  end.

(** The whitespace that [int] and [float] skip around a numeral: TAB..CR
    and the space. FS..US are whitespace for [str.strip] and [str.isspace]
    only: [int] raises on them. *)
Definition is_numeral_space (c : ascii) : bool :=
  let n := Z.of_nat (nat_of_ascii c) in
  ((9 <=? n) && (n <=? 13)) || (n =? 32).

Fixpoint ltrim (s : string) : string :=
  match s with
  | EmptyString => EmptyString
  | String c s' => if is_numeral_space c then ltrim s' else s
  end.

Fixpoint rtrim (s : string) : string :=
  match s with
  | EmptyString => EmptyString
  | String c s' =>
      match rtrim s' with
      | EmptyString =>
          if is_numeral_space c then EmptyString else String c EmptyString
      | r => String c r
      end
  end.

Definition trim (s : string) : string := rtrim (ltrim s).

Fixpoint count_digits (s : string) : nat :=
  match s with
  | EmptyString => O
  | String c s' =>
      ((if digit c is Some _ then 1 else 0) + count_digits s')%nat
  end.

(** [sys.get_int_max_str_digits()], as the interpreter starts. *)
Definition max_str_digits : Z := 4300.

(** [int(s)] for a string: surrounding whitespace, an optional sign, the
    digits, no more of them than [max_str_digits]; [None] stands for
    [ValueError]. Strings are read as ASCII: the digits and spaces of other
    scripts are outside the embedding. *)
Definition int (s : string) : option Z :=
  let '(sign, r) :=
    match trim s with
    | String "+"%char r => (1, r)
    | String "-"%char r => (-1, r)
    | r => (1, r)
    end in
  if max_str_digits <? Z.of_nat (count_digits r) then None
  else Z.mul sign <$> digits 0 false r.

(** Truth value of an optional string, an optional [int], an optional
    [float]: [None], the empty string and zero are false. *)
Definition truthy_str (v : option string) : bool :=
  match v with
  | Some (String _ _) => true
  | _ => false
  end.

Definition truthy_int (v : option Z) : bool :=
  match v with
  | Some n => negb (n =? 0)
  | None => false
  end.

Definition truthy_float (v : option Qc) : bool :=
  match v with
  | Some q => negb (Qc_eq_bool q 0)
  | None => false
  end.

(** [v or ""], [int(v or 0)], [float(v or 0.0)] *)
Definition str_or_empty (v : option string) : string := default EmptyString v.
Definition int_or_0 (v : option Z) : Z := default 0 v.
Definition float_or_0 (v : option Qc) : Qc := default 0%Qc v.

(** [str(n)] and the format specifications [{n:04d}], [{n:02d}]. *)
Definition str (n : Z) : string := pretty n.

Fixpoint zeros (k : nat) : string :=
  match k with
  | O => EmptyString
  | S k' => String "0"%char (zeros k')
  end.

Definition format_0d (width : nat) (n : Z) : string :=
  if n <? 0 then
    let body := pretty (- n) in
    String "-"%char (zeros (width - 1 - String.length body) +:+ body)
  else
    let body := pretty n in
    zeros (width - String.length body) +:+ body.

(** [len(s)] *)
Definition len (s : string) : Z := Z.of_nat (String.length s).

(** [s[:stop]]: a negative stop counts from the end of the string. *)
Definition slice_to (stop : Z) (s : string) : string :=
  let n := len s in
  let stop := if stop <? 0 then Z.max 0 (n + stop) else Z.min stop n in
  String.substring 0 (Z.to_nat stop) s.

End Py.

(** ** Dates (module [datetime], module [calendar]) *)

Definition date : Type := Z.

Module Date.

Definition MINYEAR : Z := 1.
Definition MAXYEAR : Z := 9999.
Definition MAXORDINAL : Z := 3652059.

Definition isleap (y : Z) : bool :=
  (y mod 4 =? 0) && (negb (y mod 100 =? 0) || (y mod 400 =? 0)).

Definition days_in_month (y m : Z) : Z :=
  if m =? 2 then (if isleap y then 29 else 28)
  else if (m =? 4) || (m =? 6) || (m =? 9) || (m =? 11) then 30
  else 31.

Definition days_before_year (y : Z) : Z :=
  let y1 := y - 1 in y1 * 365 + y1 / 4 - y1 / 100 + y1 / 400.

Definition days_before_month (y m : Z) : Z :=
  fold_right Z.add 0
    (map (days_in_month y) (map Z.of_nat (seq 1 (Z.to_nat (m - 1))))).

Definition ymd2ord (y m d : Z) : Z :=
  days_before_year y + days_before_month y m + d.

(** The arguments of [date] are converted to C [int]s. *)
Definition fits_int (n : Z) : bool :=
  (-2147483648 <=? n) && (n <=? 2147483647).

(** [date(y, m, d)]: [OverflowError] for an argument that does not fit a C
    [int], [ValueError] outside year 1..9999, month 1..12, day
    1..days_in_month. *)
Definition new (y m d : Z) : result date :=
  if negb (fits_int y && fits_int m && fits_int d) then Raise OverflowError
  else if (MINYEAR <=? y) && (y <=? MAXYEAR) && (1 <=? m) && (m <=? 12)
          && (1 <=? d) && (d <=? days_in_month y m)
  then Ok (ymd2ord y m d)
  else Raise ValueError.

(** [_ord2ymd] of the [datetime] module. *)
Definition ord2ymd (n0 : Z) : Z * Z * Z :=
  let n := n0 - 1 in
  let n400 := n / 146097 in
  let n := n mod 146097 in
  let n100 := n / 36524 in
  let n := n mod 36524 in
  let n4 := n / 1461 in
  let n := n mod 1461 in
  let n1 := n / 365 in
  let n := n mod 365 in
  let year := n400 * 400 + 1 + n100 * 100 + n4 * 4 + n1 in
  if (n1 =? 4) || (n100 =? 4) then (year - 1, 12, 31)
  else
    let leapyear := (n1 =? 3) && (negb (n4 =? 24) || (n100 =? 3)) in
    let month := Z.shiftr (n + 50) 5 in
    let preceding :=
      days_before_month 1 month + (if (2 <? month) && leapyear then 1 else 0) in
    if n <? preceding then
      let month' := month - 1 in
      let preceding' :=
        preceding - (days_in_month 1 month'
                     + (if (month' =? 2) && leapyear then 1 else 0)) in
      (year, month', n - preceding' + 1)
    else (year, month, n - preceding + 1).

Definition year (d : date) : Z := (ord2ymd d).1.1.
Definition month (d : date) : Z := (ord2ymd d).1.2.
Definition day (d : date) : Z := (ord2ymd d).2.

(** [d + timedelta(days=n)] *)
Definition add_days (d : date) (n : Z) : result date :=
  let o := d + n in
  if (0 <? o) && (o <=? MAXORDINAL) then Ok o else Raise OverflowError.

(** [(d2 - d1).days] *)
Definition sub_days (d2 d1 : date) : Z := d2 - d1.

(** [calendar.monthrange(year, month)[1]]; the caller has checked the
    month. *)
Definition monthrange_ndays (y m : Z) : Z := days_in_month y m.

End Date.

(** A [datetime]: the date and the microsecond of the day. *)
Definition datetime : Type := (date * Z)%type.

Definition time_max : Z := 86399999999.

Definition datetime_combine (d : date) (t : Z) : datetime := (d, t).

Definition datetime_le (a b : datetime) : bool :=
  (a.1 <? b.1) || ((a.1 =? b.1) && (a.2 <=? b.2)).

(** ** Amounts *)

Definition float_of_int (n : Z) : Qc := Q2Qc (inject_Z n).

Definition Qc_ltb (a b : Qc) : bool :=
  match (a ?= b)%Qc with
  | Lt => true
  | _ => false
  end.

(** ** The record store *)

(** [app/models/employee2.py]: the columns the routes read. *)
Module Employee2.
Record t : Type := mk {
  id : Z;
  serial_no : option string;
  fss_no : option string;
  name : string;
  salary : option string;
  category : option string;
  eobi_no : option string;
  created_at : option datetime
}.
End Employee2.

(** Modelled from the spec: the mapped class [AttendanceRecord]
    ([app/models/attendance.py] is not among the sources), the AttendanceDay
    of the data model; the attributes are those the routes read. *)
Module AttendanceRecord.
Record t : Type := mk {
  employee_id : string;
  date : date;
  status : option string;
  leave_type : option string;
  overtime_minutes : option Z;
  overtime_rate : option Qc;
  late_minutes : option Z;
  late_deduction : option Qc;
  fine_amount : option Qc
}.
End AttendanceRecord.

(** Modelled from the spec: the mapped class [PayrollSheetEntry]
    ([app/models/payroll_sheet_entry.py] is not among the sources), the
    SheetOverride of the data model. *)
Module PayrollSheetEntry.
Record t : Type := mk {
  employee_db_id : Z;
  from_date : date;
  to_date : date;
  pre_days_override : option Z;
  cur_days_override : option Z;
  leave_encashment_days : option Z;
  allow_other : option Qc;
  eobi : option Qc;
  tax : option Qc;
  fine_adv_extra : option Qc;
  remarks : option string;
  bank_cash : option string
}.
End PayrollSheetEntry.

(** Modelled from the spec: the mapped class [EmployeeAdvanceDeduction]
    ([app/models/employee_advance_deduction.py] is not among the sources),
    the AdvanceDeduction of the data model. *)
Module EmployeeAdvanceDeduction.
Record t : Type := mk {
  employee_db_id : Z;
  month : string;
  amount : option Qc
}.
End EmployeeAdvanceDeduction.

(** Modelled from the spec: the mapped class [PayrollPaymentStatus]
    ([app/models/payroll_payment_status.py] is not among the sources), the
    PaymentStatus of the data model. *)
Module PayrollPaymentStatus.
Record t : Type := mk {
  month : string;
  employee_id : string;
  status : option string;
  employee_db_id : option Z;
  net_pay_snapshot : option Qc
}.
End PayrollPaymentStatus.

Record Db : Type := mkDb {
  employees : list Employee2.t;
  attendance : list AttendanceRecord.t;
  payment_status : list PayrollPaymentStatus.t;
  sheet_entries : list PayrollSheetEntry.t;
  advance_deductions : list EmployeeAdvanceDeduction.t
}.

(** *** The session *)

(** Modelled from the spec: the session that [get_db] hands to a route
    ([app/core/database.py] is not among the sources). The routes produce
    write intents: queries and attribute assignments see and change the
    pending state, [db.commit()] makes it the committed one, and a request
    that raises before its commit leaves the committed state as it was. *)

Record Session : Type := mkSession {
  committed : Db;
  pending : Db
}.

Definition M (A : Type) : Type := Session -> Session * result A.

Definition ret {A : Type} (a : A) : M A := fun s => (s, Ok a).

Definition raise {A : Type} (e : exn) : M A := fun s => (s, Raise e).

Definition bindM {A B : Type} (m : M A) (k : A -> M B) : M B :=
  fun s =>
    match m s with
    | (s', Ok a) => k a s'
    | (s', Raise e) => (s', Raise e)
    end.

Notation "'do*' x '<-' m ';' k" := (bindM m (fun x => k))
  (at level 10, x pattern, m at level 100, k at level 200).

Definition query : M Db := fun s => (s, Ok (pending s)).

Definition lift {A : Type} (r : result A) : M A := fun s => (s, r).

Definition set_pending (db : Db) : M unit :=
  fun s => (mkSession (committed s) db, Ok tt).

Definition commit : M unit :=
  fun s => (mkSession (pending s) (pending s), Ok tt).

(** One request against the store: the store afterwards and the response. *)
Definition request {A : Type} (handler : M A) (db : Db) : Db * result A :=
  let '(s, r) := handler (mkSession db db) in (committed s, r).

Definition set_payment_status (db : Db) (t : list PayrollPaymentStatus.t) : Db :=
  mkDb (employees db) (attendance db) t (sheet_entries db) (advance_deductions db).

Definition set_sheet_entries (db : Db) (t : list PayrollSheetEntry.t) : Db :=
  mkDb (employees db) (attendance db) (payment_status db) t (advance_deductions db).

Definition set_attendance (db : Db) (t : list AttendanceRecord.t) : Db :=
  mkDb (employees db) t (payment_status db) (sheet_entries db) (advance_deductions db).

(** *** Ordering *)

Section Sorting.
Context {A : Type} (leb : A -> A -> bool).

Fixpoint insert_by (x : A) (l : list A) : list A :=
  match l with
  | [] => [x]
  | y :: l' => if leb x y then x :: y :: l' else y :: insert_by x l'
  end.

(** A stable sort: of two elements neither of which is below the other the
    one that came first stays first. *)
Definition sort_by (l : list A) : list A := fold_right insert_by [] l.

End Sorting.

(** [sorted(l, key=key)] with integer keys. *)
Definition sorted {A : Type} (key : A -> Z) (l : list A) : list A :=
  sort_by (fun a b => key a <=? key b) l.

(** [ORDER BY serial_no ASC] of the store on the text column: strings in
    code-point order, NULL before every string. *)
Definition text_leb (a b : option string) : bool :=
  match a, b with
  | None, _ => true
  | Some _, None => false
  | Some x, Some y => String.leb x y
  end.

Definition order_by_serial_no_asc (l : list Employee2.t) : list Employee2.t :=
  sort_by (fun a b => text_leb (Employee2.serial_no a) (Employee2.serial_no b)) l.

(** *** Dictionaries built from query results *)

(** [{key(r): value(r) for r in rows}]: a later row replaces an earlier one
    with the same key. *)
Definition dict_of `{Countable K} {A V : Type}
    (key : A -> K) (value : A -> V) (rows : list A) : gmap K V :=
  fold_left (fun m r => <[key r := value r]> m) rows ∅.

(** [for r in rows: d.setdefault(key(r), []).append(r)] *)
Definition group_by `{Countable K} {A : Type}
    (key : A -> K) (rows : list A) : gmap K (list A) :=
  fold_left (fun m r => <[key r := default [] (m !! key r) ++ [r]]> m) rows ∅.

(** [for r in rows: d.setdefault(key1(r), {})[key2(r)] = r] *)
Definition index_by2 `{Countable K1} `{Countable K2} {A : Type}
    (key1 : A -> K1) (key2 : A -> K2) (rows : list A) : gmap K1 (gmap K2 A) :=
  fold_left
    (fun m r => <[key1 r := <[key2 r := r]> (default ∅ (m !! key1 r))]> m)
    rows ∅.

(** ** What the attendance loops accumulate

    The local variables of the per-employee loops. The calendar-month loop
    has no [unmarked_days] and no [fine_deduction]; there they stay 0. *)

Module Tally.
Record t : Type := mk {
  present_days : Z;
  late_days : Z;
  absent_days : Z;
  paid_leave_days : Z;
  unpaid_leave_days : Z;
  unmarked_days : Z;
  overtime_minutes : Z;
  overtime_pay : Qc;
  overtime_rate : Qc;
  late_minutes : Z;
  late_deduction : Qc;
  fine_deduction : Qc
}.

Definition zero : t := mk 0 0 0 0 0 0 0 0%Qc 0%Qc 0 0%Qc 0%Qc.

Definition incr_present (x : t) : t :=
  let 'mk p l a pl ul um om op or lm ld fd := x in
  mk (p + 1) l a pl ul um om op or lm ld fd.
Definition incr_late (x : t) : t :=
  let 'mk p l a pl ul um om op or lm ld fd := x in
  mk p (l + 1) a pl ul um om op or lm ld fd.
Definition incr_absent (x : t) : t :=
  let 'mk p l a pl ul um om op or lm ld fd := x in
  mk p l (a + 1) pl ul um om op or lm ld fd.
Definition incr_paid_leave (x : t) : t :=
  let 'mk p l a pl ul um om op or lm ld fd := x in
  mk p l a (pl + 1) ul um om op or lm ld fd.
Definition incr_unpaid_leave (x : t) : t :=
  let 'mk p l a pl ul um om op or lm ld fd := x in
  mk p l a pl (ul + 1) um om op or lm ld fd.
Definition incr_unmarked (x : t) : t :=
  let 'mk p l a pl ul um om op or lm ld fd := x in
  mk p l a pl ul (um + 1) om op or lm ld fd.
Definition add_overtime (minutes : Z) (pay : Qc) (x : t) : t :=
  let 'mk p l a pl ul um om op or lm ld fd := x in
  mk p l a pl ul um (om + minutes) (op + pay)%Qc or lm ld fd.
Definition set_overtime_rate (rate : Qc) (x : t) : t :=
  let 'mk p l a pl ul um om op or lm ld fd := x in
  mk p l a pl ul um om op rate lm ld fd.
Definition add_late_minutes (minutes : Z) (x : t) : t :=
  let 'mk p l a pl ul um om op or lm ld fd := x in
  mk p l a pl ul um om op or (lm + minutes) ld fd.
Definition add_late_deduction (amount : Qc) (x : t) : t :=
  let 'mk p l a pl ul um om op or lm ld fd := x in
  mk p l a pl ul um om op or lm (ld + amount)%Qc fd.
Definition add_fine (amount : Qc) (x : t) : t :=
  let 'mk p l a pl ul um om op or lm ld fd := x in
  mk p l a pl ul um om op or lm ld (fd + amount)%Qc.
End Tally.

(** The statements on overtime and lateness, the same text in the three
    loops:
<<
    if a.overtime_minutes and a.overtime_rate:
        overtime_minutes += int(a.overtime_minutes or 0)
        overtime_pay += (float(a.overtime_minutes) / 60.0) * float(a.overtime_rate)
    if a.overtime_rate and float(a.overtime_rate or 0) > 0:
        overtime_rate = float(a.overtime_rate)
    if a.late_minutes:
        late_minutes += int(a.late_minutes or 0)
    if a.late_deduction:
        late_deduction += float(a.late_deduction or 0)
>> *)
Definition accrue_overtime (a : AttendanceRecord.t) (x : Tally.t) : Tally.t :=
  if Py.truthy_int (AttendanceRecord.overtime_minutes a)
     && Py.truthy_float (AttendanceRecord.overtime_rate a)
  then
    Tally.add_overtime
      (Py.int_or_0 (AttendanceRecord.overtime_minutes a))
      (float_of_int (Py.int_or_0 (AttendanceRecord.overtime_minutes a))
         / float_of_int 60
       * Py.float_or_0 (AttendanceRecord.overtime_rate a))%Qc
      x
  else x.

Definition track_overtime_rate (a : AttendanceRecord.t) (x : Tally.t) : Tally.t :=
  if Py.truthy_float (AttendanceRecord.overtime_rate a)
     && Qc_ltb 0 (Py.float_or_0 (AttendanceRecord.overtime_rate a))
  then Tally.set_overtime_rate (Py.float_or_0 (AttendanceRecord.overtime_rate a)) x
  else x.

Definition accrue_late (a : AttendanceRecord.t) (x : Tally.t) : Tally.t :=
  let x :=
    if Py.truthy_int (AttendanceRecord.late_minutes a)
    then Tally.add_late_minutes (Py.int_or_0 (AttendanceRecord.late_minutes a)) x
    else x in
  if Py.truthy_float (AttendanceRecord.late_deduction a)
  then Tally.add_late_deduction (Py.float_or_0 (AttendanceRecord.late_deduction a)) x
  else x.

(** [if a.fine_amount: fine_deduction += float(a.fine_amount or 0)] *)
Definition accrue_fine (a : AttendanceRecord.t) (x : Tally.t) : Tally.t :=
  if Py.truthy_float (AttendanceRecord.fine_amount a)
  then Tally.add_fine (Py.float_or_0 (AttendanceRecord.fine_amount a)) x
  else x.

(** The day walk of the two range engines:
<<
    dcur = start
    while dcur <= end:
        (body)
        dcur = dcur + timedelta(days=1)
>> *)
Definition inspect {A : Type} (a : A) : {b : A | a = b} := exist _ a eq_refl.

Equations day_walk {S : Type} (body : date -> S -> S) (end_ : date)
    (dcur : date) (acc : S) : result S
  by wf (Z.to_nat (end_ - dcur + 1)) lt :=
day_walk body end_ dcur acc with Z_le_dec dcur end_ := {
  | left _ with inspect (Date.add_days dcur 1) := {
      | exist _ (Ok dnext) _ => day_walk body end_ dnext (body dcur acc)
      | exist _ (Raise e) _ => Raise e };
  | right _ => Ok acc }.
Next Obligation.
  unfold Date.add_days in *.
  destruct ((0 <? dcur + 1) && (dcur + 1 <=? Date.MAXORDINAL)); [|discriminate].
  match goal with H : Ok _ = Ok _ |- _ => injection H as <- end. lia.
Qed.

(** ** [app/api/routes/payroll.py] *)

Module payroll.

(** Modelled from the spec: the request body of [PUT /payment-status]
    ([app/schemas/payroll_payment_status.py] is not among the sources). *)
Module PayrollPaymentStatusUpsert.
Record t : Type := mk {
  month : string;
  employee_id : string;
  status : option string
}.
End PayrollPaymentStatusUpsert.

(** Modelled from the spec: the request body of [PUT /sheet-entries] and
    its entries ([app/schemas/payroll_sheet_entry.py] is not among the
    sources); an entry has the columns of a sheet entry. *)
Module PayrollSheetEntryUpsert.
Record t : Type := mk {
  employee_db_id : Z;
  from_date : date;
  to_date : date;
  pre_days_override : option Z;
  cur_days_override : option Z;
  leave_encashment_days : option Z;
  allow_other : option Qc;
  eobi : option Qc;
  tax : option Qc;
  fine_adv_extra : option Qc;
  remarks : option string;
  bank_cash : option string
}.
End PayrollSheetEntryUpsert.

Module PayrollSheetEntryBulkUpsert.
Record t : Type := mk {
  from_date : date;
  to_date : date;
  entries : list PayrollSheetEntryUpsert.t
}.
End PayrollSheetEntryBulkUpsert.

(** A row of [payroll_report]. The constant columns [department],
    [shift_type] and the copied [eobi_no] are left out. *)
Module ReportRow.
Record t : Type := mk {
  employee_db_id : Z;
  employee_id : string;
  name : string;
  serial_no : option string;
  fss_no : option string;
  base_salary : Qc;
  allowances : Qc;
  present_days : Z;
  late_days : Z;
  absent_days : Z;
  paid_leave_days : Z;
  unpaid_leave_days : Z;
  overtime_minutes : Z;
  overtime_pay : Qc;
  overtime_rate : Qc;
  late_minutes : Z;
  late_deduction : Qc;
  unpaid_leave_deduction : Qc;
  advance_deduction : Qc;
  gross_pay : Qc;
  net_pay : Qc;
  paid_status : string
}.
End ReportRow.

(** A row of [payroll_range_report]. The constant columns [department],
    [shift_type], [bank_name], [account_number] and the copied [eobi_no]
    are left out. *)
Module RangeRow.
Record t : Type := mk {
  employee_db_id : Z;
  employee_id : string;
  name : string;
  serial_no : option string;
  fss_no : option string;
  base_salary : Qc;
  allowances : Qc;
  working_days : Z;
  day_rate : Qc;
  payable_days : Z;
  basic_earned : Qc;
  pre_days : Z;
  cur_days : Z;
  leave_encashment_days : Z;
  total_days : Z;
  total_salary : Qc;
  present_days : Z;
  late_days : Z;
  absent_days : Z;
  paid_leave_days : Z;
  unpaid_leave_days : Z;
  unmarked_days : Z;
  overtime_minutes : Z;
  overtime_pay : Qc;
  overtime_rate : Qc;
  late_minutes : Z;
  late_deduction : Qc;
  late_rate : Qc;
  fine_deduction : Qc;
  allow_other : Qc;
  eobi : Qc;
  tax : Qc;
  fine_adv_extra : Qc;
  fine_adv : Qc;
  remarks : option string;
  bank_cash : option string;
  unpaid_leave_deduction : Qc;
  advance_deduction : Qc;
  gross_pay : Qc;
  net_pay : Qc;
  paid_status : string
}.
End RangeRow.

Module Summary.
Record t : Type := mk {
  month : string;
  employees : Z;
  total_gross : Qc;
  total_net : Qc
}.
End Summary.

Module PayrollReportResponse.
Record t (Row : Type) : Type := mk {
  month : string;
  summary : Summary.t;
  rows : list Row
}.
Arguments mk {Row} _ _ _.
Arguments month {Row} _.
Arguments summary {Row} _.
Arguments rows {Row} _.
End PayrollReportResponse.

Section Routes.

(** [float(s)] on a string is the builtin's business; the routes only
    distinguish a value from a [ValueError] ([None]). The texts that
    [float] reads as an infinity or as NaN ("inf", "nan", "1e999") have no
    value in [Qc]: the embedding covers the stores that have no such text
    for a salary. *)
Context (float_of_str : string -> option Qc).

Definition int_of_str (s : string) : result Z :=
  match Py.int s with
  | Some n => Ok n
  | None => Raise ValueError
  end.

Definition _parse_month (month : string) : result (date * date) :=
  let* ym :=
    except_400 "month must be in YYYY-MM format"
      (match Py.split "-" month with
       | [year_str; month_str] =>
           let* year := int_of_str year_str in
           let* mm := int_of_str month_str in
           if (mm <? 1) || (mm >? 12) then Raise ValueError
           else Ok (year, mm)
       | _ => Raise ValueError
       end) in
  let '(year, mm) := ym in
  let last_day := Date.monthrange_ndays year mm in
  let* start := Date.new year mm 1 in
  let* end_ := Date.new year mm last_day in
  Ok (start, end_).

Definition _parse_date (d : string) (field : string) : result date :=
  except_400 (field +:+ " must be in YYYY-MM-DD format")
    (match Py.split "-" d with
     | [y; m; dd] =>
         let* y := int_of_str y in
         let* m := int_of_str m in
         let* dd := int_of_str dd in
         Date.new y m dd
     | _ => Raise ValueError
     end).

Definition _month_label (d : date) : string :=
  Py.format_0d 4 (Date.year d) +:+ "-" +:+ Py.format_0d 2 (Date.month d).

Definition _days_inclusive (start end_ : date) : Z :=
  Date.sub_days end_ start + 1.

Definition _to_float (v : option string) : Qc :=
  match v with
  | None => 0%Qc
  | Some v =>
      let s := Py.strip v in
      if String.eqb s "" then 0%Qc
      else match float_of_str s with
           | Some x => x
           | None => 0%Qc
           end
  end.

(** [Employee2.created_at == None or Employee2.created_at <= cutoff] *)
Definition hired_by (cutoff : datetime) (e : Employee2.t) : bool :=
  match Employee2.created_at e with
  | None => true
  | Some t => datetime_le t cutoff
  end.

(** [AttendanceRecord.date >= start and AttendanceRecord.date <= end] *)
Definition in_period (start end_ : date) (r : AttendanceRecord.t) : bool :=
  (start <=? AttendanceRecord.date r) && (AttendanceRecord.date r <=? end_).

Definition sheet_in_period (start end_ : date) (r : PayrollSheetEntry.t) : bool :=
  (PayrollSheetEntry.from_date r =? start) && (PayrollSheetEntry.to_date r =? end_).

(** [r.status or "unpaid"] *)
Definition status_or_unpaid (r : PayrollPaymentStatus.t) : string :=
  if Py.truthy_str (PayrollPaymentStatus.status r)
  then Py.str_or_empty (PayrollPaymentStatus.status r)
  else "unpaid".

Definition paid_status_by_emp (month : string) (db : Db) : gmap string string :=
  dict_of PayrollPaymentStatus.employee_id status_or_unpaid
    (List.filter (fun r => String.eqb (PayrollPaymentStatus.month r) month)
       (payment_status db)).

Definition sheet_by_emp_db_id (start end_ : date) (db : Db)
    : gmap Z PayrollSheetEntry.t :=
  dict_of PayrollSheetEntry.employee_db_id id
    (List.filter (sheet_in_period start end_) (sheet_entries db)).

Definition advance_ded_by_emp_db_id (month : string) (db : Db) : gmap Z Qc :=
  dict_of EmployeeAdvanceDeduction.employee_db_id
    (fun r => Py.float_or_0 (EmployeeAdvanceDeduction.amount r))
    (List.filter (fun r => String.eqb (EmployeeAdvanceDeduction.month r) month)
       (advance_deductions db)).

(** *** The calendar-month report *)

(** [e.fss_no or e.serial_no or str(e.id)] *)
Definition report_employee_id (e : Employee2.t) : string :=
  if Py.truthy_str (Employee2.fss_no e) then Py.str_or_empty (Employee2.fss_no e)
  else if Py.truthy_str (Employee2.serial_no e)
       then Py.str_or_empty (Employee2.serial_no e)
       else Py.str (Employee2.id e).

(** The body of [for a in by_emp.get(employee_id, [])]. *)
Definition report_step (x : Tally.t) (a : AttendanceRecord.t) : Tally.t :=
  let st := Py.strip (Py.lower (Py.str_or_empty (AttendanceRecord.status a))) in
  let x :=
    if String.eqb st "present" then Tally.incr_present x
    else if String.eqb st "late" then Tally.incr_late x
    else if String.eqb st "absent" then Tally.incr_absent x
    else if String.eqb st "leave" then
      if String.eqb
           (Py.strip (Py.lower (Py.str_or_empty (AttendanceRecord.leave_type a))))
           "unpaid"
      then Tally.incr_unpaid_leave x
      else Tally.incr_paid_leave x
    else x in
  accrue_late a (track_overtime_rate a (accrue_overtime a x)).

Definition report_row (month : string) (db : Db)
    (by_emp : gmap string (list AttendanceRecord.t)) (e : Employee2.t)
    : ReportRow.t :=
  let employee_id := report_employee_id e in
  let base_salary := _to_float (Employee2.salary e) in
  let allowances := 0%Qc in
  let x := fold_left report_step (default [] (by_emp !! employee_id)) Tally.zero in
  let unpaid_leave_deduction :=
    (float_of_int (Tally.unpaid_leave_days x) * float_of_int 1000)%Qc in
  let gross_pay :=
    (base_salary + allowances + Tally.overtime_rate x + Tally.overtime_pay x)%Qc in
  let adv_ded :=
    default 0%Qc (advance_ded_by_emp_db_id month db !! Employee2.id e) in
  let net_pay :=
    (gross_pay - Tally.late_deduction x - unpaid_leave_deduction - adv_ded)%Qc in
  ReportRow.mk (Employee2.id e) employee_id (Employee2.name e)
    (Employee2.serial_no e) (Employee2.fss_no e) base_salary allowances
    (Tally.present_days x) (Tally.late_days x) (Tally.absent_days x)
    (Tally.paid_leave_days x) (Tally.unpaid_leave_days x)
    (Tally.overtime_minutes x) (Tally.overtime_pay x) (Tally.overtime_rate x)
    (Tally.late_minutes x) (Tally.late_deduction x)
    unpaid_leave_deduction adv_ded gross_pay net_pay
    (default "unpaid" (paid_status_by_emp month db !! employee_id)).

(** The route also builds [sheet_by_emp_db_id] for the month period; no
    statement of the loop reads it. *)
Definition payroll_report (month : string) (db : Db)
    : result (PayrollReportResponse.t ReportRow.t) :=
  let* period := _parse_month month in
  let '(start, end_) := period in
  let cutoff := datetime_combine end_ time_max in
  let employees :=
    order_by_serial_no_asc (List.filter (hired_by cutoff) (employees db)) in
  let attendance := List.filter (in_period start end_) (attendance db) in
  let by_emp := group_by AttendanceRecord.employee_id attendance in
  let rows := map (report_row month db by_emp) employees in
  let total_gross :=
    fold_left (fun t r => (t + ReportRow.gross_pay r)%Qc) rows 0%Qc in
  let total_net :=
    fold_left (fun t r => (t + ReportRow.net_pay r)%Qc) rows 0%Qc in
  Ok (PayrollReportResponse.mk month
        (Summary.mk month (Z.of_nat (length rows)) total_gross total_net)
        rows).

(** *** The date-range report *)

(** [sort_key]: [int(e.serial_no or 0)], 999999 on [ValueError]. *)
Definition sort_key (e : Employee2.t) : Z :=
  if Py.truthy_str (Employee2.serial_no e) then
    match Py.int (Py.str_or_empty (Employee2.serial_no e)) with
    | Some n => n
    | None => 999999
    end
  else 0.

(** [str(e.fss_no or e.serial_no or e.id).strip()] *)
Definition range_employee_id (e : Employee2.t) : string :=
  Py.strip (report_employee_id e).

Definition by_emp_by_date (records : list AttendanceRecord.t)
    : gmap string (gmap Z AttendanceRecord.t) :=
  index_by2 (fun r => Py.strip (AttendanceRecord.employee_id r))
    AttendanceRecord.date records.

(** The body of [while dcur <= end] for one employee, whose records of the
    period are [days]. *)
Definition range_body (days : gmap Z AttendanceRecord.t) (dcur : date)
    (x : Tally.t) : Tally.t :=
  let a := days !! dcur in
  let st :=
    match a with
    | Some a =>
        Py.strip (Py.lower
          (if Py.truthy_str (AttendanceRecord.status a)
           then Py.str_or_empty (AttendanceRecord.status a)
           else "unmarked"))
    | None => "unmarked"
    end in
  let x :=
    if String.eqb st "present" then Tally.incr_present x
    else if String.eqb st "late" then Tally.incr_late x
    else if String.eqb st "absent" then Tally.incr_absent x
    else if String.eqb st "leave" then
      match a with
      | Some a =>
          if String.eqb
               (Py.strip (Py.lower (Py.str_or_empty (AttendanceRecord.leave_type a))))
               "unpaid"
          then Tally.incr_unpaid_leave x
          else Tally.incr_paid_leave x
      | None => Tally.incr_paid_leave x
      end
    else Tally.incr_unmarked x in
  match a with
  | Some a =>
      accrue_fine a (accrue_late a (track_overtime_rate a (accrue_overtime a x)))
  | None => x
  end.

(** What [payroll_range_report] derives for one employee once the day walk
    has produced the tally [x]. *)
Definition range_row (month_label : string) (start end_ : date) (db : Db)
    (e : Employee2.t) (x : Tally.t) : RangeRow.t :=
  let working_days := _days_inclusive start end_ in
  let employee_id := range_employee_id e in
  let base_salary := _to_float (Employee2.salary e) in
  let allowances := 0%Qc in
  let day_rate :=
    if 0 <? working_days then (base_salary / float_of_int working_days)%Qc
    else 0%Qc in
  let late_rate :=
    if 0 <? Tally.late_minutes x
    then (Tally.late_deduction x / float_of_int (Tally.late_minutes x))%Qc
    else 0%Qc in
  let payable_days :=
    Tally.present_days x + Tally.late_days x + Tally.paid_leave_days x in
  let payable_days :=
    if working_days <? payable_days then working_days else payable_days in
  let presents_total := Tally.present_days x + Tally.late_days x in
  let sheet := sheet_by_emp_db_id start end_ db !! Employee2.id e in
  let leave_encashment_days :=
    match sheet with
    | Some s => Py.int_or_0 (PayrollSheetEntry.leave_encashment_days s)
    | None => 0
    end in
  let pre_days :=
    match sheet with
    | Some s => default 0 (PayrollSheetEntry.pre_days_override s)
    | None => 0
    end in
  let cur_days :=
    match sheet with
    | Some s => default 0 (PayrollSheetEntry.cur_days_override s)
    | None => 0
    end in
  let pre_days := if pre_days <? 0 then 0 else pre_days in
  let cur_days := if cur_days <? 0 then 0 else cur_days in
  let total_days := presents_total + leave_encashment_days in
  let total_days := if total_days <? 0 then 0 else total_days in
  let total_salary := (float_of_int total_days * day_rate)%Qc in
  let allow_other :=
    match sheet with
    | Some s => Py.float_or_0 (PayrollSheetEntry.allow_other s)
    | None => 0%Qc
    end in
  let eobi :=
    match sheet with
    | Some s => Py.float_or_0 (PayrollSheetEntry.eobi s)
    | None => 0%Qc
    end in
  let tax :=
    match sheet with
    | Some s => Py.float_or_0 (PayrollSheetEntry.tax s)
    | None => 0%Qc
    end in
  let fine_adv_extra :=
    match sheet with
    | Some s => Py.float_or_0 (PayrollSheetEntry.fine_adv_extra s)
    | None => 0%Qc
    end in
  let remarks := sheet ≫= PayrollSheetEntry.remarks in
  let bank_cash := sheet ≫= PayrollSheetEntry.bank_cash in
  let adv_ded :=
    default 0%Qc (advance_ded_by_emp_db_id month_label db !! Employee2.id e) in
  let fine_adv := (Tally.fine_deduction x + adv_ded + fine_adv_extra)%Qc in
  let unpaid_leave_deduction := 0%Qc in
  let gross_pay :=
    (total_salary + Tally.overtime_rate x + Tally.overtime_pay x
     + allowances + allow_other)%Qc in
  let net_pay :=
    (gross_pay - eobi - tax - fine_adv - Tally.late_deduction x
     - unpaid_leave_deduction)%Qc in
  RangeRow.mk (Employee2.id e) employee_id (Employee2.name e)
    (Employee2.serial_no e) (Employee2.fss_no e) base_salary allowances
    working_days day_rate payable_days total_salary
    pre_days cur_days leave_encashment_days total_days total_salary
    (Tally.present_days x) (Tally.late_days x) (Tally.absent_days x)
    (Tally.paid_leave_days x) (Tally.unpaid_leave_days x) (Tally.unmarked_days x)
    (Tally.overtime_minutes x) (Tally.overtime_pay x) (Tally.overtime_rate x)
    (Tally.late_minutes x) (Tally.late_deduction x) late_rate
    (Tally.fine_deduction x) allow_other eobi tax fine_adv_extra fine_adv
    remarks bank_cash unpaid_leave_deduction adv_ded gross_pay net_pay
    (default "unpaid" (paid_status_by_emp month_label db !! employee_id)).

(** [for e in employees], each iteration walking the days of the period. *)
Fixpoint range_rows (month_label : string) (start end_ : date) (db : Db)
    (index : gmap string (gmap Z AttendanceRecord.t))
    (employees : list Employee2.t) : result (list RangeRow.t) :=
  match employees with
  | [] => Ok []
  | e :: rest =>
      let days := default ∅ (index !! range_employee_id e) in
      let* x := day_walk (range_body days) end_ start Tally.zero in
      let* rows := range_rows month_label start end_ db index rest in
      Ok (range_row month_label start end_ db e x :: rows)
  end.

Definition payroll_range_report (from_date to_date : string)
    (month : option string) (db : Db)
    : result (PayrollReportResponse.t RangeRow.t) :=
  let* start := _parse_date from_date "from_date" in
  let* end_ := _parse_date to_date "to_date" in
  if end_ <? start then Raise (HTTPException 400 "from_date must be <= to_date")
  else
    let month_label :=
      if Py.truthy_str month then Py.str_or_empty month else _month_label end_ in
    let cutoff := datetime_combine end_ time_max in
    let employees := List.filter (hired_by cutoff) (employees db) in
    let employees := sorted sort_key employees in
    let attendance := List.filter (in_period start end_) (attendance db) in
    let index := by_emp_by_date attendance in
    let* rows := range_rows month_label start end_ db index employees in
    let total_gross :=
      fold_left (fun t r => (t + RangeRow.gross_pay r)%Qc) rows 0%Qc in
    let total_net :=
      fold_left (fun t r => (t + RangeRow.net_pay r)%Qc) rows 0%Qc in
    Ok (PayrollReportResponse.mk month_label
          (Summary.mk month_label (Z.of_nat (length rows)) total_gross total_net)
          rows).

(** *** Payment status *)

(** [query.filter(...).first()]: the first row that matches, with its place
    in the table. *)
Fixpoint first {A : Type} (p : A -> bool) (l : list A) : option (nat * A) :=
  match l with
  | [] => None
  | x :: l' =>
      if p x then Some (O, x)
      else match first p l' with
           | Some (i, y) => Some (S i, y)
           | None => None
           end
  end.

Definition status_key (month employee_id : string)
    (r : PayrollPaymentStatus.t) : bool :=
  String.eqb (PayrollPaymentStatus.month r) month
  && String.eqb (PayrollPaymentStatus.employee_id r) employee_id.

Definition get_payment_status (month employee_id : string)
    : M PayrollPaymentStatus.t :=
  do* db <- query;
  match first (status_key month employee_id) (payment_status db) with
  | Some (_, row) => ret row
  | None =>
      let row :=
        PayrollPaymentStatus.mk month employee_id (Some "unpaid") None None in
      do* _ <- set_pending (set_payment_status db (payment_status db ++ [row]));
      do* _ <- commit;
      ret row
  end.

(** [float(match.net_pay or 0.0)] *)
Definition net_or_0 (net_pay : Qc) : Qc :=
  if Qc_eq_bool net_pay 0 then 0%Qc else net_pay.

Definition upsert_payment_status (payload : PayrollPaymentStatusUpsert.t)
    : M PayrollPaymentStatus.t :=
  let month := PayrollPaymentStatusUpsert.month payload in
  let employee_id := PayrollPaymentStatusUpsert.employee_id payload in
  let status :=
    Py.lower (Py.strip (Py.str_or_empty (PayrollPaymentStatusUpsert.status payload))) in
  if negb (String.eqb status "paid" || String.eqb status "unpaid") then
    raise (HTTPException 400 "status must be 'paid' or 'unpaid'")
  else
    do* db <- query;
    let row := first (status_key month employee_id) (payment_status db) in
    let emp :=
      List.find
        (fun e => match Employee2.fss_no e with
                  | Some f => String.eqb f employee_id
                  | None => false
                  end)
        (employees db) in
    let emp_db_id := Employee2.id <$> emp in
    do* net_snapshot <-
      (if String.eqb status "paid" then
         do* rep <- lift (payroll_report month db);
         ret (net_or_0 ∘ ReportRow.net_pay <$>
                List.find
                  (fun r => String.eqb (ReportRow.employee_id r) employee_id)
                  (PayrollReportResponse.rows rep))
       else ret None);
    let snapshot := if String.eqb status "paid" then net_snapshot else None in
    let new_row :=
      PayrollPaymentStatus.mk month employee_id (Some status) emp_db_id snapshot in
    let table :=
      match row with
      | None => payment_status db ++ [new_row]
      | Some (i, _) => <[i := new_row]> (payment_status db)
      end in
    do* _ <- set_pending (set_payment_status db table);
    do* _ <- commit;
    ret new_row.

(** *** Sheet entries *)

Definition sheet_key (employee_db_id : Z) (start end_ : date)
    (r : PayrollSheetEntry.t) : bool :=
  (PayrollSheetEntry.employee_db_id r =? employee_db_id)
  && (PayrollSheetEntry.from_date r =? start)
  && (PayrollSheetEntry.to_date r =? end_).

(** The row an entry leaves behind: every column is assigned. *)
Definition sheet_row_of (start end_ : date) (e : PayrollSheetEntryUpsert.t)
    : PayrollSheetEntry.t :=
  PayrollSheetEntry.mk
    (PayrollSheetEntryUpsert.employee_db_id e) start end_
    (PayrollSheetEntryUpsert.pre_days_override e)
    (PayrollSheetEntryUpsert.cur_days_override e)
    (Some (Py.int_or_0 (PayrollSheetEntryUpsert.leave_encashment_days e)))
    (Some (Py.float_or_0 (PayrollSheetEntryUpsert.allow_other e)))
    (Some (Py.float_or_0 (PayrollSheetEntryUpsert.eobi e)))
    (Some (Py.float_or_0 (PayrollSheetEntryUpsert.tax e)))
    (Some (Py.float_or_0 (PayrollSheetEntryUpsert.fine_adv_extra e)))
    (PayrollSheetEntryUpsert.remarks e)
    (PayrollSheetEntryUpsert.bank_cash e).

(** The body of [for e in payload.entries]; it yields the place of the row
    it wrote, which is what [out] holds on to. *)
Definition upsert_entry (start end_ : date) (e : PayrollSheetEntryUpsert.t)
    : M nat :=
  if negb (PayrollSheetEntryUpsert.from_date e =? start)
     || negb (PayrollSheetEntryUpsert.to_date e =? end_)
  then raise (HTTPException 400 "entry period must match payload from/to")
  else
    do* db <- query;
    let row := sheet_row_of start end_ e in
    match first (sheet_key (PayrollSheetEntryUpsert.employee_db_id e) start end_)
            (sheet_entries db) with
    | Some (i, _) =>
        do* _ <- set_pending (set_sheet_entries db (<[i := row]> (sheet_entries db)));
        ret i
    | None =>
        do* _ <- set_pending (set_sheet_entries db (sheet_entries db ++ [row]));
        ret (length (sheet_entries db))
    end.

Fixpoint for_each {A B : Type} (f : A -> M B) (l : list A) : M (list B) :=
  match l with
  | [] => ret []
  | a :: l' =>
      do* b <- f a;
      do* bs <- for_each f l';
      ret (b :: bs)
  end.

Definition bulk_upsert_payroll_sheet_entries
    (payload : PayrollSheetEntryBulkUpsert.t) : M (list PayrollSheetEntry.t) :=
  let start := PayrollSheetEntryBulkUpsert.from_date payload in
  let end_ := PayrollSheetEntryBulkUpsert.to_date payload in
  if end_ <? start then raise (HTTPException 400 "from_date must be <= to_date")
  else
    do* out <- for_each (upsert_entry start end_)
                 (PayrollSheetEntryBulkUpsert.entries payload);
    do* _ <- commit;
    do* db <- query;
    ret (omap (fun i => sheet_entries db !! i) out).

(** *** The other routes and helpers of the file *)

Definition _last_day_of_month (d : date) : result date :=
  let last := Date.monthrange_ndays (Date.year d) (Date.month d) in
  Date.new (Date.year d) (Date.month d) last.

(** [pre_days_default] and [cur_days_default], which [payroll_range_report]
    computes before its loop and does not read afterwards. *)
Definition day_defaults (start end_ : date) : result (Z * Z) :=
  let working_days := _days_inclusive start end_ in
  if negb (Date.year start =? Date.year end_)
     || negb (Date.month start =? Date.month end_)
  then
    let* last := _last_day_of_month start in
    let pre_days_default := _days_inclusive start (Z.min end_ last) in
    Ok (pre_days_default, working_days - pre_days_default)
  else Ok (0, working_days).

(** [GET /sheet-entries] *)
Definition list_payroll_sheet_entries (from_date to_date : string)
    : M (list PayrollSheetEntry.t) :=
  do* start <- lift (_parse_date from_date "from_date");
  do* end_ <- lift (_parse_date to_date "to_date");
  if end_ <? start then raise (HTTPException 400 "from_date must be <= to_date")
  else
    do* db <- query;
    ret (sorted PayrollSheetEntry.employee_db_id
           (List.filter (sheet_in_period start end_) (sheet_entries db))).

(** [_truncate] of [_build_payroll_pdf] *)
Definition _truncate (s : option string) (max_len : Z) : string :=
  let ss := Py.strip (Py.str_or_empty s) in
  if Py.len ss <=? max_len then ss
  else if max_len <=? 3 then Py.slice_to max_len ss
  else Py.slice_to (max_len - 3) ss +:+ "...".

End Routes.

End payroll.

(** ** [app/api/routes/payroll2.py] *)

Module payroll2.

(** A row of [payroll2_range_report]. The tooltip lists
    [present_dates_prev] and [present_dates_cur] and the copied [eobi_no]
    are left out. *)
Module Row.
Record t : Type := mk {
  employee_db_id : Z;
  employee_id : string;
  name : string;
  serial_no : option string;
  fss_no : option string;
  base_salary : Qc;
  working_days : Z;
  day_rate : Qc;
  presents_total : Z;
  present_days : Z;
  late_days : Z;
  absent_days : Z;
  paid_leave_days : Z;
  unpaid_leave_days : Z;
  pre_days : Z;
  cur_days : Z;
  leave_encashment_days : Z;
  total_days : Z;
  total_salary : Qc;
  overtime_minutes : Z;
  overtime_rate : Qc;
  overtime_pay : Qc;
  late_minutes : Z;
  late_deduction : Qc;
  allow_other : Qc;
  gross_pay : Qc;
  eobi : Qc;
  tax : Qc;
  fine_deduction : Qc;
  fine_adv_extra : Qc;
  fine_adv : Qc;
  advance_deduction : Qc;
  net_pay : Qc;
  remarks : option string;
  bank_cash : option string
}.
End Row.

Module Summary.
Record t : Type := mk {
  month : string;
  from_date : date;
  to_date : date;
  working_days : Z;
  employees : Z;
  total_gross : Qc;
  total_net : Qc;
  total_presents : Z
}.
End Summary.

Module Response.
Record t : Type := mk {
  month : string;
  summary : Summary.t;
  rows : list Row.t
}.
End Response.

Section Routes.

Context (float_of_str : string -> option Qc).

Definition int_of_str (s : string) : result Z :=
  match Py.int s with
  | Some n => Ok n
  | None => Raise ValueError
  end.

Definition _parse_date (d : string) (field : string) : result date :=
  except_400 (field +:+ " must be in YYYY-MM-DD format")
    (match Py.split "-" d with
     | [y; m; dd] =>
         let* y := int_of_str y in
         let* m := int_of_str m in
         let* dd := int_of_str dd in
         Date.new y m dd
     | _ => Raise ValueError
     end).

Definition _month_label (d : date) : string :=
  Py.format_0d 4 (Date.year d) +:+ "-" +:+ Py.format_0d 2 (Date.month d).

Definition _days_inclusive (start end_ : date) : Z :=
  Date.sub_days end_ start + 1.

Definition _to_float (v : option string) : Qc :=
  match v with
  | None => 0%Qc
  | Some v =>
      let s := Py.strip v in
      if String.eqb s "" then 0%Qc
      else match float_of_str s with
           | Some x => x
           | None => 0%Qc
           end
  end.

Definition hired_by (cutoff : datetime) (e : Employee2.t) : bool :=
  match Employee2.created_at e with
  | None => true
  | Some t => datetime_le t cutoff
  end.

Definition in_period (start end_ : date) (r : AttendanceRecord.t) : bool :=
  (start <=? AttendanceRecord.date r) && (AttendanceRecord.date r <=? end_).

Definition sort_key (e : Employee2.t) : Z :=
  if Py.truthy_str (Employee2.serial_no e) then
    match Py.int (Py.str_or_empty (Employee2.serial_no e)) with
    | Some n => n
    | None => 999999
    end
  else 0.

(** [str(e.fss_no or e.serial_no or e.id).strip()] *)
Definition employee_id_of (e : Employee2.t) : string :=
  Py.strip
    (if Py.truthy_str (Employee2.fss_no e) then Py.str_or_empty (Employee2.fss_no e)
     else if Py.truthy_str (Employee2.serial_no e)
          then Py.str_or_empty (Employee2.serial_no e)
          else Py.str (Employee2.id e)).

Definition by_emp_by_date (records : list AttendanceRecord.t)
    : gmap string (gmap Z AttendanceRecord.t) :=
  index_by2 (fun r => Py.strip (AttendanceRecord.employee_id r))
    AttendanceRecord.date records.

Definition sheet_by_emp_db_id (start end_ : date) (db : Db)
    : gmap Z PayrollSheetEntry.t :=
  dict_of PayrollSheetEntry.employee_db_id id
    (List.filter
       (fun r => (PayrollSheetEntry.from_date r =? start)
                 && (PayrollSheetEntry.to_date r =? end_))
       (sheet_entries db)).

Definition advance_ded_by_emp_db_id (month : string) (db : Db) : gmap Z Qc :=
  dict_of EmployeeAdvanceDeduction.employee_db_id
    (fun r => Py.float_or_0 (EmployeeAdvanceDeduction.amount r))
    (List.filter (fun r => String.eqb (EmployeeAdvanceDeduction.month r) month)
       (advance_deductions db)).

(** The body of [while dcur <= end]: a day without a record changes
    nothing. *)
Definition range_body (days : gmap Z AttendanceRecord.t) (dcur : date)
    (x : Tally.t) : Tally.t :=
  match days !! dcur with
  | Some a =>
      let st := Py.strip (Py.lower (Py.str_or_empty (AttendanceRecord.status a))) in
      let x :=
        if String.eqb st "present" then Tally.incr_present x
        else if String.eqb st "late" then Tally.incr_late x
        else if String.eqb st "absent" then Tally.incr_absent x
        else if String.eqb st "leave" then
          if String.eqb
               (Py.strip (Py.lower (Py.str_or_empty (AttendanceRecord.leave_type a))))
               "unpaid"
          then Tally.incr_unpaid_leave x
          else Tally.incr_paid_leave x
        else x in
      accrue_fine a (accrue_late a (track_overtime_rate a (accrue_overtime a x)))
  | None => x
  end.

Definition range_row (month_label : string) (start end_ : date) (db : Db)
    (e : Employee2.t) (x : Tally.t) : Row.t :=
  let working_days := _days_inclusive start end_ in
  let employee_id := employee_id_of e in
  let base_salary := _to_float (Employee2.salary e) in
  let day_rate :=
    if 0 <? working_days then (base_salary / float_of_int working_days)%Qc
    else 0%Qc in
  let presents_total := Tally.present_days x + Tally.late_days x in
  let sheet := sheet_by_emp_db_id start end_ db !! Employee2.id e in
  let pre_days :=
    match sheet with
    | Some s => default 0 (PayrollSheetEntry.pre_days_override s)
    | None => 0
    end in
  let cur_days :=
    match sheet with
    | Some s => default 0 (PayrollSheetEntry.cur_days_override s)
    | None => 0
    end in
  let leave_encashment_days :=
    match sheet with
    | Some s => Py.int_or_0 (PayrollSheetEntry.leave_encashment_days s)
    | None => 0
    end in
  let total_days := presents_total + leave_encashment_days in
  let total_days := if total_days <? 0 then 0 else total_days in
  let total_salary := (float_of_int total_days * day_rate)%Qc in
  let allow_other :=
    match sheet with
    | Some s => Py.float_or_0 (PayrollSheetEntry.allow_other s)
    | None => 0%Qc
    end in
  let eobi :=
    match sheet with
    | Some s => Py.float_or_0 (PayrollSheetEntry.eobi s)
    | None => 0%Qc
    end in
  let tax :=
    match sheet with
    | Some s => Py.float_or_0 (PayrollSheetEntry.tax s)
    | None => 0%Qc
    end in
  let fine_adv_extra :=
    match sheet with
    | Some s => Py.float_or_0 (PayrollSheetEntry.fine_adv_extra s)
    | None => 0%Qc
    end in
  let remarks := sheet ≫= PayrollSheetEntry.remarks in
  let bank_cash := sheet ≫= PayrollSheetEntry.bank_cash in
  let adv_ded :=
    default 0%Qc (advance_ded_by_emp_db_id month_label db !! Employee2.id e) in
  let fine_adv := (Tally.fine_deduction x + adv_ded + fine_adv_extra)%Qc in
  let gross_pay :=
    (total_salary + Tally.overtime_rate x + Tally.overtime_pay x + allow_other)%Qc in
  let net_pay := (gross_pay - eobi - tax - fine_adv - Tally.late_deduction x)%Qc in
  Row.mk (Employee2.id e) employee_id (Employee2.name e)
    (Employee2.serial_no e) (Employee2.fss_no e) base_salary
    working_days day_rate presents_total
    (Tally.present_days x) (Tally.late_days x) (Tally.absent_days x)
    (Tally.paid_leave_days x) (Tally.unpaid_leave_days x)
    pre_days cur_days leave_encashment_days total_days total_salary
    (Tally.overtime_minutes x) (Tally.overtime_rate x) (Tally.overtime_pay x)
    (Tally.late_minutes x) (Tally.late_deduction x)
    allow_other gross_pay eobi tax (Tally.fine_deduction x) fine_adv_extra
    fine_adv adv_ded net_pay remarks bank_cash.

Fixpoint range_rows (month_label : string) (start end_ : date) (db : Db)
    (index : gmap string (gmap Z AttendanceRecord.t))
    (employees : list Employee2.t) : result (list Row.t) :=
  match employees with
  | [] => Ok []
  | e :: rest =>
      let days := default ∅ (index !! employee_id_of e) in
      let* x := day_walk (range_body days) end_ start Tally.zero in
      let* rows := range_rows month_label start end_ db index rest in
      Ok (range_row month_label start end_ db e x :: rows)
  end.

Definition payroll2_range_report (from_date to_date : string)
    (month : option string) (db : Db) : result Response.t :=
  let* start := _parse_date from_date "from_date" in
  let* end_ := _parse_date to_date "to_date" in
  if end_ <? start then Raise (HTTPException 400 "from_date must be <= to_date")
  else
    let month_label :=
      if Py.truthy_str month then Py.str_or_empty month else _month_label end_ in
    let cutoff := datetime_combine end_ time_max in
    let working_days := _days_inclusive start end_ in
    let employees := List.filter (hired_by cutoff) (employees db) in
    let employees := sorted sort_key employees in
    let attendance := List.filter (in_period start end_) (attendance db) in
    let index := by_emp_by_date attendance in
    let* rows := range_rows month_label start end_ db index employees in
    let total_gross := fold_left (fun t r => (t + Row.gross_pay r)%Qc) rows 0%Qc in
    let total_net := fold_left (fun t r => (t + Row.net_pay r)%Qc) rows 0%Qc in
    let total_presents := fold_left (fun t r => t + Row.presents_total r) rows 0 in
    Ok (Response.mk month_label
          (Summary.mk month_label start end_ working_days
             (Z.of_nat (length rows)) total_gross total_net total_presents)
          rows).

(** The text cells of a table row of [export_payroll2_pdf]:
    [(r.name[:16] + "..") if len(r.name) > 18 else r.name],
    [(r.remarks or "")[:16]] and [(r.bank_cash or "")[:10]]. *)
Definition name_cell (name : string) : string :=
  if 18 <? Py.len name then Py.slice_to 16 name +:+ ".." else name.

Definition remarks_cell (remarks : option string) : string :=
  Py.slice_to 16 (Py.str_or_empty remarks).

Definition bank_cash_cell (bank_cash : option string) : string :=
  Py.slice_to 10 (Py.str_or_empty bank_cash).

End Routes.

End payroll2.

(** ** A reading of [float(s)] and a small store for the examples *)

(** Decimal numerals as [float] reads them: whitespace around, a sign,
    digits with a point before, between or after them, an exponent. The
    value is the decimal itself: the rounding to a binary64, and the texts
    [inf], [nan] and their like, which no example has, are outside the
    embedding. *)

(** The digits before or after the point, which may be missing. *)
Definition digits_or_none (s : string) : option Z :=
  match s with
  | EmptyString => Some 0
  | _ => Py.digits 0 false s
  end.

Definition point_numeral (s : string) : option Qc :=
  match Py.split "." s with
  | [i] => float_of_int <$> Py.digits 0 false i
  | [i; f] =>
      if String.eqb i "" && String.eqb f "" then None
      else
        match digits_or_none i, digits_or_none f with
        | Some a, Some b =>
            Some (float_of_int a
                  + float_of_int b / float_of_int (10 ^ Z.of_nat (Py.count_digits f)))%Qc
        | _, _ => None
        end
  | _ => None
  end.

Fixpoint split_exponent (s : string) : string * option string :=
  match s with
  | EmptyString => (EmptyString, None)
  | String c s' =>
      if Ascii.eqb c "e"%char || Ascii.eqb c "E"%char then (EmptyString, Some s')
      else let '(m, e) := split_exponent s' in (String c m, e)
  end.

Definition signed {A : Type} (opp : A -> A) (read : string -> option A)
    (s : string) : option A :=
  match s with
  | String "+"%char r => read r
  | String "-"%char r => opp <$> read r
  | r => read r
  end.

Definition pow10 (k : Z) : Qc :=
  if k <? 0 then (1 / float_of_int (10 ^ (- k)))%Qc else float_of_int (10 ^ k).

Definition decimal (s : string) : option Qc :=
  let '(m, e) := split_exponent (Py.trim s) in
  match signed Qcopp point_numeral m, e with
  | Some q, None => Some q
  | Some q, Some e =>
      match signed Z.opp (Py.digits 0 false) e with
      | Some k => Some (q * pow10 k)%Qc
      | None => None
      end
  | None, _ => None
  end.

Module Example.

Definition employee (id : Z) (serial_no fss_no : option string) (salary : string)
    : Employee2.t :=
  Employee2.mk id serial_no fss_no "Guard" (Some salary) None None None.

Definition day (employee_id : string) (d : date) (status : string)
    : AttendanceRecord.t :=
  AttendanceRecord.mk employee_id d (Some status) None None None None None None.

Definition jan1 : date := 738886.
Definition jan31 : date := 738916.

Definition sheet (employee_db_id : Z) (pre_days_override : option Z)
    (eobi : Qc) : PayrollSheetEntry.t :=
  PayrollSheetEntry.mk employee_db_id jan1 jan31 pre_days_override None
    (Some 0) (Some 0%Qc) (Some eobi) (Some 0%Qc) (Some 0%Qc) None None.

(** One guard, three marked days in January 2024, and a sheet entry for
    that month with a negative previous-days override and an EOBI
    contribution of 200. *)
Definition store : Db :=
  mkDb
    [employee 1 (Some "7") (Some "F1") "31000"]
    [day "F1" jan1 "present"; day "F1" (jan1 + 1) "late"; day "F1" (jan1 + 2) "absent"]
    []
    [sheet 1 (Some (-3)) (float_of_int 200)]
    [].

(** Four guards whose serial numbers are "N/A", "1000000", "10" and "9". *)
Definition serials : Db :=
  mkDb
    [employee 1 (Some "N/A") None "100"; employee 2 (Some "1000000") None "100";
     employee 3 (Some "10") None "100"; employee 4 (Some "9") None "100"]
    [] [] [] [].

Definition entry (employee_db_id : Z) (from_date to_date : date) (eobi : Z)
    : payroll.PayrollSheetEntryUpsert.t :=
  payroll.PayrollSheetEntryUpsert.mk employee_db_id from_date to_date
    (Some 2) None (Some 1) None (Some (float_of_int eobi)) None None
    (Some "signed") None.

(** Two batches for January 2024: in the second one the second entry stops
    a day early. *)
Definition batch : payroll.PayrollSheetEntryBulkUpsert.t :=
  payroll.PayrollSheetEntryBulkUpsert.mk jan1 jan31
    [entry 1 jan1 jan31 50; entry 2 jan1 jan31 60].

Definition batch_off_period : payroll.PayrollSheetEntryBulkUpsert.t :=
  payroll.PayrollSheetEntryBulkUpsert.mk jan1 jan31
    [entry 1 jan1 jan31 50; entry 2 jan1 (jan31 - 1) 60].

(** A day with overtime minutes and an overtime rate of 0. *)
Definition idle_day (minutes : Z) : AttendanceRecord.t :=
  AttendanceRecord.mk "F1" jan1 (Some "present") None (Some minutes)
    (Some (float_of_int 0)) None None None.

Definition idle_store : Db :=
  mkDb [employee 1 (Some "7") (Some "F1") "31000"] [idle_day 120] [] [] [].

(** The example of the specification: January 2024, base salary 31000, 20
    present days, 2 late days, 1 paid leave, 3 unpaid leaves, and a sheet
    entry with 2 leave-encashment days, 500 of other allowance, 200 of EOBI
    and 300 of tax. *)
Definition leave (d : date) (leave_type : string) : AttendanceRecord.t :=
  AttendanceRecord.mk "F1" d (Some "leave") (Some leave_type)
    None None None None None.

Definition january : Db :=
  mkDb
    [employee 1 (Some "7") (Some "F1") "31000"]
    (map (fun i => day "F1" (jan1 + Z.of_nat i) "present") (seq 0 20)
     ++ [day "F1" (jan1 + 20) "late"; day "F1" (jan1 + 21) "late";
         leave (jan1 + 22) "paid"; leave (jan1 + 23) "unpaid";
         leave (jan1 + 24) "unpaid"; leave (jan1 + 25) "unpaid"])
    []
    [PayrollSheetEntry.mk 1 jan1 jan31 None None (Some 2)
       (Some (float_of_int 500)) (Some (float_of_int 200))
       (Some (float_of_int 300)) None None None]
    [].

(** A batch for January 2024 whose entry has a negative override of the
    previous days. *)
Definition negative_days : payroll.PayrollSheetEntryBulkUpsert.t :=
  payroll.PayrollSheetEntryBulkUpsert.mk jan1 jan31
    [payroll.PayrollSheetEntryUpsert.mk 1 jan1 jan31 (Some (-3)) (Some 5)
       None None None None None None None].

Definition mark_paid : payroll.PayrollPaymentStatusUpsert.t :=
  payroll.PayrollPaymentStatusUpsert.mk "2024-01" "F1" (Some " Paid ").


(** A batch declared from 31 January to 1 January, its entry with it. *)
Definition batch_reversed : payroll.PayrollSheetEntryBulkUpsert.t :=
  payroll.PayrollSheetEntryBulkUpsert.mk jan31 jan1 [entry 1 jan31 jan1 50].

(** A present day with overtime minutes and an overtime rate. *)
Definition overtime_day (d : date) (minutes : option Z) (rate : option Z)
    : AttendanceRecord.t :=
  AttendanceRecord.mk "F1" d (Some "present") None minutes
    (float_of_int <$> rate) None None None.

(** One guard with four days of overtime, the record of the fourth day
    first in the table: 120 minutes at a rate of 100 on the first day, 60
    minutes and no rate on the second, a rate of 80 and no minutes on the
    third, 30 minutes at a rate of 50 on the fourth. *)
Definition overtime_store : Db :=
  mkDb
    [employee 1 (Some "7") (Some "F1") "31000"]
    [overtime_day (jan1 + 3) (Some 30) (Some 50);
     overtime_day jan1 (Some 120) (Some 100);
     overtime_day (jan1 + 1) (Some 60) None;
     overtime_day (jan1 + 2) None (Some 80)]
    [] [] [].

(** The store [january] with later records for two of its days: overtime
    of 120 minutes at a rate of 100 and a fine of 30 on the first day, 15
    late minutes with a deduction of 50 on the first late day; the sheet
    entry has an extra fine/advance of 20 too, and the guard owes an advance
    of 1000 for the month. *)
Definition busy_january : Db :=
  mkDb
    (employees january)
    (attendance january
     ++ [AttendanceRecord.mk "F1" jan1 (Some "present") None
           (Some 120) (Some (float_of_int 100)) None None
           (Some (float_of_int 30));
         AttendanceRecord.mk "F1" (jan1 + 20) (Some "late") None
           None None (Some 15) (Some (float_of_int 50)) None])
    []
    [PayrollSheetEntry.mk 1 jan1 jan31 None None (Some 2)
       (Some (float_of_int 500)) (Some (float_of_int 200))
       (Some (float_of_int 300)) (Some (float_of_int 20)) None None]
    [EmployeeAdvanceDeduction.mk 1 "2024-01" (Some (float_of_int 1000))].

(** Five guards, in this order in the table: serial numbers "x", "N/A",
    "07", "7" and none. *)
Definition tied_serials : Db :=
  mkDb
    [employee 3 (Some "x") None "100"; employee 1 (Some "N/A") None "100";
     employee 5 (Some "07") None "100"; employee 2 (Some "7") None "100";
     employee 4 None None "100"]
    [] [] [] [].

Definition hired (id : Z) (created_at : option datetime) : Employee2.t :=
  Employee2.mk id (Some (Py.str id)) None "Guard" (Some "100") None None
    created_at.

(** Four guards: one without a creation time, one created in the last
    microsecond of 31 January 2024, one at midnight of 1 February, one
    hundred days before 1 January. *)
Definition hires : Db :=
  mkDb
    [hired 1 None; hired 2 (Some (jan31, time_max));
     hired 3 (Some (jan31 + 1, 0)); hired 4 (Some (jan1 - 100, 5))]
    [] [] [] [].

End Example.

(** ** The pay formulas of a range row

    [day_rate = base_salary / working_days] (0 if [working_days <= 0]),
    [total_days = max(0, presents_total + leave_encashment_days)],
    [total_salary = total_days * day_rate],
    [gross_pay = total_salary + overtime_rate + overtime_pay + allowances
    + allow_other] and [net_pay = gross_pay - eobi - tax - (fine_deduction
    + advance_deduction + fine_adv_extra) - late_deduction]. *)

Definition pay_formulas
    (base_salary : Qc) (working_days : Z) (day_rate : Qc)
    (presents_total leave_encashment_days total_days : Z) (total_salary : Qc)
    (overtime_rate overtime_pay allowances allow_other gross_pay : Qc)
    (eobi tax fine_deduction advance_deduction fine_adv_extra late_deduction
       net_pay : Qc) : Prop :=
  day_rate = (if working_days <=? 0 then 0
              else base_salary / float_of_int working_days)%Qc
  /\ total_days = Z.max 0 (presents_total + leave_encashment_days)
  /\ total_salary = (float_of_int total_days * day_rate)%Qc
  /\ gross_pay =
       (total_salary + overtime_rate + overtime_pay + allowances + allow_other)%Qc
  /\ net_pay =
       (gross_pay - eobi - tax
        - (fine_deduction + advance_deduction + fine_adv_extra)
        - late_deduction)%Qc.

(** In a row of [payroll.py] the presents total is [present_days +
    late_days]. *)
Definition range_row_formulas (r : payroll.RangeRow.t) : Prop :=
  let presents_total :=
    payroll.RangeRow.present_days r + payroll.RangeRow.late_days r in
  pay_formulas
    (payroll.RangeRow.base_salary r) (payroll.RangeRow.working_days r)
    (payroll.RangeRow.day_rate r)
    presents_total (payroll.RangeRow.leave_encashment_days r)
    (payroll.RangeRow.total_days r) (payroll.RangeRow.total_salary r)
    (payroll.RangeRow.overtime_rate r) (payroll.RangeRow.overtime_pay r)
    (payroll.RangeRow.allowances r) (payroll.RangeRow.allow_other r)
    (payroll.RangeRow.gross_pay r)
    (payroll.RangeRow.eobi r) (payroll.RangeRow.tax r)
    (payroll.RangeRow.fine_deduction r) (payroll.RangeRow.advance_deduction r)
    (payroll.RangeRow.fine_adv_extra r) (payroll.RangeRow.late_deduction r)
    (payroll.RangeRow.net_pay r).

(** A row of [payroll2.py] carries [presents_total]; it has no allowances
    column, the allowances are 0. *)
Definition range2_row_formulas (r : payroll2.Row.t) : Prop :=
  payroll2.Row.presents_total r
  = payroll2.Row.present_days r + payroll2.Row.late_days r
  /\ pay_formulas
       (payroll2.Row.base_salary r) (payroll2.Row.working_days r)
       (payroll2.Row.day_rate r)
       (payroll2.Row.presents_total r) (payroll2.Row.leave_encashment_days r)
       (payroll2.Row.total_days r) (payroll2.Row.total_salary r)
       (payroll2.Row.overtime_rate r) (payroll2.Row.overtime_pay r)
       0%Qc (payroll2.Row.allow_other r)
       (payroll2.Row.gross_pay r)
       (payroll2.Row.eobi r) (payroll2.Row.tax r)
       (payroll2.Row.fine_deduction r) (payroll2.Row.advance_deduction r)
       (payroll2.Row.fine_adv_extra r) (payroll2.Row.late_deduction r)
       (payroll2.Row.net_pay r).

(** ** The calendar-month row against the sheet entry of the month

    The sheet terms a month row would carry if the report read the sheet
    entry of the employee for the month period, each 0 without an entry,
    and the net pay they would give: [net_pay = gross_pay - eobi - tax -
    fine_adv - late_deduction - unpaid_leave_deduction] with [fine_adv =
    advance_deduction + fine_adv_extra]. *)

Definition sheet_term (db : Db) (start end_ : date) (employee_db_id : Z)
    (term : PayrollSheetEntry.t -> option Qc) : Qc :=
  match payroll.sheet_by_emp_db_id start end_ db !! employee_db_id with
  | Some s => Py.float_or_0 (term s)
  | None => 0%Qc
  end.

Definition month_net_with_sheet (db : Db) (start end_ : date)
    (r : payroll.ReportRow.t) : Prop :=
  let term := sheet_term db start end_ (payroll.ReportRow.employee_db_id r) in
  payroll.ReportRow.net_pay r
  = (payroll.ReportRow.gross_pay r
     - term PayrollSheetEntry.eobi
     - term PayrollSheetEntry.tax
     - (payroll.ReportRow.advance_deduction r + term PayrollSheetEntry.fine_adv_extra)
     - payroll.ReportRow.late_deduction r
     - payroll.ReportRow.unpaid_leave_deduction r)%Qc.

(** What a month row does satisfy. *)
Definition month_row_formulas (r : payroll.ReportRow.t) : Prop :=
  payroll.ReportRow.allowances r = 0%Qc
  /\ payroll.ReportRow.gross_pay r
     = (payroll.ReportRow.base_salary r + payroll.ReportRow.allowances r
        + payroll.ReportRow.overtime_rate r + payroll.ReportRow.overtime_pay r)%Qc
  /\ payroll.ReportRow.unpaid_leave_deduction r
     = (float_of_int (payroll.ReportRow.unpaid_leave_days r) * float_of_int 1000)%Qc
  /\ payroll.ReportRow.net_pay r
     = (payroll.ReportRow.gross_pay r - payroll.ReportRow.late_deduction r
        - payroll.ReportRow.unpaid_leave_deduction r
        - payroll.ReportRow.advance_deduction r)%Qc.

(** ** Attendance categories *)

(** [(a.status or "").lower().strip()] *)
Definition normal_status (a : AttendanceRecord.t) : string :=
  Py.strip (Py.lower (Py.str_or_empty (AttendanceRecord.status a))).

(** The records of an employee identifier within a period, as the
    calendar-month report groups them. *)
Definition records_of (db : Db) (start end_ : date) (employee_id : string)
    : list AttendanceRecord.t :=
  List.filter (fun a => String.eqb (AttendanceRecord.employee_id a) employee_id)
    (List.filter (payroll.in_period start end_) (attendance db)).

(** The days of a period, and those of them for which the employee has no
    record. *)
Definition period_days (start end_ : date) : list date :=
  map (fun i => start + Z.of_nat i) (seq 0 (Z.to_nat (end_ - start + 1))).

Definition unrecorded_days (db : Db) (start end_ : date) (employee_id : string)
    : list date :=
  List.filter
    (fun d =>
       negb (existsb (fun a => AttendanceRecord.date a =? d)
               (records_of db start end_ employee_id)))
    (period_days start end_).

Definition days5 (x : Tally.t) : Z :=
  Tally.present_days x + Tally.late_days x + Tally.absent_days x
  + Tally.paid_leave_days x + Tally.unpaid_leave_days x.

Definition days6 (x : Tally.t) : Z := days5 x + Tally.unmarked_days x.

Definition month_row_days (r : payroll.ReportRow.t) : Z :=
  payroll.ReportRow.present_days r + payroll.ReportRow.late_days r
  + payroll.ReportRow.absent_days r + payroll.ReportRow.paid_leave_days r
  + payroll.ReportRow.unpaid_leave_days r.

Definition range_row_days (r : payroll.RangeRow.t) : Z :=
  payroll.RangeRow.present_days r + payroll.RangeRow.late_days r
  + payroll.RangeRow.absent_days r + payroll.RangeRow.paid_leave_days r
  + payroll.RangeRow.unpaid_leave_days r + payroll.RangeRow.unmarked_days r.

Definition range2_row_days (r : payroll2.Row.t) : Z :=
  payroll2.Row.present_days r + payroll2.Row.late_days r
  + payroll2.Row.absent_days r + payroll2.Row.paid_leave_days r
  + payroll2.Row.unpaid_leave_days r.

(** ** Row order *)

(** The sort key of the range reports, as a function of the serial
    number. *)
Definition serial_key (serial_no : option string) : Z :=
  if Py.truthy_str serial_no then
    match Py.int (Py.str_or_empty serial_no) with
    | Some n => n
    | None => 999999
    end
  else 0.

(** The serial number is the text of the integer [n]. *)
Definition parses_as (serial_no : option string) (n : Z) : Prop :=
  exists s, serial_no = Some s /\ Py.int s = Some n.

(** The serial number is a text that is not an integer. *)
Definition not_an_integer (serial_no : option string) : Prop :=
  exists s, serial_no = Some s /\ Py.int s = None.

(** Rows in ascending numeric order of their serial numbers, every serial
    number that is not an integer after every one that is. *)
Definition numeric_serial_order (serials : list (option string)) : Prop :=
  (forall (i j : nat) s1 s2 n1 n2,
     (i < j)%nat -> serials !! i = Some s1 -> serials !! j = Some s2 ->
     parses_as s1 n1 -> parses_as s2 n2 -> n1 <= n2)
  /\ (forall (i j : nat) s1 s2 n,
        serials !! i = Some s1 -> serials !! j = Some s2 ->
        not_an_integer s1 -> parses_as s2 n -> (j < i)%nat).

(** Rows in ascending order of the sort key, and what that gives for a
    non-empty serial number that is not an integer. *)
Definition sort_key_order (serials : list (option string)) : Prop :=
  StronglySorted (fun a b => serial_key a <= serial_key b) serials
  /\ (forall (i j : nat) s1 s2 n,
        serials !! i = Some s1 -> serials !! j = Some s2 ->
        Py.truthy_str s1 = true -> not_an_integer s1 ->
        parses_as s2 n -> n < 999999 -> (j < i)%nat).

(** ** Sheet entries of a batch *)

(** The entry of a batch that is written last for an employee. *)
Definition last_entry_for (employee_db_id : Z)
    (entries : list payroll.PayrollSheetEntryUpsert.t)
    : option payroll.PayrollSheetEntryUpsert.t :=
  List.find
    (fun e => payroll.PayrollSheetEntryUpsert.employee_db_id e =? employee_db_id)
    (rev entries).

(** The row the store holds for a key, if any. *)
Definition sheet_row (db : Db) (employee_db_id : Z) (start end_ : date)
    : option PayrollSheetEntry.t :=
  snd <$> payroll.first (payroll.sheet_key employee_db_id start end_)
            (sheet_entries db).

(** What one matching entry does to the table. *)
Definition write_entry (start end_ : date) (table : list PayrollSheetEntry.t)
    (e : payroll.PayrollSheetEntryUpsert.t) : list PayrollSheetEntry.t :=
  match payroll.first
          (payroll.sheet_key (payroll.PayrollSheetEntryUpsert.employee_db_id e)
             start end_) table with
  | Some (i, _) => <[i := payroll.sheet_row_of start end_ e]> table
  | None => table ++ [payroll.sheet_row_of start end_ e]
  end.

Definition period_matches (start end_ : date)
    (e : payroll.PayrollSheetEntryUpsert.t) : Prop :=
  payroll.PayrollSheetEntryUpsert.from_date e = start
  /\ payroll.PayrollSheetEntryUpsert.to_date e = end_.

(** The response to an entry of another period. *)
Definition mismatch_response : exn :=
  HTTPException 400 "entry period must match payload from/to".

(** The six day counters of a tally. *)
Definition day_counters (x : Tally.t) : Z * Z * Z * Z * Z * Z :=
  (Tally.present_days x, Tally.late_days x, Tally.absent_days x,
   Tally.paid_leave_days x, Tally.unpaid_leave_days x, Tally.unmarked_days x).

(** ** Overtime minutes without a rate *)

Definition with_overtime_minutes (minutes : option Z) (a : AttendanceRecord.t)
    : AttendanceRecord.t :=
  AttendanceRecord.mk
    (AttendanceRecord.employee_id a) (AttendanceRecord.date a)
    (AttendanceRecord.status a) (AttendanceRecord.leave_type a)
    minutes (AttendanceRecord.overtime_rate a)
    (AttendanceRecord.late_minutes a) (AttendanceRecord.late_deduction a)
    (AttendanceRecord.fine_amount a).

(** [a'] is [a], or [a] with other overtime minutes where the overtime rate
    of [a] is zero or missing. *)
Definition idle_overtime (a a' : AttendanceRecord.t) : Prop :=
  a' = a
  \/ (Py.truthy_float (AttendanceRecord.overtime_rate a) = false
      /\ exists minutes, a' = with_overtime_minutes minutes a).

(** The record without its overtime minutes where it has no rate. *)
Definition without_idle_minutes (a : AttendanceRecord.t) : AttendanceRecord.t :=
  if Py.truthy_float (AttendanceRecord.overtime_rate a) then a
  else with_overtime_minutes None a.

(** ** Day overrides and pay *)

Definition with_day_overrides (pre_days_override cur_days_override : option Z)
    (s : PayrollSheetEntry.t) : PayrollSheetEntry.t :=
  PayrollSheetEntry.mk
    (PayrollSheetEntry.employee_db_id s) (PayrollSheetEntry.from_date s)
    (PayrollSheetEntry.to_date s) pre_days_override cur_days_override
    (PayrollSheetEntry.leave_encashment_days s) (PayrollSheetEntry.allow_other s)
    (PayrollSheetEntry.eobi s) (PayrollSheetEntry.tax s)
    (PayrollSheetEntry.fine_adv_extra s) (PayrollSheetEntry.remarks s)
    (PayrollSheetEntry.bank_cash s).

(** Two sheet entries that differ at most in their day overrides. *)
Definition same_but_day_overrides (s s' : PayrollSheetEntry.t) : Prop :=
  exists pre cur, s' = with_day_overrides pre cur s.

Definition same_pay (r r' : payroll.RangeRow.t) : Prop :=
  payroll.RangeRow.total_days r = payroll.RangeRow.total_days r'
  /\ payroll.RangeRow.total_salary r = payroll.RangeRow.total_salary r'
  /\ payroll.RangeRow.gross_pay r = payroll.RangeRow.gross_pay r'
  /\ payroll.RangeRow.net_pay r = payroll.RangeRow.net_pay r'.

Definition same_pay2 (r r' : payroll2.Row.t) : Prop :=
  payroll2.Row.total_days r = payroll2.Row.total_days r'
  /\ payroll2.Row.total_salary r = payroll2.Row.total_salary r'
  /\ payroll2.Row.gross_pay r = payroll2.Row.gross_pay r'
  /\ payroll2.Row.net_pay r = payroll2.Row.net_pay r'.

(** Two outcomes of a request: the same exception, or related values. *)
Definition same_outcome {A : Type} (R : A -> A -> Prop) (x y : result A) : Prop :=
  match x, y with
  | Ok a, Ok b => R a b
  | Raise e, Raise e' => e = e'
  | _, _ => False
  end.

(** ** [app/api/routes/vehicles.py] *)

Module vehicles.

Section Routes.

(** Modelled from the spec: the mapped class [Vehicle] and the schemas
    [VehicleCreate] and [VehicleUpdate] ([app/models/vehicle.py] and
    [app/schemas/vehicle.py] are not among the sources). A vehicle is its
    identifier and its other columns; what an update sets is kept as the
    function [setattrs]. Columns the store assigns are outside the
    embedding. *)
Context {Columns VehicleUpdate : Type}.

Record Vehicle : Type := mkVehicle {
  vehicle_id : string;
  columns : Columns
}.

Context (setattrs : VehicleUpdate -> Vehicle -> Vehicle).

(** A route takes the table of vehicles and gives the table after the
    request and the response; every route commits at most once, after its
    last check. *)
Definition has_id (id : string) (v : Vehicle) : bool :=
  String.eqb (vehicle_id v) id.

Definition create_vehicle (vehicle : Vehicle) (table : list Vehicle)
    : list Vehicle * result Vehicle :=
  match payroll.first (has_id (vehicle_id vehicle)) table with
  | Some _ => (table, Raise (HTTPException 400 "Vehicle ID already exists"))
  | None => (table ++ [vehicle], Ok vehicle)
  end.

(** [offset(skip).limit(limit)], for a skip and a limit that are not
    negative. *)
Definition get_vehicles (skip limit : nat) (table : list Vehicle)
    : list Vehicle * result (list Vehicle) :=
  (table, Ok (firstn limit (skipn skip table))).

Definition get_vehicle (id : string) (table : list Vehicle)
    : list Vehicle * result Vehicle :=
  match payroll.first (has_id id) table with
  | Some (_, vehicle) => (table, Ok vehicle)
  | None => (table, Raise (HTTPException 404 "Vehicle not found"))
  end.

Definition update_vehicle (id : string) (vehicle_update : VehicleUpdate)
    (table : list Vehicle) : list Vehicle * result Vehicle :=
  match payroll.first (has_id id) table with
  | Some (i, vehicle) =>
      let vehicle := setattrs vehicle_update vehicle in
      (<[i := vehicle]> table, Ok vehicle)
  | None => (table, Raise (HTTPException 404 "Vehicle not found"))
  end.

Definition delete_vehicle (id : string) (table : list Vehicle)
    : list Vehicle * result string :=
  match payroll.first (has_id id) table with
  | Some (i, _) => (delete i table, Ok "Vehicle deleted successfully")
  | None => (table, Raise (HTTPException 404 "Vehicle not found"))
  end.

End Routes.

End vehicles.

(** ** Statements about the rest of the code *)

(** A year, a month and a day that [date] accepts from year 1 on. *)
Definition valid_ymd (y m d : Z) : bool :=
  (1 <=? y) && (1 <=? m) && (m <=? 12) && (1 <=? d)
  && (d <=? Date.days_in_month y m).

Fixpoint Z_range (lo : Z) (count : nat) : list Z :=
  match count with
  | O => []
  | S c => lo :: Z_range (lo + 1) c
  end.

(** Reading back a date of the first 400 years. *)
Definition cycle_date_ok (y m d : Z) : bool :=
  negb (valid_ymd y m d)
  || (let '(y', m', d') := Date.ord2ymd (Date.ymd2ord y m d) in
      (y' =? y) && (m' =? m) && (d' =? d)).

(** One row per key in the two tables the routes write. *)
Definition status_key_of (r : PayrollPaymentStatus.t) : string * string :=
  (PayrollPaymentStatus.month r, PayrollPaymentStatus.employee_id r).

Definition status_keys_unique (db : Db) : Prop :=
  NoDup (map status_key_of (payment_status db)).

Definition sheet_key_of (r : PayrollSheetEntry.t) : Z * Z * Z :=
  (PayrollSheetEntry.employee_db_id r, PayrollSheetEntry.from_date r,
   PayrollSheetEntry.to_date r).

Definition sheet_keys_unique (db : Db) : Prop :=
  NoDup (map sheet_key_of (sheet_entries db)).

(** The character [c] does not occur in [s]. *)
Fixpoint no_char (c : ascii) (s : string) : bool :=
  match s with
  | EmptyString => true
  | String a s' => negb (Ascii.eqb a c) && no_char c s'
  end.

(** The field [{n:0<width>d}] of a month label has no dash and reads back
    as [n]. *)
Definition label_field_ok (width : nat) (n : Z) : bool :=
  no_char "-" (Py.format_0d width n)
  && match Py.int (Py.format_0d width n) with
     | Some k => k =? n
     | None => false
     end.

(** The employees a range report has a row for, in the order of the rows. *)
Definition range_employees (end_ : date) (db : Db) : list Employee2.t :=
  sorted payroll.sort_key
    (List.filter (payroll.hired_by (datetime_combine end_ time_max))
       (employees db)).

(** The outcome of a range report that answers with the rows [ids]: the
    400 responses of the three checks, in their order; the [OverflowError]
    of the day after 9999-12-31; else one row per employee hired by the end
    of the period. *)
Definition range_report_outcome {R : Type} (ids : R -> list Z)
    (from_date to_date : string) (db : Db) (r : result R) : Prop :=
  match payroll._parse_date from_date "from_date",
        payroll._parse_date to_date "to_date" with
  | Raise _, _ =>
      r = Raise (HTTPException 400 "from_date must be in YYYY-MM-DD format")
  | Ok _, Raise _ =>
      r = Raise (HTTPException 400 "to_date must be in YYYY-MM-DD format")
  | Ok start, Ok end_ =>
      if end_ <? start then
        r = Raise (HTTPException 400 "from_date must be <= to_date")
      else
        match range_employees end_ db with
        | [] => exists rep, r = Ok rep /\ ids rep = []
        | e :: rest =>
            if end_ <? Date.MAXORDINAL then
              exists rep,
                r = Ok rep /\ ids rep = map Employee2.id (e :: rest)
            else
              r = Raise OverflowError
              /\ (Date.year end_, Date.month end_, Date.day end_) = (9999, 12, 31)
        end
  end.
(** What the day walk of a range report leaves in the loop variables of
    an employee when it reaches the end of the period. *)
Definition payroll_tally (index : gmap string (gmap Z AttendanceRecord.t))
    (start end_ : date) (e : Employee2.t) : Tally.t :=
  fold_left
    (fun x d =>
       payroll.range_body (default ∅ (index !! payroll.range_employee_id e)) d x)
    (period_days start end_) Tally.zero.

Definition payroll2_tally (index : gmap string (gmap Z AttendanceRecord.t))
    (start end_ : date) (e : Employee2.t) : Tally.t :=
  fold_left
    (fun x d =>
       payroll2.range_body (default ∅ (index !! payroll2.employee_id_of e)) d x)
    (period_days start end_) Tally.zero.

(** ** The two range engines side by side *)

(** A row of [payroll.py] and a row of [payroll2.py] with the same
    content: the columns the two have in common are equal, the day
    overrides up to the clamp of [payroll.py]. *)
Definition rows_agree (r : payroll.RangeRow.t) (r2 : payroll2.Row.t) : Prop :=
  payroll.RangeRow.employee_db_id r = payroll2.Row.employee_db_id r2
  /\ payroll.RangeRow.employee_id r = payroll2.Row.employee_id r2
  /\ payroll.RangeRow.name r = payroll2.Row.name r2
  /\ payroll.RangeRow.serial_no r = payroll2.Row.serial_no r2
  /\ payroll.RangeRow.fss_no r = payroll2.Row.fss_no r2
  /\ payroll.RangeRow.base_salary r = payroll2.Row.base_salary r2
  /\ payroll.RangeRow.working_days r = payroll2.Row.working_days r2
  /\ payroll.RangeRow.day_rate r = payroll2.Row.day_rate r2
  /\ payroll.RangeRow.present_days r + payroll.RangeRow.late_days r
     = payroll2.Row.presents_total r2
  /\ payroll.RangeRow.present_days r = payroll2.Row.present_days r2
  /\ payroll.RangeRow.late_days r = payroll2.Row.late_days r2
  /\ payroll.RangeRow.absent_days r = payroll2.Row.absent_days r2
  /\ payroll.RangeRow.paid_leave_days r = payroll2.Row.paid_leave_days r2
  /\ payroll.RangeRow.unpaid_leave_days r = payroll2.Row.unpaid_leave_days r2
  /\ payroll.RangeRow.pre_days r = Z.max 0 (payroll2.Row.pre_days r2)
  /\ payroll.RangeRow.cur_days r = Z.max 0 (payroll2.Row.cur_days r2)
  /\ payroll.RangeRow.leave_encashment_days r = payroll2.Row.leave_encashment_days r2
  /\ payroll.RangeRow.total_days r = payroll2.Row.total_days r2
  /\ payroll.RangeRow.total_salary r = payroll2.Row.total_salary r2
  /\ payroll.RangeRow.overtime_minutes r = payroll2.Row.overtime_minutes r2
  /\ payroll.RangeRow.overtime_rate r = payroll2.Row.overtime_rate r2
  /\ payroll.RangeRow.overtime_pay r = payroll2.Row.overtime_pay r2
  /\ payroll.RangeRow.late_minutes r = payroll2.Row.late_minutes r2
  /\ payroll.RangeRow.late_deduction r = payroll2.Row.late_deduction r2
  /\ payroll.RangeRow.allow_other r = payroll2.Row.allow_other r2
  /\ payroll.RangeRow.gross_pay r = payroll2.Row.gross_pay r2
  /\ payroll.RangeRow.eobi r = payroll2.Row.eobi r2
  /\ payroll.RangeRow.tax r = payroll2.Row.tax r2
  /\ payroll.RangeRow.fine_deduction r = payroll2.Row.fine_deduction r2
  /\ payroll.RangeRow.fine_adv_extra r = payroll2.Row.fine_adv_extra r2
  /\ payroll.RangeRow.fine_adv r = payroll2.Row.fine_adv r2
  /\ payroll.RangeRow.advance_deduction r = payroll2.Row.advance_deduction r2
  /\ payroll.RangeRow.net_pay r = payroll2.Row.net_pay r2
  /\ payroll.RangeRow.remarks r = payroll2.Row.remarks r2
  /\ payroll.RangeRow.bank_cash r = payroll2.Row.bank_cash r2.

Definition reports_agree (rep : payroll.PayrollReportResponse.t payroll.RangeRow.t)
    (rep2 : payroll2.Response.t) : Prop :=
  payroll.PayrollReportResponse.month rep = payroll2.Response.month rep2
  /\ payroll.Summary.month (payroll.PayrollReportResponse.summary rep)
     = payroll2.Summary.month (payroll2.Response.summary rep2)
  /\ payroll.Summary.employees (payroll.PayrollReportResponse.summary rep)
     = payroll2.Summary.employees (payroll2.Response.summary rep2)
  /\ payroll.Summary.total_gross (payroll.PayrollReportResponse.summary rep)
     = payroll2.Summary.total_gross (payroll2.Response.summary rep2)
  /\ payroll.Summary.total_net (payroll.PayrollReportResponse.summary rep)
     = payroll2.Summary.total_net (payroll2.Response.summary rep2)
  /\ Forall2 rows_agree (payroll.PayrollReportResponse.rows rep)
       (payroll2.Response.rows rep2).

(** Two outcomes of two routes: the same exception, or related values. *)
Definition outcomes_agree {A B : Type} (R : A -> B -> Prop)
    (x : result A) (y : result B) : Prop :=
  match x, y with
  | Ok a, Ok b => R a b
  | Raise e, Raise e' => e = e'
  | _, _ => False
  end.

(** The loop variables without the count of unmarked days, which
    [payroll2.py] does not keep. *)
Definition without_unmarked (x : Tally.t) : Tally.t :=
  let 'Tally.mk p l a pl ul um om op or lm ld fd := x in
  Tally.mk p l a pl ul 0 om op or lm ld fd.

(** ** Proration in a range row of [payroll.py] *)

Definition nonneg_days (x : Tally.t) : Prop :=
  0 <= Tally.present_days x /\ 0 <= Tally.late_days x
  /\ 0 <= Tally.absent_days x /\ 0 <= Tally.paid_leave_days x
  /\ 0 <= Tally.unpaid_leave_days x /\ 0 <= Tally.unmarked_days x.

(** The period has a day, so the day rate is the base salary divided by
    the days of the period and never the 0 of the guard; the day counters,
    the total days and the two day overrides are not negative; the payable
    days are the present, late and paid-leave days and never more than the
    period; basic_earned is the total salary; nothing is deducted for
    unpaid leave. *)
Definition range_row_prorated (r : payroll.RangeRow.t) : Prop :=
  1 <= payroll.RangeRow.working_days r
  /\ payroll.RangeRow.day_rate r
     = (payroll.RangeRow.base_salary r
        / float_of_int (payroll.RangeRow.working_days r))%Qc
  /\ 0 <= payroll.RangeRow.present_days r /\ 0 <= payroll.RangeRow.late_days r
  /\ 0 <= payroll.RangeRow.absent_days r /\ 0 <= payroll.RangeRow.paid_leave_days r
  /\ 0 <= payroll.RangeRow.unpaid_leave_days r
  /\ 0 <= payroll.RangeRow.unmarked_days r
  /\ payroll.RangeRow.payable_days r
     = payroll.RangeRow.present_days r + payroll.RangeRow.late_days r
       + payroll.RangeRow.paid_leave_days r
  /\ payroll.RangeRow.payable_days r <= payroll.RangeRow.working_days r
  /\ 0 <= payroll.RangeRow.total_days r
  /\ 0 <= payroll.RangeRow.pre_days r /\ 0 <= payroll.RangeRow.cur_days r
  /\ payroll.RangeRow.basic_earned r = payroll.RangeRow.total_salary r
  /\ payroll.RangeRow.unpaid_leave_deduction r = 0%Qc.

(** ** What the range walk reads *)

(** The record of an employee identifier and a day that the walk reads:
    the last one, in the order of the table, whose stripped employee
    identifier and date are these. *)
Definition day_record (db : Db) (employee_id : string) (d : date)
    : option AttendanceRecord.t :=
  List.find
    (fun r => String.eqb (Py.strip (AttendanceRecord.employee_id r)) employee_id
              && (AttendanceRecord.date r =? d))
    (rev (attendance db)).

Inductive category : Type :=
| Present | Late | Absent | PaidLeave | UnpaidLeave | Unmarked.

Definition category_eqb (c c' : category) : bool :=
  match c, c' with
  | Present, Present | Late, Late | Absent, Absent | PaidLeave, PaidLeave
  | UnpaidLeave, UnpaidLeave | Unmarked, Unmarked => true
  | _, _ => false
  end.

(** The category of a day by its record: a day without a record, or whose
    record has another status than the four known ones, is unmarked. *)
Definition category_of (a : option AttendanceRecord.t) : category :=
  match a with
  | None => Unmarked
  | Some a =>
      let st := normal_status a in
      if String.eqb st "present" then Present
      else if String.eqb st "late" then Late
      else if String.eqb st "absent" then Absent
      else if String.eqb st "leave" then
        if String.eqb
             (Py.strip (Py.lower (Py.str_or_empty (AttendanceRecord.leave_type a))))
             "unpaid"
        then UnpaidLeave else PaidLeave
      else Unmarked
  end.

(** The number of days of a period that are of a category for an employee
    identifier. *)
Definition days_in_category (db : Db) (start end_ : date) (employee_id : string)
    (c : category) : Z :=
  Z.of_nat
    (length
       (List.filter
          (fun d => category_eqb (category_of (day_record db employee_id d)) c)
          (period_days start end_))).

Definition counts_days (db : Db) (start end_ : date) (e : Employee2.t)
    (r : payroll.RangeRow.t) : Prop :=
  let n := days_in_category db start end_ (payroll.range_employee_id e) in
  payroll.RangeRow.present_days r = n Present
  /\ payroll.RangeRow.late_days r = n Late
  /\ payroll.RangeRow.absent_days r = n Absent
  /\ payroll.RangeRow.paid_leave_days r = n PaidLeave
  /\ payroll.RangeRow.unpaid_leave_days r = n UnpaidLeave
  /\ payroll.RangeRow.unmarked_days r = n Unmarked.

(** The positive overtime rates of the records the walk reads, in the
    order of the days. *)
Definition positive_rates (db : Db) (start end_ : date) (employee_id : string)
    : list Qc :=
  List.filter (Qc_ltb 0)
    (map (fun a => Py.float_or_0 (AttendanceRecord.overtime_rate a))
       (omap (day_record db employee_id) (period_days start end_))).

(** One more day in a category. *)
Definition count_day (c : category) (x : Tally.t) : Tally.t :=
  match c with
  | Present => Tally.incr_present x
  | Late => Tally.incr_late x
  | Absent => Tally.incr_absent x
  | PaidLeave => Tally.incr_paid_leave x
  | UnpaidLeave => Tally.incr_unpaid_leave x
  | Unmarked => Tally.incr_unmarked x
  end.

(** The days of a list that are of a category. *)
Definition count_in (cat : date -> category) (c : category) (l : list date) : Z :=
  Z.of_nat (length (List.filter (fun d => category_eqb (cat d) c) l)).

(** The overtime rate of a row is the last positive rate of the period, 0
    if there is none, and is not negative. *)
Definition pays_last_positive_rate (db : Db) (start end_ : date)
    (e : Employee2.t) (r : payroll.RangeRow.t) : Prop :=
  payroll.RangeRow.overtime_rate r
  = List.last (positive_rates db start end_ (payroll.range_employee_id e)) 0%Qc
  /\ (0 <= payroll.RangeRow.overtime_rate r)%Qc.

(** The records of [Example.store] after three more: an earlier record of
    the first day, a record of a day before the period, and a record of an
    identifier no employee has. *)
Definition more_records : list AttendanceRecord.t :=
  [Example.day "F1" Example.jan1 "absent";
   Example.day "F1" (Example.jan1 - 1) "present";
   Example.day "F9" Example.jan1 "present"]
  ++ attendance Example.store.

(** ** Payment status: what a request changes *)

(** Two stores with the same tables but for the payment statuses. *)
Definition same_but_payment_status (db db' : Db) : Prop :=
  employees db' = employees db /\ attendance db' = attendance db
  /\ sheet_entries db' = sheet_entries db
  /\ advance_deductions db' = advance_deductions db.

(** The payment status row the store holds for a key, if any. *)
Definition status_row (db : Db) (month employee_id : string)
    : option PayrollPaymentStatus.t :=
  snd <$> payroll.first (payroll.status_key month employee_id) (payment_status db).

(** The rows of all other keys are what they were. *)
Definition other_status_rows_kept (month employee_id : string) (db db' : Db)
    : Prop :=
  forall m id, (m, id) <> (month, employee_id) ->
    status_row db' m id = status_row db m id.

(** The status a [PUT /payment-status] request asks for. *)
Definition requested_status (payload : payroll.PayrollPaymentStatusUpsert.t)
    : string :=
  Py.lower (Py.strip (Py.str_or_empty
                        (payroll.PayrollPaymentStatusUpsert.status payload))).

(** ** Payment status in the reports *)

(** The rows of an identifier show the status. *)
Definition month_rows_show (employee_id status : string)
    (rows : list payroll.ReportRow.t) : Prop :=
  Forall
    (fun r => payroll.ReportRow.employee_id r = employee_id ->
              payroll.ReportRow.paid_status r = status)
    rows.

Definition range_rows_show (employee_id status : string)
    (rows : list payroll.RangeRow.t) : Prop :=
  Forall
    (fun r => payroll.RangeRow.employee_id r = employee_id ->
              payroll.RangeRow.paid_status r = status)
    rows.

(** ** Sheet entries: what a batch changes and answers *)

Definition same_but_sheet_entries (db db' : Db) : Prop :=
  employees db' = employees db /\ attendance db' = attendance db
  /\ payment_status db' = payment_status db
  /\ advance_deductions db' = advance_deductions db.

(** The answer to a batch lists, entry by entry, the row the store holds
    for the key of the entry once the batch is written. *)
Definition answers_written_rows (db' : Db) (start end_ : date)
    (entries : list payroll.PayrollSheetEntryUpsert.t)
    (rows : list PayrollSheetEntry.t) : Prop :=
  Forall2
    (fun e r =>
       sheet_row db' (payroll.PayrollSheetEntryUpsert.employee_db_id e) start end_
       = Some r)
    entries rows.

(** A range row shows the columns of a batch entry. *)
Definition shows_entry (e : payroll.PayrollSheetEntryUpsert.t)
    (r : payroll.RangeRow.t) : Prop :=
  payroll.RangeRow.leave_encashment_days r
  = Py.int_or_0 (payroll.PayrollSheetEntryUpsert.leave_encashment_days e)
  /\ payroll.RangeRow.allow_other r
     = Py.float_or_0 (payroll.PayrollSheetEntryUpsert.allow_other e)
  /\ payroll.RangeRow.eobi r
     = Py.float_or_0 (payroll.PayrollSheetEntryUpsert.eobi e)
  /\ payroll.RangeRow.tax r
     = Py.float_or_0 (payroll.PayrollSheetEntryUpsert.tax e)
  /\ payroll.RangeRow.fine_adv_extra r
     = Py.float_or_0 (payroll.PayrollSheetEntryUpsert.fine_adv_extra e)
  /\ payroll.RangeRow.pre_days r
     = Z.max 0 (default 0 (payroll.PayrollSheetEntryUpsert.pre_days_override e))
  /\ payroll.RangeRow.cur_days r
     = Z.max 0 (default 0 (payroll.PayrollSheetEntryUpsert.cur_days_override e))
  /\ payroll.RangeRow.remarks r = payroll.PayrollSheetEntryUpsert.remarks e
  /\ payroll.RangeRow.bank_cash r = payroll.PayrollSheetEntryUpsert.bank_cash e.

(** The rows of the employees of a batch show the last entry of the batch
    for the employee. *)
Definition rows_show_entries (entries : list payroll.PayrollSheetEntryUpsert.t)
    (rows : list payroll.RangeRow.t) : Prop :=
  Forall
    (fun r =>
       forall e,
         last_entry_for (payroll.RangeRow.employee_db_id r) entries = Some e ->
         shows_entry e r)
    rows.

(** ** The listing of sheet entries *)

(** The outcome of [GET /sheet-entries]: the 400 responses of the three
    checks, in their order, else the rows of the period, every one of
    them once, by ascending employee id. *)
Definition sheet_listing (from_date to_date : string) (db : Db)
    (r : result (list PayrollSheetEntry.t)) : Prop :=
  match payroll._parse_date from_date "from_date",
        payroll._parse_date to_date "to_date" with
  | Raise _, _ =>
      r = Raise (HTTPException 400 "from_date must be in YYYY-MM-DD format")
  | Ok _, Raise _ =>
      r = Raise (HTTPException 400 "to_date must be in YYYY-MM-DD format")
  | Ok start, Ok end_ =>
      if end_ <? start then
        r = Raise (HTTPException 400 "from_date must be <= to_date")
      else
        exists rows,
          r = Ok rows
          /\ rows ≡ₚ List.filter (payroll.sheet_in_period start end_)
                       (sheet_entries db)
          /\ StronglySorted
               (fun a b => PayrollSheetEntry.employee_db_id a
                           <= PayrollSheetEntry.employee_db_id b)
               rows
  end.

(** The members of a list with a given key, in the order of the list. *)
Definition with_key {A : Type} (key : A -> Z) (k : Z) (l : list A) : list A :=
  List.filter (fun a => key a =? k) l.

(** ** Vehicles *)

Definition vehicle_not_found : exn := HTTPException 404 "Vehicle not found".

(** Vehicles with a mileage, and an update that may set it. *)
Definition set_mileage (vehicle_update : option Z) (v : @vehicles.Vehicle Z)
    : @vehicles.Vehicle Z :=
  vehicles.mkVehicle (vehicles.vehicle_id v)
    (default (vehicles.columns v) vehicle_update).

Definition fleet : list (@vehicles.Vehicle Z) :=
  [vehicles.mkVehicle "V1" 100; vehicles.mkVehicle "V2" 200].

(** ** An employee without attendance *)

(** The calendar-month row of an employee who has no record in the month:
    no day is counted and nothing accrues, so that in gross_pay =
    base_salary + allowances + overtime_rate + overtime_pay and net_pay =
    gross_pay - late_deduction - unpaid_leave_deduction - advance_deduction
    every term but the base salary and the advance deduction is 0. *)
Definition month_pays_base (db : Db) (start end_ : date)
    (r : payroll.ReportRow.t) : Prop :=
  records_of db start end_ (payroll.ReportRow.employee_id r) = [] ->
  payroll.ReportRow.present_days r = 0 /\ payroll.ReportRow.late_days r = 0
  /\ payroll.ReportRow.absent_days r = 0
  /\ payroll.ReportRow.paid_leave_days r = 0
  /\ payroll.ReportRow.unpaid_leave_days r = 0
  /\ payroll.ReportRow.overtime_minutes r = 0
  /\ payroll.ReportRow.late_minutes r = 0
  /\ payroll.ReportRow.allowances r = 0%Qc
  /\ payroll.ReportRow.overtime_rate r = 0%Qc
  /\ payroll.ReportRow.overtime_pay r = 0%Qc
  /\ payroll.ReportRow.late_deduction r = 0%Qc
  /\ payroll.ReportRow.unpaid_leave_deduction r = 0%Qc
  /\ month_row_formulas r.

(** The range row of an employee who has no record on a day of the period
    and no sheet entry for it: every day is unmarked, no day is payable and
    total_days is 0, so that total_salary = 0 * day_rate, and in the
    formulas of gross and net pay every term but the total salary and the
    advance deduction is 0. *)
Definition range_pays_nothing (db : Db) (start end_ : date)
    (r : payroll.RangeRow.t) : Prop :=
  (forall d, start <= d <= end_ ->
     day_record db (payroll.RangeRow.employee_id r) d = None) ->
  sheet_row db (payroll.RangeRow.employee_db_id r) start end_ = None ->
  payroll.RangeRow.unmarked_days r = payroll.RangeRow.working_days r
  /\ payroll.RangeRow.present_days r = 0 /\ payroll.RangeRow.late_days r = 0
  /\ payroll.RangeRow.absent_days r = 0
  /\ payroll.RangeRow.paid_leave_days r = 0
  /\ payroll.RangeRow.unpaid_leave_days r = 0
  /\ payroll.RangeRow.payable_days r = 0
  /\ payroll.RangeRow.leave_encashment_days r = 0
  /\ payroll.RangeRow.total_days r = 0
  /\ payroll.RangeRow.total_salary r
     = (float_of_int 0 * payroll.RangeRow.day_rate r)%Qc
  /\ payroll.RangeRow.overtime_minutes r = 0
  /\ payroll.RangeRow.late_minutes r = 0
  /\ payroll.RangeRow.allowances r = 0%Qc
  /\ payroll.RangeRow.overtime_rate r = 0%Qc
  /\ payroll.RangeRow.overtime_pay r = 0%Qc
  /\ payroll.RangeRow.allow_other r = 0%Qc
  /\ payroll.RangeRow.eobi r = 0%Qc /\ payroll.RangeRow.tax r = 0%Qc
  /\ payroll.RangeRow.fine_deduction r = 0%Qc
  /\ payroll.RangeRow.fine_adv_extra r = 0%Qc
  /\ payroll.RangeRow.late_deduction r = 0%Qc
  /\ range_row_formulas r.

(** ** Totals *)

(** [t = 0.0], then [t += f(r)] row after row. *)
Definition running_total {A : Type} (f : A -> Qc) (l : list A) : Qc :=
  fold_left (fun t r => (t + f r)%Qc) l 0%Qc.

(** ** Who gets a row *)

(** The employee has no creation time, or one on a day up to [end_]: the
    time of the last day counts up to the last microsecond. *)
Definition created_by (end_ : date) (e : Employee2.t) : Prop :=
  match Employee2.created_at e with
  | None => True
  | Some (d, t) => d < end_ \/ (d = end_ /\ t <= time_max)
  end.

(** The summary of a range report of [payroll2.py] against its rows and
    the period: the totals of gross and net pay are running totals over
    the rows; total_presents is the sum of the integers presents_total,
    each between 0 and working_days, so it is at most employees times
    working_days. *)
Definition range2_summary_adds_up (start end_ : date) (rep : payroll2.Response.t)
    : Prop :=
  let s := payroll2.Response.summary rep in
  let rows := payroll2.Response.rows rep in
  payroll2.Summary.month s = payroll2.Response.month rep
  /\ payroll2.Summary.from_date s = start
  /\ payroll2.Summary.to_date s = end_
  /\ payroll2.Summary.working_days s = end_ - start + 1
  /\ 1 <= payroll2.Summary.working_days s
  /\ payroll2.Summary.employees s = Z.of_nat (length rows)
  /\ payroll2.Summary.total_gross s = running_total payroll2.Row.gross_pay rows
  /\ payroll2.Summary.total_net s = running_total payroll2.Row.net_pay rows
  /\ payroll2.Summary.total_presents s
     = fold_right Z.add 0 (map payroll2.Row.presents_total rows)
  /\ Forall
       (fun r =>
          payroll2.Row.working_days r = payroll2.Summary.working_days s
          /\ payroll2.Row.presents_total r
             = payroll2.Row.present_days r + payroll2.Row.late_days r
          /\ 0 <= payroll2.Row.presents_total r <= payroll2.Row.working_days r)
       rows
  /\ 0 <= payroll2.Summary.total_presents s
     <= payroll2.Summary.employees s * payroll2.Summary.working_days s.

(** ** Requests repeated *)

(** The net pay of the first row of an employee identifier in a
    calendar-month report, which a write of "paid" keeps. *)
Definition net_of (employee_id : string)
    (r : result (payroll.PayrollReportResponse.t payroll.ReportRow.t))
    : result (option Qc) :=
  let* rep := r in
  Ok (payroll.net_or_0 ∘ payroll.ReportRow.net_pay <$>
        List.find (fun r => String.eqb (payroll.ReportRow.employee_id r) employee_id)
          (payroll.PayrollReportResponse.rows rep)).

(** The place of the row of an employee for a period, if the table has
    one. *)
Definition place_of (start end_ : date) (table : list PayrollSheetEntry.t)
    (employee_db_id : Z) : option nat :=
  fst <$> payroll.first (payroll.sheet_key employee_db_id start end_) table.

(** ** What a range row is computed from *)

(** [month or _month_label(end)] *)
Definition range_month_label (month : option string) (end_ : date) : string :=
  if Py.truthy_str month then Py.str_or_empty month else payroll._month_label end_.

(** The sheet entry a range report reads for an employee and a period: the
    last row of the table with that employee and these two dates. *)
Definition sheet_entry_read (db : Db) (employee_db_id : Z) (start end_ : date)
    : option PayrollSheetEntry.t :=
  List.find (payroll.sheet_key employee_db_id start end_) (rev (sheet_entries db)).

Definition sheet_days (s : option PayrollSheetEntry.t) : Z :=
  match s with
  | Some s => Py.int_or_0 (PayrollSheetEntry.leave_encashment_days s)
  | None => 0
  end.

Definition sheet_amount (s : option PayrollSheetEntry.t)
    (term : PayrollSheetEntry.t -> option Qc) : Qc :=
  match s with
  | Some s => Py.float_or_0 (term s)
  | None => 0%Qc
  end.

(** The advance deduction read for an employee and a month label: the
    amount of the last row of the table for them, 0 without one. *)
Definition advance_read (db : Db) (employee_db_id : Z) (month_label : string)
    : Qc :=
  match List.find
          (fun r =>
             (EmployeeAdvanceDeduction.employee_db_id r =? employee_db_id)
             && String.eqb (EmployeeAdvanceDeduction.month r) month_label)
          (rev (advance_deductions db)) with
  | Some r => Py.float_or_0 (EmployeeAdvanceDeduction.amount r)
  | None => 0%Qc
  end.

(** The records the day walk reads for an employee identifier: the record
    of each day of the period that has one, in the order of the days. *)
Definition records_read (db : Db) (start end_ : date) (employee_id : string)
    : list AttendanceRecord.t :=
  omap (day_record db employee_id) (period_days start end_).

(** The record has overtime minutes and an overtime rate, both nonzero. *)
Definition both_nonzero (a : AttendanceRecord.t) : bool :=
  match AttendanceRecord.overtime_minutes a, AttendanceRecord.overtime_rate a with
  | Some m, Some q => negb (m =? 0) && negb (Qc_eq_bool q 0)
  | _, _ => false
  end.

(** The overtime minutes and the overtime pay of a list of records: the
    sums, from 0 and in the order of the list, over the records that have
    both minutes and a rate. *)
Definition overtime_minutes_of (l : list AttendanceRecord.t) : Z :=
  fold_left
    (fun t a => t + default 0 (AttendanceRecord.overtime_minutes a))
    (List.filter both_nonzero l) 0.

Definition overtime_pay_of (l : list AttendanceRecord.t) : Qc :=
  fold_left
    (fun t a =>
       (t + float_of_int (default 0%Z (AttendanceRecord.overtime_minutes a))
            / float_of_int 60
            * default 0%Qc (AttendanceRecord.overtime_rate a))%Qc)
    (List.filter both_nonzero l) 0%Qc.

(** The amount is set and is not zero. *)
Definition nonzero (v : option Qc) : bool :=
  match v with
  | Some q => negb (Qc_eq_bool q 0)
  | None => false
  end.

(** The late deductions and the fines of a list of records, summed from 0
    in the order of the list. *)
Definition late_deduction_of (l : list AttendanceRecord.t) : Qc :=
  fold_left
    (fun t a => (t + default 0%Qc (AttendanceRecord.late_deduction a))%Qc)
    (List.filter (fun a => nonzero (AttendanceRecord.late_deduction a)) l) 0%Qc.

Definition fine_deduction_of (l : list AttendanceRecord.t) : Qc :=
  fold_left
    (fun t a => (t + default 0%Qc (AttendanceRecord.fine_amount a))%Qc)
    (List.filter (fun a => nonzero (AttendanceRecord.fine_amount a)) l) 0%Qc.

(** What the pay formulas of the row of an employee are applied to: the
    salary of the employee, the days of the period, the present and late
    days among them, the terms of the sheet entry of the employee for the
    period, the overtime, lateness and fines of the records of the days,
    and the advance deduction of the month. *)
Section PayInputs.
Context (float_of_str : string -> option Qc).

Definition pay_inputs (db : Db) (start end_ : date) (month_label : string)
    (e : Employee2.t) (employee_id : string)
    (employee_db_id : Z) (base_salary : Qc)
    (working_days present_days late_days leave_encashment_days : Z)
    (overtime_rate overtime_pay allow_other eobi tax fine_deduction
       advance_deduction fine_adv_extra late_deduction : Qc) : Prop :=
  let records := records_read db start end_ employee_id in
  let sheet := sheet_entry_read db (Employee2.id e) start end_ in
  employee_db_id = Employee2.id e
  /\ employee_id = Py.strip (payroll.report_employee_id e)
  /\ base_salary = payroll._to_float float_of_str (Employee2.salary e)
  /\ working_days = end_ - start + 1
  /\ present_days = days_in_category db start end_ employee_id Present
  /\ late_days = days_in_category db start end_ employee_id Late
  /\ leave_encashment_days = sheet_days sheet
  /\ overtime_rate = List.last (positive_rates db start end_ employee_id) 0%Qc
  /\ overtime_pay = overtime_pay_of records
  /\ allow_other = sheet_amount sheet PayrollSheetEntry.allow_other
  /\ eobi = sheet_amount sheet PayrollSheetEntry.eobi
  /\ tax = sheet_amount sheet PayrollSheetEntry.tax
  /\ fine_deduction = fine_deduction_of records
  /\ advance_deduction = advance_read db (Employee2.id e) month_label
  /\ fine_adv_extra = sheet_amount sheet PayrollSheetEntry.fine_adv_extra
  /\ late_deduction = late_deduction_of records.

Definition range_row_inputs (db : Db) (start end_ : date) (month_label : string)
    (e : Employee2.t) (r : payroll.RangeRow.t) : Prop :=
  pay_inputs db start end_ month_label e
    (payroll.RangeRow.employee_id r)
    (payroll.RangeRow.employee_db_id r) (payroll.RangeRow.base_salary r)
    (payroll.RangeRow.working_days r) (payroll.RangeRow.present_days r)
    (payroll.RangeRow.late_days r) (payroll.RangeRow.leave_encashment_days r)
    (payroll.RangeRow.overtime_rate r) (payroll.RangeRow.overtime_pay r)
    (payroll.RangeRow.allow_other r) (payroll.RangeRow.eobi r)
    (payroll.RangeRow.tax r) (payroll.RangeRow.fine_deduction r)
    (payroll.RangeRow.advance_deduction r) (payroll.RangeRow.fine_adv_extra r)
    (payroll.RangeRow.late_deduction r)
  /\ payroll.RangeRow.allowances r = 0%Qc.

Definition range2_row_inputs (db : Db) (start end_ : date) (month_label : string)
    (e : Employee2.t) (r : payroll2.Row.t) : Prop :=
  pay_inputs db start end_ month_label e
    (payroll2.Row.employee_id r)
    (payroll2.Row.employee_db_id r) (payroll2.Row.base_salary r)
    (payroll2.Row.working_days r) (payroll2.Row.present_days r)
    (payroll2.Row.late_days r) (payroll2.Row.leave_encashment_days r)
    (payroll2.Row.overtime_rate r) (payroll2.Row.overtime_pay r)
    (payroll2.Row.allow_other r) (payroll2.Row.eobi r)
    (payroll2.Row.tax r) (payroll2.Row.fine_deduction r)
    (payroll2.Row.advance_deduction r) (payroll2.Row.fine_adv_extra r)
    (payroll2.Row.late_deduction r).

End PayInputs.

(** ** Overtime of a row *)

(** The overtime minutes and the overtime pay of a row are those of the
    records the report reads for the employee identifier of the row. *)
Definition month_row_overtime (db : Db) (start end_ : date)
    (r : payroll.ReportRow.t) : Prop :=
  let records := records_of db start end_ (payroll.ReportRow.employee_id r) in
  payroll.ReportRow.overtime_minutes r = overtime_minutes_of records
  /\ payroll.ReportRow.overtime_pay r = overtime_pay_of records.

Definition range_row_overtime (db : Db) (start end_ : date)
    (r : payroll.RangeRow.t) : Prop :=
  let records := records_read db start end_ (payroll.RangeRow.employee_id r) in
  payroll.RangeRow.overtime_minutes r = overtime_minutes_of records
  /\ payroll.RangeRow.overtime_pay r = overtime_pay_of records.

Definition range2_row_overtime (db : Db) (start end_ : date)
    (r : payroll2.Row.t) : Prop :=
  let records := records_read db start end_ (payroll2.Row.employee_id r) in
  payroll2.Row.overtime_minutes r = overtime_minutes_of records
  /\ payroll2.Row.overtime_pay r = overtime_pay_of records.

(** ** A sheet row against the entry written to it *)

(** Every column of the row is that of the entry: the key, the two day
    overrides as they are, the leave-encashment days and the four amounts
    with 0 for a missing value, the remarks and the bank/cash label as they
    are. Nothing of an earlier row is left. *)
Definition holds_entry (start end_ : date) (e : payroll.PayrollSheetEntryUpsert.t)
    (r : PayrollSheetEntry.t) : Prop :=
  PayrollSheetEntry.employee_db_id r
  = payroll.PayrollSheetEntryUpsert.employee_db_id e
  /\ PayrollSheetEntry.from_date r = start
  /\ PayrollSheetEntry.to_date r = end_
  /\ PayrollSheetEntry.pre_days_override r
     = payroll.PayrollSheetEntryUpsert.pre_days_override e
  /\ PayrollSheetEntry.cur_days_override r
     = payroll.PayrollSheetEntryUpsert.cur_days_override e
  /\ PayrollSheetEntry.leave_encashment_days r
     = Some (default 0 (payroll.PayrollSheetEntryUpsert.leave_encashment_days e))
  /\ PayrollSheetEntry.allow_other r
     = Some (default 0%Qc (payroll.PayrollSheetEntryUpsert.allow_other e))
  /\ PayrollSheetEntry.eobi r
     = Some (default 0%Qc (payroll.PayrollSheetEntryUpsert.eobi e))
  /\ PayrollSheetEntry.tax r
     = Some (default 0%Qc (payroll.PayrollSheetEntryUpsert.tax e))
  /\ PayrollSheetEntry.fine_adv_extra r
     = Some (default 0%Qc (payroll.PayrollSheetEntryUpsert.fine_adv_extra e))
  /\ PayrollSheetEntry.remarks r = payroll.PayrollSheetEntryUpsert.remarks e
  /\ PayrollSheetEntry.bank_cash r = payroll.PayrollSheetEntryUpsert.bank_cash e.

(** The response to a batch declared with from_date after to_date. *)
Definition invalid_range_response : exn :=
  HTTPException 400 "from_date must be <= to_date".

(** The four statements on overtime, lateness and fines of a record, by
    what they do to one loop variable. *)
Definition accruals (a : AttendanceRecord.t) (x : Tally.t) : Tally.t :=
  accrue_fine a (accrue_late a (track_overtime_rate a (accrue_overtime a x))).

(** * Properties *)

(** ** The day walk *)

Lemma day_walk_step {S : Type} (body : date -> S -> S) (end_ dcur : date)
    (acc : S) :
  day_walk body end_ dcur acc =
  if dcur <=? end_ then
    match Date.add_days dcur 1 with
    | Ok dnext => day_walk body end_ dnext (body dcur acc)
    | Raise e => Raise e
    end
  else Ok acc.
Proof.
  rewrite day_walk_equation_1. unfold day_walk_unfold_clause_1.
  destruct (Z_le_dec dcur end_) as [Hle|Hgt].
  - rewrite (proj2 (Z.leb_le _ _) Hle).
    unfold day_walk_unfold_clause_1_clause_1, inspect.
    destruct (Date.add_days dcur 1); reflexivity.
  - destruct (dcur <=? end_) eqn:E; [apply Z.leb_le in E; lia | reflexivity].
Qed.

Lemma add_days_1 (d dnext : date) : Date.add_days d 1 = Ok dnext -> dnext = d + 1.
Proof.
  unfold Date.add_days.
  destruct ((0 <? d + 1) && (d + 1 <=? Date.MAXORDINAL)); congruence.
Qed.

(** An invariant indexed by the number of days walked so far is carried
    from the first day to the last. *)
Lemma day_walk_invariant {S : Type} (body : date -> S -> S)
    (I : Z -> S -> Prop) (end_ : date) :
  (forall d k x, d <= end_ -> I k x -> I (k + 1) (body d x)) ->
  forall (n : nat) (dcur : date) (k : Z) (acc acc' : S),
    Z.to_nat (end_ - dcur + 1) = n ->
    dcur <= end_ + 1 ->
    I k acc ->
    day_walk body end_ dcur acc = Ok acc' ->
    I (k + (end_ - dcur + 1)) acc'.
Proof.
  intros Hbody n. induction n as [|n IH]; intros dcur k acc acc' Hn Hle HI Hw.
  - rewrite day_walk_step in Hw.
    destruct (dcur <=? end_) eqn:E; [apply Z.leb_le in E; lia|].
    injection Hw as <-. replace (k + (end_ - dcur + 1)) with k by lia. exact HI.
  - rewrite day_walk_step in Hw.
    destruct (dcur <=? end_) eqn:E; [apply Z.leb_le in E | apply Z.leb_gt in E; lia].
    destruct (Date.add_days dcur 1) as [dnext|] eqn:Hadd; [|discriminate].
    apply add_days_1 in Hadd. subst dnext.
    replace (k + (end_ - dcur + 1)) with ((k + 1) + (end_ - (dcur + 1) + 1)) by lia.
    apply (IH (dcur + 1) (k + 1) (body dcur acc)); try lia; auto.
Qed.

(** The walk returns whenever the day after the last one is still a date. *)
Lemma day_walk_returns {S : Type} (body : date -> S -> S) (end_ : date) :
  end_ < Date.MAXORDINAL ->
  forall (n : nat) (dcur : date) (acc : S),
    Z.to_nat (end_ - dcur + 1) = n ->
    0 < dcur ->
    exists acc', day_walk body end_ dcur acc = Ok acc'.
Proof.
  intros Hmax n. induction n as [|n IH]; intros dcur acc Hn Hpos.
  - rewrite day_walk_step.
    destruct (dcur <=? end_) eqn:E; [apply Z.leb_le in E; lia | eauto].
  - rewrite day_walk_step.
    destruct (dcur <=? end_) eqn:E; [apply Z.leb_le in E | eauto].
    unfold Date.add_days.
    replace ((0 <? dcur + 1) && (dcur + 1 <=? Date.MAXORDINAL)) with true.
    + apply IH; lia.
    + symmetry. apply andb_true_intro. split; [apply Z.ltb_lt | apply Z.leb_le]; lia.
Qed.

(** ** Rows of the range reports come from [range_row] *)

Section RangeRows.
Context (float_of_str : string -> option Qc).

Lemma payroll_range_rows_inv month_label start end_ db index employees rows :
  payroll.range_rows float_of_str month_label start end_ db index employees = Ok rows ->
  Forall2
    (fun e r =>
       exists x,
         day_walk
           (payroll.range_body (default ∅ (index !! payroll.range_employee_id e)))
           end_ start Tally.zero = Ok x
         /\ r = payroll.range_row float_of_str month_label start end_ db e x)
    employees rows.
Proof.
  revert rows. induction employees as [|e rest IH]; intros rows H; simpl in H.
  - injection H as <-. constructor.
  - destruct (day_walk _ end_ start Tally.zero) as [x|] eqn:Hx; simpl in H;
      [|discriminate].
    destruct (payroll.range_rows _ _ _ _ _ _ rest) as [rows'|] eqn:Hr; simpl in H;
      [|discriminate].
    injection H as <-. constructor; eauto.
Qed.

Lemma payroll2_range_rows_inv month_label start end_ db index employees rows :
  payroll2.range_rows float_of_str month_label start end_ db index employees = Ok rows ->
  Forall2
    (fun e r =>
       exists x,
         day_walk
           (payroll2.range_body (default ∅ (index !! payroll2.employee_id_of e)))
           end_ start Tally.zero = Ok x
         /\ r = payroll2.range_row float_of_str month_label start end_ db e x)
    employees rows.
Proof.
  revert rows. induction employees as [|e rest IH]; intros rows H; simpl in H.
  - injection H as <-. constructor.
  - destruct (day_walk _ end_ start Tally.zero) as [x|] eqn:Hx; simpl in H;
      [|discriminate].
    destruct (payroll2.range_rows _ _ _ _ _ _ rest) as [rows'|] eqn:Hr; simpl in H;
      [|discriminate].
    injection H as <-. constructor; eauto.
Qed.

(** What a successful range report is made of. *)
Lemma payroll_range_report_inv from_date to_date month db rep :
  payroll.payroll_range_report float_of_str from_date to_date month db = Ok rep ->
  exists start end_ month_label,
    payroll._parse_date from_date "from_date" = Ok start
    /\ payroll._parse_date to_date "to_date" = Ok end_
    /\ start <= end_
    /\ payroll.range_rows float_of_str month_label start end_ db
         (payroll.by_emp_by_date
            (List.filter (payroll.in_period start end_) (attendance db)))
         (sorted payroll.sort_key
            (List.filter (payroll.hired_by (datetime_combine end_ time_max))
               (employees db)))
       = Ok (payroll.PayrollReportResponse.rows rep).
Proof.
  unfold payroll.payroll_range_report. intros H.
  destruct (payroll._parse_date from_date _) as [start|]; simpl in H; [|discriminate].
  destruct (payroll._parse_date to_date _) as [end_|]; simpl in H; [|discriminate].
  destruct (end_ <? start) eqn:E; [discriminate|]. apply Z.ltb_ge in E.
  match type of H with
  | bind ?r _ = _ => destruct r as [rows|] eqn:Hr; simpl in H; [|discriminate]
  end.
  injection H as <-. simpl. eauto 10.
Qed.

Lemma payroll2_range_report_inv from_date to_date month db rep :
  payroll2.payroll2_range_report float_of_str from_date to_date month db = Ok rep ->
  exists start end_ month_label,
    payroll2._parse_date from_date "from_date" = Ok start
    /\ payroll2._parse_date to_date "to_date" = Ok end_
    /\ start <= end_
    /\ payroll2.range_rows float_of_str month_label start end_ db
         (payroll2.by_emp_by_date
            (List.filter (payroll2.in_period start end_) (attendance db)))
         (sorted payroll2.sort_key
            (List.filter (payroll2.hired_by (datetime_combine end_ time_max))
               (employees db)))
       = Ok (payroll2.Response.rows rep).
Proof.
  unfold payroll2.payroll2_range_report. intros H.
  destruct (payroll2._parse_date from_date _) as [start|]; simpl in H; [|discriminate].
  destruct (payroll2._parse_date to_date _) as [end_|]; simpl in H; [|discriminate].
  destruct (end_ <? start) eqn:E; [discriminate|]. apply Z.ltb_ge in E.
  match type of H with
  | bind ?r _ = _ => destruct r as [rows|] eqn:Hr; simpl in H; [|discriminate]
  end.
  injection H as <-. simpl. eauto 10.
Qed.

End RangeRows.

(** ** The pay formulas of a row *)

Section PayFormulas.
Context (float_of_str : string -> option Qc).

Lemma max_0_clamp (n : Z) : (if n <? 0 then 0 else n) = Z.max 0 n.
Proof. destruct (n <? 0) eqn:E; [apply Z.ltb_lt in E | apply Z.ltb_ge in E]; lia. Qed.

Lemma day_rate_guard (base : Qc) (wd : Z) :
  (if 0 <? wd then (base / float_of_int wd)%Qc else 0%Qc)
  = (if wd <=? 0 then 0%Qc else (base / float_of_int wd)%Qc).
Proof.
  destruct (0 <? wd) eqn:E1, (wd <=? 0) eqn:E2; try reflexivity;
    [apply Z.ltb_lt in E1; apply Z.leb_le in E2
    |apply Z.ltb_ge in E1; apply Z.leb_gt in E2]; lia.
Qed.

Lemma payroll_range_row_formulas month_label start end_ db e x :
  range_row_formulas
    (payroll.range_row float_of_str month_label start end_ db e x).
Proof.
  unfold range_row_formulas, pay_formulas, payroll.range_row; cbn [
    payroll.RangeRow.base_salary payroll.RangeRow.working_days
    payroll.RangeRow.day_rate payroll.RangeRow.present_days
    payroll.RangeRow.late_days payroll.RangeRow.leave_encashment_days
    payroll.RangeRow.total_days payroll.RangeRow.total_salary
    payroll.RangeRow.overtime_rate payroll.RangeRow.overtime_pay
    payroll.RangeRow.allowances payroll.RangeRow.allow_other
    payroll.RangeRow.gross_pay payroll.RangeRow.eobi payroll.RangeRow.tax
    payroll.RangeRow.fine_deduction payroll.RangeRow.advance_deduction
    payroll.RangeRow.fine_adv_extra payroll.RangeRow.late_deduction
    payroll.RangeRow.net_pay].
  repeat split; first [apply day_rate_guard | apply max_0_clamp | ring].
Qed.

Lemma payroll2_range_row_formulas month_label start end_ db e x :
  range2_row_formulas
    (payroll2.range_row float_of_str month_label start end_ db e x).
Proof.
  unfold range2_row_formulas, pay_formulas, payroll2.range_row; cbn [
    payroll2.Row.base_salary payroll2.Row.working_days
    payroll2.Row.day_rate payroll2.Row.present_days payroll2.Row.presents_total
    payroll2.Row.late_days payroll2.Row.leave_encashment_days
    payroll2.Row.total_days payroll2.Row.total_salary
    payroll2.Row.overtime_rate payroll2.Row.overtime_pay
    payroll2.Row.allow_other
    payroll2.Row.gross_pay payroll2.Row.eobi payroll2.Row.tax
    payroll2.Row.fine_deduction payroll2.Row.advance_deduction
    payroll2.Row.fine_adv_extra payroll2.Row.late_deduction
    payroll2.Row.net_pay].
  repeat split; first [apply day_rate_guard | apply max_0_clamp | ring].
Qed.

End PayFormulas.

(** ** The calendar-month report (claim C2) *)

Section MonthReport.
Context (float_of_str : string -> option Qc).

Lemma payroll_report_inv month db rep :
  payroll.payroll_report float_of_str month db = Ok rep ->
  exists start end_,
    payroll._parse_month month = Ok (start, end_)
    /\ payroll.PayrollReportResponse.rows rep
       = map
           (payroll.report_row float_of_str month db
              (group_by AttendanceRecord.employee_id
                 (List.filter (payroll.in_period start end_) (attendance db))))
           (order_by_serial_no_asc
              (List.filter (payroll.hired_by (datetime_combine end_ time_max))
                 (employees db))).
Proof.
  unfold payroll.payroll_report. intros H.
  destruct (payroll._parse_month month) as [[start end_]|]; simpl in H; [|discriminate].
  injection H as <-. simpl. eauto.
Qed.

Lemma payroll_report_row_formulas month db by_emp e :
  month_row_formulas (payroll.report_row float_of_str month db by_emp e).
Proof.
  unfold month_row_formulas, payroll.report_row; cbn [
    payroll.ReportRow.allowances payroll.ReportRow.gross_pay
    payroll.ReportRow.base_salary payroll.ReportRow.overtime_rate
    payroll.ReportRow.overtime_pay payroll.ReportRow.unpaid_leave_deduction
    payroll.ReportRow.unpaid_leave_days payroll.ReportRow.net_pay
    payroll.ReportRow.late_deduction payroll.ReportRow.advance_deduction].
  repeat split.
Qed.

End MonthReport.

(** C2, where the code departs from it. [payroll_report] builds the
    dictionary of the sheet entries of the month period and never reads it:
    a month row has neither eobi, tax, allow_other nor fine_adv_extra, and
    in every row gross_pay = base_salary + allowances + overtime_rate +
    overtime_pay with allowances = 0, unpaid_leave_deduction =
    unpaid_leave_days * 1000 and net_pay = gross_pay - late_deduction -
    unpaid_leave_deduction - advance_deduction. On the store of the examples the sheet entry of
    January 2024 gives the guard an EOBI contribution of 200; the month
    report pays gross and net 31000, where the claim has net_pay = gross_pay
    - eobi - ..., and the range report of the same period on the same store
    does take the 200 off. *)
Theorem C2_month_report_leaves_out_the_sheet_terms :
  (forall float_of_str month db rep,
     payroll.payroll_report float_of_str month db = Ok rep ->
     Forall month_row_formulas (payroll.PayrollReportResponse.rows rep))
  /\ payroll._parse_month "2024-01" = Ok (Example.jan1, Example.jan31)
  /\ this (sheet_term Example.store Example.jan1 Example.jan31 1
             PayrollSheetEntry.eobi)
     = inject_Z 200
  /\ (exists rep,
        payroll.payroll_report decimal "2024-01" Example.store = Ok rep
        /\ map (fun r => (payroll.ReportRow.employee_db_id r,
                          this (payroll.ReportRow.gross_pay r),
                          this (payroll.ReportRow.net_pay r)))
             (payroll.PayrollReportResponse.rows rep)
           = [(1, inject_Z 31000, inject_Z 31000)]
        /\ ~ Forall (month_net_with_sheet Example.store Example.jan1 Example.jan31)
               (payroll.PayrollReportResponse.rows rep))
  /\ (exists rep,
        payroll.payroll_range_report decimal "2024-01-01" "2024-01-31" None
          Example.store = Ok rep
        /\ map (fun r => (payroll.RangeRow.employee_db_id r,
                          this (payroll.RangeRow.eobi r),
                          this (payroll.RangeRow.gross_pay r),
                          this (payroll.RangeRow.net_pay r)))
             (payroll.PayrollReportResponse.rows rep)
           = [(1, inject_Z 200, inject_Z 2000, inject_Z 1800)]).
Proof.
  split.
  { intros float_of_str month db rep H.
    apply payroll_report_inv in H as (start & end_ & _ & ->).
    apply List.Forall_forall. intros r Hr.
    apply List.in_map_iff in Hr. destruct Hr as (e & <- & _).
    apply payroll_report_row_formulas. }
  split; [vm_compute; reflexivity|]. split; [vm_compute; reflexivity|]. split.
  - destruct (payroll.payroll_report decimal "2024-01" Example.store)
      as [rep|e] eqn:E.
    + exists rep. split; [reflexivity|].
      vm_compute in E. injection E as <-. split; [vm_compute; reflexivity|].
      intros HF. apply Forall_inv in HF. unfold month_net_with_sheet in HF.
      apply (f_equal this) in HF. vm_compute in HF. discriminate HF.
    + vm_compute in E. discriminate E.
  - destruct (payroll.payroll_range_report decimal _ _ _ _) as [rep|e] eqn:E.
    + exists rep. split; [reflexivity|].
      vm_compute in E. injection E as <-. vm_compute. reflexivity.
    + vm_compute in E. discriminate E.
Qed.

(** ** Month labels (claim C8) *)

Lemma days_in_month_pos (y m : Z) : 1 <= Date.days_in_month y m.
Proof.
  unfold Date.days_in_month.
  destruct (m =? 2); [destruct (Date.isleap y); lia|].
  destruct ((m =? 4) || (m =? 6) || (m =? 9) || (m =? 11)); lia.
Qed.

Lemma days_in_month_le_31 (y m : Z) : Date.days_in_month y m <= 31.
Proof.
  unfold Date.days_in_month.
  destruct (m =? 2); [destruct (Date.isleap y); lia|].
  destruct ((m =? 4) || (m =? 6) || (m =? 9) || (m =? 11)); lia.
Qed.

Lemma fits_int_iff (n : Z) :
  Date.fits_int n = true <-> -2147483648 <= n <= 2147483647.
Proof.
  unfold Date.fits_int. rewrite andb_true_iff, !Z.leb_le. reflexivity.
Qed.

Lemma date_new_ok (y m d : Z) :
  Date.MINYEAR <= y <= Date.MAXYEAR -> 1 <= m <= 12 ->
  1 <= d <= Date.days_in_month y m ->
  Date.new y m d = Ok (Date.ymd2ord y m d).
Proof.
  intros Hy Hm Hd. unfold Date.new.
  pose proof (days_in_month_le_31 y m) as H31.
  unfold Date.MINYEAR, Date.MAXYEAR in *.
  assert (Hf : Date.fits_int y && Date.fits_int m && Date.fits_int d = true).
  { rewrite !andb_true_iff. repeat split; apply fits_int_iff; lia. }
  rewrite Hf. cbn [negb].
  assert (H : (1 <=? y) && (y <=? 9999) && (1 <=? m)
              && (m <=? 12) && (1 <=? d) && (d <=? Date.days_in_month y m)
              = true).
  { repeat (apply andb_true_intro; split); apply Z.leb_le; lia. }
  rewrite H. reflexivity.
Qed.

(** A year that fits a C [int] and is not one of 1..9999. *)
Lemma date_new_year_out_of_range (y m d : Z) :
  Date.fits_int y = true -> 1 <= m <= 12 -> 1 <= d <= 31 ->
  (Date.MINYEAR <=? y) && (y <=? Date.MAXYEAR) = false ->
  Date.new y m d = Raise ValueError.
Proof.
  intros Hy Hm Hd H. unfold Date.new. rewrite Hy.
  assert (Hf : Date.fits_int m && Date.fits_int d = true).
  { rewrite andb_true_iff. split; apply fits_int_iff; lia. }
  cbn [andb]. rewrite Hf. cbn [negb]. rewrite H. reflexivity.
Qed.

(** A year beyond the C [int]s. *)
Lemma date_new_year_overflow (y m d : Z) :
  Date.fits_int y = false -> Date.new y m d = Raise OverflowError.
Proof. intros Hy. unfold Date.new. rewrite Hy. reflexivity. Qed.

(** The four outcomes of [_parse_month]: the first and last day of a month
    of a year between 1 and 9999, the 400 response, or an exception of
    [date(year, mm, 1)] raised after the [try] block: [ValueError] for a
    year that is not one of 1..9999, [OverflowError] for one that is not a
    C [int]. *)
Lemma parse_month_outcomes (month : string) :
  (exists y m,
     1 <= m <= 12 /\ Date.MINYEAR <= y <= Date.MAXYEAR
     /\ payroll._parse_month month
        = Ok (Date.ymd2ord y m 1, Date.ymd2ord y m (Date.days_in_month y m)))
  \/ payroll._parse_month month
     = Raise (HTTPException 400 "month must be in YYYY-MM format")
  \/ payroll._parse_month month = Raise ValueError
  \/ payroll._parse_month month = Raise OverflowError.
Proof.
  unfold payroll._parse_month.
  destruct (Py.split "-" month) as [|ys [|ms [|? ?]]]; simpl; auto.
  unfold payroll.int_of_str.
  destruct (Py.int ys) as [y|]; simpl; auto.
  destruct (Py.int ms) as [m|]; simpl; auto.
  destruct ((m <? 1) || (m >? 12)) eqn:Em; simpl; auto.
  apply orb_false_elim in Em as [Em1 Em2].
  apply Z.ltb_ge in Em1. rewrite Z.gtb_ltb in Em2. apply Z.ltb_ge in Em2.
  unfold Date.monthrange_ndays.
  pose proof (days_in_month_pos y m) as Hdim.
  pose proof (days_in_month_le_31 y m) as H31.
  destruct (Date.fits_int y) eqn:Ef.
  - destruct ((Date.MINYEAR <=? y) && (y <=? Date.MAXYEAR)) eqn:Ey.
    + apply andb_prop in Ey as [Ey1 Ey2]. apply Z.leb_le in Ey1, Ey2.
      rewrite !date_new_ok by lia. simpl. left. exists y, m. repeat split; auto.
    + rewrite (date_new_year_out_of_range y m 1) by (auto; lia). simpl. auto.
  - rewrite date_new_year_overflow by exact Ef. simpl. auto.
Qed.

(** C8, where the code departs from it. The label "10000-01" passes the
    checks of the [try] block (two fields, two integers, month 1), and
    [date(10000, 1, 1)] then raises a [ValueError] that no handler turns
    into the 400 response. *)
Theorem C8_parse_month_year_out_of_range :
  payroll._parse_month "10000-01" = Raise ValueError
  /\ payroll._parse_month "2024-13"
     = Raise (HTTPException 400 "month must be in YYYY-MM format").
Proof. split; vm_compute; reflexivity. Qed.

(** ** Previous and current days (claim C6) *)

(** C6, where the code departs from it. A batch with [pre_days_override =
    -3] is accepted as it is; on the store it leaves, the range report of
    [payroll.py] shows 0 previous days and the one of [payroll2.py], which
    has no clamp, shows -3. *)
Theorem C6_payroll2_does_not_clamp :
  exists db' written,
    request (payroll.bulk_upsert_payroll_sheet_entries Example.negative_days)
      Example.idle_store = (db', Ok written)
    /\ (exists rep,
          payroll2.payroll2_range_report decimal "2024-01-01" "2024-01-31" None
            db' = Ok rep
          /\ map payroll2.Row.pre_days (payroll2.Response.rows rep) = [-3])
    /\ (exists rep,
          payroll.payroll_range_report decimal "2024-01-01" "2024-01-31" None
            db' = Ok rep
          /\ map payroll.RangeRow.pre_days
               (payroll.PayrollReportResponse.rows rep) = [0]).
Proof.
  destruct (request _ Example.idle_store) as [db' [written|e]] eqn:Hreq;
    vm_compute in Hreq; [|discriminate Hreq].
  exists db', written. split; [reflexivity|].
  injection Hreq as <- _. split.
  - destruct (payroll2.payroll2_range_report decimal _ _ _ _) as [rep|e] eqn:E;
      vm_compute in E; [|discriminate E].
    exists rep. split; [reflexivity|]. injection E as <-. reflexivity.
  - destruct (payroll.payroll_range_report decimal _ _ _ _) as [rep|e] eqn:E;
      vm_compute in E; [|discriminate E].
    exists rep. split; [reflexivity|]. injection E as <-. reflexivity.
Qed.

(** ** Attendance counting *)

Lemma eqb_bool_decide (a b : string) : String.eqb a b = bool_decide (a = b).
Proof.
  destruct (String.eqb_spec a b) as [->|Hne].
  - symmetry. apply bool_decide_eq_true. reflexivity.
  - symmetry. apply bool_decide_eq_false. exact Hne.
Qed.

Lemma group_by_fold `{Countable K} {A : Type} (key : A -> K) (k : K)
    (l : list A) (m : gmap K (list A)) :
  default []
    (fold_left (fun m r => <[key r := default [] (m !! key r) ++ [r]]> m) l m !! k)
  = default [] (m !! k) ++ List.filter (fun r => bool_decide (key r = k)) l.
Proof.
  revert m. induction l as [|r l IH]; intros m; simpl.
  - rewrite app_nil_r. reflexivity.
  - rewrite IH. destruct (decide (key r = k)) as [Heq|Hne].
    + rewrite (bool_decide_eq_true_2 _ Heq). subst k.
      rewrite lookup_insert_eq. simpl. rewrite <- app_assoc. reflexivity.
    + rewrite (bool_decide_eq_false_2 _ Hne).
      rewrite lookup_insert_ne by exact Hne. reflexivity.
Qed.

Lemma group_by_lookup (l : list AttendanceRecord.t) (k : string) :
  default [] (group_by AttendanceRecord.employee_id l !! k)
  = List.filter (fun a => String.eqb (AttendanceRecord.employee_id a) k) l.
Proof.
  unfold group_by. rewrite group_by_fold, lookup_empty. simpl.
  apply filter_ext. intros a. symmetry. apply eqb_bool_decide.
Qed.

(** The accruals leave the day counters alone. *)
Lemma day_counters_accrue_overtime a x :
  day_counters (accrue_overtime a x) = day_counters x.
Proof.
  unfold accrue_overtime.
  destruct (_ && _); [destruct x|]; reflexivity.
Qed.

Lemma day_counters_track_overtime_rate a x :
  day_counters (track_overtime_rate a x) = day_counters x.
Proof.
  unfold track_overtime_rate.
  destruct (_ && _); [destruct x|]; reflexivity.
Qed.

Lemma day_counters_accrue_late a x :
  day_counters (accrue_late a x) = day_counters x.
Proof.
  unfold accrue_late.
  destruct (Py.truthy_int _), (Py.truthy_float _); destruct x; reflexivity.
Qed.

Lemma day_counters_accrue_fine a x :
  day_counters (accrue_fine a x) = day_counters x.
Proof.
  unfold accrue_fine.
  destruct (Py.truthy_float _); [destruct x|]; reflexivity.
Qed.

Lemma day_counters_accruals a x :
  day_counters (accrue_late a (track_overtime_rate a (accrue_overtime a x)))
  = day_counters x.
Proof.
  rewrite day_counters_accrue_late, day_counters_track_overtime_rate,
    day_counters_accrue_overtime. reflexivity.
Qed.

Lemma days5_counters x y : day_counters x = day_counters y -> days5 x = days5 y.
Proof. unfold day_counters, days5. intros [=]. congruence. Qed.

Lemma days6_counters x y : day_counters x = day_counters y -> days6 x = days6 y.
Proof. unfold day_counters, days6, days5. intros [=]. congruence. Qed.

Lemma absent_counters x y :
  day_counters x = day_counters y -> Tally.absent_days x = Tally.absent_days y.
Proof. unfold day_counters. intros [=]. congruence. Qed.

(** One record of the month loop: at most one category gains a day, and
    the absent days gain one exactly for the status "absent". *)
Lemma report_step_days5 x a :
  days5 x <= days5 (payroll.report_step x a) <= days5 x + 1.
Proof.
  unfold payroll.report_step.
  rewrite (days5_counters _ _ (day_counters_accruals a _)).
  destruct x; unfold days5; simpl.
  repeat match goal with |- context [if ?c then _ else _] => destruct c end;
    simpl; lia.
Qed.

Lemma report_step_absent x a :
  Tally.absent_days (payroll.report_step x a)
  = Tally.absent_days x
    + (if String.eqb (normal_status a) "absent" then 1 else 0).
Proof.
  unfold payroll.report_step.
  rewrite (absent_counters _ _ (day_counters_accruals a _)).
  fold (normal_status a).
  destruct (String.eqb (normal_status a) "absent") eqn:Eabs.
  - apply String.eqb_eq in Eabs. rewrite Eabs. destruct x. simpl. reflexivity.
  - destruct x; simpl.
    repeat match goal with |- context [if ?c then _ else _] => destruct c end;
      simpl; lia.
Qed.

Lemma report_loop_days5 (l : list AttendanceRecord.t) x :
  days5 x <= days5 (fold_left payroll.report_step l x)
  <= days5 x + Z.of_nat (length l).
Proof.
  revert x. induction l as [|a l IH]; intros x; simpl; [lia|].
  pose proof (report_step_days5 x a). pose proof (IH (payroll.report_step x a)).
  lia.
Qed.

Lemma report_loop_absent (l : list AttendanceRecord.t) x :
  Tally.absent_days (fold_left payroll.report_step l x)
  = Tally.absent_days x
    + Z.of_nat (length (List.filter
                          (fun a => String.eqb (normal_status a) "absent") l)).
Proof.
  revert x. induction l as [|a l IH]; intros x; simpl; [lia|].
  rewrite IH, report_step_absent.
  destruct (String.eqb (normal_status a) "absent"); simpl length; lia.
Qed.

(** One day of the walk of [payroll.py]: exactly one of the six categories
    gains a day. *)
Lemma payroll_range_body_days6 days d x :
  days6 (payroll.range_body days d x) = days6 x + 1.
Proof.
  unfold payroll.range_body.
  destruct (days !! d) as [a|].
  - rewrite (days6_counters _ _ (day_counters_accrue_fine a _)).
    rewrite (days6_counters _ _ (day_counters_accruals a _)).
    destruct x; unfold days6, days5.
    repeat match goal with |- context [if ?c then _ else _] => destruct c end;
      simpl; lia.
  - destruct x; unfold days6, days5. simpl. lia.
Qed.

(** One day of the walk of [payroll2.py]: at most one of the five
    categories gains a day. *)
Lemma payroll2_range_body_days5 days d x :
  days5 x <= days5 (payroll2.range_body days d x) <= days5 x + 1.
Proof.
  unfold payroll2.range_body.
  destruct (days !! d) as [a|]; [|lia].
  rewrite (days5_counters _ _ (day_counters_accrue_fine a _)).
  rewrite (days5_counters _ _ (day_counters_accruals a _)).
  destruct x; unfold days5.
  repeat match goal with |- context [if ?c then _ else _] => destruct c end;
    simpl; lia.
Qed.

Lemma payroll_walk_days6 days start end_ x :
  start <= end_ ->
  day_walk (payroll.range_body days) end_ start Tally.zero = Ok x ->
  days6 x = end_ - start + 1.
Proof.
  intros Hle Hw.
  apply (day_walk_invariant (payroll.range_body days)
           (fun k x => days6 x = k) end_) with (n := Z.to_nat (end_ - start + 1))
           (k := 0) in Hw; try lia; try reflexivity.
  intros d k y _ <-. apply payroll_range_body_days6.
Qed.

Lemma payroll2_walk_days5 days start end_ x :
  start <= end_ ->
  day_walk (payroll2.range_body days) end_ start Tally.zero = Ok x ->
  0 <= days5 x <= end_ - start + 1.
Proof.
  intros Hle Hw.
  apply (day_walk_invariant (payroll2.range_body days)
           (fun k x => 0 <= days5 x <= k) end_)
    with (n := Z.to_nat (end_ - start + 1)) (k := 0) in Hw; try lia.
  - intros d k y _ Hy. pose proof (payroll2_range_body_days5 days d y). lia.
  - unfold days5. simpl. lia.
Qed.

Section Categories.
Context (float_of_str : string -> option Qc).

(** C3, as the code has it. In the range report of [payroll.py] the six
    categories of a row (present, late, absent, paid leave, unpaid leave,
    unmarked) add up to working_days, the inclusive day count of the
    period. The range report of [payroll2.py] has no unmarked category and
    its five categories add up to at most working_days. The calendar-month
    report counts records, not days: its five categories add up to at most
    the number of records the employee has in the month. *)
Theorem C3_categories_partition_the_range_walk :
  (forall from_date to_date month db rep,
     payroll.payroll_range_report float_of_str from_date to_date month db = Ok rep ->
     exists start end_,
       payroll._parse_date from_date "from_date" = Ok start
       /\ payroll._parse_date to_date "to_date" = Ok end_
       /\ Forall
            (fun r =>
               range_row_days r = payroll.RangeRow.working_days r
               /\ payroll.RangeRow.working_days r
                  = payroll._days_inclusive start end_)
            (payroll.PayrollReportResponse.rows rep))
  /\ (forall from_date to_date month db rep,
        payroll2.payroll2_range_report float_of_str from_date to_date month db
        = Ok rep ->
        Forall
          (fun r => 0 <= range2_row_days r <= payroll2.Row.working_days r)
          (payroll2.Response.rows rep))
  /\ (forall month db rep,
        payroll.payroll_report float_of_str month db = Ok rep ->
        exists start end_,
          payroll._parse_month month = Ok (start, end_)
          /\ Forall
               (fun r =>
                  0 <= month_row_days r
                  <= Z.of_nat
                       (length (records_of db start end_
                                  (payroll.ReportRow.employee_id r))))
               (payroll.PayrollReportResponse.rows rep)).
Proof.
  split; [|split].
  - intros from_date to_date month db rep H.
    apply payroll_range_report_inv in H
      as (start & end_ & ml & Hs & He & Hle & Hrows).
    exists start, end_. split; [exact Hs|]. split; [exact He|].
    apply payroll_range_rows_inv in Hrows.
    induction Hrows as [|e r es rs (x & Hw & ->) _ IH]; constructor; auto.
    apply payroll_walk_days6 in Hw; [|exact Hle].
    split; [|reflexivity].
    unfold range_row_days, payroll.range_row, payroll._days_inclusive,
      Date.sub_days; simpl.
    unfold days6, days5 in Hw. lia.
  - intros from_date to_date month db rep H.
    apply payroll2_range_report_inv in H
      as (start & end_ & ml & Hs & He & Hle & Hrows).
    apply payroll2_range_rows_inv in Hrows.
    induction Hrows as [|e r es rs (x & Hw & ->) _ IH]; constructor; auto.
    apply payroll2_walk_days5 in Hw; [|exact Hle].
    unfold range2_row_days, payroll2.range_row, payroll2._days_inclusive,
      Date.sub_days; simpl.
    unfold days5 in Hw. lia.
  - intros month db rep H.
    apply payroll_report_inv in H as (start & end_ & Hp & ->).
    exists start, end_. split; [exact Hp|].
    apply List.Forall_forall. intros r Hr. apply in_map_iff in Hr as (e & <- & _).
    unfold month_row_days, payroll.report_row; simpl.
    unfold records_of. rewrite group_by_lookup.
    match goal with
    | |- context [fold_left payroll.report_step ?l Tally.zero] =>
        pose proof (report_loop_days5 l Tally.zero) as Hl
    end.
    unfold days5 in Hl. simpl in Hl. lia.
Qed.

(** C5, as the code has it. The absent days of a row of the calendar-month
    report are the records of the employee in the month whose status is
    "absent"; a day without a record is not counted in any category. *)
Theorem C5_month_absent_days_count_records month db rep :
  payroll.payroll_report float_of_str month db = Ok rep ->
  exists start end_,
    payroll._parse_month month = Ok (start, end_)
    /\ Forall
         (fun r =>
            payroll.ReportRow.absent_days r
            = Z.of_nat
                (length
                   (List.filter
                      (fun a => String.eqb (normal_status a) "absent")
                      (records_of db start end_ (payroll.ReportRow.employee_id r))))
            /\ (records_of db start end_ (payroll.ReportRow.employee_id r) = [] ->
                month_row_days r = 0))
         (payroll.PayrollReportResponse.rows rep).
Proof.
  intros H. apply payroll_report_inv in H as (start & end_ & Hp & ->).
  exists start, end_. split; [exact Hp|].
  apply List.Forall_forall. intros r Hr. apply in_map_iff in Hr as (e & <- & _).
  unfold month_row_days, payroll.report_row; simpl.
  unfold records_of. rewrite group_by_lookup. split.
  - rewrite report_loop_absent. reflexivity.
  - intros ->. reflexivity.
Qed.

End Categories.

Lemma C3_categories_partition_the_range_walk_witness :
  (exists rep,
     payroll.payroll_range_report decimal "2024-01-01" "2024-01-31" None
       Example.store = Ok rep
     /\ Forall (fun r => range_row_days r = payroll.RangeRow.working_days r)
          (payroll.PayrollReportResponse.rows rep))
  /\ (exists rep,
        payroll2.payroll2_range_report decimal "2024-01-01" "2024-01-31" None
          Example.store = Ok rep
        /\ Forall (fun r => 0 <= range2_row_days r <= payroll2.Row.working_days r)
             (payroll2.Response.rows rep))
  /\ (exists rep,
        payroll.payroll_report decimal "2024-01" Example.store = Ok rep
        /\ exists start end_,
             payroll._parse_month "2024-01" = Ok (start, end_)
             /\ Forall
                  (fun r =>
                     0 <= month_row_days r
                     <= Z.of_nat
                          (length (records_of Example.store start end_
                                     (payroll.ReportRow.employee_id r))))
                  (payroll.PayrollReportResponse.rows rep)).
Proof.
  destruct (C3_categories_partition_the_range_walk decimal) as (H1 & H2 & H3).
  split; [|split].
  - destruct (payroll.payroll_range_report decimal _ _ _ _) as [rep|e] eqn:E.
    + exists rep. split; [reflexivity|].
      destruct (H1 _ _ _ _ _ E) as (start & end_ & _ & _ & HF).
      eapply List.Forall_impl; [|exact HF]. intros r [Hr _]. exact Hr.
    + vm_compute in E. discriminate E.
  - destruct (payroll2.payroll2_range_report decimal _ _ _ _) as [rep|e] eqn:E.
    + exists rep. split; [reflexivity|]. exact (H2 _ _ _ _ _ E).
    + vm_compute in E. discriminate E.
  - destruct (payroll.payroll_report decimal _ _) as [rep|e] eqn:E.
    + exists rep. split; [reflexivity|]. exact (H3 _ _ _ E).
    + vm_compute in E. discriminate E.
Defined.

(** The claim C3 fails on the store of the examples: the guard has three
    records in January 2024, and the five categories of the month row and of
    the row of [payroll2.py] add up to 3, not to the 31 days of the
    period. *)
Lemma C3_counterexample :
  (exists rep,
     payroll.payroll_report decimal "2024-01" Example.store = Ok rep
     /\ payroll._parse_month "2024-01" = Ok (Example.jan1, Example.jan31)
     /\ ~ Forall
            (fun r =>
               month_row_days r
               = payroll._days_inclusive Example.jan1 Example.jan31)
            (payroll.PayrollReportResponse.rows rep))
  /\ (exists rep,
        payroll2.payroll2_range_report decimal "2024-01-01" "2024-01-31" None
          Example.store = Ok rep
        /\ ~ Forall (fun r => range2_row_days r = payroll2.Row.working_days r)
               (payroll2.Response.rows rep)).
Proof.
  split.
  - destruct (payroll.payroll_report decimal _ _) as [rep|e] eqn:E;
      vm_compute in E; [|discriminate E].
    exists rep. split; [reflexivity|]. split; [vm_compute; reflexivity|].
    injection E as <-. intros HF. apply Forall_inv in HF.
    vm_compute in HF. discriminate HF.
  - destruct (payroll2.payroll2_range_report decimal _ _ _ _) as [rep|e] eqn:E;
      vm_compute in E; [|discriminate E].
    exists rep. split; [reflexivity|].
    injection E as <-. intros HF. apply Forall_inv in HF.
    vm_compute in HF. discriminate HF.
Qed.

Lemma C5_month_absent_days_count_records_witness :
  exists rep,
    payroll.payroll_report decimal "2024-01" Example.store = Ok rep
    /\ map payroll.ReportRow.absent_days (payroll.PayrollReportResponse.rows rep)
       = [1]
    /\ exists start end_,
         payroll._parse_month "2024-01" = Ok (start, end_)
         /\ Forall
              (fun r =>
                 payroll.ReportRow.absent_days r
                 = Z.of_nat
                     (length
                        (List.filter
                           (fun a => String.eqb (normal_status a) "absent")
                           (records_of Example.store start end_
                              (payroll.ReportRow.employee_id r))))
                 /\ (records_of Example.store start end_
                       (payroll.ReportRow.employee_id r) = [] ->
                     month_row_days r = 0))
              (payroll.PayrollReportResponse.rows rep).
Proof.
  destruct (payroll.payroll_report decimal "2024-01" Example.store)
    as [rep|e] eqn:E.
  - exists rep. split; [reflexivity|]. split.
    + vm_compute in E. injection E as <-. reflexivity.
    + exact (C5_month_absent_days_count_records decimal _ _ _ E).
  - vm_compute in E. discriminate E.
Defined.

(** The claim C5 fails on the store of the examples: 28 days of January
    2024 have no record for the guard, and the month row has one absent
    day, the one recorded as absent. *)
Lemma C5_counterexample :
  exists rep,
    payroll.payroll_report decimal "2024-01" Example.store = Ok rep
    /\ payroll._parse_month "2024-01" = Ok (Example.jan1, Example.jan31)
    /\ ~ Forall
           (fun r =>
              Z.of_nat
                (length (unrecorded_days Example.store Example.jan1 Example.jan31
                           (payroll.ReportRow.employee_id r)))
              <= payroll.ReportRow.absent_days r)
           (payroll.PayrollReportResponse.rows rep).
Proof.
  destruct (payroll.payroll_report decimal _ _) as [rep|e] eqn:E;
    vm_compute in E; [|discriminate E].
  exists rep. split; [reflexivity|]. split; [vm_compute; reflexivity|].
  injection E as <-. intros HF. apply Forall_inv in HF.
  vm_compute in HF. apply HF. reflexivity.
Qed.

(** ** Row order (claim C7) *)

Section SortBy.
Context {A : Type} (leb : A -> A -> bool).
Hypothesis leb_total : forall a b, leb a b = true \/ leb b a = true.

Let R (a b : A) : Prop := leb a b = true.

Lemma insert_by_HdRel (x y : A) (l : list A) :
  R y x -> HdRel R y l -> HdRel R y (insert_by leb x l).
Proof.
  intros Hyx Hl. destruct l as [|z l]; simpl.
  - constructor. exact Hyx.
  - destruct (leb x z); constructor; [exact Hyx|].
    inversion Hl; assumption.
Qed.

Lemma insert_by_Sorted (x : A) (l : list A) :
  Sorted R l -> Sorted R (insert_by leb x l).
Proof.
  induction l as [|y l IH]; intros Hs; simpl.
  - repeat constructor.
  - destruct (leb x y) eqn:Exy.
    + constructor; [exact Hs | constructor; exact Exy].
    + inversion Hs as [|? ? Hs' Hhd]; subst.
      constructor; [apply IH, Hs'|].
      apply insert_by_HdRel; [|exact Hhd].
      destruct (leb_total x y) as [H|H]; [congruence | exact H].
Qed.

Lemma sort_by_Sorted (l : list A) : Sorted R (sort_by leb l).
Proof.
  induction l as [|x l IH]; simpl; [constructor|].
  apply insert_by_Sorted, IH.
Qed.

End SortBy.

Lemma Sorted_map {A B : Type} (f : A -> B) (R : B -> B -> Prop) (l : list A) :
  Sorted (fun a b => R (f a) (f b)) l -> Sorted R (map f l).
Proof.
  induction 1 as [|a l Hs IH Hhd]; simpl; constructor; auto.
  destruct Hhd; simpl; constructor; assumption.
Qed.

Lemma StronglySorted_lookup {A : Type} (R : A -> A -> Prop) (l : list A) :
  StronglySorted R l ->
  forall (i j : nat) a b,
    (i < j)%nat -> l !! i = Some a -> l !! j = Some b -> R a b.
Proof.
  induction 1 as [|x l Hs IH Hall]; intros i j a b Hij Hi Hj.
  - discriminate Hi.
  - destruct j as [|j]; [lia|]. simpl in Hj.
    destruct i as [|i]; simpl in Hi.
    + injection Hi as <-. eapply Forall_lookup_1; eassumption.
    + apply (IH i j); [lia | assumption | assumption].
Qed.

Lemma text_leb_total (a b : option string) :
  text_leb a b = true \/ text_leb b a = true.
Proof.
  destruct a as [x|], b as [y|]; simpl; auto. apply String.leb_total.
Qed.

Lemma sorted_by_key {A : Type} (key : A -> Z) (l : list A) :
  StronglySorted (fun a b => key a <= key b) (sorted key l).
Proof.
  apply Sorted_StronglySorted.
  - intros a b c Hab Hbc. lia.
  - unfold sorted.
    pose proof (sort_by_Sorted (fun a b => key a <=? key b)) as Hs.
    eapply Sorted_ind with (P := fun l => Sorted (fun a b => key a <= key b) l);
      [constructor | | apply Hs].
    + intros a l' _ IH Hhd. constructor; [exact IH|].
      destruct Hhd; constructor. apply Z.leb_le. assumption.
    + intros a b. destruct (Z.le_ge_cases (key a) (key b)); [left|right];
        apply Z.leb_le; assumption.
Qed.

Lemma sort_key_order_intro (serials : list (option string)) :
  StronglySorted (fun a b => serial_key a <= serial_key b) serials ->
  sort_key_order serials.
Proof.
  intros Hs. split; [exact Hs|].
  intros i j s1 s2 n Hi Hj Ht (t1 & -> & Hnone) (t2 & -> & Hn) Hlt.
  assert (K1 : serial_key (Some t1) = 999999).
  { unfold serial_key. rewrite Ht.
    change (Py.str_or_empty (Some t1)) with t1. rewrite Hnone. reflexivity. }
  assert (K2 : serial_key (Some t2) <= n).
  { unfold serial_key. destruct t2 as [|c t2].
    - vm_compute in Hn. discriminate Hn.
    - change (Py.truthy_str (Some (String c t2))) with true.
      change (Py.str_or_empty (Some (String c t2))) with (String c t2).
      cbv iota. rewrite Hn. lia. }
  destruct (lt_eq_lt_dec i j) as [[Hlt'|Heq]|Hgt]; [| |exact Hgt].
  - pose proof (StronglySorted_lookup _ _ Hs i j _ _ Hlt' Hi Hj) as Hk.
    cbv beta in Hk. lia.
  - subst j. rewrite Hi in Hj. injection Hj as <-. congruence.
Qed.

Lemma serial_key_order_of_employees (key : Employee2.t -> Z)
    (l : list Employee2.t) :
  (forall e, key e = serial_key (Employee2.serial_no e)) ->
  StronglySorted (fun a b => serial_key a <= serial_key b)
    (map Employee2.serial_no (sorted key l)).
Proof.
  intros Hkey. apply Sorted_StronglySorted; [intros a b c ? ?; lia|].
  apply Sorted_map. apply StronglySorted_Sorted.
  pose proof (sorted_by_key key l) as Hs.
  induction Hs as [|e es Hs IH Hall]; constructor; [exact IH|].
  eapply List.Forall_impl; [|exact Hall].
  intros b Hb. cbv beta in Hb. rewrite <- !Hkey. exact Hb.
Qed.

Section RowOrder.
Context (float_of_str : string -> option Qc).

Lemma payroll_range_rows_serials month_label start end_ db index employees rows :
  payroll.range_rows float_of_str month_label start end_ db index employees = Ok rows ->
  map payroll.RangeRow.serial_no rows = map Employee2.serial_no employees.
Proof.
  intros H. apply payroll_range_rows_inv in H.
  induction H as [|e r es rs (x & _ & ->) _ IH]; simpl; [reflexivity|].
  rewrite IH. reflexivity.
Qed.

Lemma payroll2_range_rows_serials month_label start end_ db index employees rows :
  payroll2.range_rows float_of_str month_label start end_ db index employees = Ok rows ->
  map payroll2.Row.serial_no rows = map Employee2.serial_no employees.
Proof.
  intros H. apply payroll2_range_rows_inv in H.
  induction H as [|e r es rs (x & _ & ->) _ IH]; simpl; [reflexivity|].
  rewrite IH. reflexivity.
Qed.

(** The rows of the calendar-month report keep the order in which the
    store returns the employees, the text order of the serial numbers. *)
Lemma month_rows_in_text_order month db rep :
  payroll.payroll_report float_of_str month db = Ok rep ->
  Sorted (fun a b => text_leb a b = true)
    (map payroll.ReportRow.serial_no (payroll.PayrollReportResponse.rows rep)).
Proof.
  intros H. apply payroll_report_inv in H as (start & end_ & _ & ->).
  rewrite map_map. simpl.
  apply Sorted_map. unfold order_by_serial_no_asc.
  apply (sort_by_Sorted
           (fun a b => text_leb (Employee2.serial_no a) (Employee2.serial_no b))).
  intros a b. apply text_leb_total.
Qed.

(** C7, as the code has it. The rows of the two range reports are in
    ascending order of the sort key: the integer the serial number reads
    as, 0 for a missing or empty serial number, 999999 for any other text.
    So a non-empty serial number that is not an integer comes after every
    serial number that reads as an integer below 999999 ("N/A" after
    "9999"). *)
Theorem C7_rows_follow_the_sort_key :
  (forall from_date to_date month db rep,
     payroll.payroll_range_report float_of_str from_date to_date month db = Ok rep ->
     sort_key_order
       (map payroll.RangeRow.serial_no (payroll.PayrollReportResponse.rows rep)))
  /\ (forall from_date to_date month db rep,
        payroll2.payroll2_range_report float_of_str from_date to_date month db
        = Ok rep ->
        sort_key_order (map payroll2.Row.serial_no (payroll2.Response.rows rep))).
Proof.
  split.
  - intros from_date to_date month db rep H.
    apply payroll_range_report_inv in H as (start & end_ & ml & _ & _ & _ & Hrows).
    apply payroll_range_rows_serials in Hrows. rewrite Hrows.
    apply sort_key_order_intro, serial_key_order_of_employees. reflexivity.
  - intros from_date to_date month db rep H.
    apply payroll2_range_report_inv in H as (start & end_ & ml & _ & _ & _ & Hrows).
    apply payroll2_range_rows_serials in Hrows. rewrite Hrows.
    apply sort_key_order_intro, serial_key_order_of_employees. reflexivity.
Qed.

End RowOrder.

Lemma C7_rows_follow_the_sort_key_witness :
  (exists rep,
     payroll.payroll_range_report decimal "2024-01-01" "2024-01-31" None
       Example.serials = Ok rep
     /\ map payroll.RangeRow.serial_no (payroll.PayrollReportResponse.rows rep)
        = [Some "9"; Some "10"; Some "N/A"; Some "1000000"]
     /\ sort_key_order
          (map payroll.RangeRow.serial_no (payroll.PayrollReportResponse.rows rep)))
  /\ (exists rep,
        payroll2.payroll2_range_report decimal "2024-01-01" "2024-01-31" None
          Example.serials = Ok rep
        /\ sort_key_order
             (map payroll2.Row.serial_no (payroll2.Response.rows rep))).
Proof.
  destruct (C7_rows_follow_the_sort_key decimal) as (H1 & H2).
  split.
  - destruct (payroll.payroll_range_report decimal _ _ _ _) as [rep|e] eqn:E.
    + exists rep. split; [reflexivity|]. split; [|exact (H1 _ _ _ _ _ E)].
      vm_compute in E. injection E as <-. reflexivity.
    + vm_compute in E. discriminate E.
  - destruct (payroll2.payroll2_range_report decimal _ _ _ _) as [rep|e] eqn:E.
    + exists rep. split; [reflexivity|]. exact (H2 _ _ _ _ _ E).
    + vm_compute in E. discriminate E.
Defined.

(** The claim C7 fails on the four guards of the examples. The range report
    lists "N/A" (key 999999) before "1000000", a serial number that is not
    an integer before one that is; the calendar-month report lists
    "1000000" before "9", in text order. *)
Lemma C7_counterexample :
  (exists rep,
     payroll.payroll_range_report decimal "2024-01-01" "2024-01-31" None
       Example.serials = Ok rep
     /\ ~ numeric_serial_order
            (map payroll.RangeRow.serial_no
               (payroll.PayrollReportResponse.rows rep)))
  /\ (exists rep,
        payroll.payroll_report decimal "2024-01" Example.serials = Ok rep
        /\ ~ numeric_serial_order
               (map payroll.ReportRow.serial_no
                  (payroll.PayrollReportResponse.rows rep))).
Proof.
  split.
  - destruct (payroll.payroll_range_report decimal _ _ _ _) as [rep|e] eqn:E;
      vm_compute in E; [|discriminate E].
    exists rep. split; [reflexivity|]. injection E as <-.
    intros [_ H].
    specialize (H 2%nat 3%nat (Some "N/A") (Some "1000000") 1000000
                  eq_refl eq_refl).
    assert (Hlt : (3 < 2)%nat); [|lia].
    apply H.
    + exists "N/A". split; [reflexivity | vm_compute; reflexivity].
    + exists "1000000". split; [reflexivity | vm_compute; reflexivity].
  - destruct (payroll.payroll_report decimal _ _) as [rep|e] eqn:E;
      vm_compute in E; [|discriminate E].
    exists rep. split; [reflexivity|]. injection E as <-.
    intros [H _].
    specialize (H 1%nat 2%nat (Some "1000000") (Some "9") 1000000 9).
    assert (Hle : 1000000 <= 9); [|lia].
    apply H; [lia | reflexivity | reflexivity | |].
    + exists "1000000". split; [reflexivity | vm_compute; reflexivity].
    + exists "9". split; [reflexivity | vm_compute; reflexivity].
Qed.

(** [int] skips less than [str.strip] removes: a serial number made of the
    separator US and the digit 5 strips to "5" and is no integer, so its
    sort key is 999999; a TAB and a space are skipped. *)
Lemma separators_are_not_skipped :
  Py.strip (String "031"%char "5") = "5"
  /\ Py.int (String "031"%char "5") = None
  /\ serial_key (Some (String "031"%char "5")) = 999999
  /\ Py.int (String "009"%char "5 ") = Some 5.
Proof. repeat split. Qed.

(** ** Payment status (claim C4) *)


Lemma first_None_app {A : Type} (p : A -> bool) (l : list A) (x : A) :
  payroll.first p l = None -> p x = true ->
  payroll.first p (l ++ [x]) = Some (length l, x).
Proof.
  induction l as [|y l IH]; simpl; intros H Hx.
  - rewrite Hx. reflexivity.
  - destruct (p y); [discriminate|].
    destruct (payroll.first p l) as [[i z]|]; [discriminate|].
    rewrite IH by auto. reflexivity.
Qed.

Lemma first_Some_insert {A : Type} (p : A -> bool) (l : list A) (i : nat)
    (y x : A) :
  payroll.first p l = Some (i, y) -> p x = true ->
  payroll.first p (<[i := x]> l) = Some (i, x).
Proof.
  revert i. induction l as [|z l IH]; simpl; intros i H Hx; [discriminate|].
  destruct (p z) eqn:Ez.
  - injection H as <- <-. simpl. rewrite Hx. reflexivity.
  - destruct (payroll.first p l) as [[j w]|] eqn:Ef; [|discriminate].
    injection H as <- <-. simpl. rewrite Ez. rewrite (IH j) by auto. reflexivity.
Qed.

(** After the write the row of the key is the first one a read finds. *)
Lemma status_row_written month employee_id (table : list PayrollPaymentStatus.t)
    (row : PayrollPaymentStatus.t) :
  PayrollPaymentStatus.month row = month ->
  PayrollPaymentStatus.employee_id row = employee_id ->
  exists i,
    payroll.first (payroll.status_key month employee_id)
      match payroll.first (payroll.status_key month employee_id) table with
      | Some (i, _) => <[i := row]> table
      | None => table ++ [row]
      end
    = Some (i, row).
Proof.
  intros Hm He.
  assert (Hkey : payroll.status_key month employee_id row = true).
  { unfold payroll.status_key. rewrite Hm, He, !String.eqb_refl. reflexivity. }
  destruct (payroll.first _ table) as [[i y]|] eqn:Ef.
  - exists i. eapply first_Some_insert; eassumption.
  - exists (length table). apply first_None_app; assumption.
Qed.

Lemma get_payment_status_found month employee_id db i row :
  payroll.first (payroll.status_key month employee_id) (payment_status db)
  = Some (i, row) ->
  request (payroll.get_payment_status month employee_id) db = (db, Ok row).
Proof.
  intros Hf. unfold request, payroll.get_payment_status, bindM, query, ret.
  cbn [pending committed]. rewrite Hf. reflexivity.
Qed.

Section PaymentStatus.
Context (float_of_str : string -> option Qc).


End PaymentStatus.


(** ** Sheet entries (claim C9) *)

Lemma first_Some_inv {A : Type} (p : A -> bool) (l : list A) (i : nat) (y : A) :
  payroll.first p l = Some (i, y) -> l !! i = Some y /\ p y = true.
Proof.
  revert i. induction l as [|z l IH]; simpl; intros i H; [discriminate|].
  destruct (p z) eqn:Ez.
  - injection H as <- <-. auto.
  - destruct (payroll.first p l) as [[j w]|]; [|discriminate].
    injection H as <- <-. apply (IH j). reflexivity.
Qed.

Lemma first_app_other {A : Type} (p : A -> bool) (l : list A) (x : A) :
  p x = false ->
  snd <$> payroll.first p (l ++ [x]) = snd <$> payroll.first p l.
Proof.
  intros Hx. induction l as [|z l IH]; simpl.
  - rewrite Hx. reflexivity.
  - destruct (p z); [reflexivity|].
    destruct (payroll.first p (l ++ [x])) as [[i a]|],
             (payroll.first p l) as [[j b]|]; simpl in *; congruence.
Qed.

Lemma first_insert_other {A : Type} (p : A -> bool) (l : list A) (i : nat)
    (x y : A) :
  l !! i = Some y -> p y = false -> p x = false ->
  snd <$> payroll.first p (<[i := x]> l) = snd <$> payroll.first p l.
Proof.
  revert i. induction l as [|z l IH]; intros i Hi Hy Hx; [reflexivity|].
  destruct i as [|i]; simpl in Hi.
  - injection Hi as ->. simpl. rewrite Hx, Hy. reflexivity.
  - simpl. destruct (p z); [reflexivity|].
    specialize (IH i Hi Hy Hx).
    destruct (payroll.first p (<[i := x]> l)) as [[j a]|],
             (payroll.first p l) as [[k b]|]; simpl in *; congruence.
Qed.

Lemma first_ext {A : Type} (p q : A -> bool) (l : list A) :
  (forall x, p x = q x) -> payroll.first p l = payroll.first q l.
Proof.
  intros H. induction l as [|z l IH]; simpl; [reflexivity|].
  rewrite H, IH. reflexivity.
Qed.

Lemma sheet_key_row_of id s2 e2 start end_ e :
  payroll.sheet_key id s2 e2 (payroll.sheet_row_of start end_ e) = true ->
  id = payroll.PayrollSheetEntryUpsert.employee_db_id e /\ s2 = start /\ e2 = end_.
Proof.
  unfold payroll.sheet_key, payroll.sheet_row_of. simpl. intros H.
  apply andb_prop in H as [H H3]. apply andb_prop in H as [H1 H2].
  apply Z.eqb_eq in H1, H2, H3. auto.
Qed.

Lemma sheet_key_fields id start end_ (y : PayrollSheetEntry.t) :
  payroll.sheet_key id start end_ y = true ->
  PayrollSheetEntry.employee_db_id y = id
  /\ PayrollSheetEntry.from_date y = start
  /\ PayrollSheetEntry.to_date y = end_.
Proof.
  unfold payroll.sheet_key. intros H.
  apply andb_prop in H as [H H3]. apply andb_prop in H as [H1 H2].
  apply Z.eqb_eq in H1, H2, H3. auto.
Qed.

Lemma sheet_key_same_fields id s2 e2 (x y : PayrollSheetEntry.t) :
  PayrollSheetEntry.employee_db_id x = PayrollSheetEntry.employee_db_id y ->
  PayrollSheetEntry.from_date x = PayrollSheetEntry.from_date y ->
  PayrollSheetEntry.to_date x = PayrollSheetEntry.to_date y ->
  payroll.sheet_key id s2 e2 x = payroll.sheet_key id s2 e2 y.
Proof. unfold payroll.sheet_key. intros -> -> ->. reflexivity. Qed.

(** One entry: the row of its key becomes the row of the entry, the row of
    any other key stays. *)
Lemma write_entry_lookup start end_ table e id s2 e2 :
  snd <$> payroll.first (payroll.sheet_key id s2 e2) (write_entry start end_ table e)
  = if payroll.sheet_key id s2 e2 (payroll.sheet_row_of start end_ e)
    then Some (payroll.sheet_row_of start end_ e)
    else snd <$> payroll.first (payroll.sheet_key id s2 e2) table.
Proof.
  unfold write_entry.
  destruct (payroll.sheet_key id s2 e2 (payroll.sheet_row_of start end_ e)) eqn:Ek.
  - destruct (sheet_key_row_of _ _ _ _ _ _ Ek) as (-> & -> & ->).
    destruct (payroll.first _ table) as [[i y]|] eqn:Ef.
    + erewrite first_Some_insert; [reflexivity | exact Ef | exact Ek].
    + rewrite first_None_app; [reflexivity | exact Ef | exact Ek].
  - destruct (payroll.first
                (payroll.sheet_key
                   (payroll.PayrollSheetEntryUpsert.employee_db_id e) start end_)
                table) as [[i y]|] eqn:Ef.
    + apply first_Some_inv in Ef as [Hi Hy].
      apply first_insert_other with (y := y); [exact Hi | | exact Ek].
      apply sheet_key_fields in Hy as (H1 & H2 & H3).
      rewrite <- Ek. apply sheet_key_same_fields; assumption.
    + apply first_app_other. exact Ek.
Qed.

(** A batch of matching entries, one after the other. *)
Lemma fold_write_lookup start end_ entries table id s2 e2 :
  snd <$> payroll.first (payroll.sheet_key id s2 e2)
            (fold_left (write_entry start end_) entries table)
  = if (s2 =? start) && (e2 =? end_) then
      match last_entry_for id entries with
      | Some e => Some (payroll.sheet_row_of start end_ e)
      | None => snd <$> payroll.first (payroll.sheet_key id s2 e2) table
      end
    else snd <$> payroll.first (payroll.sheet_key id s2 e2) table.
Proof.
  induction entries as [|e entries IH] using rev_ind.
  - simpl. destruct ((s2 =? start) && (e2 =? end_)); reflexivity.
  - rewrite fold_left_app. simpl. rewrite write_entry_lookup, IH.
    unfold last_entry_for. rewrite rev_app_distr. simpl.
    unfold payroll.sheet_key at 1, payroll.sheet_row_of at 1. simpl.
    rewrite (Z.eqb_sym start s2), (Z.eqb_sym end_ e2).
    destruct (payroll.PayrollSheetEntryUpsert.employee_db_id e =? id);
      destruct (s2 =? start); destruct (e2 =? end_); reflexivity.
Qed.

Lemma period_matches_dec start end_ e :
  {period_matches start end_ e} + {~ period_matches start end_ e}.
Proof.
  unfold period_matches.
  destruct (Z.eq_dec (payroll.PayrollSheetEntryUpsert.from_date e) start);
    destruct (Z.eq_dec (payroll.PayrollSheetEntryUpsert.to_date e) end_);
    [left | right | right | right]; tauto.
Qed.

Lemma upsert_entry_match start end_ e s :
  period_matches start end_ e ->
  exists i,
    payroll.upsert_entry start end_ e s
    = (mkSession (committed s)
         (set_sheet_entries (pending s)
            (write_entry start end_ (sheet_entries (pending s)) e)),
       Ok i).
Proof.
  intros [Hf Ht]. unfold payroll.upsert_entry, write_entry.
  rewrite Hf, Ht, !Z.eqb_refl. simpl.
  unfold bindM, query, set_pending, ret. cbn [pending committed].
  destruct (payroll.first _ (sheet_entries (pending s))) as [[i y]|]; eauto.
Qed.

Lemma upsert_entry_mismatch start end_ e s :
  ~ period_matches start end_ e ->
  payroll.upsert_entry start end_ e s = (s, Raise mismatch_response).
Proof.
  intros Hn. unfold payroll.upsert_entry.
  destruct (payroll.PayrollSheetEntryUpsert.from_date e =? start) eqn:Ef;
    [|reflexivity].
  destruct (payroll.PayrollSheetEntryUpsert.to_date e =? end_) eqn:Et;
    [|reflexivity].
  apply Z.eqb_eq in Ef, Et. exfalso. apply Hn. split; assumption.
Qed.

Lemma set_sheet_entries_twice db t t' :
  set_sheet_entries (set_sheet_entries db t) t' = set_sheet_entries db t'.
Proof. reflexivity. Qed.

Lemma set_sheet_entries_same db : set_sheet_entries db (sheet_entries db) = db.
Proof. destruct db. reflexivity. Qed.

Lemma for_each_all_match start end_ entries s :
  Forall (period_matches start end_) entries ->
  exists out,
    payroll.for_each (payroll.upsert_entry start end_) entries s
    = (mkSession (committed s)
         (set_sheet_entries (pending s)
            (fold_left (write_entry start end_) entries
               (sheet_entries (pending s)))),
       Ok out).
Proof.
  intros Hall. revert s.
  induction Hall as [|e entries He _ IH]; intros s.
  - exists []. simpl. unfold ret. rewrite set_sheet_entries_same.
    destruct s. reflexivity.
  - destruct (upsert_entry_match start end_ e s He) as [i Hi].
    set (s1 := mkSession (committed s)
                 (set_sheet_entries (pending s)
                    (write_entry start end_ (sheet_entries (pending s)) e))) in *.
    destruct (IH s1) as [out Hout].
    exists (i :: out). simpl. unfold bindM at 1. rewrite Hi.
    unfold bindM at 1. rewrite Hout. unfold ret. subst s1. simpl. reflexivity.
Qed.

Lemma for_each_mismatch start end_ entries s :
  Exists (fun e => ~ period_matches start end_ e) entries ->
  exists s',
    payroll.for_each (payroll.upsert_entry start end_) entries s
    = (s', Raise mismatch_response)
    /\ committed s' = committed s.
Proof.
  intros Hex. revert s.
  induction Hex as [e entries He|e entries _ IH]; intros s.
  - exists s. simpl. unfold bindM at 1.
    rewrite upsert_entry_mismatch by exact He. auto.
  - destruct (period_matches_dec start end_ e) as [Hm|Hn].
    + destruct (upsert_entry_match start end_ e s Hm) as [i Hi].
      set (s1 := mkSession (committed s)
                   (set_sheet_entries (pending s)
                      (write_entry start end_ (sheet_entries (pending s)) e))) in *.
      destruct (IH s1) as (s' & Hs' & Hc).
      exists s'. simpl. unfold bindM at 1. rewrite Hi.
      unfold bindM at 1. rewrite Hs'. split; [reflexivity | exact Hc].
    + exists s. simpl. unfold bindM at 1.
      rewrite upsert_entry_mismatch by exact Hn. auto.
Qed.

Lemma sheet_row_of_holds_entry start end_ e :
  holds_entry start end_ e (payroll.sheet_row_of start end_ e).
Proof. unfold holds_entry, payroll.sheet_row_of. simpl. repeat split. Qed.

(** C9, as the code has it. A batch declared with from_date after to_date
    is answered 400 "from_date must be <= to_date" before any entry is
    looked at, and the store is what it was. With from <= to: if an entry
    of the batch names another period the request is answered 400 "entry
    period must match payload from/to" and the store is what it was,
    whatever entries came before; otherwise the request succeeds, only the
    sheet entries change, the row of (employee id, from, to) holds, column
    by column, the last entry of the batch for that employee (the key, the
    two day overrides, the leave-encashment days and the four amounts with
    0 for a missing value, the remarks and the bank/cash label) whether
    there was such a row before or not, and the rows of all other keys are
    what they were. *)
Theorem C9_bulk_upsert_is_all_or_nothing db payload :
  let start := payroll.PayrollSheetEntryBulkUpsert.from_date payload in
  let end_ := payroll.PayrollSheetEntryBulkUpsert.to_date payload in
  let entries := payroll.PayrollSheetEntryBulkUpsert.entries payload in
  (end_ < start ->
   request (payroll.bulk_upsert_payroll_sheet_entries payload) db
   = (db, Raise invalid_range_response))
  /\ (start <= end_ ->
      Exists (fun e => ~ period_matches start end_ e) entries ->
      request (payroll.bulk_upsert_payroll_sheet_entries payload) db
      = (db, Raise mismatch_response))
  /\ (start <= end_ ->
      Forall (period_matches start end_) entries ->
      exists db' rows,
        request (payroll.bulk_upsert_payroll_sheet_entries payload) db
        = (db', Ok rows)
        /\ same_but_sheet_entries db db'
        /\ (forall id e,
              last_entry_for id entries = Some e ->
              exists r,
                sheet_row db' id start end_ = Some r
                /\ holds_entry start end_ e r)
        /\ (forall id s2 e2,
              last_entry_for id entries = None \/ s2 <> start \/ e2 <> end_ ->
              sheet_row db' id s2 e2 = sheet_row db id s2 e2)).
Proof.
  intros start end_ entries. split; [|split].
  - intros Hlt. apply Z.ltb_lt in Hlt.
    unfold request, payroll.bulk_upsert_payroll_sheet_entries.
    fold start end_. rewrite Hlt. reflexivity.
  - intros Hle Hex.
    assert (Hlt : (end_ <? start) = false) by (apply Z.ltb_ge; exact Hle).
    unfold request, payroll.bulk_upsert_payroll_sheet_entries.
    fold start end_ entries. rewrite Hlt.
    destruct (for_each_mismatch start end_ entries (mkSession db db) Hex)
      as (s' & Hs' & Hc).
    unfold bindM at 1. rewrite Hs'. rewrite Hc. reflexivity.
  - intros Hle Hall.
    assert (Hlt : (end_ <? start) = false) by (apply Z.ltb_ge; exact Hle).
    destruct (for_each_all_match start end_ entries (mkSession db db) Hall)
      as [out Hout].
    eexists _, _. split.
    + unfold request, payroll.bulk_upsert_payroll_sheet_entries.
      fold start end_ entries. rewrite Hlt.
      unfold bindM at 1. rewrite Hout.
      unfold bindM, commit, query, ret. cbn [pending committed]. reflexivity.
    + unfold sheet_row. cbn [pending committed sheet_entries set_sheet_entries].
      split; [|split].
      * unfold same_but_sheet_entries. repeat split.
      * intros id e Hlast. rewrite fold_write_lookup, !Z.eqb_refl, Hlast.
        eexists. split; [reflexivity|]. apply sheet_row_of_holds_entry.
      * intros id s2 e2 H. rewrite fold_write_lookup.
        destruct H as [H|[H|H]].
        -- rewrite H. destruct ((s2 =? start) && (e2 =? end_)); reflexivity.
        -- apply Z.eqb_neq in H. rewrite H. reflexivity.
        -- apply Z.eqb_neq in H. rewrite H, andb_false_r. reflexivity.
Qed.

Lemma C9_bulk_upsert_is_all_or_nothing_witness :
  request (payroll.bulk_upsert_payroll_sheet_entries Example.batch_reversed)
    Example.store
  = (Example.store, Raise invalid_range_response)
  /\ request (payroll.bulk_upsert_payroll_sheet_entries Example.batch_off_period)
       Example.store
     = (Example.store, Raise mismatch_response)
  /\ PayrollSheetEntry.eobi <$> sheet_row Example.store 1 Example.jan1 Example.jan31
     = Some (Some (float_of_int 200))
  /\ sheet_row Example.store 2 Example.jan1 Example.jan31 = None
  /\ exists db' rows r1 r2,
       request (payroll.bulk_upsert_payroll_sheet_entries Example.batch)
         Example.store
       = (db', Ok rows)
       /\ sheet_row db' 1 Example.jan1 Example.jan31 = Some r1
       /\ holds_entry Example.jan1 Example.jan31
            (Example.entry 1 Example.jan1 Example.jan31 50) r1
       /\ (PayrollSheetEntry.pre_days_override r1,
           PayrollSheetEntry.cur_days_override r1,
           PayrollSheetEntry.leave_encashment_days r1,
           PayrollSheetEntry.allow_other r1, PayrollSheetEntry.eobi r1,
           PayrollSheetEntry.remarks r1)
          = (Some 2, None, Some 1, Some 0%Qc, Some (float_of_int 50),
             Some "signed")
       /\ sheet_row db' 2 Example.jan1 Example.jan31 = Some r2
       /\ holds_entry Example.jan1 Example.jan31
            (Example.entry 2 Example.jan1 Example.jan31 60) r2.
Proof.
  assert (Hle : Example.jan1 <= Example.jan31) by (vm_compute; discriminate).
  split; [|split; [|split; [|split]]].
  - apply (C9_bulk_upsert_is_all_or_nothing Example.store Example.batch_reversed).
    vm_compute. reflexivity.
  - apply (C9_bulk_upsert_is_all_or_nothing Example.store
             Example.batch_off_period); [exact Hle|].
    apply Exists_cons_tl, Exists_cons_hd. intros [_ H].
    vm_compute in H. discriminate H.
  - reflexivity.
  - reflexivity.
  - destruct (proj2 (proj2 (C9_bulk_upsert_is_all_or_nothing Example.store
                              Example.batch)) Hle)
      as (db' & rows & Hreq & _ & Hrow & _).
    + repeat constructor.
    + destruct (Hrow 1 _ eq_refl) as (r1 & Hr1 & Hh1).
      destruct (Hrow 2 _ eq_refl) as (r2 & Hr2 & Hh2).
      exists db', rows, r1, r2.
      split; [exact Hreq|]. split; [exact Hr1|]. split; [exact Hh1|].
      split; [|split; [exact Hr2 | exact Hh2]].
      destruct Hh1 as (_ & _ & _ & -> & -> & -> & -> & -> & _ & _ & -> & _).
      reflexivity.
Defined.

(** The claim C9 fails for a batch declared from 31 January to 1 January:
    the period of its one entry is the declared one, and the request is
    answered 400 "from_date must be <= to_date" without a row being
    written. *)
Lemma C9_counterexample :
  Forall (period_matches Example.jan31 Example.jan1)
    (payroll.PayrollSheetEntryBulkUpsert.entries Example.batch_reversed)
  /\ payroll.PayrollSheetEntryBulkUpsert.from_date Example.batch_reversed
     = Example.jan31
  /\ payroll.PayrollSheetEntryBulkUpsert.to_date Example.batch_reversed
     = Example.jan1
  /\ request (payroll.bulk_upsert_payroll_sheet_entries Example.batch_reversed)
       Example.idle_store
     = (Example.idle_store, Raise (HTTPException 400 "from_date must be <= to_date"))
  /\ sheet_row Example.idle_store 1 Example.jan31 Example.jan1 = None.
Proof.
  split; [repeat constructor|]. repeat split.
Qed.

(** ** Overtime minutes without a rate *)

Lemma idle_overtime_same a a' :
  idle_overtime a a' -> without_idle_minutes a' = without_idle_minutes a.
Proof.
  intros [->|[Hr [m ->]]]; [reflexivity|].
  unfold without_idle_minutes. simpl. rewrite Hr. reflexivity.
Qed.

Lemma idle_overtime_map att att' :
  Forall2 idle_overtime att att' ->
  map without_idle_minutes att' = map without_idle_minutes att.
Proof.
  induction 1 as [|a a' l l' Ha _ IH]; simpl; [reflexivity|].
  rewrite (idle_overtime_same _ _ Ha), IH. reflexivity.
Qed.

(** The accruals do not tell a record from the one without idle minutes. *)
Lemma accrue_overtime_idle a x :
  accrue_overtime (without_idle_minutes a) x = accrue_overtime a x.
Proof.
  unfold without_idle_minutes.
  destruct (Py.truthy_float (AttendanceRecord.overtime_rate a)) eqn:Er;
    [reflexivity|].
  unfold accrue_overtime. simpl. rewrite Er, andb_false_r. reflexivity.
Qed.

Lemma idle_fields a :
  let a' := without_idle_minutes a in
  AttendanceRecord.employee_id a' = AttendanceRecord.employee_id a
  /\ AttendanceRecord.date a' = AttendanceRecord.date a
  /\ AttendanceRecord.status a' = AttendanceRecord.status a
  /\ AttendanceRecord.leave_type a' = AttendanceRecord.leave_type a
  /\ AttendanceRecord.overtime_rate a' = AttendanceRecord.overtime_rate a
  /\ AttendanceRecord.late_minutes a' = AttendanceRecord.late_minutes a
  /\ AttendanceRecord.late_deduction a' = AttendanceRecord.late_deduction a
  /\ AttendanceRecord.fine_amount a' = AttendanceRecord.fine_amount a.
Proof.
  unfold without_idle_minutes.
  destruct (Py.truthy_float (AttendanceRecord.overtime_rate a));
    repeat split; reflexivity.
Qed.

Lemma track_overtime_rate_idle a x :
  track_overtime_rate (without_idle_minutes a) x = track_overtime_rate a x.
Proof.
  destruct (idle_fields a) as (_ & _ & _ & _ & Hr & _).
  unfold track_overtime_rate. rewrite Hr. reflexivity.
Qed.

Lemma accrue_late_idle a x :
  accrue_late (without_idle_minutes a) x = accrue_late a x.
Proof.
  destruct (idle_fields a) as (_ & _ & _ & _ & _ & Hm & Hd & _).
  unfold accrue_late. rewrite Hm, Hd. reflexivity.
Qed.

Lemma accrue_fine_idle a x :
  accrue_fine (without_idle_minutes a) x = accrue_fine a x.
Proof.
  destruct (idle_fields a) as (_ & _ & _ & _ & _ & _ & _ & Hf).
  unfold accrue_fine. rewrite Hf. reflexivity.
Qed.

Lemma report_step_idle x a :
  payroll.report_step x (without_idle_minutes a) = payroll.report_step x a.
Proof.
  destruct (idle_fields a) as (_ & _ & Hs & Hl & _).
  unfold payroll.report_step.
  rewrite Hs, Hl, accrue_late_idle, track_overtime_rate_idle, accrue_overtime_idle.
  reflexivity.
Qed.

Lemma report_loop_idle (l : list AttendanceRecord.t) x :
  fold_left payroll.report_step (map without_idle_minutes l) x
  = fold_left payroll.report_step l x.
Proof.
  revert x. induction l as [|a l IH]; intros x; simpl; [reflexivity|].
  rewrite report_step_idle. apply IH.
Qed.

Lemma filter_map_idle (p : AttendanceRecord.t -> bool)
    (l : list AttendanceRecord.t) :
  (forall a, p (without_idle_minutes a) = p a) ->
  List.filter p (map without_idle_minutes l)
  = map without_idle_minutes (List.filter p l).
Proof.
  intros Hp. induction l as [|a l IH]; simpl; [reflexivity|].
  rewrite Hp. destruct (p a); simpl; rewrite IH; reflexivity.
Qed.

Lemma in_period_idle start end_ a :
  payroll.in_period start end_ (without_idle_minutes a)
  = payroll.in_period start end_ a.
Proof.
  destruct (idle_fields a) as (_ & Hd & _).
  unfold payroll.in_period. rewrite Hd. reflexivity.
Qed.

Lemma set_attendance_twice db t t' :
  set_attendance (set_attendance db t) t' = set_attendance db t'.
Proof. reflexivity. Qed.

Lemma set_attendance_same db : set_attendance db (attendance db) = db.
Proof. destruct db. reflexivity. Qed.

Section IdleOvertime.
Context (float_of_str : string -> option Qc).

Lemma payroll_report_idle month db :
  payroll.payroll_report float_of_str month
    (set_attendance db (map without_idle_minutes (attendance db)))
  = payroll.payroll_report float_of_str month db.
Proof.
  unfold payroll.payroll_report.
  destruct (payroll._parse_month month) as [[start end_]|]; [|reflexivity].
  simpl.
  assert (Hrows :
    forall l,
      map (payroll.report_row float_of_str month
             (set_attendance db (map without_idle_minutes (attendance db)))
             (group_by AttendanceRecord.employee_id
                (List.filter (payroll.in_period start end_)
                   (map without_idle_minutes (attendance db))))) l
      = map (payroll.report_row float_of_str month db
               (group_by AttendanceRecord.employee_id
                  (List.filter (payroll.in_period start end_) (attendance db)))) l).
  { intros l. apply map_ext. intros e. unfold payroll.report_row.
    rewrite !group_by_lookup.
    rewrite (filter_map_idle _ _ (in_period_idle start end_)).
    rewrite filter_map_idle, report_loop_idle; [reflexivity|].
    intros a. destruct (idle_fields a) as (-> & _). reflexivity. }
  rewrite Hrows. reflexivity.
Qed.

End IdleOvertime.

(** The day index holds, for an employee and a day, the last record of
    that employee and day. *)
Lemma find_app {A : Type} (p : A -> bool) (l1 l2 : list A) :
  List.find p (l1 ++ l2)
  = match List.find p l1 with
    | Some x => Some x
    | None => List.find p l2
    end.
Proof.
  induction l1 as [|x l1 IH]; simpl; [reflexivity|].
  destruct (p x); [reflexivity | exact IH].
Qed.

Lemma index_by2_fold `{Countable K1} `{Countable K2} {A : Type}
    (key1 : A -> K1) (key2 : A -> K2) (k : K1) (d : K2) (l : list A)
    (m : gmap K1 (gmap K2 A)) :
  default ∅
    (fold_left
       (fun m r => <[key1 r := <[key2 r := r]> (default ∅ (m !! key1 r))]> m)
       l m !! k) !! d
  = match List.find (fun r => bool_decide (key1 r = k) && bool_decide (key2 r = d))
            (rev l) with
    | Some r => Some r
    | None => default ∅ (m !! k) !! d
    end.
Proof.
  revert m. induction l as [|r l IH]; intros m; simpl; [reflexivity|].
  rewrite IH, find_app. simpl.
  destruct (List.find _ (rev l)) as [x|]; [reflexivity|].
  destruct (decide (key1 r = k)) as [Hk|Hk].
  - rewrite (bool_decide_eq_true_2 _ Hk). subst k.
    rewrite lookup_insert_eq. simpl.
    destruct (decide (key2 r = d)) as [Hd|Hd].
    + rewrite (bool_decide_eq_true_2 _ Hd). subst d.
      rewrite lookup_insert_eq. reflexivity.
    + rewrite (bool_decide_eq_false_2 _ Hd).
      rewrite lookup_insert_ne by exact Hd. reflexivity.
  - rewrite (bool_decide_eq_false_2 _ Hk). simpl.
    rewrite lookup_insert_ne by exact Hk. reflexivity.
Qed.

Lemma find_map_idle (p : AttendanceRecord.t -> bool)
    (l : list AttendanceRecord.t) :
  (forall a, p (without_idle_minutes a) = p a) ->
  List.find p (map without_idle_minutes l)
  = without_idle_minutes <$> List.find p l.
Proof.
  intros Hp. induction l as [|a l IH]; simpl; [reflexivity|].
  rewrite Hp. destruct (p a); [reflexivity | exact IH].
Qed.

Lemma day_index_idle (l : list AttendanceRecord.t) (k : string) (d : Z) :
  default ∅
    (index_by2 (fun r => Py.strip (AttendanceRecord.employee_id r))
       AttendanceRecord.date (map without_idle_minutes l) !! k) !! d
  = without_idle_minutes <$>
      (default ∅
         (index_by2 (fun r => Py.strip (AttendanceRecord.employee_id r))
            AttendanceRecord.date l !! k) !! d).
Proof.
  unfold index_by2. rewrite !index_by2_fold, lookup_empty. simpl.
  rewrite lookup_empty, <- map_rev, find_map_idle.
  - destruct (List.find _ (rev l)); reflexivity.
  - intros a. destruct (idle_fields a) as (-> & -> & _). reflexivity.
Qed.

Lemma day_walk_ext {S : Type} (body body' : date -> S -> S) (end_ : date) :
  (forall d x, body d x = body' d x) ->
  forall (n : nat) (dcur : date) (acc : S),
    Z.to_nat (end_ - dcur + 1) = n ->
    day_walk body end_ dcur acc = day_walk body' end_ dcur acc.
Proof.
  intros Hb n. induction n as [|n IH]; intros dcur acc Hn;
    rewrite (day_walk_step body), (day_walk_step body').
  - destruct (dcur <=? end_) eqn:E; [apply Z.leb_le in E; lia | reflexivity].
  - destruct (dcur <=? end_) eqn:E; [|reflexivity].
    destruct (Date.add_days dcur 1) as [dnext|] eqn:Hadd; [|reflexivity].
    apply add_days_1 in Hadd. subst dnext. rewrite Hb. apply IH. lia.
Qed.

Lemma payroll_range_body_idle (days days' : gmap Z AttendanceRecord.t) d x :
  days' !! d = without_idle_minutes <$> (days !! d) ->
  payroll.range_body days' d x = payroll.range_body days d x.
Proof.
  intros Hd. unfold payroll.range_body. rewrite Hd.
  destruct (days !! d) as [a|]; simpl; [|reflexivity].
  destruct (idle_fields a) as (_ & _ & Hs & Hl & _).
  rewrite Hs, Hl, accrue_fine_idle, accrue_late_idle, track_overtime_rate_idle,
    accrue_overtime_idle.
  reflexivity.
Qed.

Lemma payroll2_range_body_idle (days days' : gmap Z AttendanceRecord.t) d x :
  days' !! d = without_idle_minutes <$> (days !! d) ->
  payroll2.range_body days' d x = payroll2.range_body days d x.
Proof.
  intros Hd. unfold payroll2.range_body. rewrite Hd.
  destruct (days !! d) as [a|]; simpl; [|reflexivity].
  destruct (idle_fields a) as (_ & _ & Hs & Hl & _).
  rewrite Hs, Hl, accrue_fine_idle, accrue_late_idle, track_overtime_rate_idle,
    accrue_overtime_idle.
  reflexivity.
Qed.

Section IdleOvertimeRange.
Context (float_of_str : string -> option Qc).

Lemma payroll_range_rows_idle month_label start end_ db l employees :
  payroll.range_rows float_of_str month_label start end_
    (set_attendance db (map without_idle_minutes (attendance db)))
    (payroll.by_emp_by_date (map without_idle_minutes l)) employees
  = payroll.range_rows float_of_str month_label start end_ db
      (payroll.by_emp_by_date l) employees.
Proof.
  induction employees as [|e rest IH]; simpl; [reflexivity|].
  rewrite IH.
  rewrite (day_walk_ext _
             (payroll.range_body
                (default ∅ (payroll.by_emp_by_date l !! payroll.range_employee_id e)))
             end_) with (n := Z.to_nat (end_ - start + 1)); [reflexivity | | reflexivity].
  intros d x. apply payroll_range_body_idle. apply day_index_idle.
Qed.

Lemma payroll2_range_rows_idle month_label start end_ db l employees :
  payroll2.range_rows float_of_str month_label start end_
    (set_attendance db (map without_idle_minutes (attendance db)))
    (payroll2.by_emp_by_date (map without_idle_minutes l)) employees
  = payroll2.range_rows float_of_str month_label start end_ db
      (payroll2.by_emp_by_date l) employees.
Proof.
  induction employees as [|e rest IH]; simpl; [reflexivity|].
  rewrite IH.
  rewrite (day_walk_ext _
             (payroll2.range_body
                (default ∅ (payroll2.by_emp_by_date l !! payroll2.employee_id_of e)))
             end_) with (n := Z.to_nat (end_ - start + 1)); [reflexivity | | reflexivity].
  intros d x. apply payroll2_range_body_idle. apply day_index_idle.
Qed.

Lemma payroll_range_report_idle from_date to_date month db :
  payroll.payroll_range_report float_of_str from_date to_date month
    (set_attendance db (map without_idle_minutes (attendance db)))
  = payroll.payroll_range_report float_of_str from_date to_date month db.
Proof.
  unfold payroll.payroll_range_report.
  destruct (payroll._parse_date from_date _) as [start|]; [|reflexivity].
  destruct (payroll._parse_date to_date _) as [end_|]; [|reflexivity].
  simpl. destruct (end_ <? start); [reflexivity|].
  rewrite (filter_map_idle _ _ (in_period_idle start end_)).
  rewrite payroll_range_rows_idle. reflexivity.
Qed.

Lemma payroll2_range_report_idle from_date to_date month db :
  payroll2.payroll2_range_report float_of_str from_date to_date month
    (set_attendance db (map without_idle_minutes (attendance db)))
  = payroll2.payroll2_range_report float_of_str from_date to_date month db.
Proof.
  unfold payroll2.payroll2_range_report.
  destruct (payroll2._parse_date from_date _) as [start|]; [|reflexivity].
  destruct (payroll2._parse_date to_date _) as [end_|]; [|reflexivity].
  simpl. destruct (end_ <? start); [reflexivity|].
  rewrite (filter_map_idle _ _ (in_period_idle start end_)).
  rewrite payroll2_range_rows_idle. reflexivity.
Qed.

End IdleOvertimeRange.

(** ** Day overrides do not reach the pay (the second half of claim C6) *)

Lemma dict_of_fold `{Countable K} {A V : Type} (key : A -> K) (value : A -> V)
    (k : K) (l : list A) (m : gmap K V) :
  fold_left (fun m r => <[key r := value r]> m) l m !! k
  = match List.find (fun r => bool_decide (key r = k)) (rev l) with
    | Some r => Some (value r)
    | None => m !! k
    end.
Proof.
  revert m. induction l as [|r l IH]; intros m; simpl; [reflexivity|].
  rewrite IH, find_app. simpl.
  destruct (List.find _ (rev l)); [reflexivity|].
  destruct (decide (key r = k)) as [Hk|Hk].
  - rewrite (bool_decide_eq_true_2 _ Hk). subst k. apply lookup_insert_eq.
  - rewrite (bool_decide_eq_false_2 _ Hk). apply lookup_insert_ne, Hk.
Qed.

Lemma dict_of_lookup `{Countable K} {A V : Type} (key : A -> K) (value : A -> V)
    (k : K) (l : list A) :
  dict_of key value l !! k
  = value <$> List.find (fun r => bool_decide (key r = k)) (rev l).
Proof.
  unfold dict_of. rewrite dict_of_fold, lookup_empty.
  destruct (List.find _ (rev l)); reflexivity.
Qed.

Section Related.
Context {A : Type} (R : A -> A -> Prop) (p : A -> bool).
Hypothesis p_related : forall a b, R a b -> p a = p b.

Lemma filter_related (l l' : list A) :
  Forall2 R l l' -> Forall2 R (List.filter p l) (List.filter p l').
Proof.
  induction 1 as [|a b l l' Hab _ IH]; simpl; [constructor|].
  rewrite (p_related a b Hab). destruct (p b); [constructor|]; assumption.
Qed.

Lemma find_related (l l' : list A) :
  Forall2 R l l' -> option_Forall2 R (List.find p l) (List.find p l').
Proof.
  induction 1 as [|a b l l' Hab _ IH]; simpl; [constructor|].
  rewrite (p_related a b Hab). destruct (p b); [constructor|]; assumption.
Qed.

End Related.

Lemma rev_related {A : Type} (R : A -> A -> Prop) (l l' : list A) :
  Forall2 R l l' -> Forall2 R (rev l) (rev l').
Proof.
  induction 1 as [|a b l l' Hab _ IH]; simpl; [constructor|].
  apply Forall2_app; [exact IH | repeat constructor; exact Hab].
Qed.

Lemma sheet_lookup_related start end_ db sheets' id :
  Forall2 same_but_day_overrides (sheet_entries db) sheets' ->
  option_Forall2 same_but_day_overrides
    (payroll.sheet_by_emp_db_id start end_ db !! id)
    (payroll.sheet_by_emp_db_id start end_ (set_sheet_entries db sheets') !! id).
Proof.
  intros Hrel. unfold payroll.sheet_by_emp_db_id.
  rewrite !dict_of_lookup. simpl.
  assert (Hfind :
    option_Forall2 same_but_day_overrides
      (List.find (fun r => bool_decide (PayrollSheetEntry.employee_db_id r = id))
         (rev (List.filter (payroll.sheet_in_period start end_) (sheet_entries db))))
      (List.find (fun r => bool_decide (PayrollSheetEntry.employee_db_id r = id))
         (rev (List.filter (payroll.sheet_in_period start end_) sheets')))).
  { apply find_related; [intros a b (pre & cur & ->); reflexivity|].
    apply rev_related, filter_related; [|exact Hrel].
    intros a b (pre & cur & ->). reflexivity. }
  destruct Hfind; constructor; assumption.
Qed.

Lemma sheet2_lookup_related start end_ db sheets' id :
  Forall2 same_but_day_overrides (sheet_entries db) sheets' ->
  option_Forall2 same_but_day_overrides
    (payroll2.sheet_by_emp_db_id start end_ db !! id)
    (payroll2.sheet_by_emp_db_id start end_ (set_sheet_entries db sheets') !! id).
Proof.
  intros Hrel. unfold payroll2.sheet_by_emp_db_id.
  rewrite !dict_of_lookup. simpl.
  match goal with
  | |- option_Forall2 _ (_ <$> List.find ?q (rev (List.filter ?p _))) _ =>
      assert (Hfind :
        option_Forall2 same_but_day_overrides
          (List.find q (rev (List.filter p (sheet_entries db))))
          (List.find q (rev (List.filter p sheets'))))
  end.
  { apply find_related; [intros a b (pre & cur & ->); reflexivity|].
    apply rev_related, filter_related; [|exact Hrel].
    intros a b (pre & cur & ->). reflexivity. }
  destruct Hfind; constructor; assumption.
Qed.

Section DayOverrides.
Context (float_of_str : string -> option Qc).

Lemma payroll_range_row_same_pay month_label start end_ db sheets' e x :
  Forall2 same_but_day_overrides (sheet_entries db) sheets' ->
  same_pay
    (payroll.range_row float_of_str month_label start end_ db e x)
    (payroll.range_row float_of_str month_label start end_
       (set_sheet_entries db sheets') e x).
Proof.
  intros Hrel.
  pose proof (sheet_lookup_related start end_ db sheets' (Employee2.id e) Hrel)
    as Hs.
  unfold same_pay, payroll.range_row.
  cbn [payroll.RangeRow.total_days payroll.RangeRow.total_salary
       payroll.RangeRow.gross_pay payroll.RangeRow.net_pay].
  replace (payroll.advance_ded_by_emp_db_id month_label
             (set_sheet_entries db sheets'))
    with (payroll.advance_ded_by_emp_db_id month_label db) by reflexivity.
  destruct Hs as [s s' (pre & cur & ->)|]; repeat split; reflexivity.
Qed.

Lemma payroll2_range_row_same_pay month_label start end_ db sheets' e x :
  Forall2 same_but_day_overrides (sheet_entries db) sheets' ->
  same_pay2
    (payroll2.range_row float_of_str month_label start end_ db e x)
    (payroll2.range_row float_of_str month_label start end_
       (set_sheet_entries db sheets') e x).
Proof.
  intros Hrel.
  pose proof (sheet2_lookup_related start end_ db sheets' (Employee2.id e) Hrel)
    as Hs.
  unfold same_pay2, payroll2.range_row.
  cbn [payroll2.Row.total_days payroll2.Row.total_salary
       payroll2.Row.gross_pay payroll2.Row.net_pay].
  replace (payroll2.advance_ded_by_emp_db_id month_label
             (set_sheet_entries db sheets'))
    with (payroll2.advance_ded_by_emp_db_id month_label db) by reflexivity.
  destruct Hs as [s s' (pre & cur & ->)|]; repeat split; reflexivity.
Qed.

Lemma payroll_range_rows_same_pay month_label start end_ db sheets' index employees :
  Forall2 same_but_day_overrides (sheet_entries db) sheets' ->
  same_outcome (Forall2 same_pay)
    (payroll.range_rows float_of_str month_label start end_ db index employees)
    (payroll.range_rows float_of_str month_label start end_
       (set_sheet_entries db sheets') index employees).
Proof.
  intros Hrel. induction employees as [|e rest IH]; simpl; [constructor|].
  destruct (day_walk _ end_ start Tally.zero) as [x|err]; simpl; [|reflexivity].
  destruct (payroll.range_rows _ _ _ _ db index rest) as [rows|err],
           (payroll.range_rows _ _ _ _ (set_sheet_entries db sheets') index rest)
             as [rows'|err']; simpl in *; try contradiction; [|exact IH].
  constructor; [|exact IH]. apply payroll_range_row_same_pay, Hrel.
Qed.

Lemma payroll2_range_rows_same_pay month_label start end_ db sheets' index employees :
  Forall2 same_but_day_overrides (sheet_entries db) sheets' ->
  same_outcome (Forall2 same_pay2)
    (payroll2.range_rows float_of_str month_label start end_ db index employees)
    (payroll2.range_rows float_of_str month_label start end_
       (set_sheet_entries db sheets') index employees).
Proof.
  intros Hrel. induction employees as [|e rest IH]; simpl; [constructor|].
  destruct (day_walk _ end_ start Tally.zero) as [x|err]; simpl; [|reflexivity].
  destruct (payroll2.range_rows _ _ _ _ db index rest) as [rows|err],
           (payroll2.range_rows _ _ _ _ (set_sheet_entries db sheets') index rest)
             as [rows'|err']; simpl in *; try contradiction; [|exact IH].
  constructor; [|exact IH]. apply payroll2_range_row_same_pay, Hrel.
Qed.

(** Two runs of a range report on stores that differ only in the day
    overrides of their sheet entries end the same way, and their rows agree
    on total_days, total_salary, gross_pay and net_pay. *)
Lemma day_overrides_do_not_reach_the_pay from_date to_date month db sheets' :
  Forall2 same_but_day_overrides (sheet_entries db) sheets' ->
  same_outcome
    (fun rep rep' =>
       Forall2 same_pay (payroll.PayrollReportResponse.rows rep)
         (payroll.PayrollReportResponse.rows rep'))
    (payroll.payroll_range_report float_of_str from_date to_date month db)
    (payroll.payroll_range_report float_of_str from_date to_date month
       (set_sheet_entries db sheets'))
  /\ same_outcome
       (fun rep rep' =>
          Forall2 same_pay2 (payroll2.Response.rows rep)
            (payroll2.Response.rows rep'))
       (payroll2.payroll2_range_report float_of_str from_date to_date month db)
       (payroll2.payroll2_range_report float_of_str from_date to_date month
          (set_sheet_entries db sheets')).
Proof.
  intros Hrel. split.
  - unfold payroll.payroll_range_report.
    destruct (payroll._parse_date from_date _) as [start|]; [|reflexivity].
    destruct (payroll._parse_date to_date _) as [end_|]; [|reflexivity].
    simpl. destruct (end_ <? start); [reflexivity|].
    match goal with
    | |- context [payroll.range_rows _ ?ml _ _ db ?ix ?es] =>
        pose proof (payroll_range_rows_same_pay ml start end_ db sheets' ix es Hrel)
          as H
    end.
    simpl in H.
    destruct (payroll.range_rows _ _ _ _ db _ _),
             (payroll.range_rows _ _ _ _ (set_sheet_entries db sheets') _ _);
      simpl in *; try contradiction; assumption.
  - unfold payroll2.payroll2_range_report.
    destruct (payroll2._parse_date from_date _) as [start|]; [|reflexivity].
    destruct (payroll2._parse_date to_date _) as [end_|]; [|reflexivity].
    simpl. destruct (end_ <? start); [reflexivity|].
    match goal with
    | |- context [payroll2.range_rows _ ?ml _ _ db ?ix ?es] =>
        pose proof (payroll2_range_rows_same_pay ml start end_ db sheets' ix es Hrel)
          as H
    end.
    simpl in H.
    destruct (payroll2.range_rows _ _ _ _ db _ _),
             (payroll2.range_rows _ _ _ _ (set_sheet_entries db sheets') _ _);
      simpl in *; try contradiction; assumption.
Qed.

End DayOverrides.

Section Clamp.
Context (float_of_str : string -> option Qc).

(** The range report of [payroll.py] shows the day overrides of the sheet
    entry clamped at 0, and 0 without an entry or without an override. *)
Lemma payroll_range_row_day_overrides month_label start end_ db e x :
  let sheet := payroll.sheet_by_emp_db_id start end_ db !! Employee2.id e in
  let r := payroll.range_row float_of_str month_label start end_ db e x in
  payroll.RangeRow.pre_days r
  = Z.max 0 (default 0 (sheet ≫= PayrollSheetEntry.pre_days_override))
  /\ payroll.RangeRow.cur_days r
     = Z.max 0 (default 0 (sheet ≫= PayrollSheetEntry.cur_days_override)).
Proof.
  intros sheet r. subst r. unfold payroll.range_row.
  cbn [payroll.RangeRow.pre_days payroll.RangeRow.cur_days]. fold sheet.
  rewrite !max_0_clamp. destruct sheet as [s|]; split; reflexivity.
Qed.

End Clamp.

(** The example of the specification, in both range engines: 24 total
    days at a day rate of 1000, a total salary of 24000, a gross pay of
    24500 and a net pay of 24000. *)
Example specification_example :
  (exists rep,
     payroll.payroll_range_report decimal "2024-01-01" "2024-01-31" None
       Example.january = Ok rep
     /\ map (fun r =>
               (payroll.RangeRow.day_rate r, payroll.RangeRow.total_days r,
                payroll.RangeRow.total_salary r, payroll.RangeRow.gross_pay r,
                payroll.RangeRow.net_pay r))
          (payroll.PayrollReportResponse.rows rep)
        = [(float_of_int 1000, 24, float_of_int 24000, float_of_int 24500,
            float_of_int 24000)])
  /\ (exists rep,
        payroll2.payroll2_range_report decimal "2024-01-01" "2024-01-31" None
          Example.january = Ok rep
        /\ map (fun r =>
                  (payroll2.Row.day_rate r, payroll2.Row.total_days r,
                   payroll2.Row.total_salary r, payroll2.Row.gross_pay r,
                   payroll2.Row.net_pay r))
             (payroll2.Response.rows rep)
           = [(float_of_int 1000, 24, float_of_int 24000, float_of_int 24500,
               float_of_int 24000)]).
Proof.
  split.
  - destruct (payroll.payroll_range_report decimal _ _ _ _) as [rep|e] eqn:E;
      vm_compute in E; [|discriminate E].
    exists rep. split; [reflexivity|]. injection E as <-.
    cbn [map payroll.PayrollReportResponse.rows payroll.RangeRow.day_rate
         payroll.RangeRow.total_days payroll.RangeRow.total_salary
         payroll.RangeRow.gross_pay payroll.RangeRow.net_pay].
    repeat f_equal; apply Qc_is_canon; reflexivity.
  - destruct (payroll2.payroll2_range_report decimal _ _ _ _) as [rep|e] eqn:E;
      vm_compute in E; [|discriminate E].
    exists rep. split; [reflexivity|]. injection E as <-.
    cbn [map payroll2.Response.rows payroll2.Row.day_rate
         payroll2.Row.total_days payroll2.Row.total_salary
         payroll2.Row.gross_pay payroll2.Row.net_pay].
    repeat f_equal; apply Qc_is_canon; reflexivity.
Qed.

(** * The rest of the code *)

(** ** Dates read back *)

Lemma cycle_dates_checked :
  forallb
    (fun y =>
       forallb (fun m => forallb (cycle_date_ok y m) (Z_range 1 31%nat))
         (Z_range 1 12%nat))
    (Z_range 1 400%nat)
  = true.
Proof. vm_compute. reflexivity. Qed.

Lemma In_Z_range (count : nat) (lo x : Z) :
  lo <= x < lo + Z.of_nat count -> In x (Z_range lo count).
Proof.
  revert lo. induction count as [|c IH]; intros lo H; [lia|].
  simpl. destruct (Z.eq_dec lo x) as [->|Hne]; [left; reflexivity|].
  right. apply IH. lia.
Qed.

Lemma cycle_date_checked (y m d : Z) :
  1 <= y <= 400 -> 1 <= m <= 12 -> 1 <= d <= 31 -> cycle_date_ok y m d = true.
Proof.
  intros Hy Hm Hd.
  pose proof (proj1 (forallb_forall _ _) cycle_dates_checked y) as Hc1.
  assert (Hin : In y (Z_range 1 400%nat)).
  { apply In_Z_range. change (Z.of_nat 400) with 400. lia. }
  specialize (Hc1 Hin).
  pose proof (proj1 (forallb_forall _ _) Hc1 m) as Hc2. clear Hc1.
  assert (Hin2 : In m (Z_range 1 12%nat)).
  { apply In_Z_range. change (Z.of_nat 12) with 12. lia. }
  specialize (Hc2 Hin2).
  pose proof (proj1 (forallb_forall _ _) Hc2 d) as Hc3. clear Hc2.
  assert (Hin3 : In d (Z_range 1 31%nat)).
  { apply In_Z_range. change (Z.of_nat 31) with 31. lia. }
  exact (Hc3 Hin3).
Qed.

Lemma isleap_period (y k : Z) : Date.isleap (y + 400 * k) = Date.isleap y.
Proof.
  unfold Date.isleap.
  replace (y + 400 * k) with (y + (100 * k) * 4) at 1 by lia.
  replace (y + 400 * k) with (y + (4 * k) * 100) at 1 by lia.
  replace (y + 400 * k) with (y + k * 400) by lia.
  rewrite !Z_mod_plus_full. reflexivity.
Qed.

Lemma days_in_month_period (y k m : Z) :
  Date.days_in_month (y + 400 * k) m = Date.days_in_month y m.
Proof. unfold Date.days_in_month. rewrite isleap_period. reflexivity. Qed.

Lemma days_before_month_period (y k m : Z) :
  Date.days_before_month (y + 400 * k) m = Date.days_before_month y m.
Proof.
  unfold Date.days_before_month. f_equal. apply map_ext.
  intros a. apply days_in_month_period.
Qed.

Lemma days_before_year_period (y k : Z) :
  Date.days_before_year (y + 400 * k) = Date.days_before_year y + 146097 * k.
Proof.
  unfold Date.days_before_year. cbv zeta.
  replace (y + 400 * k - 1) with (y - 1 + (100 * k) * 4) at 2 by lia.
  replace (y + 400 * k - 1) with (y - 1 + (4 * k) * 100) at 2 by lia.
  replace (y + 400 * k - 1) with (y - 1 + k * 400) at 2 by lia.
  rewrite !Z_div_plus_full by lia. lia.
Qed.

Lemma ymd2ord_period (y k m d : Z) :
  Date.ymd2ord (y + 400 * k) m d = Date.ymd2ord y m d + 146097 * k.
Proof.
  unfold Date.ymd2ord.
  rewrite days_before_year_period, days_before_month_period. lia.
Qed.

Lemma ord2ymd_period (n k : Z) :
  Date.ord2ymd (n + 146097 * k)
  = let '(y, m, d) := Date.ord2ymd n in (y + 400 * k, m, d).
Proof.
  unfold Date.ord2ymd. cbv zeta.
  replace (n + 146097 * k - 1) with (n - 1 + k * 146097) by lia.
  rewrite Z_div_plus_full, Z_mod_plus_full by lia.
  repeat match goal with
         | |- context [if ?c then _ else _] => destruct c
         end; f_equal; f_equal; lia.
Qed.

Lemma valid_ymd_inv (y m d : Z) :
  valid_ymd y m d = true ->
  1 <= y /\ 1 <= m <= 12 /\ 1 <= d <= Date.days_in_month y m.
Proof.
  unfold valid_ymd. intros H.
  apply andb_prop in H as [H H5]. apply andb_prop in H as [H H4].
  apply andb_prop in H as [H H3]. apply andb_prop in H as [H1 H2].
  apply Z.leb_le in H1, H2, H3, H4, H5. lia.
Qed.

Lemma valid_ymd_intro (y m d : Z) :
  1 <= y -> 1 <= m <= 12 -> 1 <= d <= Date.days_in_month y m ->
  valid_ymd y m d = true.
Proof.
  intros Hy Hm Hd. unfold valid_ymd.
  repeat (apply andb_true_intro; split); apply Z.leb_le; lia.
Qed.

(** The year, month and day of the date made of a year, a month and a
    day are these three. *)
Lemma ord2ymd_ymd2ord (y m d : Z) :
  valid_ymd y m d = true -> Date.ord2ymd (Date.ymd2ord y m d) = (y, m, d).
Proof.
  intros Hv. apply valid_ymd_inv in Hv as (Hy1 & Hm & Hd).
  set (k := (y - 1) / 400). set (y0 := y - 400 * k).
  assert (Hy0 : 1 <= y0 <= 400).
  { unfold y0, k. pose proof (Z.mod_pos_bound (y - 1) 400 ltac:(lia)).
    pose proof (Z.div_mod (y - 1) 400 ltac:(lia)). lia. }
  assert (Hy : y = y0 + 400 * k) by (unfold y0; lia).
  rewrite Hy in Hd |- *. rewrite days_in_month_period in Hd.
  rewrite ymd2ord_period, ord2ymd_period.
  pose proof (days_in_month_le_31 y0 m) as H31.
  pose proof (cycle_date_checked y0 m d Hy0 Hm ltac:(lia)) as Hc.
  unfold cycle_date_ok in Hc.
  rewrite (valid_ymd_intro y0 m d) in Hc by lia. cbn [negb orb] in Hc.
  destruct (Date.ord2ymd (Date.ymd2ord y0 m d)) as [[y' m'] d'].
  apply andb_prop in Hc as [Hc Hd']. apply andb_prop in Hc as [Hy' Hm'].
  apply Z.eqb_eq in Hy', Hm', Hd'. subst y' m' d'. reflexivity.
Qed.

(** ** Dates and month labels that parse *)

Lemma days_before_year_step (y : Z) :
  Date.days_before_year (y + 1)
  = Date.days_before_year y + (if Date.isleap y then 366 else 365).
Proof.
  unfold Date.days_before_year, Date.isleap. cbv zeta.
  replace (y + 1 - 1) with y by lia.
  destruct (y mod 4 =? 0) eqn:E4; destruct (y mod 100 =? 0) eqn:E100;
    destruct (y mod 400 =? 0) eqn:E400; cbn [andb orb negb];
    repeat match goal with
           | H : (_ =? _) = true |- _ => apply Z.eqb_eq in H
           | H : (_ =? _) = false |- _ => apply Z.eqb_neq in H
           end;
    Z.div_mod_to_equations; lia.
Qed.

Lemma days_before_year_nonneg (y : Z) : 1 <= y -> 0 <= Date.days_before_year y.
Proof.
  intros Hy. unfold Date.days_before_year. cbv zeta.
  Z.div_mod_to_equations. lia.
Qed.

Lemma month_cases (m : Z) :
  1 <= m <= 12 ->
  m = 1 \/ m = 2 \/ m = 3 \/ m = 4 \/ m = 5 \/ m = 6 \/ m = 7 \/ m = 8
  \/ m = 9 \/ m = 10 \/ m = 11 \/ m = 12.
Proof. lia. Qed.

Lemma days_before_month_step (y m : Z) :
  1 <= m <= 12 ->
  Date.days_before_month y (m + 1)
  = Date.days_before_month y m + Date.days_in_month y m.
Proof.
  intros Hm.
  destruct (month_cases m Hm) as [->|[->|[->|[->|[->|[->|[->|[->|[->|[->|[->| ->]]]]]]]]]]];
    unfold Date.days_before_month, Date.days_in_month; simpl;
    destruct (Date.isleap y); reflexivity.
Qed.

Lemma days_before_month_bounds (y m : Z) :
  1 <= m <= 12 ->
  0 <= Date.days_before_month y m
  /\ Date.days_before_month y m + Date.days_in_month y m
     <= (if Date.isleap y then 366 else 365).
Proof.
  intros Hm.
  destruct (month_cases m Hm) as [->|[->|[->|[->|[->|[->|[->|[->|[->|[->|[->| ->]]]]]]]]]]];
    unfold Date.days_before_month, Date.days_in_month; simpl;
    destruct (Date.isleap y); lia.
Qed.

Lemma days_before_year_mono (y : Z) :
  1 <= y <= 10000 -> Date.days_before_year y <= 3652059.
Proof.
  intros Hy. unfold Date.days_before_year. cbv zeta.
  Z.div_mod_to_equations. lia.
Qed.

Lemma ymd2ord_bounds (y m d : Z) :
  valid_ymd y m d = true -> y <= 9999 ->
  1 <= Date.ymd2ord y m d <= Date.MAXORDINAL.
Proof.
  intros Hv Hy. apply valid_ymd_inv in Hv as (Hy1 & Hm & Hd).
  unfold Date.ymd2ord, Date.MAXORDINAL.
  pose proof (days_before_year_nonneg y Hy1) as H0.
  pose proof (days_before_month_bounds y m Hm) as [H1 H2].
  pose proof (days_before_year_step y) as H3.
  pose proof (days_before_year_mono (y + 1) ltac:(lia)) as H4.
  destruct (Date.isleap y); lia.
Qed.

Lemma new_inv (y m d : Z) (o : date) :
  Date.new y m d = Ok o ->
  valid_ymd y m d = true /\ y <= 9999 /\ o = Date.ymd2ord y m d.
Proof.
  unfold Date.new, Date.MINYEAR, Date.MAXYEAR.
  destruct (negb (Date.fits_int y && Date.fits_int m && Date.fits_int d));
    [discriminate|].
  destruct ((1 <=? y) && (y <=? 9999) && (1 <=? m) && (m <=? 12) && (1 <=? d)
            && (d <=? Date.days_in_month y m)) eqn:E; [|discriminate].
  intros [= <-].
  apply andb_prop in E as [E H6]. apply andb_prop in E as [E H5].
  apply andb_prop in E as [E H4]. apply andb_prop in E as [E H3].
  apply andb_prop in E as [H1 H2].
  apply Z.leb_le in H1, H2, H3, H4, H5, H6.
  split; [apply valid_ymd_intro; lia | split; [lia | reflexivity]].
Qed.

Lemma parse_date_inv (s field : string) (o : date) :
  payroll._parse_date s field = Ok o ->
  exists ys ms ds y m d,
    Py.split "-" s = [ys; ms; ds]
    /\ Py.int ys = Some y /\ Py.int ms = Some m /\ Py.int ds = Some d
    /\ valid_ymd y m d = true /\ y <= 9999 /\ o = Date.ymd2ord y m d.
Proof.
  unfold payroll._parse_date, payroll.int_of_str. intros H.
  destruct (Py.split "-" s) as [|ys [|ms [|ds [|? ?]]]]; try discriminate H.
  destruct (Py.int ys) as [y|] eqn:Ey; [|discriminate H].
  destruct (Py.int ms) as [m|] eqn:Em; [|discriminate H].
  destruct (Py.int ds) as [d|] eqn:Ed; [|discriminate H].
  simpl in H. destruct (Date.new y m d) as [o'|] eqn:Hn; [|discriminate H].
  injection H as <-. apply new_inv in Hn as (Hv & Hy & ->).
  exists ys, ms, ds, y, m, d. repeat split; auto.
Qed.

Lemma parse_date_raises (s field : string) (e : exn) :
  payroll._parse_date s field = Raise e ->
  e = HTTPException 400 (field +:+ " must be in YYYY-MM-DD format").
Proof.
  unfold payroll._parse_date, except_400.
  match goal with |- context [match ?r with Ok _ => _ | Raise _ => _ end] =>
    destruct r end; congruence.
Qed.

Lemma parse_date_bounds (s field : string) (o : date) :
  payroll._parse_date s field = Ok o -> 1 <= o <= Date.MAXORDINAL.
Proof.
  intros H.
  apply parse_date_inv in H as (_ & _ & _ & y & m & d & _ & _ & _ & _ & Hv & Hy & ->).
  exact (ymd2ord_bounds y m d Hv Hy).
Qed.

(** X1. [_parse_date] either answers 400 "<field> must be in YYYY-MM-DD
    format" or returns a date. When it returns, the text has three fields
    between dashes, each an integer: a year from 1 to 9999, a month from 1
    to 12 and a day of that month; the year, month and day of the date
    returned are these three, and the date is one of the calendar (ordinal 1
    to 3652059). No other exception leaves [_parse_date]; the copy of
    [payroll2.py] is the same function. *)
Theorem X1_parse_date_reads_back (s field : string) :
  payroll2._parse_date s field = payroll._parse_date s field
  /\ match payroll._parse_date s field with
     | Ok o =>
         exists ys ms ds y m d,
           Py.split "-" s = [ys; ms; ds]
           /\ Py.int ys = Some y /\ Py.int ms = Some m /\ Py.int ds = Some d
           /\ (Date.year o, Date.month o, Date.day o) = (y, m, d)
           /\ 1 <= y <= 9999 /\ 1 <= m <= 12 /\ 1 <= d <= Date.days_in_month y m
           /\ 1 <= o <= Date.MAXORDINAL
     | Raise e =>
         e = HTTPException 400 (field +:+ " must be in YYYY-MM-DD format")
     end.
Proof.
  split; [reflexivity|].
  destruct (payroll._parse_date s field) as [o|e] eqn:E.
  - apply parse_date_inv in E as (ys & ms & ds & y & m & d & Hs & Hy & Hm & Hd & Hv & Hmax & ->).
    exists ys, ms, ds, y, m, d.
    pose proof (ymd2ord_bounds y m d Hv Hmax) as Hb.
    unfold Date.year, Date.month, Date.day. rewrite (ord2ymd_ymd2ord y m d Hv).
    apply valid_ymd_inv in Hv as (Hy1 & Hm1 & Hd1). simpl.
    repeat split; first [assumption | lia].
  - exact (parse_date_raises s field e E).
Qed.

(* every day between the first and the last of a month *)
Lemma month_days (y m : Z) (o : date) :
  1 <= y -> 1 <= m <= 12 ->
  Date.ymd2ord y m 1 <= o <= Date.ymd2ord y m (Date.days_in_month y m) ->
  exists d, 1 <= d <= Date.days_in_month y m /\ o = Date.ymd2ord y m d
            /\ Date.ord2ymd o = (y, m, d).
Proof.
  intros Hy Hm Ho. unfold Date.ymd2ord in Ho.
  exists (o - Date.days_before_year y - Date.days_before_month y m).
  assert (Hd : 1 <= o - Date.days_before_year y - Date.days_before_month y m
               <= Date.days_in_month y m) by lia.
  assert (Heq : o = Date.ymd2ord y m
                      (o - Date.days_before_year y - Date.days_before_month y m))
    by (unfold Date.ymd2ord; lia).
  split; [exact Hd | split; [exact Heq|]].
  rewrite Heq at 1. apply ord2ymd_ymd2ord. apply valid_ymd_intro; lia.
Qed.

Lemma days_in_month_ge_28 (y m : Z) : 28 <= Date.days_in_month y m.
Proof.
  unfold Date.days_in_month.
  destruct (m =? 2); [destruct (Date.isleap y); lia|].
  destruct ((m =? 4) || (m =? 6) || (m =? 9) || (m =? 11)); lia.
Qed.

Lemma parse_month_inv (label : string) (start end_ : date) :
  payroll._parse_month label = Ok (start, end_) ->
  exists ys ms y m,
    Py.split "-" label = [ys; ms]
    /\ Py.int ys = Some y /\ Py.int ms = Some m
    /\ 1 <= y <= 9999 /\ 1 <= m <= 12
    /\ start = Date.ymd2ord y m 1
    /\ end_ = Date.ymd2ord y m (Date.days_in_month y m).
Proof.
  unfold payroll._parse_month, payroll.int_of_str, Date.monthrange_ndays. intros H.
  destruct (Py.split "-" label) as [|ys [|ms [|? ?]]]; try discriminate H.
  destruct (Py.int ys) as [y|] eqn:Ey; [|discriminate H].
  destruct (Py.int ms) as [m|] eqn:Emm; [|discriminate H].
  simpl in H.
  destruct ((m <? 1) || (m >? 12)) eqn:Em; [discriminate H|]. simpl in H.
  apply orb_false_elim in Em as [Em1 Em2].
  apply Z.ltb_ge in Em1. rewrite Z.gtb_ltb in Em2. apply Z.ltb_ge in Em2.
  destruct (Date.new y m 1) as [a|] eqn:Ha; [|discriminate H]. simpl in H.
  destruct (Date.new y m (Date.days_in_month y m)) as [b|] eqn:Hb;
    [|discriminate H].
  simpl in H. injection H as <- <-.
  apply new_inv in Ha as (Hv & Hy & ->). apply new_inv in Hb as (_ & _ & ->).
  apply valid_ymd_inv in Hv as (Hy1 & _ & _).
  exists ys, ms, y, m. repeat split; first [assumption | lia].
Qed.

(** X2. When [_parse_month] accepts a label, the label has two fields
    between dashes, the integers year and month; the period it returns
    starts on day 1 of that month and ends on the last day of it,
    [_days_inclusive] of the period is the number of days of the month
    (28 to 31), and every date of the period has that year and month. *)
Theorem X2_parse_month_is_the_calendar_month (label : string) (start end_ : date) :
  payroll._parse_month label = Ok (start, end_) ->
  exists ys ms y m,
    Py.split "-" label = [ys; ms]
    /\ Py.int ys = Some y /\ Py.int ms = Some m
    /\ (Date.year start, Date.month start, Date.day start) = (y, m, 1)
    /\ (Date.year end_, Date.month end_, Date.day end_)
       = (y, m, Date.days_in_month y m)
    /\ payroll._days_inclusive start end_ = Date.days_in_month y m
    /\ 28 <= payroll._days_inclusive start end_ <= 31
    /\ forall d : date,
         start <= d <= end_ -> Date.year d = y /\ Date.month d = m.
Proof.
  intros H.
  apply parse_month_inv in H as (ys & ms & y & m & Hs & Hy & Hm & Hyr & Hmr & -> & ->).
  exists ys, ms, y, m.
  pose proof (days_in_month_ge_28 y m) as H28.
  pose proof (days_in_month_le_31 y m) as H31.
  assert (Hinc : payroll._days_inclusive (Date.ymd2ord y m 1)
                   (Date.ymd2ord y m (Date.days_in_month y m))
                 = Date.days_in_month y m).
  { unfold payroll._days_inclusive, Date.sub_days, Date.ymd2ord. lia. }
  unfold Date.year, Date.month, Date.day.
  rewrite !ord2ymd_ymd2ord by (apply valid_ymd_intro; lia).
  rewrite Hinc. simpl.
  repeat split; try assumption; try lia.
  - destruct (month_days y m d) as (dd & _ & _ & ->); [lia | lia | lia | reflexivity].
  - destruct (month_days y m d) as (dd & _ & _ & ->); [lia | lia | lia | reflexivity].
Qed.

Lemma X2_parse_month_is_the_calendar_month_witness :
  exists start end_,
    payroll._parse_month "2024-02" = Ok (start, end_)
    /\ payroll._days_inclusive start end_ = 29.
Proof.
  destruct (payroll._parse_month "2024-02") as [[start end_]|e] eqn:E.
  - exists start, end_. split; [reflexivity|].
    destruct (X2_parse_month_is_the_calendar_month "2024-02" start end_ E)
      as (ys & ms & y & m & Hs & Hy & Hm & _ & _ & -> & _).
    vm_compute in Hs. injection Hs as <- <-.
    vm_compute in Hy. injection Hy as <-.
    vm_compute in Hm. injection Hm as <-.
    reflexivity.
  - vm_compute in E. discriminate E.
Defined.

Lemma label_fields_checked :
  forallb (label_field_ok 4) (Z_range 1 (Z.to_nat 9999))
  && forallb (label_field_ok 2) (Z_range 1 (Z.to_nat 12))
  = true.
Proof. vm_compute. reflexivity. Qed.

Lemma label_field_checked (width : nat) (count n : Z) :
  forallb (label_field_ok width) (Z_range 1 (Z.to_nat count)) = true ->
  1 <= n <= count ->
  no_char "-" (Py.format_0d width n) = true
  /\ Py.int (Py.format_0d width n) = Some n.
Proof.
  intros Hall Hn.
  pose proof (proj1 (forallb_forall _ _) Hall n
                (In_Z_range (Z.to_nat count) 1 n ltac:(lia))) as H.
  unfold label_field_ok in H. apply andb_prop in H as [H1 H2].
  split; [exact H1|].
  destruct (Py.int (Py.format_0d width n)) as [k|]; [|discriminate H2].
  apply Z.eqb_eq in H2. congruence.
Qed.

Lemma split_no_char (sep : ascii) (a : string) :
  no_char sep a = true -> Py.split sep a = [a].
Proof.
  induction a as [|c a IH]; simpl; [reflexivity|].
  intros H. apply andb_prop in H as [Hc Ha].
  apply negb_true_iff in Hc. rewrite Hc, (IH Ha). reflexivity.
Qed.

Lemma split_app (sep : ascii) (a b : string) :
  no_char sep a = true ->
  Py.split sep (a +:+ String sep b) = a :: Py.split sep b.
Proof.
  induction a as [|c a IH]; simpl.
  - intros _. rewrite Ascii.eqb_refl. reflexivity.
  - intros H. apply andb_prop in H as [Hc Ha].
    apply negb_true_iff in Hc. rewrite Hc, (IH Ha). reflexivity.
Qed.

Lemma parse_month_of_label (y m : Z) :
  1 <= y <= 9999 -> 1 <= m <= 12 ->
  payroll._parse_month (Py.format_0d 4 y +:+ "-" +:+ Py.format_0d 2 m)
  = Ok (Date.ymd2ord y m 1, Date.ymd2ord y m (Date.days_in_month y m)).
Proof.
  intros Hy Hm.
  pose proof label_fields_checked as Hc. apply andb_prop in Hc as [Hc4 Hc2].
  destruct (label_field_checked 4 9999 y Hc4 ltac:(lia)) as [Hy1 Hy2].
  destruct (label_field_checked 2 12 m Hc2 ltac:(lia)) as [Hm1 Hm2].
  unfold payroll._parse_month.
  change ("-" +:+ Py.format_0d 2 m) with (String "-"%char (Py.format_0d 2 m)).
  rewrite (split_app _ _ _ Hy1), (split_no_char _ _ Hm1).
  unfold payroll.int_of_str. rewrite Hy2, Hm2. simpl.
  replace ((m <? 1) || (m >? 12)) with false.
  2:{ symmetry. apply orb_false_intro; [apply Z.ltb_ge; lia|].
      rewrite Z.gtb_ltb. apply Z.ltb_ge. lia. }
  simpl. unfold Date.monthrange_ndays.
  pose proof (days_in_month_pos y m).
  rewrite !date_new_ok by (unfold Date.MINYEAR, Date.MAXYEAR; lia).
  reflexivity.
Qed.

(** X3. The month label of a parsed date ([_month_label], which a range
    report uses as its month when the request names none) is a label that
    [_parse_month] accepts, and the month it denotes contains the date. *)
Theorem X3_month_label_of_a_date_parses_back (s field : string) (d : date) :
  payroll._parse_date s field = Ok d ->
  exists start end_,
    payroll._parse_month (payroll._month_label d) = Ok (start, end_)
    /\ start <= d <= end_.
Proof.
  intros H.
  apply parse_date_inv in H as (ys & ms & ds & y & m & dd & _ & _ & _ & _ & Hv & Hy & ->).
  unfold payroll._month_label, Date.year, Date.month.
  rewrite (ord2ymd_ymd2ord y m dd Hv). cbn [fst snd].
  apply valid_ymd_inv in Hv as (Hy1 & Hm & Hd).
  rewrite parse_month_of_label by lia.
  eexists _, _. split; [reflexivity|]. unfold Date.ymd2ord. lia.
Qed.

Lemma X3_month_label_of_a_date_parses_back_witness :
  exists d start end_,
    payroll._parse_date "2024-02-10" "to_date" = Ok d
    /\ payroll._parse_month (payroll._month_label d) = Ok (start, end_)
    /\ start <= d <= end_.
Proof.
  destruct (payroll._parse_date "2024-02-10" "to_date") as [d|e] eqn:E.
  - destruct (X3_month_label_of_a_date_parses_back _ _ d E)
      as (start & end_ & H1 & H2).
    exists d, start, end_. auto.
  - vm_compute in E. discriminate E.
Defined.

(** * day defaults *)
Lemma last_day_of_month_ok (y m d : Z) :
  valid_ymd y m d = true -> y <= 9999 ->
  payroll._last_day_of_month (Date.ymd2ord y m d)
  = Ok (Date.ymd2ord y m (Date.days_in_month y m)).
Proof.
  intros Hv Hy. unfold payroll._last_day_of_month, Date.year, Date.month.
  rewrite (ord2ymd_ymd2ord y m d Hv). cbn [fst snd].
  apply valid_ymd_inv in Hv as (Hy1 & Hm & Hd).
  unfold Date.monthrange_ndays. pose proof (days_in_month_pos y m).
  apply date_new_ok; unfold Date.MINYEAR, Date.MAXYEAR; lia.
Qed.

(** X4. The split of the period that [payroll_range_report] computes
    before its loop ([pre_days_default], [cur_days_default]) never raises
    for parsed dates with from <= to: [_last_day_of_month] finds the last
    day of the month of from_date, the two parts add up to working_days,
    the first part is 0 when from_date and to_date are in the same month,
    and otherwise the first part is 1 to 31 days and the second at least
    one day. *)
Theorem X4_day_defaults_split_the_period (from_date to_date : string)
    (start end_ : date) :
  payroll._parse_date from_date "from_date" = Ok start ->
  payroll._parse_date to_date "to_date" = Ok end_ ->
  start <= end_ ->
  exists pre cur,
    payroll.day_defaults start end_ = Ok (pre, cur)
    /\ pre + cur = payroll._days_inclusive start end_
    /\ (if (Date.year start =? Date.year end_)
           && (Date.month start =? Date.month end_)
        then pre = 0
        else 1 <= pre <= 31 /\ 1 <= cur).
Proof.
  intros Hs He Hle.
  apply parse_date_inv in Hs as (_ & _ & _ & y & m & d & _ & _ & _ & _ & Hv & Hy & ->).
  apply parse_date_inv in He as (_ & _ & _ & y' & m' & d' & _ & _ & _ & _ & Hv' & Hy' & ->).
  unfold payroll.day_defaults.
  rewrite (last_day_of_month_ok y m d Hv Hy).
  unfold Date.year, Date.month.
  rewrite (ord2ymd_ymd2ord y m d Hv), (ord2ymd_ymd2ord y' m' d' Hv').
  cbn [fst snd].
  pose proof Hv as Hv0. pose proof Hv' as Hv0'.
  apply valid_ymd_inv in Hv as (Hy1 & Hm & Hd).
  apply valid_ymd_inv in Hv' as (Hy1' & Hm' & Hd').
  destruct ((y =? y') && (m =? m')) eqn:E.
  - apply andb_prop in E as [E1 E2]. rewrite E1, E2. simpl.
    eexists _, _. split; [reflexivity|]. split; [lia | reflexivity].
  - replace (negb (y =? y') || negb (m =? m')) with true.
    2:{ symmetry. rewrite <- negb_andb, E. reflexivity. }
    simpl. eexists _, _. split; [reflexivity|].
    assert (Hafter : Date.ymd2ord y m (Date.days_in_month y m)
                     < Date.ymd2ord y' m' d').
    { apply Z.nle_gt. intros Hc.
      destruct (month_days y m (Date.ymd2ord y' m' d')) as (dd & _ & _ & Hr);
        [lia | lia | unfold Date.ymd2ord in *; lia |].
      rewrite (ord2ymd_ymd2ord y' m' d' Hv0') in Hr.
      injection Hr as -> -> _. rewrite !Z.eqb_refl in E. discriminate E. }
    pose proof (days_in_month_le_31 y m).
    unfold payroll._days_inclusive, Date.sub_days.
    rewrite Z.min_r by lia. unfold Date.ymd2ord in *. lia.
Qed.

Lemma X4_day_defaults_split_the_period_witness :
  exists pre cur,
    payroll.day_defaults 738902 738932 = Ok (pre, cur) /\ pre + cur = 31.
Proof.
  destruct (X4_day_defaults_split_the_period "2024-01-17" "2024-02-16"
              738902 738932 eq_refl eq_refl ltac:(lia))
    as (pre & cur & H1 & H2 & _).
  exists pre, cur. split; [exact H1 | exact H2].
Defined.

(** ** The day walk as a loop over the days of the period *)

Lemma period_days_nil (start end_ : date) :
  end_ < start -> period_days start end_ = [].
Proof.
  intros H. unfold period_days.
  replace (Z.to_nat (end_ - start + 1)) with O by lia. reflexivity.
Qed.

Lemma period_days_cons (start end_ : date) :
  start <= end_ ->
  period_days start end_ = start :: period_days (start + 1) end_.
Proof.
  intros H. unfold period_days.
  replace (Z.to_nat (end_ - start + 1))
    with (S (Z.to_nat (end_ - (start + 1) + 1))) by lia.
  cbn [seq map]. f_equal; [lia|].
  rewrite <- seq_shift, map_map. apply map_ext. intros i. lia.
Qed.

Lemma in_period_days (start end_ d : date) :
  In d (period_days start end_) <-> start <= d <= end_.
Proof.
  unfold period_days. rewrite in_map_iff. split.
  - intros (i & <- & Hi). apply in_seq in Hi. lia.
  - intros H. exists (Z.to_nat (d - start)). split; [lia|].
    apply in_seq. lia.
Qed.

(** Before the last day of the calendar the walk is the loop over the days
    of the period. *)
Lemma day_walk_fold {S : Type} (body : date -> S -> S) (end_ : date) :
  end_ < Date.MAXORDINAL ->
  forall (n : nat) (dcur : date) (acc : S),
    Z.to_nat (end_ - dcur + 1) = n ->
    0 < dcur ->
    day_walk body end_ dcur acc
    = Ok (fold_left (fun x d => body d x) (period_days dcur end_) acc).
Proof.
  intros Hmax n. induction n as [|n IH]; intros dcur acc Hn Hpos;
    rewrite day_walk_step.
  - destruct (dcur <=? end_) eqn:E; [apply Z.leb_le in E; lia|].
    apply Z.leb_gt in E. rewrite period_days_nil by lia. reflexivity.
  - destruct (dcur <=? end_) eqn:E; [apply Z.leb_le in E | apply Z.leb_gt in E; lia].
    unfold Date.add_days.
    replace ((0 <? dcur + 1) && (dcur + 1 <=? Date.MAXORDINAL)) with true.
    + rewrite (period_days_cons dcur end_ E). simpl. apply IH; lia.
    + symmetry. apply andb_true_intro. split; [apply Z.ltb_lt | apply Z.leb_le]; lia.
Qed.

(** A walk that has to pass the last day of the calendar raises. *)
Lemma day_walk_overflow {S : Type} (body : date -> S -> S) (end_ : date) :
  Date.MAXORDINAL <= end_ ->
  forall (n : nat) (dcur : date) (acc : S),
    Z.to_nat (Date.MAXORDINAL - dcur) = n ->
    0 < dcur <= end_ ->
    day_walk body end_ dcur acc = Raise OverflowError.
Proof.
  intros Hmax n. induction n as [|n IH]; intros dcur acc Hn Hd;
    rewrite day_walk_step;
    (destruct (dcur <=? end_) eqn:E; [apply Z.leb_le in E | apply Z.leb_gt in E; lia]);
    unfold Date.add_days.
  - replace ((0 <? dcur + 1) && (dcur + 1 <=? Date.MAXORDINAL)) with false;
      [reflexivity|].
    symmetry. apply andb_false_intro2. apply Z.leb_gt. lia.
  - replace ((0 <? dcur + 1) && (dcur + 1 <=? Date.MAXORDINAL)) with true.
    + apply IH; lia.
    + symmetry. apply andb_true_intro. split; [apply Z.ltb_lt | apply Z.leb_le]; lia.
Qed.

Section RangeOutcome.
Context (float_of_str : string -> option Qc).

Lemma payroll_range_rows_fold month_label start end_ db index employees :
  0 < start -> end_ < Date.MAXORDINAL ->
  payroll.range_rows float_of_str month_label start end_ db index employees
  = Ok (map (fun e => payroll.range_row float_of_str month_label start end_ db e
                        (payroll_tally index start end_ e))
          employees).
Proof.
  intros Hs He. induction employees as [|e rest IH]; simpl; [reflexivity|].
  rewrite (day_walk_fold _ end_ He (Z.to_nat (end_ - start + 1))) by lia.
  rewrite IH. reflexivity.
Qed.

Lemma payroll2_range_rows_fold month_label start end_ db index employees :
  0 < start -> end_ < Date.MAXORDINAL ->
  payroll2.range_rows float_of_str month_label start end_ db index employees
  = Ok (map (fun e => payroll2.range_row float_of_str month_label start end_ db e
                        (payroll2_tally index start end_ e))
          employees).
Proof.
  intros Hs He. induction employees as [|e rest IH]; simpl; [reflexivity|].
  rewrite (day_walk_fold _ end_ He (Z.to_nat (end_ - start + 1))) by lia.
  rewrite IH. reflexivity.
Qed.

Lemma payroll_range_row_id month_label start end_ db e x :
  payroll.RangeRow.employee_db_id
    (payroll.range_row float_of_str month_label start end_ db e x)
  = Employee2.id e.
Proof. reflexivity. Qed.

Lemma payroll2_range_row_id month_label start end_ db e x :
  payroll2.Row.employee_db_id
    (payroll2.range_row float_of_str month_label start end_ db e x)
  = Employee2.id e.
Proof. reflexivity. Qed.

Lemma max_date_reads_back :
  Date.ord2ymd Date.MAXORDINAL = (9999, 12, 31).
Proof. vm_compute. reflexivity. Qed.

(** X5. The outcome of a range report, of [payroll.py] and of
    [payroll2.py] alike, for every request and store: 400 "from_date must
    be in YYYY-MM-DD format", else 400 "to_date must be in YYYY-MM-DD
    format", else 400 "from_date must be <= to_date"; else, with no
    employee hired by the end of the period, an answer without rows; else,
    when to_date is before 9999-12-31, an answer with one row per such
    employee, in the order of the sort key; and when to_date is 9999-12-31
    the [OverflowError] of [dcur + timedelta(days=1)] on the last day of
    the calendar. *)
Theorem X5_range_report_outcomes (from_date to_date : string)
    (month : option string) (db : Db) :
  range_report_outcome
    (fun rep => map payroll.RangeRow.employee_db_id
                  (payroll.PayrollReportResponse.rows rep))
    from_date to_date db
    (payroll.payroll_range_report float_of_str from_date to_date month db)
  /\ range_report_outcome
       (fun rep => map payroll2.Row.employee_db_id (payroll2.Response.rows rep))
       from_date to_date db
       (payroll2.payroll2_range_report float_of_str from_date to_date month db).
Proof.
  unfold range_report_outcome, payroll.payroll_range_report,
    payroll2.payroll2_range_report.
  change payroll2._parse_date with payroll._parse_date.
  destruct (payroll._parse_date from_date "from_date") as [start|e1] eqn:E1.
  2:{ apply parse_date_raises in E1. subst e1. split; reflexivity. }
  destruct (payroll._parse_date to_date "to_date") as [end_|e2] eqn:E2.
  2:{ apply parse_date_raises in E2. subst e2. split; reflexivity. }
  cbn [bind].
  destruct (end_ <? start) eqn:Hlt; [split; reflexivity|].
  apply Z.ltb_ge in Hlt.
  pose proof (parse_date_bounds _ _ _ E1) as Hs.
  pose proof (parse_date_bounds _ _ _ E2) as He.
  change (sorted payroll2.sort_key
            (List.filter (payroll2.hired_by (datetime_combine end_ time_max))
               (employees db)))
    with (range_employees end_ db).
  change (sorted payroll.sort_key
            (List.filter (payroll.hired_by (datetime_combine end_ time_max))
               (employees db)))
    with (range_employees end_ db).
  destruct (range_employees end_ db) as [|e rest] eqn:Hemp.
  - simpl. split; eexists; (split; [reflexivity|]); reflexivity.
  - destruct (end_ <? Date.MAXORDINAL) eqn:Hmax.
    + apply Z.ltb_lt in Hmax.
      rewrite payroll_range_rows_fold, payroll2_range_rows_fold by lia.
      cbn [bind].
      split; eexists; (split; [reflexivity|]);
        cbn [payroll.PayrollReportResponse.rows payroll2.Response.rows];
        rewrite map_map; apply map_ext; reflexivity.
    + apply Z.ltb_ge in Hmax.
      assert (end_ = Date.MAXORDINAL) as -> by lia.
      cbn [payroll.range_rows payroll2.range_rows].
      rewrite !(day_walk_overflow _ Date.MAXORDINAL (Z.le_refl _)
                  (Z.to_nat (Date.MAXORDINAL - start))) by lia.
      cbn [bind]. unfold Date.year, Date.month, Date.day.
      rewrite max_date_reads_back. split; split; reflexivity.
Qed.

End RangeOutcome.

(** ** The two range engines side by side *)

Lemma without_unmarked_accrue_overtime a x :
  without_unmarked (accrue_overtime a x) = accrue_overtime a (without_unmarked x).
Proof.
  unfold accrue_overtime.
  destruct (Py.truthy_int _ && Py.truthy_float _); destruct x; reflexivity.
Qed.

Lemma without_unmarked_track_overtime_rate a x :
  without_unmarked (track_overtime_rate a x)
  = track_overtime_rate a (without_unmarked x).
Proof.
  unfold track_overtime_rate.
  destruct (Py.truthy_float _ && Qc_ltb 0 _); destruct x; reflexivity.
Qed.

Lemma without_unmarked_accrue_late a x :
  without_unmarked (accrue_late a x) = accrue_late a (without_unmarked x).
Proof.
  unfold accrue_late.
  destruct (Py.truthy_int _); destruct (Py.truthy_float _); destruct x; reflexivity.
Qed.

Lemma without_unmarked_accrue_fine a x :
  without_unmarked (accrue_fine a x) = accrue_fine a (without_unmarked x).
Proof.
  unfold accrue_fine. destruct (Py.truthy_float _); destruct x; reflexivity.
Qed.

Lemma without_unmarked_accruals a x :
  without_unmarked
    (accrue_fine a (accrue_late a (track_overtime_rate a (accrue_overtime a x))))
  = accrue_fine a (accrue_late a (track_overtime_rate a
      (accrue_overtime a (without_unmarked x)))).
Proof.
  rewrite without_unmarked_accrue_fine, without_unmarked_accrue_late,
    without_unmarked_track_overtime_rate, without_unmarked_accrue_overtime.
  reflexivity.
Qed.

(** On a day the two loop bodies do the same to the shared variables. *)
Lemma range_bodies_agree (days : gmap Z AttendanceRecord.t) (d : date)
    (x : Tally.t) :
  without_unmarked (payroll.range_body days d x)
  = payroll2.range_body days d (without_unmarked x).
Proof.
  unfold payroll.range_body, payroll2.range_body.
  destruct (days !! d) as [a|]; [|destruct x; reflexivity].
  rewrite without_unmarked_accruals. do 4 f_equal.
  destruct (AttendanceRecord.status a) as [[|c s]|].
  - destruct x; reflexivity.
  - change (Py.truthy_str (Some (String c s))) with true. cbv iota.
    set (st := Py.strip (Py.lower (Py.str_or_empty (Some (String c s))))).
    destruct (String.eqb st "present"); [destruct x; reflexivity|].
    destruct (String.eqb st "late"); [destruct x; reflexivity|].
    destruct (String.eqb st "absent"); [destruct x; reflexivity|].
    destruct (String.eqb st "leave"); [|destruct x; reflexivity].
    destruct (String.eqb _ "unpaid"); destruct x; reflexivity.
  - destruct x; reflexivity.
Qed.

Lemma day_walk_related {S S' : Type} (R : S -> S' -> Prop)
    (body : date -> S -> S) (body' : date -> S' -> S') (end_ : date) :
  (forall d x x', R x x' -> R (body d x) (body' d x')) ->
  forall (n : nat) (dcur : date) (acc : S) (acc' : S'),
    Z.to_nat (end_ - dcur + 1) = n ->
    R acc acc' ->
    outcomes_agree R (day_walk body end_ dcur acc) (day_walk body' end_ dcur acc').
Proof.
  intros Hb n. induction n as [|n IH]; intros dcur acc acc' Hn HR;
    rewrite (day_walk_step body), (day_walk_step body').
  - destruct (dcur <=? end_) eqn:E; [apply Z.leb_le in E; lia | exact HR].
  - destruct (dcur <=? end_) eqn:E; [|exact HR].
    destruct (Date.add_days dcur 1) as [dnext|] eqn:Hadd; [|reflexivity].
    apply add_days_1 in Hadd. subst dnext. apply IH; [lia | auto].
Qed.

Lemma fold_sum_agree {A B : Type} (f : A -> Qc) (g : B -> Qc) (R : A -> B -> Prop)
    (l : list A) (l' : list B) :
  (forall a b, R a b -> f a = g b) ->
  Forall2 R l l' ->
  forall t : Qc,
    fold_left (fun t r => (t + f r)%Qc) l t = fold_left (fun t r => (t + g r)%Qc) l' t.
Proof.
  intros Hfg. induction 1 as [|a b l l' Hab _ IH]; intros t; simpl; [reflexivity|].
  rewrite (Hfg a b Hab). apply IH.
Qed.

Section Engines.
Context (float_of_str : string -> option Qc).

Lemma range_rows_agree_row month_label start end_ db e x :
  rows_agree
    (payroll.range_row float_of_str month_label start end_ db e x)
    (payroll2.range_row float_of_str month_label start end_ db e (without_unmarked x)).
Proof.
  unfold rows_agree, payroll.range_row, payroll2.range_row.
  change (payroll2.sheet_by_emp_db_id start end_ db)
    with (payroll.sheet_by_emp_db_id start end_ db).
  destruct x as [p l a pl ul um om op or lm ld fd].
  cbn -[payroll.sheet_by_emp_db_id payroll.advance_ded_by_emp_db_id
        payroll2.advance_ded_by_emp_db_id payroll._to_float payroll2._to_float
        payroll.range_employee_id payroll2.employee_id_of Z.max
        payroll._days_inclusive payroll2._days_inclusive float_of_int
        Qcplus Qcminus Qcmult Qcdiv Z.ltb Z.add].
  change (payroll2._days_inclusive start end_)
    with (payroll._days_inclusive start end_).
  change (payroll2._to_float float_of_str (Employee2.salary e))
    with (payroll._to_float float_of_str (Employee2.salary e)).
  change (payroll2.advance_ded_by_emp_db_id month_label db)
    with (payroll.advance_ded_by_emp_db_id month_label db).
  repeat split; try reflexivity; try apply max_0_clamp; ring.
Qed.

Lemma range_rows_agree month_label start end_ db index employees :
  outcomes_agree (Forall2 rows_agree)
    (payroll.range_rows float_of_str month_label start end_ db index employees)
    (payroll2.range_rows float_of_str month_label start end_ db index employees).
Proof.
  induction employees as [|e rest IH]; simpl; [constructor|].
  change (payroll2.employee_id_of e) with (payroll.range_employee_id e).
  pose proof (day_walk_related (fun x x' => without_unmarked x = x')
                (payroll.range_body (default ∅ (index !! payroll.range_employee_id e)))
                (payroll2.range_body (default ∅ (index !! payroll.range_employee_id e)))
                end_) as Hw.
  specialize (Hw (fun d x x' H => eq_trans (range_bodies_agree _ d x)
                                    (f_equal _ H))
                (Z.to_nat (end_ - start + 1)) start Tally.zero Tally.zero
                eq_refl eq_refl).
  destruct (day_walk (payroll.range_body _) end_ start Tally.zero) as [x|ex];
    destruct (day_walk (payroll2.range_body _) end_ start Tally.zero) as [x2|ex2];
    simpl in Hw; try contradiction; simpl; [|exact Hw].
  destruct (payroll.range_rows _ _ _ _ _ _ rest) as [rows|er];
    destruct (payroll2.range_rows _ _ _ _ _ _ rest) as [rows2|er2];
    simpl in IH; try contradiction; simpl; [|exact IH].
  constructor; [|exact IH]. subst x2. apply range_rows_agree_row.
Qed.

(** X6. The two range engines agree. For every request and store
    [payroll_range_report] and [payroll2_range_report] raise the same
    exception or answer with the same month label, number of employees,
    total gross and total net, and with rows that agree pairwise on every
    column the two have in common: identity, base salary, working days, day
    rate, the five day counters, leave encashment, total days, total
    salary, overtime, lateness, the sheet terms, fines, advance, gross and
    net pay, remarks and bank/cash; the day overrides agree up to the clamp
    at 0 that only [payroll.py] applies. *)
Theorem X6_the_two_range_engines_agree (from_date to_date : string)
    (month : option string) (db : Db) :
  outcomes_agree reports_agree
    (payroll.payroll_range_report float_of_str from_date to_date month db)
    (payroll2.payroll2_range_report float_of_str from_date to_date month db).
Proof.
  unfold payroll.payroll_range_report, payroll2.payroll2_range_report.
  change payroll2._parse_date with payroll._parse_date.
  destruct (payroll._parse_date from_date "from_date") as [start|e1];
    [|reflexivity].
  destruct (payroll._parse_date to_date "to_date") as [end_|e2]; [|reflexivity].
  cbn [bind]. destruct (end_ <? start); [reflexivity|].
  set (month_label := if Py.truthy_str month then Py.str_or_empty month
                      else payroll._month_label end_).
  change (if Py.truthy_str month then Py.str_or_empty month
          else payroll2._month_label end_) with month_label.
  pose proof (range_rows_agree month_label start end_ db
                (payroll.by_emp_by_date
                   (List.filter (payroll.in_period start end_) (attendance db)))
                (sorted payroll.sort_key
                   (List.filter (payroll.hired_by (datetime_combine end_ time_max))
                      (employees db)))) as H.
  change (payroll2.range_rows float_of_str month_label start end_ db
            (payroll2.by_emp_by_date
               (List.filter (payroll2.in_period start end_) (attendance db)))
            (sorted payroll2.sort_key
               (List.filter (payroll2.hired_by (datetime_combine end_ time_max))
                  (employees db))))
    with (payroll2.range_rows float_of_str month_label start end_ db
            (payroll.by_emp_by_date
               (List.filter (payroll.in_period start end_) (attendance db)))
            (sorted payroll.sort_key
               (List.filter (payroll.hired_by (datetime_combine end_ time_max))
                  (employees db)))).
  destruct (payroll.range_rows _ _ _ _ _ _ _) as [rows|er];
    destruct (payroll2.range_rows _ _ _ _ _ _ _) as [rows2|er2];
    simpl in H; try contradiction; [|exact H].
  cbn [bind outcomes_agree]. unfold reports_agree. simpl.
  repeat split; try reflexivity.
  - rewrite (Forall2_length _ _ _ H). reflexivity.
  - apply (fold_sum_agree _ _ rows_agree); [|exact H].
    intros a b Hab. unfold rows_agree in Hab. tauto.
  - apply (fold_sum_agree _ _ rows_agree); [|exact H].
    intros a b Hab. unfold rows_agree in Hab. tauto.
  - exact H.
Qed.

End Engines.

(** ** Proration *)

Lemma nonneg_days_counters x y :
  day_counters x = day_counters y -> nonneg_days y -> nonneg_days x.
Proof. unfold day_counters, nonneg_days. intros [= -> -> -> -> -> ->]. auto. Qed.

Lemma payroll_range_body_nonneg days d x :
  nonneg_days x -> nonneg_days (payroll.range_body days d x).
Proof.
  unfold payroll.range_body. intros Hx.
  destruct (days !! d) as [a|].
  - apply (nonneg_days_counters _ _ (day_counters_accrue_fine a _)).
    apply (nonneg_days_counters _ _ (day_counters_accruals a _)).
    destruct x; unfold nonneg_days in *; simpl in *.
    repeat match goal with |- context [if ?c then _ else _] => destruct c end;
      simpl; lia.
  - destruct x; unfold nonneg_days in *; simpl in *. lia.
Qed.

Lemma payroll_walk_nonneg days start end_ x :
  start <= end_ ->
  day_walk (payroll.range_body days) end_ start Tally.zero = Ok x ->
  nonneg_days x.
Proof.
  intros Hle Hw.
  apply (day_walk_invariant (payroll.range_body days)
           (fun _ x => nonneg_days x) end_) with (n := Z.to_nat (end_ - start + 1))
           (k := 0) in Hw; try lia; auto.
  - intros d k y _. apply payroll_range_body_nonneg.
  - unfold nonneg_days. simpl. lia.
Qed.

Lemma float_of_int_nonzero (n : Z) : n <> 0 -> float_of_int n <> 0%Qc.
Proof.
  intros Hn H. unfold float_of_int in H.
  apply (f_equal this) in H. simpl in H.
  unfold Qred in H. simpl in H.
  destruct (Z.ggcd n 1) as [g [a b]] eqn:E.
  pose proof (Z.ggcd_correct_divisors n 1) as Hd. rewrite E in Hd.
  simpl in Hd. destruct Hd as [Hd1 Hd2].
  simpl in H. injection H as Ha _. subst a. lia.
Qed.

Section Proration.
Context (float_of_str : string -> option Qc).

Lemma payroll_range_row_prorated month_label start end_ db e x :
  start <= end_ -> nonneg_days x -> days6 x = end_ - start + 1 ->
  range_row_prorated
    (payroll.range_row float_of_str month_label start end_ db e x).
Proof.
  intros Hle Hx H6. unfold range_row_prorated, payroll.range_row.
  cbv zeta.
  cbn [payroll.RangeRow.working_days payroll.RangeRow.day_rate
       payroll.RangeRow.base_salary payroll.RangeRow.present_days
       payroll.RangeRow.late_days payroll.RangeRow.absent_days
       payroll.RangeRow.paid_leave_days payroll.RangeRow.unpaid_leave_days
       payroll.RangeRow.unmarked_days payroll.RangeRow.payable_days
       payroll.RangeRow.total_days payroll.RangeRow.pre_days
       payroll.RangeRow.cur_days payroll.RangeRow.total_salary
       payroll.RangeRow.basic_earned payroll.RangeRow.unpaid_leave_deduction].
  unfold nonneg_days in Hx. unfold days6, days5 in H6.
  assert (Hwd : payroll._days_inclusive start end_ = end_ - start + 1)
    by reflexivity.
  set (wd := payroll._days_inclusive start end_) in *.
  assert (Hpos : (0 <? wd) = true) by (apply Z.ltb_lt; lia).
  rewrite Hpos.
  assert (Hcap : (wd <? Tally.present_days x + Tally.late_days x
                         + Tally.paid_leave_days x) = false)
    by (apply Z.ltb_ge; lia).
  rewrite Hcap. rewrite !max_0_clamp.
  repeat split; try lia; reflexivity.
Qed.

(** X7. In every row of a range report of [payroll.py]: the period has at
    least one day, so day_rate is base_salary / working_days and never the
    0 of the guard on working_days; the six day counters, total_days,
    pre_days and cur_days are not negative; payable_days is present + late
    + paid-leave days and is at most working_days (the cap of the code
    never applies); basic_earned is the total salary; and the unpaid-leave
    deduction is 0. *)
Theorem X7_range_rows_are_prorated (from_date to_date : string)
    (month : option string) (db : Db)
    (rep : payroll.PayrollReportResponse.t payroll.RangeRow.t) :
  payroll.payroll_range_report float_of_str from_date to_date month db = Ok rep ->
  Forall range_row_prorated (payroll.PayrollReportResponse.rows rep).
Proof.
  intros H.
  apply payroll_range_report_inv in H
    as (start & end_ & month_label & _ & _ & Hle & Hrows).
  apply payroll_range_rows_inv in Hrows.
  revert Hrows. generalize (payroll.PayrollReportResponse.rows rep).
  generalize (sorted payroll.sort_key
                (List.filter (payroll.hired_by (datetime_combine end_ time_max))
                   (employees db))).
  intros es rows HF. induction HF as [|e r es rows (x & Hw & ->) _ IH];
    constructor; [|exact IH].
  apply payroll_range_row_prorated; [exact Hle | |].
  - exact (payroll_walk_nonneg _ _ _ _ Hle Hw).
  - exact (payroll_walk_days6 _ _ _ _ Hle Hw).
Qed.

End Proration.

Lemma X7_range_rows_are_prorated_witness :
  exists rep,
    payroll.payroll_range_report decimal "2024-01-01" "2024-01-31" None
      Example.busy_january = Ok rep
    /\ Forall range_row_prorated (payroll.PayrollReportResponse.rows rep)
    /\ map (fun r =>
              (payroll.RangeRow.working_days r, payroll.RangeRow.payable_days r,
               payroll.RangeRow.total_days r, payroll.RangeRow.unmarked_days r,
               this (payroll.RangeRow.day_rate r)))
         (payroll.PayrollReportResponse.rows rep)
       = [(31, 23, 24, 5, inject_Z 1000)].
Proof.
  destruct (payroll.payroll_range_report decimal "2024-01-01" "2024-01-31" None
              Example.busy_january) as [rep|e] eqn:E.
  - exists rep. split; [reflexivity|]. split.
    + exact (X7_range_rows_are_prorated decimal _ _ _ _ rep E).
    + vm_compute in E. injection E as <-. vm_compute. reflexivity.
  - vm_compute in E. discriminate E.
Defined.

(** ** The day counters by the records of the days *)

Lemma Z_eqb_bool_decide (a b : Z) : (a =? b) = bool_decide (a = b).
Proof.
  destruct (Z.eqb_spec a b) as [->|Hne].
  - rewrite bool_decide_eq_true_2; reflexivity.
  - rewrite bool_decide_eq_false_2; [reflexivity | exact Hne].
Qed.

Lemma find_filter {A : Type} (p q : A -> bool) (l : list A) :
  (forall a, p a = true -> q a = true) ->
  List.find p (List.filter q l) = List.find p l.
Proof.
  intros Hpq. induction l as [|a l IH]; simpl; [reflexivity|].
  destruct (q a) eqn:Hq; simpl.
  - destruct (p a); [reflexivity | exact IH].
  - destruct (p a) eqn:Hp; [|exact IH].
    rewrite (Hpq a Hp) in Hq. discriminate Hq.
Qed.

Lemma find_ext {A : Type} (p q : A -> bool) (l : list A) :
  (forall a, p a = q a) -> List.find p l = List.find q l.
Proof.
  intros Hpq. induction l as [|a l IH]; simpl; [reflexivity|].
  rewrite Hpq, IH. reflexivity.
Qed.

Lemma filter_rev' {A : Type} (p : A -> bool) (l : list A) :
  List.filter p (rev l) = rev (List.filter p l).
Proof.
  induction l as [|a l IH]; simpl; [reflexivity|].
  rewrite List.filter_app, IH. simpl.
  destruct (p a); simpl; [reflexivity | apply app_nil_r].
Qed.

(** The day index of a range report, looked up on a day of the period. *)
Lemma day_index_lookup (db : Db) (start end_ : date) (k : string) (d : date) :
  start <= d <= end_ ->
  default ∅
    (payroll.by_emp_by_date
       (List.filter (payroll.in_period start end_) (attendance db)) !! k) !! d
  = day_record db k d.
Proof.
  intros Hd. unfold payroll.by_emp_by_date, index_by2, day_record.
  rewrite index_by2_fold, lookup_empty. simpl. rewrite lookup_empty.
  rewrite <- filter_rev'.
  rewrite find_filter.
  - rewrite (find_ext _
               (fun r => String.eqb (Py.strip (AttendanceRecord.employee_id r)) k
                         && (AttendanceRecord.date r =? d))).
    + destruct (List.find _ _); reflexivity.
    + intros a. rewrite eqb_bool_decide, Z_eqb_bool_decide. reflexivity.
  - intros a Ha. apply andb_prop in Ha as [_ Ha].
    apply bool_decide_eq_true_1 in Ha. unfold payroll.in_period.
    rewrite Ha. apply andb_true_intro. split; apply Z.leb_le; lia.
Qed.

Lemma fold_left_ext_in {A B : Type} (f g : A -> B -> A) (l : list B) :
  (forall a b, In b l -> f a b = g a b) ->
  forall a, fold_left f l a = fold_left g l a.
Proof.
  induction l as [|b l IH]; intros H a; simpl; [reflexivity|].
  rewrite H by (left; reflexivity). apply IH.
  intros a' b' Hb. apply H. right. exact Hb.
Qed.

(** The body of the walk by the record of the day. *)
Lemma payroll_range_body_record (days : gmap Z AttendanceRecord.t) (d : date)
    (x : Tally.t) :
  payroll.range_body days d x
  = match days !! d with
    | Some a =>
        accrue_fine a (accrue_late a (track_overtime_rate a
          (accrue_overtime a (count_day (category_of (Some a)) x))))
    | None => count_day Unmarked x
    end.
Proof.
  unfold payroll.range_body.
  destruct (days !! d) as [a|]; [|reflexivity].
  do 4 f_equal. unfold category_of, normal_status.
  destruct (AttendanceRecord.status a) as [[|c s]|]; try reflexivity.
  change (Py.truthy_str (Some (String c s))) with true. cbv iota.
  set (st := Py.strip (Py.lower (Py.str_or_empty (Some (String c s))))).
  destruct (String.eqb st "present"); [reflexivity|].
  destruct (String.eqb st "late"); [reflexivity|].
  destruct (String.eqb st "absent"); [reflexivity|].
  destruct (String.eqb st "leave"); [|reflexivity].
  destruct (String.eqb _ "unpaid"); reflexivity.
Qed.

Lemma day_counters_count_day (c : category) (x : Tally.t) :
  day_counters (count_day c x)
  = let '(p, l, a, pl, ul, um) := day_counters x in
    let n c' := if category_eqb c c' then 1 else 0 in
    (p + n Present, l + n Late, a + n Absent, pl + n PaidLeave,
     ul + n UnpaidLeave, um + n Unmarked).
Proof.
  destruct x, c; unfold day_counters; simpl;
    repeat (apply pair_equal_spec; split); lia.
Qed.

Lemma payroll_range_body_counters (days : gmap Z AttendanceRecord.t) (d : date)
    (x : Tally.t) :
  day_counters (payroll.range_body days d x)
  = day_counters (count_day (category_of (days !! d)) x).
Proof.
  rewrite payroll_range_body_record.
  destruct (days !! d) as [a|]; [|reflexivity].
  rewrite day_counters_accrue_fine, day_counters_accruals. reflexivity.
Qed.

Lemma count_in_cons cat c d l :
  count_in cat c (d :: l)
  = (if category_eqb (cat d) c then 1 else 0) + count_in cat c l.
Proof.
  unfold count_in. simpl. destruct (category_eqb (cat d) c); simpl; lia.
Qed.

Lemma payroll_fold_counters (days : gmap Z AttendanceRecord.t) (l : list date)
    (x : Tally.t) :
  day_counters (fold_left (fun x d => payroll.range_body days d x) l x)
  = let '(p, la, a, pl, ul, um) := day_counters x in
    let n := fun c => count_in (fun d => category_of (days !! d)) c l in
    (p + n Present, la + n Late, a + n Absent, pl + n PaidLeave,
     ul + n UnpaidLeave, um + n Unmarked).
Proof.
  revert x. induction l as [|d l IH]; intros x; cbn [fold_left].
  - destruct (day_counters x) as [[[[[p la] a] pl] ul] um].
    unfold count_in. simpl. rewrite !Z.add_0_r. reflexivity.
  - rewrite IH, payroll_range_body_counters, day_counters_count_day.
    destruct (day_counters x) as [[[[[p la] a] pl] ul] um].
    cbv zeta. rewrite !count_in_cons.
    destruct (category_of (days !! d)); simpl;
      repeat (apply pair_equal_spec; split); lia.
Qed.

Lemma day_walk_ok_fold {S : Type} (body : date -> S -> S) (start end_ : date)
    (acc x : S) :
  0 < start <= end_ ->
  day_walk body end_ start acc = Ok x ->
  x = fold_left (fun x d => body d x) (period_days start end_) acc.
Proof.
  intros Hs Hw. destruct (Z_lt_dec end_ Date.MAXORDINAL) as [Hlt|Hge].
  - rewrite (day_walk_fold body end_ Hlt (Z.to_nat (end_ - start + 1))) in Hw
      by lia.
    congruence.
  - rewrite (day_walk_overflow body end_ ltac:(lia)
               (Z.to_nat (Date.MAXORDINAL - start))) in Hw by lia.
    discriminate Hw.
Qed.

Lemma count_in_ext (cat cat' : date -> category) (c : category) (l : list date) :
  (forall d, In d l -> cat d = cat' d) -> count_in cat c l = count_in cat' c l.
Proof.
  intros H. unfold count_in. do 2 f_equal.
  induction l as [|d l IH]; simpl; [reflexivity|].
  rewrite (H d) by (left; reflexivity).
  rewrite IH by (intros d' Hd'; apply H; right; exact Hd'). reflexivity.
Qed.

(** The rows of a successful range report, by the loop over the days. *)
Section RangeRowsByDay.
Context (float_of_str : string -> option Qc).

Lemma payroll_range_report_rows from_date to_date month db rep :
  payroll.payroll_range_report float_of_str from_date to_date month db = Ok rep ->
  exists start end_ month_label,
    payroll._parse_date from_date "from_date" = Ok start
    /\ payroll._parse_date to_date "to_date" = Ok end_
    /\ 0 < start <= end_
    /\ Forall2
         (fun e r =>
            r = payroll.range_row float_of_str month_label start end_ db e
                  (payroll_tally
                     (payroll.by_emp_by_date
                        (List.filter (payroll.in_period start end_) (attendance db)))
                     start end_ e))
         (range_employees end_ db) (payroll.PayrollReportResponse.rows rep).
Proof.
  intros H.
  apply payroll_range_report_inv in H
    as (start & end_ & month_label & Hs & He & Hle & Hrows).
  pose proof (parse_date_bounds _ _ _ Hs) as Hb.
  exists start, end_, month_label. repeat split; try assumption; try lia.
  apply payroll_range_rows_inv in Hrows.
  unfold range_employees.
  eapply Forall2_impl; [exact Hrows|].
  intros e r (x & Hw & ->). f_equal.
  apply day_walk_ok_fold in Hw; [exact Hw | lia].
Qed.

Lemma payroll_tally_counters db start end_ e :
  day_counters
    (payroll_tally
       (payroll.by_emp_by_date
          (List.filter (payroll.in_period start end_) (attendance db)))
       start end_ e)
  = let n := days_in_category db start end_ (payroll.range_employee_id e) in
    (n Present, n Late, n Absent, n PaidLeave, n UnpaidLeave, n Unmarked).
Proof.
  unfold payroll_tally. rewrite payroll_fold_counters.
  change (day_counters Tally.zero) with (0, 0, 0, 0, 0, 0). cbv zeta iota beta.
  assert (Hc : forall c,
             count_in
               (fun d =>
                  category_of
                    (default ∅
                       (payroll.by_emp_by_date
                          (List.filter (payroll.in_period start end_) (attendance db))
                        !! payroll.range_employee_id e) !! d))
               c (period_days start end_)
             = days_in_category db start end_ (payroll.range_employee_id e) c).
  { intros c. apply count_in_ext. intros d Hd. apply in_period_days in Hd.
    rewrite day_index_lookup by exact Hd. reflexivity. }
  rewrite !Hc. reflexivity.
Qed.

(** X8. The six day counters of a row of a range report of [payroll.py]
    count the days of the period by the record the walk reads for the day
    (the last record of the table for the stripped employee identifier and
    the date): present, late, absent by the status; paid or unpaid leave by
    the leave type of a "leave" record; unmarked for a day without a record
    or with any other status. *)
Theorem X8_day_counters_count_the_days (from_date to_date : string)
    (month : option string) (db : Db)
    (rep : payroll.PayrollReportResponse.t payroll.RangeRow.t) :
  payroll.payroll_range_report float_of_str from_date to_date month db = Ok rep ->
  exists start end_,
    payroll._parse_date from_date "from_date" = Ok start
    /\ payroll._parse_date to_date "to_date" = Ok end_
    /\ Forall2 (counts_days db start end_)
         (range_employees end_ db) (payroll.PayrollReportResponse.rows rep).
Proof.
  intros H.
  apply payroll_range_report_rows in H
    as (start & end_ & month_label & Hs & He & Hle & Hrows).
  exists start, end_. repeat split; try assumption.
  eapply Forall2_impl; [exact Hrows|].
  intros e r ->.
  pose proof (payroll_tally_counters db start end_ e) as Hc.
  unfold day_counters in Hc. cbv zeta in Hc.
  injection Hc as H1 H2 H3 H4 H5 H6.
  unfold counts_days. cbv zeta. repeat split; assumption.
Qed.

End RangeRowsByDay.

Lemma X8_day_counters_count_the_days_witness :
  exists rep start end_,
    payroll.payroll_range_report decimal "2024-01-01" "2024-01-31" None
      Example.january = Ok rep
    /\ Forall2 (counts_days Example.january start end_)
         (range_employees end_ Example.january)
         (payroll.PayrollReportResponse.rows rep).
Proof.
  destruct (payroll.payroll_range_report decimal "2024-01-01" "2024-01-31" None
              Example.january) as [rep|e] eqn:E.
  - destruct (X8_day_counters_count_the_days decimal _ _ _ _ rep E)
      as (start & end_ & _ & _ & H).
    exists rep, start, end_. split; [reflexivity | exact H].
  - vm_compute in E. discriminate E.
Defined.

(** ** The overtime rate of a range row *)

Lemma overtime_rate_count_day c x :
  Tally.overtime_rate (count_day c x) = Tally.overtime_rate x.
Proof. destruct c, x; reflexivity. Qed.

Lemma overtime_rate_accrue_overtime a x :
  Tally.overtime_rate (accrue_overtime a x) = Tally.overtime_rate x.
Proof. unfold accrue_overtime. destruct (_ && _); destruct x; reflexivity. Qed.

Lemma overtime_rate_accrue_late a x :
  Tally.overtime_rate (accrue_late a x) = Tally.overtime_rate x.
Proof.
  unfold accrue_late.
  destruct (Py.truthy_int _), (Py.truthy_float _); destruct x; reflexivity.
Qed.

Lemma overtime_rate_accrue_fine a x :
  Tally.overtime_rate (accrue_fine a x) = Tally.overtime_rate x.
Proof. unfold accrue_fine. destruct (Py.truthy_float _); destruct x; reflexivity. Qed.

Lemma Qc_ltb_lt (a b : Qc) : Qc_ltb a b = true <-> (a < b)%Qc.
Proof.
  unfold Qc_ltb, Qclt, Qccompare, Qlt.
  rewrite <- Z.compare_lt_iff. unfold Qcompare.
  destruct (_ ?= _)%Z; split; congruence.
Qed.

(** A positive rate is a rate that is set. *)
Lemma positive_is_truthy (v : option Qc) :
  Py.truthy_float v && Qc_ltb 0 (Py.float_or_0 v) = Qc_ltb 0 (Py.float_or_0 v).
Proof.
  destruct (Qc_ltb 0 (Py.float_or_0 v)) eqn:E; [|apply andb_false_r].
  rewrite andb_true_r. destruct v as [q|]; [|discriminate E].
  simpl in *. apply Qc_ltb_lt in E.
  destruct (Qc_eq_bool q 0) eqn:Eq; [|reflexivity].
  apply Qc_eq_bool_correct in Eq. subst q. exfalso.
  exact (Qclt_not_eq _ _ E eq_refl).
Qed.

Lemma overtime_rate_track a x :
  Tally.overtime_rate (track_overtime_rate a x)
  = if Qc_ltb 0 (Py.float_or_0 (AttendanceRecord.overtime_rate a))
    then Py.float_or_0 (AttendanceRecord.overtime_rate a)
    else Tally.overtime_rate x.
Proof.
  unfold track_overtime_rate. rewrite positive_is_truthy.
  destruct (Qc_ltb 0 _); destruct x; reflexivity.
Qed.

Lemma last_cons_default {A : Type} (a : A) (l : list A) (d : A) :
  List.last (a :: l) d = List.last l a.
Proof.
  revert a d. induction l as [|b l IH]; intros a d; [reflexivity|].
  change (List.last (a :: b :: l) d) with (List.last (b :: l) d).
  rewrite (IH b d), (IH b a). reflexivity.
Qed.

Lemma last_app_default {A : Type} (l1 l2 : list A) (d : A) :
  List.last (l1 ++ l2) d = List.last l2 (List.last l1 d).
Proof.
  revert d. induction l1 as [|a l1 IH]; intros d; [reflexivity|].
  rewrite <- app_comm_cons, !last_cons_default. apply IH.
Qed.

Lemma payroll_fold_overtime_rate (days : gmap Z AttendanceRecord.t)
    (l : list date) (x : Tally.t) :
  Tally.overtime_rate (fold_left (fun x d => payroll.range_body days d x) l x)
  = List.last
      (List.filter (Qc_ltb 0)
         (map (fun a => Py.float_or_0 (AttendanceRecord.overtime_rate a))
            (omap (fun d => days !! d) l)))
      (Tally.overtime_rate x).
Proof.
  revert x. induction l as [|d l IH]; intros x; [reflexivity|].
  cbn [fold_left omap list_omap]. rewrite IH, payroll_range_body_record.
  change (omap (fun d => days !! d) (d :: l))
    with (match days !! d with
          | Some a => a :: omap (fun d => days !! d) l
          | None => omap (fun d => days !! d) l
          end).
  destruct (days !! d) as [a|].
  - rewrite overtime_rate_accrue_fine, overtime_rate_accrue_late,
      overtime_rate_track, overtime_rate_accrue_overtime, overtime_rate_count_day.
    cbn [map List.filter].
    destruct (Qc_ltb 0 (Py.float_or_0 (AttendanceRecord.overtime_rate a))) eqn:E.
    + change (?q :: ?l) with ([q] ++ l) at 1.
      rewrite last_app_default. reflexivity.
    + reflexivity.
  - rewrite overtime_rate_count_day. reflexivity.
Qed.

Lemma omap_ext_in {A B : Type} (f g : A -> option B) (l : list A) :
  (forall a, In a l -> f a = g a) -> omap f l = omap g l.
Proof.
  induction l as [|a l IH]; intros H; [reflexivity|].
  cbn [omap list_omap]. rewrite (H a) by (left; reflexivity).
  rewrite IH by (intros b Hb; apply H; right; exact Hb). reflexivity.
Qed.

Lemma last_positive_nonneg (l : list Qc) :
  (0 <= List.last (List.filter (Qc_ltb 0) l) 0)%Qc.
Proof.
  assert (H : forall l' : list Qc,
             Forall (fun q => (0 < q)%Qc) l' -> forall d, (0 <= d)%Qc ->
             (0 <= List.last l' d)%Qc).
  { induction 1 as [|q l' Hq _ IH]; intros d Hd; [exact Hd|].
    destruct l' as [|q' l'']; [apply Qclt_le_weak; exact Hq|].
    change (List.last (q :: q' :: l'') d) with (List.last (q' :: l'') d).
    apply IH. exact Hd. }
  apply H; [|apply Qcle_refl].
  apply List.Forall_forall. intros q Hq. apply List.filter_In in Hq as [_ Hq].
  apply Qc_ltb_lt. exact Hq.
Qed.

Section OvertimeRate.
Context (float_of_str : string -> option Qc).

(** X9. The overtime_rate of a row of a range report of [payroll.py] is
    the last positive overtime rate among the records read for the days of
    the period, in the order of the days, and 0 when there is none; it is
    never negative. *)
Theorem X9_overtime_rate_is_the_last_positive_rate (from_date to_date : string)
    (month : option string) (db : Db)
    (rep : payroll.PayrollReportResponse.t payroll.RangeRow.t) :
  payroll.payroll_range_report float_of_str from_date to_date month db = Ok rep ->
  exists start end_,
    payroll._parse_date from_date "from_date" = Ok start
    /\ payroll._parse_date to_date "to_date" = Ok end_
    /\ Forall2 (pays_last_positive_rate db start end_)
         (range_employees end_ db) (payroll.PayrollReportResponse.rows rep).
Proof.
  intros H.
  apply payroll_range_report_rows in H
    as (start & end_ & month_label & Hs & He & Hle & Hrows).
  exists start, end_. repeat split; try assumption.
  eapply Forall2_impl; [exact Hrows|].
  intros e r ->.
  assert (Hrate :
    payroll.RangeRow.overtime_rate
      (payroll.range_row float_of_str month_label start end_ db e
         (payroll_tally
            (payroll.by_emp_by_date
               (List.filter (payroll.in_period start end_) (attendance db)))
            start end_ e))
    = List.last (positive_rates db start end_ (payroll.range_employee_id e)) 0%Qc).
  { change (payroll.RangeRow.overtime_rate (payroll.range_row _ _ _ _ _ _ ?x))
      with (Tally.overtime_rate x).
    unfold payroll_tally. rewrite payroll_fold_overtime_rate.
    unfold positive_rates.
    rewrite (omap_ext_in _ (day_record db (payroll.range_employee_id e)));
      [reflexivity|].
    intros d Hd. apply in_period_days in Hd.
    apply day_index_lookup. exact Hd. }
  split; [exact Hrate|]. rewrite Hrate. apply last_positive_nonneg.
Qed.

End OvertimeRate.

Lemma X9_overtime_rate_is_the_last_positive_rate_witness :
  exists rep start end_,
    payroll.payroll_range_report decimal "2024-01-01" "2024-01-31" None
      Example.overtime_store = Ok rep
    /\ Forall2 (pays_last_positive_rate Example.overtime_store start end_)
         (range_employees end_ Example.overtime_store)
         (payroll.PayrollReportResponse.rows rep)
    /\ map this
         (positive_rates Example.overtime_store Example.jan1 Example.jan31 "F1")
       = map inject_Z [100; 80; 50]
    /\ map (fun a => this (default 0%Qc (AttendanceRecord.overtime_rate a)))
         (attendance Example.overtime_store)
       = map inject_Z [50; 100; 0; 80]
    /\ map (fun r => this (payroll.RangeRow.overtime_rate r))
         (payroll.PayrollReportResponse.rows rep)
       = [inject_Z 50].
Proof.
  destruct (payroll.payroll_range_report decimal "2024-01-01" "2024-01-31" None
              Example.overtime_store) as [rep|e] eqn:E.
  - destruct (X9_overtime_rate_is_the_last_positive_rate decimal _ _ _ _ rep E)
      as (start & end_ & _ & _ & H).
    exists rep, start, end_. split; [reflexivity|]. split; [exact H|].
    vm_compute in E. injection E as <-.
    split; [|split]; vm_compute; reflexivity.
  - vm_compute in E. discriminate E.
Defined.

(** ** What the range reports read of the attendance table *)

Lemma In_insert_by {A : Type} (leb : A -> A -> bool) (x y : A) (l : list A) :
  In y (insert_by leb x l) <-> y = x \/ In y l.
Proof.
  induction l as [|z l IH]; simpl; [intuition congruence|].
  destruct (leb x z); simpl; [intuition congruence|].
  rewrite IH. intuition congruence.
Qed.

Lemma In_sort_by {A : Type} (leb : A -> A -> bool) (y : A) (l : list A) :
  In y (sort_by leb l) <-> In y l.
Proof.
  induction l as [|x l IH]; simpl; [reflexivity|].
  unfold sort_by in *. simpl. rewrite In_insert_by, IH. intuition congruence.
Qed.

Lemma In_range_employees (end_ : date) (db : Db) (e : Employee2.t) :
  In e (range_employees end_ db)
  <-> In e (employees db)
      /\ payroll.hired_by (datetime_combine end_ time_max) e = true.
Proof.
  unfold range_employees, sorted. rewrite In_sort_by. apply List.filter_In.
Qed.

Lemma day_walk_ext_in {S : Type} (body body' : date -> S -> S) (end_ : date) :
  forall (n : nat) (dcur : date) (acc : S),
    Z.to_nat (end_ - dcur + 1) = n ->
    (forall d x, dcur <= d <= end_ -> body d x = body' d x) ->
    day_walk body end_ dcur acc = day_walk body' end_ dcur acc.
Proof.
  intros n. induction n as [|n IH]; intros dcur acc Hn Hb;
    rewrite (day_walk_step body), (day_walk_step body').
  - destruct (dcur <=? end_) eqn:E; [apply Z.leb_le in E; lia | reflexivity].
  - destruct (dcur <=? end_) eqn:E; [apply Z.leb_le in E | reflexivity].
    destruct (Date.add_days dcur 1) as [dnext|] eqn:Hadd; [|reflexivity].
    apply add_days_1 in Hadd. subst dnext. rewrite Hb by lia.
    apply IH; [lia|]. intros d x Hd. apply Hb. lia.
Qed.

Lemma payroll_range_body_lookup (days days' : gmap Z AttendanceRecord.t)
    (d : date) (x : Tally.t) :
  days !! d = days' !! d ->
  payroll.range_body days d x = payroll.range_body days' d x.
Proof. intros H. unfold payroll.range_body. rewrite H. reflexivity. Qed.

Lemma payroll2_range_body_lookup (days days' : gmap Z AttendanceRecord.t)
    (d : date) (x : Tally.t) :
  days !! d = days' !! d ->
  payroll2.range_body days d x = payroll2.range_body days' d x.
Proof. intros H. unfold payroll2.range_body. rewrite H. reflexivity. Qed.

Section ReadsDayRecords.
Context (float_of_str : string -> option Qc).

Lemma payroll_range_rows_reads month_label start end_ db att' employees :
  (forall e d, In e employees -> start <= d <= end_ ->
     day_record (set_attendance db att') (payroll.range_employee_id e) d
     = day_record db (payroll.range_employee_id e) d) ->
  payroll.range_rows float_of_str month_label start end_ (set_attendance db att')
    (payroll.by_emp_by_date (List.filter (payroll.in_period start end_) att'))
    employees
  = payroll.range_rows float_of_str month_label start end_ db
      (payroll.by_emp_by_date
         (List.filter (payroll.in_period start end_) (attendance db)))
      employees.
Proof.
  induction employees as [|e rest IH]; intros H; [reflexivity|].
  cbn [payroll.range_rows].
  rewrite IH by (intros e' d He' Hd; apply H; [right; exact He' | exact Hd]).
  rewrite (day_walk_ext_in _
             (payroll.range_body
                (default ∅
                   (payroll.by_emp_by_date
                      (List.filter (payroll.in_period start end_) (attendance db))
                    !! payroll.range_employee_id e)))
             end_ (Z.to_nat (end_ - start + 1)) start Tally.zero eq_refl);
    [reflexivity|].
  intros d x Hd. apply payroll_range_body_lookup.
  rewrite (day_index_lookup db start end_ _ d Hd).
  rewrite <- (H e d (or_introl eq_refl) Hd).
  exact (day_index_lookup (set_attendance db att') start end_ _ d Hd).
Qed.

Lemma payroll2_range_rows_reads month_label start end_ db att' employees :
  (forall e d, In e employees -> start <= d <= end_ ->
     day_record (set_attendance db att') (payroll.range_employee_id e) d
     = day_record db (payroll.range_employee_id e) d) ->
  payroll2.range_rows float_of_str month_label start end_ (set_attendance db att')
    (payroll.by_emp_by_date (List.filter (payroll.in_period start end_) att'))
    employees
  = payroll2.range_rows float_of_str month_label start end_ db
      (payroll.by_emp_by_date
         (List.filter (payroll.in_period start end_) (attendance db)))
      employees.
Proof.
  induction employees as [|e rest IH]; intros H; [reflexivity|].
  cbn [payroll2.range_rows].
  rewrite IH by (intros e' d He' Hd; apply H; [right; exact He' | exact Hd]).
  change (payroll2.employee_id_of e) with (payroll.range_employee_id e).
  rewrite (day_walk_ext_in _
             (payroll2.range_body
                (default ∅
                   (payroll.by_emp_by_date
                      (List.filter (payroll.in_period start end_) (attendance db))
                    !! payroll.range_employee_id e)))
             end_ (Z.to_nat (end_ - start + 1)) start Tally.zero eq_refl);
    [reflexivity|].
  intros d x Hd. apply payroll2_range_body_lookup.
  rewrite (day_index_lookup db start end_ _ d Hd).
  rewrite <- (H e d (or_introl eq_refl) Hd).
  exact (day_index_lookup (set_attendance db att') start end_ _ d Hd).
Qed.

(** X10. The range reports read the attendance table only through the
    record of a day: two attendance tables that give the same record for
    every employee of the store and every day of the period get the same
    answer from [payroll_range_report] and from [payroll2_range_report].
    So records outside the period, records of identifiers that no employee
    has, and records shadowed by a later record for the same identifier and
    day change nothing. *)
Theorem X10_range_reports_read_one_record_per_day (from_date to_date : string)
    (month : option string) (db : Db) (att' : list AttendanceRecord.t)
    (start end_ : date) :
  payroll._parse_date from_date "from_date" = Ok start ->
  payroll._parse_date to_date "to_date" = Ok end_ ->
  (forall e d, In e (employees db) -> start <= d <= end_ ->
     day_record (set_attendance db att') (payroll.range_employee_id e) d
     = day_record db (payroll.range_employee_id e) d) ->
  payroll.payroll_range_report float_of_str from_date to_date month
    (set_attendance db att')
  = payroll.payroll_range_report float_of_str from_date to_date month db
  /\ payroll2.payroll2_range_report float_of_str from_date to_date month
       (set_attendance db att')
     = payroll2.payroll2_range_report float_of_str from_date to_date month db.
Proof.
  intros Hs He H.
  unfold payroll.payroll_range_report, payroll2.payroll2_range_report.
  change payroll2._parse_date with payroll._parse_date.
  rewrite Hs, He. cbn [bind].
  destruct (end_ <? start); [split; reflexivity|].
  cbn [employees attendance set_attendance].
  assert (Hin : forall e d,
             In e (range_employees end_ db) -> start <= d <= end_ ->
             day_record (set_attendance db att') (payroll.range_employee_id e) d
             = day_record db (payroll.range_employee_id e) d).
  { intros e d He' Hd. apply In_range_employees in He' as [He' _]. auto. }
  split.
  - change (sorted payroll.sort_key
              (List.filter (payroll.hired_by (datetime_combine end_ time_max))
                 (employees db)))
      with (range_employees end_ db).
    rewrite (payroll_range_rows_reads _ start end_ db att' _ Hin). reflexivity.
  - change (sorted payroll2.sort_key
              (List.filter (payroll2.hired_by (datetime_combine end_ time_max))
                 (employees db)))
      with (range_employees end_ db).
    change (payroll2.by_emp_by_date (List.filter (payroll2.in_period start end_) att'))
      with (payroll.by_emp_by_date (List.filter (payroll.in_period start end_) att')).
    change (payroll2.by_emp_by_date
              (List.filter (payroll2.in_period start end_) (attendance db)))
      with (payroll.by_emp_by_date
              (List.filter (payroll.in_period start end_) (attendance db))).
    rewrite (payroll2_range_rows_reads _ start end_ db att' _ Hin). reflexivity.
Qed.

End ReadsDayRecords.

Lemma X10_range_reports_read_one_record_per_day_witness :
  payroll.payroll_range_report decimal "2024-01-01" "2024-01-31" None
    (set_attendance Example.store more_records)
  = payroll.payroll_range_report decimal "2024-01-01" "2024-01-31" None
      Example.store
  /\ payroll2.payroll2_range_report decimal "2024-01-01" "2024-01-31" None
       (set_attendance Example.store more_records)
     = payroll2.payroll2_range_report decimal "2024-01-01" "2024-01-31" None
         Example.store.
Proof.
  apply (X10_range_reports_read_one_record_per_day decimal "2024-01-01"
           "2024-01-31" None Example.store more_records
           Example.jan1 Example.jan31); [reflexivity | reflexivity |].
  intros e d [<-|[]] Hd.
  unfold Example.jan1, Example.jan31 in Hd.
  destruct d as [|q|q]; try lia.
  unfold day_record. simpl.
  repeat match goal with
         | |- context [(?c =? q)%positive] => destruct (Pos.eqb_spec c q)
         end; try reflexivity; lia.
Defined.

(** ** Payment status requests *)

Lemma status_key_iff month employee_id r :
  payroll.status_key month employee_id r = true
  <-> status_key_of r = (month, employee_id).
Proof.
  unfold payroll.status_key, status_key_of. rewrite andb_true_iff, !String.eqb_eq.
  split; [intros [-> ->]; reflexivity | intros [= -> ->]; auto].
Qed.

Lemma first_None_Forall {A : Type} (p : A -> bool) (l : list A) :
  payroll.first p l = None <-> Forall (fun x => p x = false) l.
Proof.
  induction l as [|x l IH]; simpl; [split; [constructor | reflexivity]|].
  destruct (p x) eqn:Ex.
  - split; [discriminate | intros H; apply Forall_inv in H; congruence].
  - destruct (payroll.first p l) as [[i y]|].
    + split; [discriminate|]. intros H. apply Forall_inv_tail in H.
      apply IH in H. discriminate H.
    + split; [|reflexivity]. intros _. constructor; [exact Ex | apply IH; reflexivity].
Qed.

Lemma map_insert_same_key {A K : Type} (key : A -> K) (l : list A) (i : nat)
    (x y : A) :
  l !! i = Some y -> key y = key x -> map key (<[i := x]> l) = map key l.
Proof.
  revert i. induction l as [|z l IH]; intros i Hi Hk; [reflexivity|].
  destruct i as [|i]; simpl in *.
  - injection Hi as ->. rewrite Hk. reflexivity.
  - rewrite (IH i Hi Hk). reflexivity.
Qed.

(** Writing the row of a key over the first row of that key, or after the
    last row when there is none, keeps the keys distinct. *)
Lemma upsert_keeps_keys_distinct {A K : Type} (key : A -> K) (p : A -> bool)
    (l : list A) (x : A) :
  (forall r, p r = true <-> key r = key x) ->
  NoDup (map key l) ->
  NoDup (map key match payroll.first p l with
                 | Some (i, _) => <[i := x]> l
                 | None => l ++ [x]
                 end).
Proof.
  intros Hp Hnd. destruct (payroll.first p l) as [[i y]|] eqn:Ef.
  - apply first_Some_inv in Ef as [Hi Hy].
    rewrite (map_insert_same_key key l i x y Hi (proj1 (Hp y) Hy)). exact Hnd.
  - apply first_None_Forall in Ef. rewrite map_app. simpl.
    apply NoDup_app. split; [exact Hnd|]. split; [|apply NoDup_singleton].
    intros k Hk Hx. apply list_elem_of_In in Hk.
    apply List.in_map_iff in Hk. destruct Hk as (r & Hr & Hin).
    apply list_elem_of_singleton in Hx. rewrite Hx in Hr.
    rewrite List.Forall_forall in Ef. specialize (Ef r Hin).
    apply Hp in Hr. congruence.
Qed.

Lemma status_key_other month employee_id m id r :
  (m, id) <> (month, employee_id) ->
  status_key_of r = (month, employee_id) ->
  payroll.status_key m id r = false.
Proof.
  intros Hne Hr. destruct (payroll.status_key m id r) eqn:E; [|reflexivity].
  apply status_key_iff in E. congruence.
Qed.

Lemma upsert_keeps_other_rows month employee_id m id
    (table : list PayrollPaymentStatus.t) (row : PayrollPaymentStatus.t) :
  status_key_of row = (month, employee_id) ->
  (m, id) <> (month, employee_id) ->
  snd <$> payroll.first (payroll.status_key m id)
            match payroll.first (payroll.status_key month employee_id) table with
            | Some (i, _) => <[i := row]> table
            | None => table ++ [row]
            end
  = snd <$> payroll.first (payroll.status_key m id) table.
Proof.
  intros Hrow Hne.
  destruct (payroll.first (payroll.status_key month employee_id) table)
    as [[i y]|] eqn:Ef.
  - apply first_Some_inv in Ef as [Hi Hy]. apply status_key_iff in Hy.
    apply (first_insert_other _ _ _ _ y Hi);
      eapply status_key_other; eassumption.
  - apply first_app_other. eapply status_key_other; eassumption.
Qed.

(** X11. [GET /payment-status] never raises. With a row for (month,
    employee_id) in the store it returns the first such row and changes
    nothing; without one it adds the row (month, employee_id, "unpaid", no
    employee, no snapshot) after the others and returns it. A second
    request returns the same row and changes nothing. The other tables and
    the rows of all other keys are kept, and a table with one row per key
    stays one. *)
Theorem X11_get_payment_status_creates_once (month employee_id : string)
    (db : Db) :
  exists row db1,
    request (payroll.get_payment_status month employee_id) db = (db1, Ok row)
    /\ request (payroll.get_payment_status month employee_id) db1 = (db1, Ok row)
    /\ status_row db1 month employee_id = Some row
    /\ match status_row db month employee_id with
       | Some r => db1 = db /\ row = r
       | None =>
           row = PayrollPaymentStatus.mk month employee_id (Some "unpaid") None None
           /\ payment_status db1 = payment_status db ++ [row]
       end
    /\ same_but_payment_status db db1
    /\ other_status_rows_kept month employee_id db db1
    /\ (status_keys_unique db -> status_keys_unique db1).
Proof.
  unfold status_row.
  destruct (payroll.first (payroll.status_key month employee_id)
              (payment_status db)) as [[i r]|] eqn:Ef.
  - exists r, db.
    rewrite (get_payment_status_found month employee_id db i r Ef).
    rewrite Ef. unfold same_but_payment_status, other_status_rows_kept.
    repeat split; auto.
  - set (row := PayrollPaymentStatus.mk month employee_id (Some "unpaid") None None).
    set (db1 := set_payment_status db (payment_status db ++ [row])).
    assert (Hkey : payroll.status_key month employee_id row = true).
    { unfold payroll.status_key. simpl. rewrite !String.eqb_refl. reflexivity. }
    pose proof (first_None_app _ _ row Ef Hkey) as Hf.
    exists row, db1.
    assert (H1 : request (payroll.get_payment_status month employee_id) db
                 = (db1, Ok row)).
    { unfold request, payroll.get_payment_status, bindM, query, ret, set_pending,
        commit. cbn [pending committed]. rewrite Ef. reflexivity. }
    split; [exact H1|].
    split; [exact (get_payment_status_found month employee_id db1 _ row Hf)|].
    split; [cbn [db1 payment_status set_payment_status]; rewrite Hf; reflexivity|].
    split; [split; reflexivity|].
    split; [repeat split|].
    split.
    + intros m id Hne. unfold status_row. cbn [db1 payment_status set_payment_status].
      apply first_app_other. eapply status_key_other; [exact Hne | reflexivity].
    + unfold status_keys_unique. cbn [db1 payment_status set_payment_status].
      intros Hnd.
      pose proof (upsert_keeps_keys_distinct status_key_of
                    (payroll.status_key month employee_id) (payment_status db) row
                    (fun r => status_key_iff month employee_id r) Hnd) as H.
      rewrite Ef in H. exact H.
Qed.

Section UpsertStatus.
Context (float_of_str : string -> option Qc).

(** What a successful write leaves behind. *)
Lemma upsert_payment_status_writes (db db' : Db)
    (payload : payroll.PayrollPaymentStatusUpsert.t)
    (row : PayrollPaymentStatus.t) :
  request (payroll.upsert_payment_status float_of_str payload) db = (db', Ok row) ->
  (requested_status payload = "unpaid" \/ requested_status payload = "paid")
  /\ PayrollPaymentStatus.status row = Some (requested_status payload)
  /\ status_row db' (payroll.PayrollPaymentStatusUpsert.month payload)
       (payroll.PayrollPaymentStatusUpsert.employee_id payload) = Some row
  /\ (status_keys_unique db -> status_keys_unique db').
Proof.
  set (month := payroll.PayrollPaymentStatusUpsert.month payload).
  set (employee_id := payroll.PayrollPaymentStatusUpsert.employee_id payload).
  set (status := requested_status payload).
  unfold request, payroll.upsert_payment_status.
  fold month employee_id. change (Py.lower _) with status.
  assert (Hwritten : forall snapshot emp,
            let row' := PayrollPaymentStatus.mk month employee_id (Some status)
                          emp snapshot in
            let table :=
              match payroll.first (payroll.status_key month employee_id)
                      (payment_status db) with
              | Some (i, _) => <[i := row']> (payment_status db)
              | None => payment_status db ++ [row']
              end in
            status_row (set_payment_status db table) month employee_id = Some row'
            /\ (status_keys_unique db ->
                status_keys_unique (set_payment_status db table))).
  { intros snapshot emp row' table. split.
    - unfold status_row. cbn [payment_status set_payment_status].
      destruct (status_row_written month employee_id (payment_status db) row'
                  eq_refl eq_refl) as [i Hi].
      subst table. rewrite Hi. reflexivity.
    - unfold status_keys_unique. cbn [payment_status set_payment_status].
      apply upsert_keeps_keys_distinct. intros r. apply status_key_iff. }
  destruct (String.eqb status "paid") eqn:Ep.
  - apply String.eqb_eq in Ep. rewrite Ep in *.
    cbn [String.eqb Ascii.eqb Bool.eqb negb orb andb].
    unfold bindM, query, lift, ret, set_pending, commit. cbn [pending committed].
    destruct (payroll.payroll_report float_of_str month db) as [rep|e];
      [|discriminate].
    cbn [committed]. intros [= <- <-].
    split; [right; reflexivity|]. split; [reflexivity|]. apply Hwritten.
  - destruct (String.eqb status "unpaid") eqn:Eu.
    + apply String.eqb_eq in Eu. rewrite Eu in *.
      cbn [String.eqb Ascii.eqb Bool.eqb negb orb andb].
      unfold bindM, query, lift, ret, set_pending, commit. cbn [pending committed].
      intros [= <- <-].
      split; [left; reflexivity|]. split; [reflexivity|]. apply Hwritten.
    + cbn [negb orb]. unfold raise. discriminate.
Qed.

(** X12. The outcomes of [PUT /payment-status]. It raises in two cases
    only, and then the store is what it was: 400 "status must be 'paid' or
    'unpaid'" when the status, lower-cased and stripped, is neither; and,
    for "paid", the exception of the calendar-month report of the month
    when that report fails. "unpaid" is written whatever the month text is.
    On success the row returned has the key and the status of the request
    and is the row a read of the key finds; the other tables and the rows
    of all other keys are kept, and a table with one row per key stays
    one. *)
Theorem X12_upsert_payment_status_outcomes (db : Db)
    (payload : payroll.PayrollPaymentStatusUpsert.t) :
  let month := payroll.PayrollPaymentStatusUpsert.month payload in
  let employee_id := payroll.PayrollPaymentStatusUpsert.employee_id payload in
  let status := requested_status payload in
  let outcome := request (payroll.upsert_payment_status float_of_str payload) db in
  match outcome.2 with
  | Raise e =>
      outcome.1 = db
      /\ (e = HTTPException 400 "status must be 'paid' or 'unpaid'"
          /\ status <> "paid" /\ status <> "unpaid"
          \/ status = "paid"
             /\ payroll.payroll_report float_of_str month db = Raise e)
  | Ok row =>
      (status = "unpaid"
       \/ status = "paid"
          /\ exists rep, payroll.payroll_report float_of_str month db = Ok rep)
      /\ status_key_of row = (month, employee_id)
      /\ PayrollPaymentStatus.status row = Some status
      /\ status_row outcome.1 month employee_id = Some row
      /\ same_but_payment_status db outcome.1
      /\ other_status_rows_kept month employee_id db outcome.1
      /\ (status_keys_unique db -> status_keys_unique outcome.1)
  end.
Proof.
  intros month employee_id status outcome. subst outcome.
  unfold request, payroll.upsert_payment_status.
  fold month employee_id. change (Py.lower _) with status.
  destruct (String.eqb status "paid") eqn:Ep.
  - apply String.eqb_eq in Ep. rewrite Ep.
    cbn [String.eqb Ascii.eqb Bool.eqb negb orb andb].
    unfold bindM, query, lift, ret, set_pending, commit. cbn [pending committed].
    destruct (payroll.payroll_report float_of_str month db) as [rep|e] eqn:Er.
    + cbn [fst snd committed].
      match goal with
      | |- context [PayrollPaymentStatus.status ?r = _] => set (row := r)
      end.
      split; [right; split; [reflexivity | eauto]|].
      split; [reflexivity|]. split; [reflexivity|].
      split.
      { unfold status_row. cbn [payment_status set_payment_status].
        destruct (status_row_written month employee_id (payment_status db) row
                    eq_refl eq_refl) as [i Hi].
        rewrite Hi. reflexivity. }
      split; [repeat split|].
      split.
      * intros m id Hne. unfold status_row. cbn [payment_status set_payment_status].
        apply upsert_keeps_other_rows; [reflexivity | exact Hne].
      * unfold status_keys_unique. cbn [payment_status set_payment_status].
        apply upsert_keeps_keys_distinct.
        intros r. apply status_key_iff.
    + cbn [fst snd committed]. split; [reflexivity|]. right. auto.
  - destruct (String.eqb status "unpaid") eqn:Eu.
    + apply String.eqb_eq in Eu. rewrite Eu.
      cbn [String.eqb Ascii.eqb Bool.eqb negb orb andb].
      unfold bindM, query, lift, ret, set_pending, commit. cbn [pending committed].
      cbn [fst snd committed].
      match goal with
      | |- context [PayrollPaymentStatus.status ?r = _] => set (row := r)
      end.
      split; [left; reflexivity|].
      split; [reflexivity|]. split; [reflexivity|].
      split.
      { unfold status_row. cbn [payment_status set_payment_status].
        destruct (status_row_written month employee_id (payment_status db) row
                    eq_refl eq_refl) as [i Hi].
        rewrite Hi. reflexivity. }
      split; [repeat split|].
      split.
      * intros m id Hne. unfold status_row. cbn [payment_status set_payment_status].
        apply upsert_keeps_other_rows; [reflexivity | exact Hne].
      * unfold status_keys_unique. cbn [payment_status set_payment_status].
        apply upsert_keeps_keys_distinct.
        intros r. apply status_key_iff.
    + cbn [negb orb]. unfold raise. cbn [fst snd committed].
      split; [reflexivity|]. left.
      apply String.eqb_neq in Ep, Eu. auto.
Qed.

End UpsertStatus.

(** ** Payment status in the reports *)

Lemma NoDup_map_inj {A K : Type} (key : A -> K) (l : list A) (x y : A) :
  NoDup (map key l) -> In x l -> In y l -> key x = key y -> x = y.
Proof.
  induction l as [|z l IH]; simpl; intros Hnd Hx Hy Hk; [contradiction|].
  apply NoDup_cons in Hnd as [Hz Hnd].
  assert (Hin : forall w, In w l -> key w ∈ map key l).
  { intros w Hw. apply list_elem_of_In, in_map, Hw. }
  destruct Hx as [->|Hx], Hy as [->|Hy]; auto.
  - exfalso. apply Hz. rewrite Hk. auto.
  - exfalso. apply Hz. rewrite <- Hk. auto.
Qed.

(** With one row per key, the status a report shows for a key is that of
    the row a read of the key finds. *)
Lemma paid_status_of_row (db : Db) (month employee_id : string)
    (row : PayrollPaymentStatus.t) :
  status_keys_unique db ->
  status_row db month employee_id = Some row ->
  payroll.paid_status_by_emp month db !! employee_id
  = Some (payroll.status_or_unpaid row).
Proof.
  unfold status_keys_unique, status_row, payroll.paid_status_by_emp.
  intros Hnd Hrow.
  destruct (payroll.first _ (payment_status db)) as [[i r]|] eqn:Ef;
    [|discriminate Hrow].
  injection Hrow as ->. apply first_Some_inv in Ef as [Hi Hkey].
  assert (Hin : In row (payment_status db)).
  { apply list_elem_of_In. eapply list_elem_of_lookup_2. exact Hi. }
  apply status_key_iff in Hkey.
  rewrite dict_of_lookup.
  destruct (List.find _ _) as [r|] eqn:Efind.
  - apply List.find_some in Efind as [Hr Hid].
    apply in_rev, List.filter_In in Hr as [Hr Hm].
    apply bool_decide_eq_true_1 in Hid. apply String.eqb_eq in Hm.
    assert (r = row) as ->; [|reflexivity].
    apply (NoDup_map_inj status_key_of (payment_status db)); auto.
    rewrite Hkey. unfold status_key_of. congruence.
  - exfalso.
    pose proof (List.find_none _ _ Efind row) as Hn.
    injection Hkey as Hm Hid.
    assert (Hrin : In row
                     (rev (List.filter
                             (fun r => String.eqb (PayrollPaymentStatus.month r) month)
                             (payment_status db)))).
    { apply in_rev. rewrite rev_involutive.
      apply List.filter_In. split; [exact Hin|]. apply String.eqb_eq. exact Hm. }
    specialize (Hn Hrin). cbv beta in Hn.
    rewrite bool_decide_eq_true_2 in Hn by exact Hid. discriminate Hn.
Qed.

Section StatusInReports.
Context (float_of_str : string -> option Qc).

Lemma month_rows_paid_status month db rep :
  payroll.payroll_report float_of_str month db = Ok rep ->
  Forall
    (fun r =>
       payroll.ReportRow.paid_status r
       = default "unpaid"
           (payroll.paid_status_by_emp month db !! payroll.ReportRow.employee_id r))
    (payroll.PayrollReportResponse.rows rep).
Proof.
  unfold payroll.payroll_report. intros H.
  destruct (payroll._parse_month month) as [[start end_]|]; [|discriminate H].
  cbn [bind] in H. injection H as <-.
  cbn [payroll.PayrollReportResponse.rows].
  apply List.Forall_forall. intros r Hr.
  apply List.in_map_iff in Hr. destruct Hr as (e & <- & _). reflexivity.
Qed.

Lemma range_rows_paid_status_rows month_label start end_ db index employees rows :
  payroll.range_rows float_of_str month_label start end_ db index employees
  = Ok rows ->
  Forall
    (fun r =>
       payroll.RangeRow.paid_status r
       = default "unpaid"
           (payroll.paid_status_by_emp month_label db
            !! payroll.RangeRow.employee_id r))
    rows.
Proof.
  intros H. apply payroll_range_rows_inv in H.
  induction H as [|e r es rows (x & _ & ->) _ IH]; constructor; auto.
Qed.

Lemma range_rows_paid_status from_date to_date month db rep :
  month <> "" ->
  payroll.payroll_range_report float_of_str from_date to_date (Some month) db
  = Ok rep ->
  Forall
    (fun r =>
       payroll.RangeRow.paid_status r
       = default "unpaid"
           (payroll.paid_status_by_emp month db !! payroll.RangeRow.employee_id r))
    (payroll.PayrollReportResponse.rows rep).
Proof.
  unfold payroll.payroll_range_report. intros Hm H.
  destruct (payroll._parse_date from_date _) as [start|]; [|discriminate H].
  destruct (payroll._parse_date to_date _) as [end_|]; [|discriminate H].
  cbn [bind] in H. destruct (end_ <? start); [discriminate H|].
  destruct month as [|c month]; [congruence|].
  change (Py.truthy_str (Some (String c month))) with true in H. cbv iota in H.
  change (Py.str_or_empty (Some (String c month))) with (String c month) in H.
  match type of H with
  | bind ?r _ = _ => destruct r as [rows|] eqn:Hr; [|discriminate H]
  end.
  cbn [bind] in H. injection H as <-. cbn [payroll.PayrollReportResponse.rows].
  exact (range_rows_paid_status_rows _ _ _ _ _ _ _ Hr).
Qed.

(** X13. After a successful [PUT /payment-status] on a store with one
    payment-status row per key, every row of the calendar-month report of
    that month whose employee identifier is the one of the request shows
    the status written, and so does every such row of a range report of
    [payroll.py] that is asked for that month. *)
Theorem X13_reports_show_the_written_status (db db' : Db)
    (payload : payroll.PayrollPaymentStatusUpsert.t)
    (row : PayrollPaymentStatus.t) :
  let month := payroll.PayrollPaymentStatusUpsert.month payload in
  let employee_id := payroll.PayrollPaymentStatusUpsert.employee_id payload in
  status_keys_unique db ->
  request (payroll.upsert_payment_status float_of_str payload) db = (db', Ok row) ->
  (forall rep,
     payroll.payroll_report float_of_str month db' = Ok rep ->
     month_rows_show employee_id (requested_status payload)
       (payroll.PayrollReportResponse.rows rep))
  /\ (forall from_date to_date rep,
        month <> "" ->
        payroll.payroll_range_report float_of_str from_date to_date (Some month) db'
        = Ok rep ->
        range_rows_show employee_id (requested_status payload)
          (payroll.PayrollReportResponse.rows rep)).
Proof.
  intros month employee_id Hnd Hreq.
  destruct (upsert_payment_status_writes float_of_str db db' payload row Hreq)
    as (Hst & Hrow & Hfound & Hu).
  specialize (Hu Hnd).
  pose proof (paid_status_of_row db' _ _ row Hu Hfound) as Hp.
  fold month employee_id in Hp.
  assert (Hs : payroll.status_or_unpaid row = requested_status payload).
  { unfold payroll.status_or_unpaid. rewrite Hrow.
    destruct Hst as [->| ->]; reflexivity. }
  rewrite Hs in Hp. split.
  - intros rep Hrep. apply month_rows_paid_status in Hrep.
    unfold month_rows_show. eapply List.Forall_impl; [|exact Hrep].
    intros r Hr Hid. cbv beta in Hr. rewrite Hr, Hid, Hp. reflexivity.
  - intros from_date to_date rep Hm Hrep.
    apply range_rows_paid_status in Hrep; [|exact Hm].
    unfold range_rows_show. eapply List.Forall_impl; [|exact Hrep].
    intros r Hr Hid. cbv beta in Hr. rewrite Hr, Hid, Hp. reflexivity.
Qed.

End StatusInReports.

Lemma X13_reports_show_the_written_status_witness :
  exists db' row rep,
    request (payroll.upsert_payment_status decimal Example.mark_paid)
      Example.store = (db', Ok row)
    /\ payroll.payroll_report decimal "2024-01" db' = Ok rep
    /\ month_rows_show "F1" "paid" (payroll.PayrollReportResponse.rows rep).
Proof.
  destruct (request (payroll.upsert_payment_status decimal Example.mark_paid)
              Example.store) as [db' [row|e]] eqn:E.
  - destruct (payroll.payroll_report decimal "2024-01" db') as [rep|e] eqn:Er.
    + exists db', row, rep. split; [reflexivity|]. split; [exact Er|].
      assert (Hu : status_keys_unique Example.store) by apply NoDup_nil_2.
      exact (proj1 (X13_reports_show_the_written_status decimal Example.store db'
                      Example.mark_paid row Hu E) rep Er).
    + vm_compute in E. injection E as <- _. vm_compute in Er. discriminate Er.
  - vm_compute in E. discriminate E.
Defined.

(** ** Sheet entry batches *)

Lemma sheet_key_iff id start end_ r :
  payroll.sheet_key id start end_ r = true <-> sheet_key_of r = (id, start, end_).
Proof.
  unfold payroll.sheet_key, sheet_key_of. rewrite !andb_true_iff, !Z.eqb_eq.
  split; [intros [[-> ->] ->]; reflexivity | intros [= -> -> ->]; auto].
Qed.

Lemma write_entry_keys_distinct start end_ table e :
  NoDup (map sheet_key_of table) ->
  NoDup (map sheet_key_of (write_entry start end_ table e)).
Proof.
  intros Hnd. unfold write_entry.
  apply (upsert_keeps_keys_distinct sheet_key_of); [|exact Hnd].
  intros r. apply sheet_key_iff.
Qed.

Lemma fold_write_keys_distinct start end_ entries table :
  NoDup (map sheet_key_of table) ->
  NoDup (map sheet_key_of (fold_left (write_entry start end_) entries table)).
Proof.
  revert table. induction entries as [|e entries IH]; intros table Hnd; simpl;
    [exact Hnd|].
  apply IH, write_entry_keys_distinct, Hnd.
Qed.

Lemma first_index_insert_same {A : Type} (p : A -> bool) (l : list A) (j : nat)
    (x z : A) :
  l !! j = Some z -> p x = p z ->
  fst <$> payroll.first p (<[j := x]> l) = fst <$> payroll.first p l.
Proof.
  revert j. induction l as [|y l IH]; intros j Hj Hp; [reflexivity|].
  destruct j as [|j]; simpl in Hj.
  - injection Hj as ->. simpl. rewrite Hp. destruct (p z); reflexivity.
  - simpl. destruct (p y); [reflexivity|].
    specialize (IH j Hj Hp).
    destruct (payroll.first p (<[j := x]> l)) as [[a b]|],
             (payroll.first p l) as [[c d]|]; simpl in *; congruence.
Qed.

Lemma first_index_app {A : Type} (p : A -> bool) (l : list A) (x : A) (i : nat) :
  fst <$> payroll.first p l = Some i ->
  fst <$> payroll.first p (l ++ [x]) = Some i.
Proof.
  revert i. induction l as [|y l IH]; intros i H; [discriminate H|].
  simpl in *. destruct (p y); [exact H|].
  destruct (payroll.first p l) as [[a b]|]; [|discriminate H].
  simpl in H. injection H as <-.
  specialize (IH a eq_refl).
  destruct (payroll.first p (l ++ [x])) as [[c d]|]; [|discriminate IH].
  simpl in IH. injection IH as ->. reflexivity.
Qed.

(** A later entry does not move the place of the row of a key. *)
Lemma write_entry_keeps_place start end_ table e id (i : nat) :
  fst <$> payroll.first (payroll.sheet_key id start end_) table = Some i ->
  fst <$> payroll.first (payroll.sheet_key id start end_)
            (write_entry start end_ table e) = Some i.
Proof.
  intros H. unfold write_entry.
  destruct (payroll.first
              (payroll.sheet_key (payroll.PayrollSheetEntryUpsert.employee_db_id e)
                 start end_) table) as [[j z]|] eqn:Ef.
  - apply first_Some_inv in Ef as [Hj Hz].
    rewrite (first_index_insert_same _ table j _ z Hj); [exact H|].
    apply sheet_key_fields in Hz as (H1 & H2 & H3).
    apply sheet_key_same_fields; simpl; congruence.
  - apply first_index_app. exact H.
Qed.

Lemma fold_write_keeps_place start end_ entries table id (i : nat) :
  fst <$> payroll.first (payroll.sheet_key id start end_) table = Some i ->
  fst <$> payroll.first (payroll.sheet_key id start end_)
            (fold_left (write_entry start end_) entries table) = Some i.
Proof.
  revert table. induction entries as [|e entries IH]; intros table H; simpl;
    [exact H|].
  apply IH, write_entry_keeps_place, H.
Qed.

Lemma upsert_entry_place start end_ e s :
  period_matches start end_ e ->
  exists i,
    payroll.upsert_entry start end_ e s
    = (mkSession (committed s)
         (set_sheet_entries (pending s)
            (write_entry start end_ (sheet_entries (pending s)) e)),
       Ok i)
    /\ fst <$> payroll.first
                 (payroll.sheet_key (payroll.PayrollSheetEntryUpsert.employee_db_id e)
                    start end_)
                 (write_entry start end_ (sheet_entries (pending s)) e)
       = Some i.
Proof.
  intros [Hf Ht]. unfold payroll.upsert_entry, write_entry.
  rewrite Hf, Ht, !Z.eqb_refl. simpl.
  unfold bindM, query, set_pending, ret. cbn [pending committed].
  assert (Hk : payroll.sheet_key (payroll.PayrollSheetEntryUpsert.employee_db_id e)
                 start end_ (payroll.sheet_row_of start end_ e) = true).
  { apply sheet_key_iff. reflexivity. }
  destruct (payroll.first _ (sheet_entries (pending s))) as [[i y]|] eqn:Ef.
  - exists i. split; [reflexivity|].
    rewrite (first_Some_insert _ _ _ _ _ Ef Hk). reflexivity.
  - exists (length (sheet_entries (pending s))). split; [reflexivity|].
    rewrite (first_None_app _ _ _ Ef Hk). reflexivity.
Qed.

Lemma for_each_places start end_ entries s :
  Forall (period_matches start end_) entries ->
  exists out,
    payroll.for_each (payroll.upsert_entry start end_) entries s
    = (mkSession (committed s)
         (set_sheet_entries (pending s)
            (fold_left (write_entry start end_) entries
               (sheet_entries (pending s)))),
       Ok out)
    /\ Forall2
         (fun e i =>
            fst <$> payroll.first
                      (payroll.sheet_key
                         (payroll.PayrollSheetEntryUpsert.employee_db_id e)
                         start end_)
                      (fold_left (write_entry start end_) entries
                         (sheet_entries (pending s)))
            = Some i)
         entries out.
Proof.
  intros Hall. revert s.
  induction Hall as [|e entries He _ IH]; intros s.
  - exists []. simpl. unfold ret. rewrite set_sheet_entries_same.
    destruct s. split; [reflexivity | constructor].
  - destruct (upsert_entry_place start end_ e s He) as (i & Hi & Hplace).
    set (s1 := mkSession (committed s)
                 (set_sheet_entries (pending s)
                    (write_entry start end_ (sheet_entries (pending s)) e))) in *.
    destruct (IH s1) as (out & Hout & Hplaces).
    exists (i :: out). split.
    + simpl. unfold bindM at 1. rewrite Hi.
      unfold bindM at 1. rewrite Hout. unfold ret. subst s1. simpl. reflexivity.
    + constructor.
      * simpl. apply fold_write_keeps_place. exact Hplace.
      * exact Hplaces.
Qed.

Lemma rows_at_places start end_ (table : list PayrollSheetEntry.t)
    (entries : list payroll.PayrollSheetEntryUpsert.t) (out : list nat) :
  Forall2
    (fun e i =>
       fst <$> payroll.first
                 (payroll.sheet_key (payroll.PayrollSheetEntryUpsert.employee_db_id e)
                    start end_) table
       = Some i)
    entries out ->
  Forall2
    (fun e r =>
       snd <$> payroll.first
                 (payroll.sheet_key (payroll.PayrollSheetEntryUpsert.employee_db_id e)
                    start end_) table
       = Some r)
    entries (omap (fun i => table !! i) out).
Proof.
  induction 1 as [|e i entries out Hi _ IH]; [constructor|].
  cbn [omap list_omap].
  destruct (payroll.first _ table) as [[j y]|] eqn:Ef; [|discriminate Hi].
  simpl in Hi. injection Hi as ->.
  pose proof (first_Some_inv _ _ _ _ Ef) as [Hj _]. rewrite Hj.
  constructor; [rewrite Ef; reflexivity | exact IH].
Qed.

Lemma bulk_upsert_cases (db : Db)
    (payload : payroll.PayrollSheetEntryBulkUpsert.t) :
  let start := payroll.PayrollSheetEntryBulkUpsert.from_date payload in
  let end_ := payroll.PayrollSheetEntryBulkUpsert.to_date payload in
  let entries := payroll.PayrollSheetEntryBulkUpsert.entries payload in
  let outcome := request (payroll.bulk_upsert_payroll_sheet_entries payload) db in
  let table := fold_left (write_entry start end_) entries (sheet_entries db) in
  end_ < start
  /\ outcome = (db, Raise (HTTPException 400 "from_date must be <= to_date"))
  \/ start <= end_
     /\ Exists (fun e => ~ period_matches start end_ e) entries
     /\ outcome = (db, Raise mismatch_response)
  \/ start <= end_
     /\ Forall (period_matches start end_) entries
     /\ exists out,
          outcome = (set_sheet_entries db table,
                     Ok (omap (fun i => table !! i) out))
          /\ Forall2
               (fun e i =>
                  fst <$> payroll.first
                            (payroll.sheet_key
                               (payroll.PayrollSheetEntryUpsert.employee_db_id e)
                               start end_) table
                  = Some i)
               entries out.
Proof.
  intros start end_ entries outcome table. subst outcome.
  unfold request, payroll.bulk_upsert_payroll_sheet_entries.
  fold start end_ entries.
  destruct (end_ <? start) eqn:Hlt.
  - apply Z.ltb_lt in Hlt. left. split; [exact Hlt | reflexivity].
  - apply Z.ltb_ge in Hlt. right.
    destruct (List.Forall_Exists_dec (period_matches start end_)
                (period_matches_dec start end_) entries) as [Hall|Hex].
    + right. split; [exact Hlt|]. split; [exact Hall|].
      destruct (for_each_places start end_ entries (mkSession db db) Hall)
        as (out & Hout & Hplaces).
      exists out. split; [|exact Hplaces].
      unfold bindM at 1. rewrite Hout.
      unfold bindM, commit, query, ret. cbn [pending committed]. reflexivity.
    + left. split; [exact Hlt|]. split; [exact Hex|].
      destruct (for_each_mismatch start end_ entries (mkSession db db) Hex)
        as (s' & Hs' & Hc).
      unfold bindM at 1. rewrite Hs'. rewrite Hc. reflexivity.
Qed.

(** X14. The outcomes of [PUT /sheet-entries]. It raises in two cases
    only, and then the store is what it was: 400 "from_date must be <=
    to_date", and 400 "entry period must match payload from/to" when an
    entry names another period. On success only the sheet entries change, a
    table with one row per (employee, from, to) stays one, and the answer
    lists, entry by entry, the row the store holds for the key of the entry
    once the whole batch is written (for an employee named twice, twice the
    row of the last entry). *)
Theorem X14_bulk_upsert_keeps_one_row_per_key (db : Db)
    (payload : payroll.PayrollSheetEntryBulkUpsert.t) :
  let start := payroll.PayrollSheetEntryBulkUpsert.from_date payload in
  let end_ := payroll.PayrollSheetEntryBulkUpsert.to_date payload in
  let entries := payroll.PayrollSheetEntryBulkUpsert.entries payload in
  let outcome := request (payroll.bulk_upsert_payroll_sheet_entries payload) db in
  match outcome.2 with
  | Ok rows =>
      start <= end_
      /\ Forall (period_matches start end_) entries
      /\ same_but_sheet_entries db outcome.1
      /\ (sheet_keys_unique db -> sheet_keys_unique outcome.1)
      /\ answers_written_rows outcome.1 start end_ entries rows
  | Raise e =>
      outcome.1 = db
      /\ (end_ < start /\ e = HTTPException 400 "from_date must be <= to_date"
          \/ start <= end_
             /\ Exists (fun e => ~ period_matches start end_ e) entries
             /\ e = mismatch_response)
  end.
Proof.
  intros start end_ entries outcome.
  destruct (bulk_upsert_cases db payload)
    as [[Hlt Ho]|[(Hle & Hex & Ho)|(Hle & Hall & out & Ho & Hplaces)]];
    fold start end_ entries outcome in Ho; rewrite Ho; cbn [fst snd].
  - auto.
  - auto.
  - split; [exact Hle|]. split; [exact Hall|].
    split; [repeat split|]. split.
    + unfold sheet_keys_unique. cbn [sheet_entries set_sheet_entries].
      apply fold_write_keys_distinct.
    + unfold answers_written_rows, sheet_row.
      cbn [sheet_entries set_sheet_entries].
      apply rows_at_places. exact Hplaces.
Qed.

(** ** Sheet entries in the range report *)

(** With one row per key the row a dictionary of the rows keeps for a key
    is the row a read of the key finds. *)
Lemma find_last_is_first {A K : Type} (key : A -> K) (k : K) (p q : A -> bool)
    (l : list A) :
  NoDup (map key l) ->
  (forall r, p r = true <-> key r = k) ->
  (forall r, q r = true <-> key r = k) ->
  List.find q (rev l) = snd <$> payroll.first p l.
Proof.
  intros Hnd Hp Hq.
  destruct (payroll.first p l) as [[i row]|] eqn:Ef; simpl.
  - apply first_Some_inv in Ef as [Hi Hkey].
    assert (Hin : In row l).
    { apply list_elem_of_In. eapply list_elem_of_lookup_2. exact Hi. }
    apply Hp in Hkey.
    destruct (List.find q (rev l)) as [r|] eqn:Efind.
    + apply List.find_some in Efind as [Hr Hk]. apply in_rev in Hr.
      apply Hq in Hk. f_equal.
      apply (NoDup_map_inj key l); auto. congruence.
    + pose proof (List.find_none _ _ Efind row (proj1 (in_rev _ _) Hin)) as Hn.
      rewrite (proj2 (Hq row) Hkey) in Hn. discriminate Hn.
  - apply first_None_Forall in Ef. rewrite List.Forall_forall in Ef.
    destruct (List.find q (rev l)) as [r|] eqn:Efind; [|reflexivity].
    apply List.find_some in Efind as [Hr Hk]. apply in_rev in Hr.
    apply Hq, Hp in Hk. rewrite (Ef r Hr) in Hk. discriminate Hk.
Qed.

Lemma find_filter_and {A : Type} (q m : A -> bool) (l : list A) :
  List.find q (List.filter m l) = List.find (fun r => m r && q r) l.
Proof.
  induction l as [|a l IH]; simpl; [reflexivity|].
  destruct (m a); simpl; [|exact IH].
  destruct (q a); [reflexivity | exact IH].
Qed.

Lemma sheet_lookup_unique (db : Db) (start end_ : date) (id : Z) :
  sheet_keys_unique db ->
  payroll.sheet_by_emp_db_id start end_ db !! id = sheet_row db id start end_.
Proof.
  intros Hnd. unfold payroll.sheet_by_emp_db_id, sheet_row.
  rewrite dict_of_lookup, <- filter_rev', find_filter_and.
  rewrite (find_last_is_first sheet_key_of (id, start, end_)
             (payroll.sheet_key id start end_) _ _ Hnd).
  - destruct (payroll.first _ _) as [[i r]|]; reflexivity.
  - intros r. apply sheet_key_iff.
  - intros r. unfold payroll.sheet_in_period, sheet_key_of.
    rewrite !andb_true_iff, !Z.eqb_eq, bool_decide_eq_true.
    split; [intros [[-> ->] ->]; reflexivity | intros [= -> -> ->]; auto].
Qed.

Section ReportAfterBatch.
Context (float_of_str : string -> option Qc).

Lemma range_row_shows_entry month_label start end_ db e emp x :
  payroll.sheet_by_emp_db_id start end_ db !! Employee2.id emp
  = Some (payroll.sheet_row_of start end_ e) ->
  shows_entry e (payroll.range_row float_of_str month_label start end_ db emp x).
Proof.
  intros H. unfold shows_entry, payroll.range_row. cbv zeta.
  cbn [payroll.RangeRow.leave_encashment_days payroll.RangeRow.allow_other
       payroll.RangeRow.eobi payroll.RangeRow.tax payroll.RangeRow.fine_adv_extra
       payroll.RangeRow.pre_days payroll.RangeRow.cur_days
       payroll.RangeRow.remarks payroll.RangeRow.bank_cash].
  rewrite H. unfold payroll.sheet_row_of. simpl.
  rewrite !max_0_clamp. repeat split; reflexivity.
Qed.

(** X15. After a successful [PUT /sheet-entries] on a store with one sheet
    row per key, a range report of [payroll.py] for the period of the batch
    shows, in the row of every employee of the batch, the columns of the
    last entry of the batch for that employee: leave encashment days, other
    allowance, EOBI, tax, extra fine/advance, remarks, bank/cash, and the
    day overrides clamped at 0. *)
Theorem X15_range_report_shows_the_written_entries (db db' : Db)
    (payload : payroll.PayrollSheetEntryBulkUpsert.t)
    (answer : list PayrollSheetEntry.t)
    (from_date to_date : string) (month : option string)
    (rep : payroll.PayrollReportResponse.t payroll.RangeRow.t) :
  sheet_keys_unique db ->
  request (payroll.bulk_upsert_payroll_sheet_entries payload) db = (db', Ok answer) ->
  payroll._parse_date from_date "from_date"
  = Ok (payroll.PayrollSheetEntryBulkUpsert.from_date payload) ->
  payroll._parse_date to_date "to_date"
  = Ok (payroll.PayrollSheetEntryBulkUpsert.to_date payload) ->
  payroll.payroll_range_report float_of_str from_date to_date month db' = Ok rep ->
  rows_show_entries (payroll.PayrollSheetEntryBulkUpsert.entries payload)
    (payroll.PayrollReportResponse.rows rep).
Proof.
  intros Hnd Hreq Hfrom Hto Hrep.
  destruct (bulk_upsert_cases db payload)
    as [[_ Ho]|[(_ & _ & Ho)|(Hle & Hall & out & Ho & _)]];
    cbv zeta in Ho; rewrite Hreq in Ho; try discriminate Ho.
  injection Ho as -> _.
  set (start := payroll.PayrollSheetEntryBulkUpsert.from_date payload) in *.
  set (end_ := payroll.PayrollSheetEntryBulkUpsert.to_date payload) in *.
  set (entries := payroll.PayrollSheetEntryBulkUpsert.entries payload) in *.
  set (db' := set_sheet_entries db
                (fold_left (write_entry start end_) entries (sheet_entries db))) in *.
  assert (Hu : sheet_keys_unique db').
  { unfold sheet_keys_unique, db'. cbn [sheet_entries set_sheet_entries].
    apply fold_write_keys_distinct. exact Hnd. }
  apply payroll_range_report_inv in Hrep
    as (start' & end' & month_label & Hs & He & _ & Hrows).
  rewrite Hfrom in Hs. rewrite Hto in He.
  injection Hs as <-. injection He as <-.
  apply payroll_range_rows_inv in Hrows.
  unfold rows_show_entries.
  revert Hrows. generalize (payroll.PayrollReportResponse.rows rep).
  generalize (sorted payroll.sort_key
                (List.filter (payroll.hired_by (datetime_combine end_ time_max))
                   (employees db'))).
  intros es rows HF. induction HF as [|emp r es rows (x & _ & ->) _ IH];
    constructor; [|exact IH].
  intros e Hlast. apply range_row_shows_entry.
  rewrite (sheet_lookup_unique db' start end_ _ Hu).
  unfold sheet_row, db'. cbn [sheet_entries set_sheet_entries].
  rewrite fold_write_lookup, !Z.eqb_refl.
  change (payroll.RangeRow.employee_db_id
            (payroll.range_row float_of_str month_label start end_ db' emp x))
    with (Employee2.id emp) in Hlast.
  cbn [andb]. rewrite Hlast. reflexivity.
Qed.

End ReportAfterBatch.

Lemma X15_range_report_shows_the_written_entries_witness :
  exists db' answer rep,
    request (payroll.bulk_upsert_payroll_sheet_entries Example.batch)
      Example.store = (db', Ok answer)
    /\ payroll.payroll_range_report decimal "2024-01-01" "2024-01-31" None db'
       = Ok rep
    /\ rows_show_entries (payroll.PayrollSheetEntryBulkUpsert.entries Example.batch)
         (payroll.PayrollReportResponse.rows rep).
Proof.
  destruct (request (payroll.bulk_upsert_payroll_sheet_entries Example.batch)
              Example.store) as [db' [answer|e]] eqn:E.
  - destruct (payroll.payroll_range_report decimal "2024-01-01" "2024-01-31"
                None db') as [rep|e] eqn:Er.
    + exists db', answer, rep. split; [reflexivity|]. split; [exact Er|].
      assert (Hu : sheet_keys_unique Example.store).
      { unfold sheet_keys_unique. simpl. apply NoDup_singleton. }
      exact (X15_range_report_shows_the_written_entries decimal Example.store db'
               Example.batch answer "2024-01-01" "2024-01-31" None rep
               Hu E eq_refl eq_refl Er).
    + vm_compute in E. injection E as <- _. vm_compute in Er. discriminate Er.
  - vm_compute in E. discriminate E.
Defined.

(** ** The listing of sheet entries, and ties of the sort key *)

Lemma insert_by_Permutation {A : Type} (leb : A -> A -> bool) (x : A) (l : list A) :
  insert_by leb x l ≡ₚ x :: l.
Proof.
  induction l as [|y l IH]; simpl; [reflexivity|].
  destruct (leb x y); [reflexivity|].
  rewrite IH. apply Permutation_swap.
Qed.

Lemma sort_by_Permutation {A : Type} (leb : A -> A -> bool) (l : list A) :
  sort_by leb l ≡ₚ l.
Proof.
  induction l as [|x l IH]; [reflexivity|].
  change (sort_by leb (x :: l)) with (insert_by leb x (sort_by leb l)).
  rewrite insert_by_Permutation, IH. reflexivity.
Qed.

(** X16. [GET /sheet-entries] never changes the store. It answers 400
    "from_date must be in YYYY-MM-DD format", else 400 "to_date must be in
    YYYY-MM-DD format", else 400 "from_date must be <= to_date"; otherwise
    it returns the rows whose period is exactly (from_date, to_date), every
    one of them once, by ascending employee id. *)
Theorem X16_sheet_entries_are_listed_by_employee (from_date to_date : string)
    (db : Db) :
  let outcome := request (payroll.list_payroll_sheet_entries from_date to_date) db in
  outcome.1 = db /\ sheet_listing from_date to_date db outcome.2.
Proof.
  cbv zeta. unfold request, payroll.list_payroll_sheet_entries, sheet_listing.
  unfold bindM, lift, raise, query, ret. cbn [pending committed].
  destruct (payroll._parse_date from_date "from_date") as [start|e1] eqn:E1.
  2:{ apply parse_date_raises in E1. subst e1. split; reflexivity. }
  destruct (payroll._parse_date to_date "to_date") as [end_|e2] eqn:E2.
  2:{ apply parse_date_raises in E2. subst e2. split; reflexivity. }
  destruct (end_ <? start); [split; reflexivity|].
  cbn [fst snd committed]. split; [reflexivity|].
  eexists. split; [reflexivity|]. split.
  - apply sort_by_Permutation.
  - apply sorted_by_key.
Qed.

(** Sorting keeps the members of one key in their order. *)
Lemma with_key_insert_by {A : Type} (key : A -> Z) (k : Z) (x : A) (l : list A) :
  with_key key k (insert_by (fun a b => key a <=? key b) x l)
  = with_key key k (x :: l).
Proof.
  unfold with_key. induction l as [|y l IH]; [reflexivity|].
  cbn [insert_by]. destruct (key x <=? key y) eqn:E; [reflexivity|].
  apply Z.leb_gt in E. cbn [List.filter] in *. rewrite IH.
  destruct (key x =? k) eqn:Ex; [|reflexivity].
  apply Z.eqb_eq in Ex.
  replace (key y =? k) with false by (symmetry; apply Z.eqb_neq; lia).
  reflexivity.
Qed.

Lemma with_key_sorted {A : Type} (key : A -> Z) (k : Z) (l : list A) :
  with_key key k (sorted key l) = with_key key k l.
Proof.
  induction l as [|x l IH]; [reflexivity|].
  unfold sorted in *.
  change (sort_by (fun a b => key a <=? key b) (x :: l))
    with (insert_by (fun a b => key a <=? key b) x
            (sort_by (fun a b => key a <=? key b) l)).
  rewrite with_key_insert_by. unfold with_key in *. cbn [List.filter].
  rewrite IH. reflexivity.
Qed.

Lemma filter_map_comm {A B : Type} (f : A -> B) (p : B -> bool) (l : list A) :
  List.filter p (map f l) = map f (List.filter (fun a => p (f a)) l).
Proof.
  induction l as [|a l IH]; simpl; [reflexivity|].
  rewrite IH. destruct (p (f a)); reflexivity.
Qed.

Section Ties.
Context (float_of_str : string -> option Qc).

Lemma payroll_range_rows_serial_ids month_label start end_ db index employees rows :
  payroll.range_rows float_of_str month_label start end_ db index employees
  = Ok rows ->
  map (fun r => (payroll.RangeRow.serial_no r, payroll.RangeRow.employee_db_id r))
    rows
  = map (fun e => (Employee2.serial_no e, Employee2.id e)) employees.
Proof.
  intros H. apply payroll_range_rows_inv in H.
  induction H as [|e r es rows (x & _ & ->) _ IH]; [reflexivity|].
  simpl. rewrite IH. reflexivity.
Qed.

(** X17. The sort of the range report of [payroll.py] is stable: the rows
    of the employees with one value of the sort key (for example all those
    whose serial number is not an integer, key 999999) come in the order of
    the employees table. *)
Theorem X17_rows_of_one_sort_key_keep_the_table_order
    (from_date to_date : string) (month : option string) (db : Db)
    (rep : payroll.PayrollReportResponse.t payroll.RangeRow.t) (k : Z) :
  payroll.payroll_range_report float_of_str from_date to_date month db = Ok rep ->
  exists end_,
    payroll._parse_date to_date "to_date" = Ok end_
    /\ map payroll.RangeRow.employee_db_id
         (with_key (fun r => serial_key (payroll.RangeRow.serial_no r)) k
            (payroll.PayrollReportResponse.rows rep))
       = map Employee2.id
           (with_key payroll.sort_key k
              (List.filter (payroll.hired_by (datetime_combine end_ time_max))
                 (employees db))).
Proof.
  intros H.
  apply payroll_range_report_inv in H
    as (start & end_ & month_label & _ & He & _ & Hrows).
  exists end_. split; [exact He|].
  apply payroll_range_rows_serial_ids in Hrows.
  rewrite <- (with_key_sorted payroll.sort_key k).
  set (es := sorted payroll.sort_key _) in *.
  set (rows := payroll.PayrollReportResponse.rows rep) in *.
  transitivity
    (map snd
       (List.filter (fun p => serial_key p.1 =? k)
          (map (fun r => (payroll.RangeRow.serial_no r,
                          payroll.RangeRow.employee_db_id r)) rows))).
  - rewrite filter_map_comm, map_map. reflexivity.
  - rewrite Hrows, filter_map_comm, map_map. reflexivity.
Qed.

End Ties.

Lemma X17_rows_of_one_sort_key_keep_the_table_order_witness :
  exists rep,
    payroll.payroll_range_report decimal "2024-01-01" "2024-01-31" None
      Example.tied_serials = Ok rep
    /\ map Employee2.id (employees Example.tied_serials) = [3; 1; 5; 2; 4]
    /\ map payroll.sort_key (employees Example.tied_serials)
       = [999999; 999999; 7; 7; 0]
    /\ map payroll.RangeRow.employee_db_id (payroll.PayrollReportResponse.rows rep)
       = [4; 5; 2; 3; 1]
    /\ map payroll.RangeRow.employee_db_id
         (with_key (fun r => serial_key (payroll.RangeRow.serial_no r)) 999999
            (payroll.PayrollReportResponse.rows rep))
       = [3; 1]
    /\ map payroll.RangeRow.employee_db_id
         (with_key (fun r => serial_key (payroll.RangeRow.serial_no r)) 7
            (payroll.PayrollReportResponse.rows rep))
       = [5; 2].
Proof.
  destruct (payroll.payroll_range_report decimal "2024-01-01" "2024-01-31" None
              Example.tied_serials) as [rep|e] eqn:E.
  - exists rep. split; [reflexivity|].
    split; [reflexivity|]. split; [vm_compute; reflexivity|].
    destruct (X17_rows_of_one_sort_key_keep_the_table_order decimal _ _ _ _ rep
                999999 E) as (end_ & He & ->).
    destruct (X17_rows_of_one_sort_key_keep_the_table_order decimal _ _ _ _ rep
                7 E) as (end2 & He2 & ->).
    vm_compute in He. injection He as <-. vm_compute in He2. injection He2 as <-.
    vm_compute in E. injection E as <-.
    split; [|split]; vm_compute; reflexivity.
  - vm_compute in E. discriminate E.
Defined.

(** ** Vehicles *)

Section Vehicles.
Context {Columns VehicleUpdate : Type}.
Context (setattrs : VehicleUpdate -> @vehicles.Vehicle Columns
                    -> @vehicles.Vehicle Columns).

Implicit Types (table : list (@vehicles.Vehicle Columns)).
Implicit Types (vehicle : @vehicles.Vehicle Columns).

Lemma has_id_iff id vehicle :
  vehicles.has_id id vehicle = true <-> vehicles.vehicle_id vehicle = id.
Proof. unfold vehicles.has_id. apply String.eqb_eq. Qed.

Lemma has_id_other id id' vehicle :
  id' <> id -> vehicles.vehicle_id vehicle = id ->
  vehicles.has_id id' vehicle = false.
Proof.
  intros Hne Hid. destruct (vehicles.has_id id' vehicle) eqn:E; [|reflexivity].
  apply has_id_iff in E. congruence.
Qed.

Lemma get_vehicle_response id table :
  (vehicles.get_vehicle id table).2
  = match snd <$> payroll.first (vehicles.has_id id) table with
    | Some v => Ok v
    | None => Raise vehicle_not_found
    end.
Proof.
  unfold vehicles.get_vehicle.
  destruct (payroll.first _ table) as [[i v]|]; reflexivity.
Qed.

Lemma get_vehicle_reads id table : (vehicles.get_vehicle id table).1 = table.
Proof.
  unfold vehicles.get_vehicle.
  destruct (payroll.first _ table) as [[i v]|]; reflexivity.
Qed.

(** X18. [POST /vehicles]. When a vehicle with the identifier exists the
    request is answered 400 "Vehicle ID already exists" and the table is
    what it was. Otherwise the vehicle is added after the others and
    returned; the identifier, which [GET /vehicles/{id}] answered 404 for,
    now reads back as this vehicle; the answers for all other identifiers
    are what they were; and a table without duplicate identifiers stays
    one. *)
Theorem X18_create_vehicle_adds_a_new_id vehicle table :
  let outcome := vehicles.create_vehicle vehicle table in
  match outcome.2 with
  | Ok created =>
      created = vehicle
      /\ outcome.1 = table ++ [vehicle]
      /\ vehicles.get_vehicle (vehicles.vehicle_id vehicle) table
         = (table, Raise vehicle_not_found)
      /\ vehicles.get_vehicle (vehicles.vehicle_id vehicle) outcome.1
         = (outcome.1, Ok vehicle)
      /\ (forall id, id <> vehicles.vehicle_id vehicle ->
            (vehicles.get_vehicle id outcome.1).2 = (vehicles.get_vehicle id table).2)
      /\ (NoDup (map vehicles.vehicle_id table) ->
          NoDup (map vehicles.vehicle_id outcome.1))
  | Raise e =>
      e = HTTPException 400 "Vehicle ID already exists"
      /\ outcome.1 = table
      /\ exists v,
           vehicles.get_vehicle (vehicles.vehicle_id vehicle) table = (table, Ok v)
  end.
Proof.
  cbv zeta. unfold vehicles.create_vehicle.
  destruct (payroll.first (vehicles.has_id (vehicles.vehicle_id vehicle)) table)
    as [[i v]|] eqn:Ef; cbn [fst snd].
  - split; [reflexivity|]. split; [reflexivity|].
    exists v. unfold vehicles.get_vehicle. rewrite Ef. reflexivity.
  - assert (Hk : vehicles.has_id (vehicles.vehicle_id vehicle) vehicle = true)
      by (apply has_id_iff; reflexivity).
    split; [reflexivity|]. split; [reflexivity|].
    split; [unfold vehicles.get_vehicle; rewrite Ef; reflexivity|].
    split.
    { unfold vehicles.get_vehicle.
      rewrite (first_None_app _ _ _ Ef Hk). reflexivity. }
    split.
    + intros id Hne. rewrite !get_vehicle_response.
      rewrite first_app_other; [reflexivity|].
      eapply has_id_other; [exact Hne | reflexivity].
    + intros Hnd.
      pose proof (upsert_keeps_keys_distinct vehicles.vehicle_id
                    (vehicles.has_id (vehicles.vehicle_id vehicle)) table vehicle
                    (fun r => has_id_iff _ r) Hnd) as H.
      rewrite Ef in H. exact H.
Qed.

Lemma first_delete_other {A : Type} (p : A -> bool) (l : list A) (i : nat) (y : A) :
  l !! i = Some y -> p y = false ->
  snd <$> payroll.first p (delete i l) = snd <$> payroll.first p l.
Proof.
  revert i. induction l as [|z l IH]; intros i Hi Hy; [reflexivity|].
  destruct i as [|i]; simpl in Hi.
  - injection Hi as ->. simpl. rewrite Hy.
    destruct (payroll.first p l) as [[j w]|]; reflexivity.
  - simpl. destruct (p z); [reflexivity|].
    specialize (IH i Hi Hy).
    destruct (payroll.first p (delete i l)) as [[j a]|],
             (payroll.first p l) as [[k b]|]; simpl in *; congruence.
Qed.

Lemma map_delete {A B : Type} (f : A -> B) (l : list A) (i : nat) :
  map f (delete i l) = delete i (map f l).
Proof.
  revert i. induction l as [|z l IH]; intros [|i]; simpl; try reflexivity.
  rewrite IH. reflexivity.
Qed.

Lemma NoDup_delete_absent {K : Type} (l : list K) (i : nat) (k : K) :
  NoDup l -> l !! i = Some k -> NoDup (delete i l) /\ ~ In k (delete i l).
Proof.
  revert i. induction l as [|z l IH]; intros i Hnd Hi; [discriminate Hi|].
  apply NoDup_cons in Hnd as [Hz Hnd].
  destruct i as [|i]; simpl in Hi.
  - injection Hi as ->. simpl. split; [exact Hnd|].
    intros Hin. apply Hz, list_elem_of_In, Hin.
  - destruct (IH i Hnd Hi) as [Hnd' Hk]. simpl. split.
    + apply NoDup_cons. split; [|exact Hnd'].
      intros Hin. apply Hz. apply list_elem_of_In in Hin.
      apply list_elem_of_In.
      clear -Hin. revert i Hin. induction l as [|a l IHl]; intros [|i] Hin;
        simpl in *; auto.
      destruct Hin as [->|Hin]; [left; reflexivity | right; eauto].
    + intros [->|Hin]; [|exact (Hk Hin)].
      apply Hz. eapply list_elem_of_lookup_2. exact Hi.
Qed.

(** X19. [DELETE /vehicles/{id}]. Without a vehicle of the identifier the
    request is answered 404 "Vehicle not found" and the table is what it
    was. Otherwise the answer is the message "Vehicle deleted
    successfully", the table has one vehicle less, the answers of [GET
    /vehicles/{id}] for all other identifiers are what they were, and in a
    table without duplicate identifiers the deleted identifier is now
    answered 404. *)
Theorem X19_delete_vehicle_removes_the_id id table :
  let outcome := vehicles.delete_vehicle id table in
  match outcome.2 with
  | Ok message =>
      message = "Vehicle deleted successfully"
      /\ (exists v, vehicles.get_vehicle id table = (table, Ok v))
      /\ S (length outcome.1) = length table
      /\ (forall id', id' <> id ->
            (vehicles.get_vehicle id' outcome.1).2
            = (vehicles.get_vehicle id' table).2)
      /\ (NoDup (map vehicles.vehicle_id table) ->
          NoDup (map vehicles.vehicle_id outcome.1)
          /\ vehicles.get_vehicle id outcome.1
             = (outcome.1, Raise vehicle_not_found))
  | Raise e =>
      e = vehicle_not_found
      /\ outcome.1 = table
      /\ vehicles.get_vehicle id table = (table, Raise vehicle_not_found)
  end.
Proof.
  cbv zeta. unfold vehicles.delete_vehicle.
  destruct (payroll.first (vehicles.has_id id) table) as [[i v]|] eqn:Ef;
    cbn [fst snd].
  - pose proof (first_Some_inv _ _ _ _ Ef) as [Hi Hv]. apply has_id_iff in Hv.
    split; [reflexivity|].
    split; [exists v; unfold vehicles.get_vehicle; rewrite Ef; reflexivity|].
    split.
    { rewrite length_delete by (exists v; exact Hi).
      pose proof (lookup_lt_Some _ _ _ Hi). lia. }
    split.
    + intros id' Hne. rewrite !get_vehicle_response.
      rewrite (first_delete_other _ _ _ v Hi); [reflexivity|].
      eapply has_id_other; eassumption.
    + intros Hnd.
      assert (Hk : map vehicles.vehicle_id table !! i = Some id).
      { rewrite <- Hv. clear -Hi. revert i Hi.
        induction table as [|z l IH]; intros [|i] Hi; simpl in *;
          try discriminate; [congruence | auto]. }
      destruct (NoDup_delete_absent _ i id Hnd Hk) as [Hnd' Habs].
      rewrite <- map_delete in Hnd', Habs. split; [exact Hnd'|].
      unfold vehicles.get_vehicle.
      destruct (payroll.first (vehicles.has_id id) (delete i table))
        as [[j w]|] eqn:Ef'; [|reflexivity].
      exfalso. apply first_Some_inv in Ef' as [Hj Hw]. apply has_id_iff in Hw.
      apply Habs. rewrite <- Hw. apply in_map.
      apply list_elem_of_In. eapply list_elem_of_lookup_2. exact Hj.
  - split; [reflexivity|]. split; [reflexivity|].
    unfold vehicles.get_vehicle. rewrite Ef. reflexivity.
Qed.

(** X20. [PUT /vehicles/{id}], for an update that does not set the
    identifier. Without a vehicle of the identifier the request is answered
    404 "Vehicle not found" and the table is what it was. Otherwise the
    first vehicle of the identifier is replaced by itself with the fields
    of the update set, that vehicle is returned and is what [GET
    /vehicles/{id}] now answers, the identifiers of the table are what they
    were, place by place, and so are the answers for all other
    identifiers. *)
Theorem X20_update_vehicle_rewrites_one_vehicle id
    (vehicle_update : VehicleUpdate) table :
  (forall u v, vehicles.vehicle_id (setattrs u v) = vehicles.vehicle_id v) ->
  let outcome := vehicles.update_vehicle setattrs id vehicle_update table in
  match outcome.2 with
  | Ok updated =>
      (exists v,
         vehicles.get_vehicle id table = (table, Ok v)
         /\ updated = setattrs vehicle_update v)
      /\ vehicles.get_vehicle id outcome.1 = (outcome.1, Ok updated)
      /\ map vehicles.vehicle_id outcome.1 = map vehicles.vehicle_id table
      /\ (forall id', id' <> id ->
            (vehicles.get_vehicle id' outcome.1).2
            = (vehicles.get_vehicle id' table).2)
  | Raise e =>
      e = vehicle_not_found
      /\ outcome.1 = table
      /\ vehicles.get_vehicle id table = (table, Raise vehicle_not_found)
  end.
Proof.
  intros Hid. cbv zeta. unfold vehicles.update_vehicle.
  destruct (payroll.first (vehicles.has_id id) table) as [[i v]|] eqn:Ef;
    cbn [fst snd].
  - pose proof (first_Some_inv _ _ _ _ Ef) as [Hi Hv].
    assert (Hv' : vehicles.has_id id (setattrs vehicle_update v) = true).
    { apply has_id_iff. rewrite Hid. apply has_id_iff. exact Hv. }
    split.
    { exists v. split; [|reflexivity].
      unfold vehicles.get_vehicle. rewrite Ef. reflexivity. }
    split.
    { unfold vehicles.get_vehicle.
      rewrite (first_Some_insert _ _ _ _ _ Ef Hv'). reflexivity. }
    split.
    { apply (map_insert_same_key _ _ _ _ v Hi). symmetry. apply Hid. }
    intros id' Hne. rewrite !get_vehicle_response.
    apply has_id_iff in Hv.
    rewrite (first_insert_other _ _ _ _ v Hi); [reflexivity | |].
    + eapply has_id_other; eassumption.
    + eapply has_id_other; [exact Hne|]. rewrite Hid. exact Hv.
  - split; [reflexivity|]. split; [reflexivity|].
    unfold vehicles.get_vehicle. rewrite Ef. reflexivity.
Qed.

Lemma firstn_add_skipn {A : Type} (a b : nat) (l : list A) :
  firstn (a + b) l = firstn a l ++ firstn b (skipn a l).
Proof.
  revert l. induction a as [|a IH]; intros l; [reflexivity|].
  destruct l as [|x l]; simpl; [destruct b; reflexivity|].
  rewrite IH. reflexivity.
Qed.

Lemma skipn_add {A : Type} (a b : nat) (l : list A) :
  skipn (a + b) l = skipn b (skipn a l).
Proof.
  revert l. induction a as [|a IH]; intros l; [reflexivity|].
  destruct l as [|x l]; simpl; [destruct b; reflexivity | apply IH].
Qed.

(** X21. [GET /vehicles] with an offset and a limit that are not negative
    never changes the table; a page has at most [limit] vehicles; the page
    at [skip] followed by the page at [skip + limit] is the page of both
    limits at [skip], so consecutive pages neither overlap nor leave a
    vehicle out; a page shorter than its limit is the last one; and offset
    0 with the size of the table as limit gives the whole table. *)
Theorem X21_vehicle_pages_follow_each_other (skip limit more : nat) table :
  exists page next both,
    vehicles.get_vehicles skip limit table = (table, Ok page)
    /\ vehicles.get_vehicles (skip + limit) more table = (table, Ok next)
    /\ vehicles.get_vehicles skip (limit + more) table = (table, Ok both)
    /\ both = page ++ next
    /\ (length page <= limit)%nat
    /\ ((length page < limit)%nat -> next = [])
    /\ vehicles.get_vehicles 0 (length table) table = (table, Ok table).
Proof.
  unfold vehicles.get_vehicles. eexists _, _, _.
  split; [reflexivity|]. split; [reflexivity|]. split; [reflexivity|].
  split; [rewrite firstn_add_skipn, skipn_add; reflexivity|].
  split; [apply firstn_le_length|].
  split.
  - intros Hlt. rewrite length_firstn in Hlt.
    rewrite skipn_add.
    assert (Hl : (length (skipn skip table) <= limit)%nat) by lia.
    rewrite (skipn_all2 _ Hl). destruct more; reflexivity.
  - simpl. rewrite firstn_all. reflexivity.
Qed.

End Vehicles.

Lemma X20_update_vehicle_rewrites_one_vehicle_witness :
  let outcome := vehicles.update_vehicle set_mileage "V2" (Some 250) fleet in
  match outcome.2 with
  | Ok updated =>
      (exists v,
         vehicles.get_vehicle "V2" fleet = (fleet, Ok v)
         /\ updated = set_mileage (Some 250) v)
      /\ vehicles.get_vehicle "V2" outcome.1 = (outcome.1, Ok updated)
      /\ map vehicles.vehicle_id outcome.1 = map vehicles.vehicle_id fleet
      /\ (forall id', id' <> "V2" ->
            (vehicles.get_vehicle id' outcome.1).2
            = (vehicles.get_vehicle id' fleet).2)
  | Raise e =>
      e = vehicle_not_found
      /\ outcome.1 = fleet
      /\ vehicles.get_vehicle "V2" fleet = (fleet, Raise vehicle_not_found)
  end.
Proof.
  apply (X20_update_vehicle_rewrites_one_vehicle set_mileage "V2" (Some 250) fleet).
  intros u v. reflexivity.
Defined.

(** ** Text cells of the PDF tables *)

Lemma length_substring_0 (m : nat) (s : string) :
  String.length (String.substring 0 m s) = Nat.min m (String.length s).
Proof.
  revert s. induction m as [|m IH]; intros s.
  - destruct s; reflexivity.
  - destruct s as [|c s]; [reflexivity|]. simpl. rewrite IH. reflexivity.
Qed.

Lemma length_app_string (a b : string) :
  String.length (a +:+ b) = (String.length a + String.length b)%nat.
Proof. induction a as [|c a IH]; simpl; [reflexivity | rewrite IH; reflexivity]. Qed.

Lemma len_nonneg (s : string) : 0 <= Py.len s.
Proof. unfold Py.len. lia. Qed.

Lemma len_slice_to (stop : Z) (s : string) :
  0 <= stop -> Py.len (Py.slice_to stop s) = Z.min stop (Py.len s).
Proof.
  intros H. unfold Py.slice_to, Py.len.
  replace (stop <? 0) with false by (symmetry; apply Z.ltb_ge; exact H).
  rewrite length_substring_0. lia.
Qed.

Lemma len_app (a b : string) : Py.len (a +:+ b) = Py.len a + Py.len b.
Proof. unfold Py.len. rewrite length_app_string. lia. Qed.

Lemma substring_0_all (m : nat) (s : string) :
  (String.length s <= m)%nat -> String.substring 0 m s = s.
Proof.
  revert s. induction m as [|m IH]; intros s H.
  - destruct s; [reflexivity | simpl in H; lia].
  - destruct s as [|c s]; [reflexivity|]. simpl in *. rewrite IH by lia.
    reflexivity.
Qed.

(** X22. [_truncate] of the PDF table, for a maximal length that is not
    negative: the result is never longer than the maximal length; a text
    that fits, once stripped, is returned stripped and whole; a longer text
    with a maximal length over 3 is cut to its first [max_len - 3]
    characters followed by "..." and has exactly the maximal length. *)
Theorem X22_truncate_fits_the_column (s : option string) (max_len : Z) :
  0 <= max_len ->
  let ss := Py.strip (Py.str_or_empty s) in
  Py.len (payroll._truncate s max_len) <= max_len
  /\ (Py.len ss <= max_len -> payroll._truncate s max_len = ss)
  /\ (3 < max_len < Py.len ss ->
      payroll._truncate s max_len = Py.slice_to (max_len - 3) ss +:+ "..."
      /\ Py.len (payroll._truncate s max_len) = max_len).
Proof.
  intros Hmax ss. unfold payroll._truncate. fold ss.
  destruct (Py.len ss <=? max_len) eqn:E1.
  - apply Z.leb_le in E1. repeat split; try lia; auto.
  - apply Z.leb_gt in E1.
    destruct (max_len <=? 3) eqn:E3.
    + apply Z.leb_le in E3. rewrite len_slice_to by lia.
      repeat split; try lia.
    + apply Z.leb_gt in E3. rewrite len_app, len_slice_to by lia.
      change (Py.len "...") with 3.
      repeat split; try lia; auto.
Qed.

Lemma X22_truncate_fits_the_column_witness :
  payroll._truncate (Some "  Muhammad Abdullah Khan  ") 18 = "Muhammad Abdull..."
  /\ Py.len (payroll._truncate (Some "  Muhammad Abdullah Khan  ") 18) <= 18.
Proof.
  split; [vm_compute; reflexivity|].
  exact (proj1 (X22_truncate_fits_the_column
                  (Some "  Muhammad Abdullah Khan  ") 18 ltac:(lia))).
Defined.

(** X23. The text cells of the PDF table of [payroll2.py]: the name cell is
    the name when it has at most 18 characters, else its first 16
    characters and ".." (18 characters); the remarks cell has at most 16
    characters and the bank/cash cell at most 10, and a text that fits is
    printed whole. *)
Theorem X23_payroll2_text_cells_fit (name : string)
    (remarks bank_cash : option string) :
  Py.len (payroll2.name_cell name) <= 18
  /\ (if Py.len name <=? 18 then payroll2.name_cell name = name
      else payroll2.name_cell name = Py.slice_to 16 name +:+ ".."
           /\ Py.len (payroll2.name_cell name) = 18)
  /\ Py.len (payroll2.remarks_cell remarks) <= 16
  /\ Py.len (payroll2.bank_cash_cell bank_cash) <= 10
  /\ (Py.len (Py.str_or_empty remarks) <= 16 ->
      payroll2.remarks_cell remarks = Py.str_or_empty remarks)
  /\ (Py.len (Py.str_or_empty bank_cash) <= 10 ->
      payroll2.bank_cash_cell bank_cash = Py.str_or_empty bank_cash).
Proof.
  unfold payroll2.name_cell, payroll2.remarks_cell, payroll2.bank_cash_cell.
  rewrite !len_slice_to by lia.
  destruct (18 <? Py.len name) eqn:E.
  - apply Z.ltb_lt in E.
    replace (Py.len name <=? 18) with false by (symmetry; apply Z.leb_gt; lia).
    rewrite len_app, len_slice_to by lia. change (Py.len "..") with 2.
    repeat split; try lia.
    + intros H. unfold Py.slice_to.
      replace (16 <? 0) with false by reflexivity.
      apply substring_0_all. unfold Py.len in *. lia.
    + intros H. unfold Py.slice_to.
      replace (10 <? 0) with false by reflexivity.
      apply substring_0_all. unfold Py.len in *. lia.
  - apply Z.ltb_ge in E.
    replace (Py.len name <=? 18) with true by (symmetry; apply Z.leb_le; lia).
    repeat split; try lia.
    + intros H. unfold Py.slice_to.
      replace (16 <? 0) with false by reflexivity.
      apply substring_0_all. unfold Py.len in *. lia.
    + intros H. unfold Py.slice_to.
      replace (10 <? 0) with false by reflexivity.
      apply substring_0_all. unfold Py.len in *. lia.
Qed.

(** ** Pay without attendance, and the summaries *)

Lemma first_None_find_None {A : Type} (p q : A -> bool) (l : list A) :
  (forall r, q r = true -> p r = true) ->
  payroll.first p l = None -> List.find q (rev l) = None.
Proof.
  intros Hqp Ef. apply first_None_Forall in Ef. rewrite List.Forall_forall in Ef.
  destruct (List.find q (rev l)) as [r|] eqn:Efind; [|reflexivity].
  apply List.find_some in Efind as [Hr Hk]. apply in_rev in Hr.
  apply Hqp in Hk. rewrite (Ef r Hr) in Hk. discriminate Hk.
Qed.

Lemma sheet_lookup_absent (db : Db) (start end_ : date) (id : Z) :
  sheet_row db id start end_ = None ->
  payroll.sheet_by_emp_db_id start end_ db !! id = None.
Proof.
  unfold sheet_row, payroll.sheet_by_emp_db_id. intros H.
  destruct (payroll.first (payroll.sheet_key id start end_) (sheet_entries db))
    as [[i r]|] eqn:Ef; [discriminate H|].
  rewrite dict_of_lookup, <- filter_rev', find_filter_and.
  rewrite (first_None_find_None (payroll.sheet_key id start end_)); auto.
  intros r Hr. apply andb_prop in Hr as [Hp Hid].
  apply bool_decide_eq_true_1 in Hid. unfold payroll.sheet_in_period in Hp.
  apply andb_prop in Hp as [Hp1 Hp2].
  unfold payroll.sheet_key. rewrite Hp1, Hp2, Hid, Z.eqb_refl. reflexivity.
Qed.

(** A walk over days without a record only counts unmarked days. *)
Lemma payroll_fold_unmarked (days : gmap Z AttendanceRecord.t) (l : list date)
    (x : Tally.t) :
  (forall d, In d l -> days !! d = None) ->
  fold_left (fun x d => payroll.range_body days d x) l x
  = let 'Tally.mk p la a pl ul um om op or lm ld fd := x in
    Tally.mk p la a pl ul (um + Z.of_nat (length l)) om op or lm ld fd.
Proof.
  revert x. induction l as [|d l IH]; intros x H.
  - destruct x. simpl. rewrite Z.add_0_r. reflexivity.
  - cbn [fold_left]. rewrite IH by (intros d' Hd'; apply H; right; exact Hd').
    rewrite payroll_range_body_record, (H d (or_introl eq_refl)).
    destruct x. cbn [count_day Tally.incr_unmarked length]. f_equal. lia.
Qed.

Lemma length_period_days (start end_ : date) :
  Z.of_nat (length (period_days start end_)) = Z.max 0 (end_ - start + 1).
Proof. unfold period_days. rewrite length_map, length_seq. lia. Qed.

Section NoAttendance.
Context (float_of_str : string -> option Qc).

Lemma month_row_pays_base month db start end_ e :
  month_pays_base db start end_
    (payroll.report_row float_of_str month db
       (group_by AttendanceRecord.employee_id
          (List.filter (payroll.in_period start end_) (attendance db)))
       e).
Proof.
  unfold month_pays_base. intros Hrec. repeat split;
    try apply payroll_report_row_formulas;
    revert Hrec; unfold payroll.report_row; cbv zeta;
    cbn [payroll.ReportRow.employee_id payroll.ReportRow.present_days
         payroll.ReportRow.late_days payroll.ReportRow.absent_days
         payroll.ReportRow.paid_leave_days payroll.ReportRow.unpaid_leave_days
         payroll.ReportRow.overtime_minutes payroll.ReportRow.late_minutes
         payroll.ReportRow.allowances payroll.ReportRow.overtime_rate
         payroll.ReportRow.overtime_pay payroll.ReportRow.late_deduction
         payroll.ReportRow.unpaid_leave_deduction];
    rewrite group_by_lookup; unfold records_of; intros ->;
    reflexivity.
Qed.

Lemma range_row_pays_nothing month_label start end_ db e :
  0 < start <= end_ ->
  range_pays_nothing db start end_
    (payroll.range_row float_of_str month_label start end_ db e
       (payroll_tally
          (payroll.by_emp_by_date
             (List.filter (payroll.in_period start end_) (attendance db)))
          start end_ e)).
Proof.
  intros Hle Hrec Hsheet.
  change (payroll.RangeRow.employee_id (payroll.range_row _ _ _ _ _ e _))
    with (payroll.range_employee_id e) in Hrec.
  change (payroll.RangeRow.employee_db_id (payroll.range_row _ _ _ _ _ e _))
    with (Employee2.id e) in Hsheet.
  apply sheet_lookup_absent in Hsheet.
  assert (Hform := payroll_range_row_formulas float_of_str month_label start end_
                     db e
                     (payroll_tally
                        (payroll.by_emp_by_date
                           (List.filter (payroll.in_period start end_)
                              (attendance db)))
                        start end_ e)).
  revert Hform. unfold payroll_tally.
  rewrite payroll_fold_unmarked.
  2:{ intros d Hd. apply in_period_days in Hd.
      rewrite day_index_lookup by exact Hd. apply Hrec. exact Hd. }
  intros Hform.
  repeat match goal with |- _ /\ _ => split end;
    try exact Hform;
    unfold payroll.range_row; cbv zeta; rewrite ?Hsheet;
    cbn [Tally.zero payroll.RangeRow.unmarked_days payroll.RangeRow.working_days
         payroll.RangeRow.present_days payroll.RangeRow.late_days
         payroll.RangeRow.absent_days payroll.RangeRow.paid_leave_days
         payroll.RangeRow.unpaid_leave_days payroll.RangeRow.payable_days
         payroll.RangeRow.leave_encashment_days payroll.RangeRow.total_days
         payroll.RangeRow.total_salary payroll.RangeRow.day_rate
         payroll.RangeRow.overtime_minutes payroll.RangeRow.late_minutes
         payroll.RangeRow.allowances payroll.RangeRow.overtime_rate
         payroll.RangeRow.overtime_pay payroll.RangeRow.allow_other
         payroll.RangeRow.eobi payroll.RangeRow.tax
         payroll.RangeRow.fine_deduction payroll.RangeRow.fine_adv_extra
         payroll.RangeRow.late_deduction
         Tally.present_days Tally.late_days Tally.absent_days
         Tally.paid_leave_days Tally.unpaid_leave_days Tally.unmarked_days
         Tally.overtime_minutes Tally.late_minutes
         Tally.overtime_rate Tally.overtime_pay Tally.fine_deduction
         Tally.late_deduction];
    try reflexivity.
  - rewrite length_period_days.
    unfold payroll._days_inclusive, Date.sub_days. lia.
  - unfold payroll._days_inclusive, Date.sub_days.
    replace (end_ - start + 1 <? 0 + 0 + 0) with false; [reflexivity|].
    symmetry. apply Z.ltb_ge. lia.
Qed.

(** X24. An employee without attendance. In the calendar-month report the
    row of an employee who has no record in the month counts no day and
    accrues nothing: allowances, overtime rate, overtime pay, late
    deduction and unpaid-leave deduction are 0, so that gross_pay =
    base_salary + allowances + overtime_rate + overtime_pay and net_pay =
    gross_pay - late_deduction - unpaid_leave_deduction -
    advance_deduction have no other term than the base salary and the
    advance deduction. In the range report of [payroll.py] the row of an
    employee who has no record on any day of the period and no sheet entry
    for it has every day unmarked, payable_days = 0 and total_days = 0, so
    total_salary = 0 * day_rate, and overtime, sheet terms, fines and late
    deduction are 0 in the formulas of gross and net pay. *)
Theorem X24_pay_without_attendance :
  (forall month db rep,
     payroll.payroll_report float_of_str month db = Ok rep ->
     exists start end_,
       payroll._parse_month month = Ok (start, end_)
       /\ Forall (month_pays_base db start end_)
            (payroll.PayrollReportResponse.rows rep))
  /\ (forall from_date to_date month db rep,
        payroll.payroll_range_report float_of_str from_date to_date month db
        = Ok rep ->
        exists start end_,
          payroll._parse_date from_date "from_date" = Ok start
          /\ payroll._parse_date to_date "to_date" = Ok end_
          /\ Forall (range_pays_nothing db start end_)
               (payroll.PayrollReportResponse.rows rep)).
Proof.
  split.
  - intros month db rep H.
    apply payroll_report_inv in H as (start & end_ & Hp & ->).
    exists start, end_. split; [exact Hp|].
    apply List.Forall_forall. intros r Hr.
    apply List.in_map_iff in Hr. destruct Hr as (e & <- & _).
    apply month_row_pays_base.
  - intros from_date to_date month db rep H.
    apply payroll_range_report_rows in H
      as (start & end_ & month_label & Hs & He & Hle & Hrows).
    exists start, end_. split; [exact Hs|]. split; [exact He|].
    induction Hrows as [|e r es rows -> _ IH]; constructor; [|exact IH].
    apply range_row_pays_nothing. exact Hle.
Qed.

End NoAttendance.

Lemma X24_pay_without_attendance_witness :
  (exists rep start end_,
     payroll.payroll_report decimal "2024-01" Example.serials = Ok rep
     /\ Forall (month_pays_base Example.serials start end_)
          (payroll.PayrollReportResponse.rows rep)
     /\ Forall
          (fun r => records_of Example.serials start end_
                      (payroll.ReportRow.employee_id r) = [])
          (payroll.PayrollReportResponse.rows rep)
     /\ map (fun r => (this (payroll.ReportRow.base_salary r),
                       this (payroll.ReportRow.gross_pay r),
                       this (payroll.ReportRow.net_pay r)))
          (payroll.PayrollReportResponse.rows rep)
        = repeat (inject_Z 100, inject_Z 100, inject_Z 100) 4)
  /\ (exists rep start end_,
        payroll.payroll_range_report decimal "2024-01-01" "2024-01-31" None
          Example.serials = Ok rep
        /\ Forall (range_pays_nothing Example.serials start end_)
             (payroll.PayrollReportResponse.rows rep)
        /\ map (fun r => (payroll.RangeRow.unmarked_days r,
                          payroll.RangeRow.total_days r,
                          this (payroll.RangeRow.total_salary r),
                          this (payroll.RangeRow.gross_pay r),
                          this (payroll.RangeRow.net_pay r)))
             (payroll.PayrollReportResponse.rows rep)
           = repeat (31, 0, inject_Z 0, inject_Z 0, inject_Z 0) 4).
Proof.
  split.
  - destruct (payroll.payroll_report decimal "2024-01" Example.serials)
      as [rep|e] eqn:E.
    + destruct (proj1 (X24_pay_without_attendance decimal) _ _ rep E)
        as (start & end_ & _ & H).
      exists rep, start, end_. split; [reflexivity|]. split; [exact H|].
      vm_compute in E. injection E as <-.
      split; [repeat constructor | vm_compute; reflexivity].
    + vm_compute in E. discriminate E.
  - destruct (payroll.payroll_range_report decimal "2024-01-01" "2024-01-31" None
                Example.serials) as [rep|e] eqn:E.
    + destruct (proj2 (X24_pay_without_attendance decimal) _ _ _ _ rep E)
        as (start & end_ & _ & _ & H).
      exists rep, start, end_. split; [reflexivity|]. split; [exact H|].
      vm_compute in E. injection E as <-. vm_compute. reflexivity.
    + vm_compute in E. discriminate E.
Defined.

(** ** Who gets a row *)

Lemma hired_by_iff (end_ : date) (e : Employee2.t) :
  payroll.hired_by (datetime_combine end_ time_max) e = true <-> created_by end_ e.
Proof.
  unfold payroll.hired_by, created_by, datetime_le, datetime_combine.
  destruct (Employee2.created_at e) as [[d t]|]; [|tauto].
  cbn [fst snd].
  rewrite orb_true_iff, andb_true_iff, Z.ltb_lt, Z.eqb_eq, Z.leb_le. tauto.
Qed.

Lemma eq_reflexive_perm {A : Type} (l l' : list A) : l = l' -> l ≡ₚ l'.
Proof. intros ->. reflexivity. Qed.

Lemma fold_left_sum {A : Type} (f : A -> Z) (l : list A) (t : Z) :
  fold_left (fun t r => t + f r) l t = t + fold_right Z.add 0 (map f l).
Proof.
  revert t. induction l as [|a l IH]; intros t; simpl; [lia|].
  rewrite IH. lia.
Qed.

Section Eligibility.
Context (float_of_str : string -> option Qc).

(** X26. The rows of a range report of [payroll.py] are, up to their
    order, the employees hired by the end of the period, one row each; an
    employee is hired by then when the creation time is missing or falls on
    a day up to to_date, the last day counted up to its last
    microsecond. *)
Theorem X26_one_row_per_employee_created_by_the_end (from_date to_date : string)
    (month : option string) (db : Db)
    (rep : payroll.PayrollReportResponse.t payroll.RangeRow.t) :
  payroll.payroll_range_report float_of_str from_date to_date month db = Ok rep ->
  exists end_,
    payroll._parse_date to_date "to_date" = Ok end_
    /\ map payroll.RangeRow.employee_db_id (payroll.PayrollReportResponse.rows rep)
       ≡ₚ map Employee2.id
            (List.filter (payroll.hired_by (datetime_combine end_ time_max))
               (employees db))
    /\ (forall e,
          In e (List.filter (payroll.hired_by (datetime_combine end_ time_max))
                  (employees db))
          <-> In e (employees db) /\ created_by end_ e).
Proof.
  intros H.
  apply payroll_range_report_inv in H
    as (start & end_ & month_label & _ & He & _ & Hrows).
  exists end_. split; [exact He|]. split.
  - apply payroll_range_rows_serial_ids in Hrows.
    apply (f_equal (map snd)) in Hrows. rewrite !map_map in Hrows.
    cbn [snd] in Hrows.
    match type of Hrows with
    | _ = map _ ?es =>
        transitivity (map Employee2.id es);
          [apply eq_reflexive_perm; exact Hrows|]
    end.
    apply Permutation_map. unfold sorted. apply sort_by_Permutation.
  - intros e. rewrite List.filter_In, hired_by_iff. reflexivity.
Qed.

Lemma sum_bounded (l : list Z) (b : Z) :
  Forall (fun n => 0 <= n <= b) l ->
  0 <= fold_right Z.add 0 l <= Z.of_nat (length l) * b.
Proof.
  induction 1 as [|n l Hn _ IH]; simpl; [lia|]. nia.
Qed.

(** The present and late days of a walk of [payroll2.py]. *)
Lemma payroll2_walk_presents days start end_ x :
  start <= end_ ->
  day_walk (payroll2.range_body days) end_ start Tally.zero = Ok x ->
  0 <= Tally.present_days x + Tally.late_days x <= end_ - start + 1.
Proof.
  intros Hle Hw.
  pose proof (day_walk_related (fun x x' => without_unmarked x = x')
                (payroll.range_body days) (payroll2.range_body days) end_
                (fun d x x' H => eq_trans (range_bodies_agree _ d x) (f_equal _ H))
                (Z.to_nat (end_ - start + 1)) start Tally.zero Tally.zero
                eq_refl eq_refl) as Hr.
  rewrite Hw in Hr.
  destruct (day_walk (payroll.range_body days) end_ start Tally.zero) as [y|]
    eqn:Hy; simpl in Hr; [|contradiction].
  pose proof (payroll_walk_nonneg _ _ _ _ Hle Hy) as Hn.
  pose proof (payroll_walk_days6 _ _ _ _ Hle Hy) as H6.
  subst x. destruct y. unfold nonneg_days, days6, days5 in *. simpl in *. lia.
Qed.

(** X27. The summary of a range report of [payroll2.py]: the month of the
    answer, from_date and to_date as parsed, working_days = to - from + 1,
    at least 1 and also the working_days of every row, the number of rows,
    total_gross and total_net as the running totals of gross_pay and
    net_pay from 0 in the order of the rows, and total_presents as the sum
    of the presents_total of the rows; presents_total of a row is
    present_days + late_days and lies between 0 and working_days, so
    total_presents is between 0 and employees * working_days. *)
Theorem X27_payroll2_summary_adds_up (from_date to_date : string)
    (month : option string) (db : Db) (rep : payroll2.Response.t) :
  payroll2.payroll2_range_report float_of_str from_date to_date month db
  = Ok rep ->
  exists start end_,
    payroll2._parse_date from_date "from_date" = Ok start
    /\ payroll2._parse_date to_date "to_date" = Ok end_
    /\ range2_summary_adds_up start end_ rep.
Proof.
  intros H.
  pose proof (payroll2_range_report_inv _ _ _ _ _ _ H)
    as (start & end_ & month_label & Hs & He & Hle & Hrows).
  exists start, end_. split; [exact Hs|]. split; [exact He|].
  apply payroll2_range_rows_inv in Hrows.
  assert (Hwd : Forall
                  (fun r =>
                     payroll2.Row.working_days r = end_ - start + 1
                     /\ payroll2.Row.presents_total r
                        = payroll2.Row.present_days r + payroll2.Row.late_days r
                     /\ 0 <= payroll2.Row.presents_total r
                        <= payroll2.Row.working_days r)
                  (payroll2.Response.rows rep)).
  { induction Hrows as [|e r es rows (x & Hw & ->) _ IH]; constructor;
      [|exact IH].
    split; [reflexivity|]. split; [reflexivity|].
    exact (payroll2_walk_presents _ _ _ _ Hle Hw). }
  clear Hrows. unfold payroll2.payroll2_range_report in H.
  rewrite Hs, He in H. cbn [bind] in H.
  destruct (end_ <? start); [discriminate H|].
  match type of H with
  | bind ?r _ = _ => destruct r as [rows|]; [|discriminate H]
  end.
  cbn [bind] in H. injection H as <-.
  unfold range2_summary_adds_up. cbv zeta.
  cbn [payroll2.Response.summary payroll2.Response.rows payroll2.Response.month
       payroll2.Summary.month payroll2.Summary.from_date payroll2.Summary.to_date
       payroll2.Summary.working_days payroll2.Summary.employees
       payroll2.Summary.total_gross payroll2.Summary.total_net
       payroll2.Summary.total_presents] in *.
  assert (Hsum : fold_left (fun t r => t + payroll2.Row.presents_total r) rows 0
                 = fold_right Z.add 0 (map payroll2.Row.presents_total rows)).
  { rewrite fold_left_sum. reflexivity. }
  split; [reflexivity|]. split; [reflexivity|]. split; [reflexivity|].
  split; [reflexivity|].
  split; [unfold payroll2._days_inclusive, Date.sub_days; lia|].
  split; [reflexivity|]. split; [reflexivity|]. split; [reflexivity|].
  split; [exact Hsum|]. split; [exact Hwd|].
  rewrite Hsum.
  pose proof (sum_bounded (map payroll2.Row.presents_total rows)
                (end_ - start + 1)) as Hb.
  rewrite length_map in Hb. apply Hb.
  rewrite Forall_map. eapply List.Forall_impl; [|exact Hwd].
  intros r (H1 & _ & H3). simpl. rewrite <- H1. exact H3.
Qed.

End Eligibility.

Lemma X26_one_row_per_employee_created_by_the_end_witness :
  exists rep,
    payroll.payroll_range_report decimal "2024-01-01" "2024-01-31" None
      Example.hires = Ok rep
    /\ map payroll.RangeRow.employee_db_id (payroll.PayrollReportResponse.rows rep)
       ≡ₚ [1; 2; 4]
    /\ map Employee2.id (employees Example.hires) = [1; 2; 3; 4]
    /\ created_by Example.jan31 (Example.hired 2 (Some (Example.jan31, time_max)))
    /\ ~ created_by Example.jan31 (Example.hired 3 (Some (Example.jan31 + 1, 0)))
    /\ ~ In (Example.hired 3 (Some (Example.jan31 + 1, 0)))
           (List.filter
              (payroll.hired_by (datetime_combine Example.jan31 time_max))
              (employees Example.hires)).
Proof.
  destruct (payroll.payroll_range_report decimal "2024-01-01" "2024-01-31" None
              Example.hires) as [rep|e] eqn:E.
  - exists rep. split; [reflexivity|].
    destruct (X26_one_row_per_employee_created_by_the_end decimal _ _ _ _ rep E)
      as (end_ & He & Hp & Hin).
    vm_compute in He. injection He as <-.
    assert (Hnot : ~ created_by 738916
                       (Example.hired 3 (Some (Example.jan31 + 1, 0)))).
    { unfold created_by, Example.hired, Example.jan31. simpl. lia. }
    split; [exact Hp|]. split; [reflexivity|].
    split; [right; split; [reflexivity | unfold time_max; lia]|].
    split; [exact Hnot|].
    intros H. apply Hin in H as [_ H]. exact (Hnot H).
  - vm_compute in E. discriminate E.
Defined.

Lemma X27_payroll2_summary_adds_up_witness :
  exists rep start end_,
    payroll2.payroll2_range_report decimal "2024-01-01" "2024-01-31" None
      Example.january = Ok rep
    /\ range2_summary_adds_up start end_ rep
    /\ (payroll2.Summary.working_days (payroll2.Response.summary rep),
        payroll2.Summary.employees (payroll2.Response.summary rep),
        payroll2.Summary.total_presents (payroll2.Response.summary rep),
        this (payroll2.Summary.total_gross (payroll2.Response.summary rep)),
        this (payroll2.Summary.total_net (payroll2.Response.summary rep)))
       = (31, 1, 22, inject_Z 24500, inject_Z 24000).
Proof.
  destruct (payroll2.payroll2_range_report decimal "2024-01-01" "2024-01-31" None
              Example.january) as [rep|e] eqn:E.
  - destruct (X27_payroll2_summary_adds_up decimal _ _ _ _ rep E)
      as (start & end_ & _ & _ & H).
    exists rep, start, end_. split; [reflexivity|]. split; [exact H|].
    vm_compute in E. injection E as <-. vm_compute. reflexivity.
  - vm_compute in E. discriminate E.
Defined.

(** ** A payment status written twice *)

Lemma find_map_agree {A B C : Type} (f g : A -> B) (p : B -> bool) (h : B -> C)
    (l : list A) :
  (forall a, p (f a) = p (g a)) ->
  (forall a, h (f a) = h (g a)) ->
  h <$> List.find p (map f l) = h <$> List.find p (map g l).
Proof.
  intros Hp Hh. induction l as [|a l IH]; [reflexivity|].
  cbn [map List.find]. rewrite <- Hp.
  destruct (p (f a)); [simpl; f_equal; apply Hh | exact IH].
Qed.

Section Repeated.
Context (float_of_str : string -> option Qc).

(** The payment statuses do not reach the net pay of a month row. *)
Lemma report_row_payment_status month db table by_emp e :
  payroll.ReportRow.employee_id
    (payroll.report_row float_of_str month (set_payment_status db table) by_emp e)
  = payroll.ReportRow.employee_id
      (payroll.report_row float_of_str month db by_emp e)
  /\ payroll.ReportRow.net_pay
       (payroll.report_row float_of_str month (set_payment_status db table) by_emp e)
     = payroll.ReportRow.net_pay
         (payroll.report_row float_of_str month db by_emp e).
Proof.
  unfold payroll.report_row. cbv zeta.
  cbn [payroll.ReportRow.employee_id payroll.ReportRow.net_pay].
  change (payroll.advance_ded_by_emp_db_id month (set_payment_status db table))
    with (payroll.advance_ded_by_emp_db_id month db).
  split; reflexivity.
Qed.

Lemma net_of_payment_status month employee_id db table :
  net_of employee_id
    (payroll.payroll_report float_of_str month (set_payment_status db table))
  = net_of employee_id (payroll.payroll_report float_of_str month db).
Proof.
  unfold net_of, payroll.payroll_report.
  destruct (payroll._parse_month month) as [[start end_]|]; [|reflexivity].
  cbn [bind payroll.PayrollReportResponse.rows].
  change (employees (set_payment_status db table)) with (employees db).
  change (attendance (set_payment_status db table)) with (attendance db).
  f_equal.
  apply (find_map_agree
           (payroll.report_row float_of_str month (set_payment_status db table) _)
           (payroll.report_row float_of_str month db _)
           (fun r => String.eqb (payroll.ReportRow.employee_id r) employee_id)
           (payroll.net_or_0 ∘ payroll.ReportRow.net_pay)).
  - intros e. rewrite (proj1 (report_row_payment_status _ _ _ _ e)). reflexivity.
  - intros e. unfold compose.
    rewrite (proj2 (report_row_payment_status _ _ _ _ e)). reflexivity.
Qed.

(** A write, by the net pay it keeps. *)
Lemma upsert_payment_status_by_net db payload :
  request (payroll.upsert_payment_status float_of_str payload) db
  = let month := payroll.PayrollPaymentStatusUpsert.month payload in
    let employee_id := payroll.PayrollPaymentStatusUpsert.employee_id payload in
    let status := requested_status payload in
    if negb (String.eqb status "paid" || String.eqb status "unpaid") then
      (db, Raise (HTTPException 400 "status must be 'paid' or 'unpaid'"))
    else
      match (if String.eqb status "paid"
             then net_of employee_id (payroll.payroll_report float_of_str month db)
             else Ok None) with
      | Raise e => (db, Raise e)
      | Ok snapshot =>
          let emp :=
            List.find
              (fun e => match Employee2.fss_no e with
                        | Some f => String.eqb f employee_id
                        | None => false
                        end)
              (employees db) in
          let row :=
            PayrollPaymentStatus.mk month employee_id (Some status)
              (Employee2.id <$> emp) snapshot in
          (set_payment_status db
             match payroll.first (payroll.status_key month employee_id)
                     (payment_status db) with
             | Some (i, _) => <[i := row]> (payment_status db)
             | None => payment_status db ++ [row]
             end,
           Ok row)
      end.
Proof.
  cbv zeta. unfold request, payroll.upsert_payment_status, requested_status.
  destruct (negb _); [reflexivity|].
  unfold bindM, query, lift, ret, set_pending, commit, net_of.
  cbn [pending committed].
  destruct (String.eqb _ "paid"); [|reflexivity].
  destruct (payroll.payroll_report float_of_str _ db) as [rep|e]; reflexivity.
Qed.

(** X28. [PUT /payment-status] is idempotent: the request that succeeded,
    made again on the store it left, succeeds with the same row and leaves
    the store as it is; for "paid" the snapshot is the same because the
    payment statuses do not reach the net pay of the month report. *)
Theorem X28_payment_status_write_is_idempotent (db db1 : Db)
    (payload : payroll.PayrollPaymentStatusUpsert.t) (row : PayrollPaymentStatus.t) :
  request (payroll.upsert_payment_status float_of_str payload) db = (db1, Ok row) ->
  request (payroll.upsert_payment_status float_of_str payload) db1 = (db1, Ok row).
Proof.
  rewrite !upsert_payment_status_by_net. cbv zeta.
  set (month := payroll.PayrollPaymentStatusUpsert.month payload).
  set (employee_id := payroll.PayrollPaymentStatusUpsert.employee_id payload).
  set (status := requested_status payload).
  destruct (negb _); [discriminate|].
  set (emp := Employee2.id <$> List.find _ (employees db)).
  intros H.
  assert (Hnet : forall table,
             (if String.eqb status "paid"
              then net_of employee_id
                     (payroll.payroll_report float_of_str month
                        (set_payment_status db table))
              else Ok None)
             = (if String.eqb status "paid"
                then net_of employee_id (payroll.payroll_report float_of_str month db)
                else Ok None)).
  { intros table. destruct (String.eqb status "paid"); [|reflexivity].
    apply net_of_payment_status. }
  destruct (if String.eqb status "paid" then _ else _) as [snapshot|e] eqn:Es;
    [|discriminate H].
  injection H as <- <-.
  rewrite Hnet.
  change (employees (set_payment_status db _)) with (employees db). fold emp.
  set (row := PayrollPaymentStatus.mk month employee_id (Some status) emp snapshot).
  change (payment_status (set_payment_status db ?t)) with t.
  destruct (status_row_written month employee_id (payment_status db) row
              eq_refl eq_refl) as [i Hi].
  rewrite Hi. apply first_Some_inv in Hi as [Hi _].
  rewrite (list_insert_id _ _ _ Hi). reflexivity.
Qed.

End Repeated.

Lemma X28_payment_status_write_is_idempotent_witness :
  exists db1 row,
    request (payroll.upsert_payment_status decimal Example.mark_paid)
      Example.store = (db1, Ok row)
    /\ request (payroll.upsert_payment_status decimal Example.mark_paid) db1
       = (db1, Ok row).
Proof.
  destruct (request (payroll.upsert_payment_status decimal Example.mark_paid)
              Example.store) as [db1 [row|e]] eqn:E.
  - exists db1, row. split; [reflexivity|].
    exact (X28_payment_status_write_is_idempotent decimal Example.store db1
             Example.mark_paid row E).
  - vm_compute in E. discriminate E.
Defined.

(** ** A batch of sheet entries written twice *)

Lemma place_of_Some start end_ table id (i : nat) :
  place_of start end_ table id = Some i ->
  exists y,
    payroll.first (payroll.sheet_key id start end_) table = Some (i, y)
    /\ table !! i = Some y
    /\ PayrollSheetEntry.employee_db_id y = id
    /\ PayrollSheetEntry.from_date y = start
    /\ PayrollSheetEntry.to_date y = end_.
Proof.
  unfold place_of. intros H.
  destruct (payroll.first _ table) as [[j y]|] eqn:Ef; [|discriminate H].
  simpl in H. injection H as ->. exists y. split; [reflexivity|].
  apply first_Some_inv in Ef as [Hi Hk]. split; [exact Hi|].
  apply sheet_key_fields. exact Hk.
Qed.

(** Over a row of its key an entry is written in place, and no place
    moves. *)
Lemma write_entry_placed start end_ table e (i : nat) :
  place_of start end_ table (payroll.PayrollSheetEntryUpsert.employee_db_id e)
  = Some i ->
  write_entry start end_ table e = <[i := payroll.sheet_row_of start end_ e]> table
  /\ forall id,
       place_of start end_ (write_entry start end_ table e) id
       = place_of start end_ table id.
Proof.
  intros H. destruct (place_of_Some _ _ _ _ _ H) as (y & Ef & Hi & H1 & H2 & H3).
  assert (Hw : write_entry start end_ table e
               = <[i := payroll.sheet_row_of start end_ e]> table).
  { unfold write_entry. rewrite Ef. reflexivity. }
  split; [exact Hw|].
  intros id. unfold place_of. rewrite Hw.
  apply (first_index_insert_same _ table i _ y Hi).
  apply sheet_key_same_fields; simpl; congruence.
Qed.

Lemma fold_write_places start end_ entries table :
  Forall
    (fun e => is_Some (place_of start end_ table
                         (payroll.PayrollSheetEntryUpsert.employee_db_id e)))
    entries ->
  forall id,
    place_of start end_ (fold_left (write_entry start end_) entries table) id
    = place_of start end_ table id.
Proof.
  revert table. induction entries as [|e entries IH]; intros table Hall id;
    [reflexivity|].
  apply Forall_cons in Hall as [[i Hi] Hall].
  destruct (write_entry_placed start end_ table e i Hi) as [_ Hp].
  cbn [fold_left]. rewrite IH; [apply Hp|].
  eapply List.Forall_impl; [|exact Hall].
  intros e' He'. cbv beta in *. rewrite Hp. exact He'.
Qed.

(** A batch over a table that has a row for each of its entries: the row
    at a place is that of the last entry written there. *)
Lemma fold_write_at start end_ entries table (j : nat) :
  Forall
    (fun e => is_Some (place_of start end_ table
                         (payroll.PayrollSheetEntryUpsert.employee_db_id e)))
    entries ->
  fold_left (write_entry start end_) entries table !! j
  = match List.find
            (fun e =>
               bool_decide
                 (place_of start end_ table
                    (payroll.PayrollSheetEntryUpsert.employee_db_id e) = Some j))
            (rev entries) with
    | Some e => Some (payroll.sheet_row_of start end_ e)
    | None => table !! j
    end.
Proof.
  induction entries as [|e entries IH] using rev_ind; intros Hall; [reflexivity|].
  apply Forall_app in Hall as [Hall He]. apply Forall_inv in He as [i Hi].
  rewrite fold_left_app, rev_app_distr. cbn [fold_left rev app List.find].
  set (T' := fold_left (write_entry start end_) entries table) in *.
  assert (Hi' : place_of start end_ T'
                  (payroll.PayrollSheetEntryUpsert.employee_db_id e) = Some i).
  { unfold T'. rewrite fold_write_places by exact Hall. exact Hi. }
  destruct (write_entry_placed start end_ T' e i Hi') as [-> _].
  destruct (place_of_Some _ _ _ _ _ Hi') as (y & _ & Hy & _).
  rewrite Hi. destruct (decide (i = j)) as [->|Hne].
  - rewrite bool_decide_eq_true_2 by reflexivity.
    apply list_lookup_insert_eq. eapply lookup_lt_Some. exact Hy.
  - rewrite bool_decide_eq_false_2 by congruence.
    rewrite list_lookup_insert_ne by exact Hne. apply IH. exact Hall.
Qed.

Lemma find_ext_in {A : Type} (p q : A -> bool) (l : list A) :
  (forall a, In a l -> p a = q a) -> List.find p l = List.find q l.
Proof.
  induction l as [|a l IH]; intros H; [reflexivity|].
  cbn [List.find]. rewrite (H a) by (left; reflexivity).
  rewrite IH by (intros b Hb; apply H; right; exact Hb). reflexivity.
Qed.

Lemma Forall2_functional {A B : Type} (R : A -> B -> Prop) (l : list A)
    (k k' : list B) :
  (forall a b b', R a b -> R a b' -> b = b') ->
  Forall2 R l k -> Forall2 R l k' -> k = k'.
Proof.
  intros HR H. revert k'. induction H as [|a b l k Hab _ IH]; intros k' H';
    inversion H'; subst; [reflexivity|].
  f_equal; [eapply HR; eassumption | apply IH; assumption].
Qed.

Lemma Forall2_is_Some {A B : Type} (f : A -> option B) (l : list A) (k : list B) :
  Forall2 (fun a b => f a = Some b) l k -> Forall (fun a => is_Some (f a)) l.
Proof.
  induction 1 as [|a b l k Hab _ IH]; constructor; [exists b; exact Hab | exact IH].
Qed.

Lemma Forall_not_Exists {A : Type} (P : A -> Prop) (l : list A) :
  Forall P l -> Exists (fun a => ~ P a) l -> False.
Proof.
  induction 1 as [|a l Ha _ IH]; intros Hex.
  - inversion Hex.
  - apply Exists_cons in Hex as [Hn|Hex]; [exact (Hn Ha) | exact (IH Hex)].
Qed.

(** Writing a batch over what it has written changes nothing. *)
Lemma fold_write_twice start end_ entries table :
  let written := fold_left (write_entry start end_) entries table in
  Forall
    (fun e => is_Some (place_of start end_ written
                         (payroll.PayrollSheetEntryUpsert.employee_db_id e)))
    entries ->
  fold_left (write_entry start end_) entries written = written.
Proof.
  intros written Hall. apply list_eq. intros j.
  rewrite fold_write_at by exact Hall.
  destruct (List.find _ (rev entries)) as [e|] eqn:Ef; [|reflexivity].
  pose proof (List.find_some _ _ Ef) as [Hin Hj].
  apply bool_decide_eq_true_1 in Hj.
  destruct (place_of_Some _ _ _ _ _ Hj) as (y & Hfirst & Hy & Hid & _).
  assert (Hlast : last_entry_for
                    (payroll.PayrollSheetEntryUpsert.employee_db_id e) entries
                  = Some e).
  { unfold last_entry_for. rewrite <- Ef. apply find_ext_in.
    intros x Hx. destruct (Z.eqb_spec
                             (payroll.PayrollSheetEntryUpsert.employee_db_id x)
                             (payroll.PayrollSheetEntryUpsert.employee_db_id e))
      as [Heq|Hne].
    - rewrite Heq. rewrite bool_decide_eq_true_2 by exact Hj. reflexivity.
    - symmetry. apply bool_decide_eq_false_2. intros Hx'.
      destruct (place_of_Some _ _ _ _ _ Hx') as (y' & _ & Hy' & Hid' & _).
      rewrite Hy in Hy'. injection Hy' as <-. congruence. }
  pose proof (fold_write_lookup start end_ entries table
                (payroll.PayrollSheetEntryUpsert.employee_db_id e) start end_)
    as Hl.
  rewrite !Z.eqb_refl, Hlast in Hl. cbn [andb] in Hl.
  fold written in Hl. rewrite Hfirst in Hl. simpl in Hl.
  injection Hl as ->. symmetry. exact Hy.
Qed.

(** X29. [PUT /sheet-entries] is idempotent: the batch that succeeded,
    sent again to the store it left, succeeds with the same answer and
    leaves the store as it is, also when the batch names an employee more
    than once. *)
Theorem X29_sheet_batch_is_idempotent (db db1 : Db)
    (payload : payroll.PayrollSheetEntryBulkUpsert.t)
    (rows : list PayrollSheetEntry.t) :
  request (payroll.bulk_upsert_payroll_sheet_entries payload) db = (db1, Ok rows) ->
  request (payroll.bulk_upsert_payroll_sheet_entries payload) db1 = (db1, Ok rows).
Proof.
  intros H.
  destruct (bulk_upsert_cases db payload)
    as [[_ Ho]|[(_ & _ & Ho)|(Hle & Hall & out & Ho & Hplaces)]];
    cbv zeta in Ho; rewrite H in Ho; try discriminate Ho.
  injection Ho as -> ->.
  set (start := payroll.PayrollSheetEntryBulkUpsert.from_date payload) in *.
  set (end_ := payroll.PayrollSheetEntryBulkUpsert.to_date payload) in *.
  set (entries := payroll.PayrollSheetEntryBulkUpsert.entries payload) in *.
  set (written := fold_left (write_entry start end_) entries (sheet_entries db))
    in *.
  assert (Hplaced : Forall
                      (fun e =>
                         is_Some (place_of start end_ written
                                    (payroll.PayrollSheetEntryUpsert.employee_db_id e)))
                      entries).
  { exact (Forall2_is_Some _ _ _ Hplaces). }
  pose proof (fold_write_twice start end_ entries (sheet_entries db) Hplaced)
    as Htwice. fold written in Htwice.
  destruct (bulk_upsert_cases (set_sheet_entries db written) payload)
    as [[Hlt _]|[(_ & Hex & _)|(_ & _ & out' & Ho' & Hplaces')]].
  - exfalso. unfold start, end_ in Hle. lia.
  - exfalso. exact (Forall_not_Exists _ _ Hall Hex).
  - cbv zeta in Ho', Hplaces'. fold start end_ entries in Ho', Hplaces'.
    cbn [sheet_entries set_sheet_entries] in Ho', Hplaces'.
    rewrite Htwice in Ho', Hplaces'. rewrite Ho'.
    assert (out' = out) as ->.
    { eapply Forall2_functional; [|exact Hplaces'|exact Hplaces].
      intros e a b Ha Hb. cbv beta in *. congruence. }
    reflexivity.
Qed.

Lemma X29_sheet_batch_is_idempotent_witness :
  exists db1 rows,
    request (payroll.bulk_upsert_payroll_sheet_entries Example.batch)
      Example.store = (db1, Ok rows)
    /\ request (payroll.bulk_upsert_payroll_sheet_entries Example.batch) db1
       = (db1, Ok rows).
Proof.
  destruct (request (payroll.bulk_upsert_payroll_sheet_entries Example.batch)
              Example.store) as [db1 [rows|e]] eqn:E.
  - exists db1, rows. split; [reflexivity|].
    exact (X29_sheet_batch_is_idempotent Example.store db1 Example.batch rows E).
  - vm_compute in E. discriminate E.
Defined.

(** * The rows against the store *)

(** ** What the loops accumulate, record by record *)

Lemma fold_left_filter {A B : Type} (p : B -> bool) (f : A -> B -> A)
    (l : list B) (t : A) :
  fold_left (fun t a => if p a then f t a else t) l t
  = fold_left f (List.filter p l) t.
Proof.
  revert t. induction l as [|a l IH]; intros t; simpl; [reflexivity|].
  destruct (p a); simpl; apply IH.
Qed.

Lemma both_nonzero_truthy (a : AttendanceRecord.t) :
  Py.truthy_int (AttendanceRecord.overtime_minutes a)
  && Py.truthy_float (AttendanceRecord.overtime_rate a)
  = both_nonzero a.
Proof.
  unfold both_nonzero, Py.truthy_int, Py.truthy_float.
  destruct (AttendanceRecord.overtime_minutes a) as [m|];
    destruct (AttendanceRecord.overtime_rate a) as [q|]; try reflexivity.
  apply andb_false_r.
Qed.

Lemma overtime_minutes_accruals a x :
  Tally.overtime_minutes (accruals a x)
  = if both_nonzero a
    then Tally.overtime_minutes x + default 0 (AttendanceRecord.overtime_minutes a)
    else Tally.overtime_minutes x.
Proof.
  unfold accruals, accrue_fine, accrue_late, track_overtime_rate, accrue_overtime.
  rewrite both_nonzero_truthy.
  destruct (both_nonzero a), (Py.truthy_float (AttendanceRecord.fine_amount a)),
    (Py.truthy_float (AttendanceRecord.late_deduction a)),
    (Py.truthy_int (AttendanceRecord.late_minutes a)),
    (Py.truthy_float (AttendanceRecord.overtime_rate a)
     && Qc_ltb 0 (Py.float_or_0 (AttendanceRecord.overtime_rate a)));
    destruct x; reflexivity.
Qed.

Lemma overtime_pay_accruals a x :
  Tally.overtime_pay (accruals a x)
  = if both_nonzero a
    then (Tally.overtime_pay x
          + float_of_int (default 0%Z (AttendanceRecord.overtime_minutes a))
            / float_of_int 60
            * default 0%Qc (AttendanceRecord.overtime_rate a))%Qc
    else Tally.overtime_pay x.
Proof.
  unfold accruals, accrue_fine, accrue_late, track_overtime_rate, accrue_overtime.
  rewrite both_nonzero_truthy.
  destruct (both_nonzero a), (Py.truthy_float (AttendanceRecord.fine_amount a)),
    (Py.truthy_float (AttendanceRecord.late_deduction a)),
    (Py.truthy_int (AttendanceRecord.late_minutes a)),
    (Py.truthy_float (AttendanceRecord.overtime_rate a)
     && Qc_ltb 0 (Py.float_or_0 (AttendanceRecord.overtime_rate a)));
    destruct x; reflexivity.
Qed.

Lemma late_deduction_accruals a x :
  Tally.late_deduction (accruals a x)
  = if nonzero (AttendanceRecord.late_deduction a)
    then (Tally.late_deduction x
          + default 0%Qc (AttendanceRecord.late_deduction a))%Qc
    else Tally.late_deduction x.
Proof.
  unfold accruals, accrue_fine, accrue_late, track_overtime_rate, accrue_overtime.
  change (nonzero (AttendanceRecord.late_deduction a))
    with (Py.truthy_float (AttendanceRecord.late_deduction a)).
  destruct (Py.truthy_int (AttendanceRecord.overtime_minutes a)
            && Py.truthy_float (AttendanceRecord.overtime_rate a)),
    (Py.truthy_float (AttendanceRecord.fine_amount a)),
    (Py.truthy_float (AttendanceRecord.late_deduction a)),
    (Py.truthy_int (AttendanceRecord.late_minutes a)),
    (Py.truthy_float (AttendanceRecord.overtime_rate a)
     && Qc_ltb 0 (Py.float_or_0 (AttendanceRecord.overtime_rate a)));
    destruct x; reflexivity.
Qed.

Lemma fine_deduction_accruals a x :
  Tally.fine_deduction (accruals a x)
  = if nonzero (AttendanceRecord.fine_amount a)
    then (Tally.fine_deduction x
          + default 0%Qc (AttendanceRecord.fine_amount a))%Qc
    else Tally.fine_deduction x.
Proof.
  unfold accruals, accrue_fine, accrue_late, track_overtime_rate, accrue_overtime.
  change (nonzero (AttendanceRecord.fine_amount a))
    with (Py.truthy_float (AttendanceRecord.fine_amount a)).
  destruct (Py.truthy_int (AttendanceRecord.overtime_minutes a)
            && Py.truthy_float (AttendanceRecord.overtime_rate a)),
    (Py.truthy_float (AttendanceRecord.fine_amount a)),
    (Py.truthy_float (AttendanceRecord.late_deduction a)),
    (Py.truthy_int (AttendanceRecord.late_minutes a)),
    (Py.truthy_float (AttendanceRecord.overtime_rate a)
     && Qc_ltb 0 (Py.float_or_0 (AttendanceRecord.overtime_rate a)));
    destruct x; reflexivity.
Qed.

(** A loop variable that the day counters leave alone, over the walk. *)
Section WalkVariable.
Context {T : Type} (F : Tally.t -> T) (p : AttendanceRecord.t -> bool)
  (add : T -> AttendanceRecord.t -> T).
Hypothesis F_count_day : forall c x, F (count_day c x) = F x.
Hypothesis F_accruals :
  forall a x, F (accruals a x) = if p a then add (F x) a else F x.

Lemma payroll_fold_variable (days : gmap Z AttendanceRecord.t) (l : list date)
    (x : Tally.t) :
  F (fold_left (fun x d => payroll.range_body days d x) l x)
  = fold_left add (List.filter p (omap (fun d => days !! d) l)) (F x).
Proof.
  rewrite <- fold_left_filter.
  revert x. induction l as [|d l IH]; intros x; [reflexivity|].
  cbn [fold_left]. rewrite IH, payroll_range_body_record.
  change (omap (fun d => days !! d) (d :: l))
    with (match days !! d with
          | Some a => a :: omap (fun d => days !! d) l
          | None => omap (fun d => days !! d) l
          end).
  destruct (days !! d) as [a|].
  - cbn [fold_left]. fold (accruals a (count_day (category_of (Some a)) x)).
    rewrite F_accruals, F_count_day. reflexivity.
  - rewrite F_count_day. reflexivity.
Qed.

End WalkVariable.

Lemma count_day_variables c x :
  Tally.overtime_minutes (count_day c x) = Tally.overtime_minutes x
  /\ Tally.overtime_pay (count_day c x) = Tally.overtime_pay x
  /\ Tally.late_deduction (count_day c x) = Tally.late_deduction x
  /\ Tally.fine_deduction (count_day c x) = Tally.fine_deduction x.
Proof. destruct c, x; repeat split; reflexivity. Qed.

(** The records of the day index on the days of the period are the records
    the walk reads. *)
Lemma day_index_records (db : Db) (start end_ : date) (k : string) :
  omap
    (fun d =>
       default ∅
         (payroll.by_emp_by_date
            (List.filter (payroll.in_period start end_) (attendance db)) !! k)
       !! d)
    (period_days start end_)
  = records_read db start end_ k.
Proof.
  unfold records_read. apply omap_ext_in. intros d Hd.
  apply in_period_days in Hd. apply day_index_lookup. exact Hd.
Qed.

Lemma payroll_tally_variables (db : Db) (start end_ : date) (e : Employee2.t) :
  let x :=
    payroll_tally
      (payroll.by_emp_by_date
         (List.filter (payroll.in_period start end_) (attendance db)))
      start end_ e in
  let records := records_read db start end_ (payroll.range_employee_id e) in
  Tally.overtime_minutes x = overtime_minutes_of records
  /\ Tally.overtime_pay x = overtime_pay_of records
  /\ Tally.late_deduction x = late_deduction_of records
  /\ Tally.fine_deduction x = fine_deduction_of records
  /\ Tally.overtime_rate x
     = List.last (positive_rates db start end_ (payroll.range_employee_id e)) 0%Qc.
Proof.
  cbv zeta. unfold payroll_tally.
  rewrite <- (day_index_records db start end_ (payroll.range_employee_id e)).
  repeat split.
  - apply (payroll_fold_variable Tally.overtime_minutes both_nonzero
             (fun t a => t + default 0 (AttendanceRecord.overtime_minutes a))).
    + intros c x. apply (count_day_variables c x).
    + apply overtime_minutes_accruals.
  - apply (payroll_fold_variable Tally.overtime_pay both_nonzero
             (fun t a =>
                (t + float_of_int (default 0%Z (AttendanceRecord.overtime_minutes a))
                     / float_of_int 60
                     * default 0%Qc (AttendanceRecord.overtime_rate a))%Qc)).
    + intros c x. apply (count_day_variables c x).
    + apply overtime_pay_accruals.
  - apply (payroll_fold_variable Tally.late_deduction
             (fun a => nonzero (AttendanceRecord.late_deduction a))
             (fun t a => (t + default 0%Qc (AttendanceRecord.late_deduction a))%Qc)).
    + intros c x. apply (count_day_variables c x).
    + apply late_deduction_accruals.
  - apply (payroll_fold_variable Tally.fine_deduction
             (fun a => nonzero (AttendanceRecord.fine_amount a))
             (fun t a => (t + default 0%Qc (AttendanceRecord.fine_amount a))%Qc)).
    + intros c x. apply (count_day_variables c x).
    + apply fine_deduction_accruals.
  - rewrite payroll_fold_overtime_rate. unfold positive_rates.
    rewrite (day_index_records db start end_ (payroll.range_employee_id e)).
    reflexivity.
Qed.

(** ** The sheet entry and the advance deduction of a row *)

Lemma sheet_lookup_read (db : Db) (start end_ : date) (id : Z) :
  payroll.sheet_by_emp_db_id start end_ db !! id
  = sheet_entry_read db id start end_.
Proof.
  unfold payroll.sheet_by_emp_db_id, sheet_entry_read.
  rewrite dict_of_lookup, <- filter_rev', find_filter_and.
  rewrite (find_ext _ (payroll.sheet_key id start end_)).
  - destruct (List.find _ _); reflexivity.
  - intros r. unfold payroll.sheet_in_period, payroll.sheet_key.
    rewrite <- Z_eqb_bool_decide.
    destruct (PayrollSheetEntry.employee_db_id r =? id),
      (PayrollSheetEntry.from_date r =? start),
      (PayrollSheetEntry.to_date r =? end_); reflexivity.
Qed.

Lemma advance_lookup_read (db : Db) (month_label : string) (id : Z) :
  default 0%Qc (payroll.advance_ded_by_emp_db_id month_label db !! id)
  = advance_read db id month_label.
Proof.
  unfold payroll.advance_ded_by_emp_db_id, advance_read.
  rewrite dict_of_lookup, <- filter_rev', find_filter_and.
  rewrite (find_ext _
             (fun r =>
                (EmployeeAdvanceDeduction.employee_db_id r =? id)
                && String.eqb (EmployeeAdvanceDeduction.month r) month_label)).
  - destruct (List.find _ _); reflexivity.
  - intros r. rewrite <- Z_eqb_bool_decide. apply andb_comm.
Qed.

(** ** The two walks *)

Lemma tallies_agree (index : gmap string (gmap Z AttendanceRecord.t))
    (start end_ : date) (e : Employee2.t) :
  payroll2_tally index start end_ e
  = without_unmarked (payroll_tally index start end_ e).
Proof.
  unfold payroll2_tally, payroll_tally.
  change (payroll2.employee_id_of e) with (payroll.range_employee_id e).
  generalize (default ∅ (index !! payroll.range_employee_id e)). intros days.
  change Tally.zero with (without_unmarked Tally.zero) at 1.
  generalize Tally.zero. generalize (period_days start end_).
  intros l. induction l as [|d l IH]; intros x; [reflexivity|].
  cbn [fold_left]. rewrite <- range_bodies_agree. apply IH.
Qed.

(** ** The rows of a range report (claim C1) *)

Section RowsAgainstTheStore.
Context (float_of_str : string -> option Qc).

Lemma payroll_range_report_rows_label from_date to_date month db rep :
  payroll.payroll_range_report float_of_str from_date to_date month db = Ok rep ->
  exists start end_,
    payroll._parse_date from_date "from_date" = Ok start
    /\ payroll._parse_date to_date "to_date" = Ok end_
    /\ 0 < start <= end_
    /\ Forall2
         (fun e r =>
            r = payroll.range_row float_of_str (range_month_label month end_)
                  start end_ db e
                  (payroll_tally
                     (payroll.by_emp_by_date
                        (List.filter (payroll.in_period start end_) (attendance db)))
                     start end_ e))
         (range_employees end_ db) (payroll.PayrollReportResponse.rows rep).
Proof.
  unfold payroll.payroll_range_report. intros H.
  destruct (payroll._parse_date from_date _) as [start|] eqn:Hs; simpl in H;
    [|discriminate].
  destruct (payroll._parse_date to_date _) as [end_|] eqn:He; simpl in H;
    [|discriminate].
  destruct (end_ <? start) eqn:E; [discriminate|]. apply Z.ltb_ge in E.
  match type of H with
  | bind ?r _ = _ => destruct r as [rows|] eqn:Hr; simpl in H; [|discriminate]
  end.
  injection H as <-. cbn [payroll.PayrollReportResponse.rows].
  pose proof (parse_date_bounds _ _ _ Hs) as Hb.
  exists start, end_. repeat split; try lia.
  apply payroll_range_rows_inv in Hr. unfold range_employees.
  eapply Forall2_impl; [exact Hr|].
  intros e r (x & Hw & ->). unfold range_month_label. f_equal.
  apply day_walk_ok_fold in Hw; [exact Hw | lia].
Qed.

Lemma payroll2_range_report_rows_label from_date to_date month db rep :
  payroll2.payroll2_range_report float_of_str from_date to_date month db = Ok rep ->
  exists start end_,
    payroll2._parse_date from_date "from_date" = Ok start
    /\ payroll2._parse_date to_date "to_date" = Ok end_
    /\ 0 < start <= end_
    /\ Forall2
         (fun e r =>
            r = payroll2.range_row float_of_str (range_month_label month end_)
                  start end_ db e
                  (payroll2_tally
                     (payroll.by_emp_by_date
                        (List.filter (payroll.in_period start end_) (attendance db)))
                     start end_ e))
         (range_employees end_ db) (payroll2.Response.rows rep).
Proof.
  unfold payroll2.payroll2_range_report. intros H.
  destruct (payroll2._parse_date from_date _) as [start|] eqn:Hs; simpl in H;
    [|discriminate].
  destruct (payroll2._parse_date to_date _) as [end_|] eqn:He; simpl in H;
    [|discriminate].
  destruct (end_ <? start) eqn:E; [discriminate|]. apply Z.ltb_ge in E.
  match type of H with
  | bind ?r _ = _ => destruct r as [rows|] eqn:Hr; simpl in H; [|discriminate]
  end.
  injection H as <-. cbn [payroll2.Response.rows].
  pose proof (parse_date_bounds _ _ _ Hs) as Hb.
  exists start, end_. repeat split; try lia.
  apply payroll2_range_rows_inv in Hr.
  eapply Forall2_impl; [exact Hr|].
  intros e r (x & Hw & ->). unfold range_month_label. f_equal.
  apply day_walk_ok_fold in Hw; [exact Hw | lia].
Qed.

Lemma payroll_range_row_inputs month_label start end_ db e :
  range_row_inputs float_of_str db start end_ month_label e
    (payroll.range_row float_of_str month_label start end_ db e
       (payroll_tally
          (payroll.by_emp_by_date
             (List.filter (payroll.in_period start end_) (attendance db)))
          start end_ e)).
Proof.
  pose proof (payroll_tally_variables db start end_ e) as Hv. cbv zeta in Hv.
  destruct Hv as (_ & Hop & Hld & Hfd & Hor).
  pose proof (payroll_tally_counters db start end_ e) as Hc.
  unfold day_counters in Hc. cbv zeta in Hc.
  injection Hc as Hp Hl _ _ _ _.
  unfold range_row_inputs, pay_inputs, payroll.range_row. cbv zeta.
  cbn [payroll.RangeRow.employee_id payroll.RangeRow.employee_db_id
       payroll.RangeRow.base_salary payroll.RangeRow.working_days
       payroll.RangeRow.present_days payroll.RangeRow.late_days
       payroll.RangeRow.leave_encashment_days payroll.RangeRow.overtime_rate
       payroll.RangeRow.overtime_pay payroll.RangeRow.allow_other
       payroll.RangeRow.eobi payroll.RangeRow.tax payroll.RangeRow.fine_deduction
       payroll.RangeRow.advance_deduction payroll.RangeRow.fine_adv_extra
       payroll.RangeRow.late_deduction payroll.RangeRow.allowances].
  rewrite sheet_lookup_read, advance_lookup_read.
  repeat split; assumption.
Qed.

Lemma payroll2_range_row_inputs month_label start end_ db e :
  range2_row_inputs float_of_str db start end_ month_label e
    (payroll2.range_row float_of_str month_label start end_ db e
       (payroll2_tally
          (payroll.by_emp_by_date
             (List.filter (payroll.in_period start end_) (attendance db)))
          start end_ e)).
Proof.
  pose proof (payroll_range_row_inputs month_label start end_ db e) as [H _].
  rewrite tallies_agree.
  pose proof (range_rows_agree_row float_of_str month_label start end_ db e
                (payroll_tally
                   (payroll.by_emp_by_date
                      (List.filter (payroll.in_period start end_) (attendance db)))
                   start end_ e)) as Ha.
  unfold rows_agree in Ha.
  destruct Ha as (A1 & A2 & _ & _ & _ & A6 & A7 & _ & _ & A10 & A11 & _ & _ & _
                  & _ & _ & A17 & _ & _ & _ & A21 & A22 & _ & A24 & A25 & _
                  & A27 & A28 & A29 & A30 & _ & A32 & _).
  unfold range2_row_inputs. unfold pay_inputs in *.
  rewrite <- A1, <- A2, <- A6, <- A7, <- A10, <- A11, <- A17, <- A21, <- A22,
    <- A24, <- A25, <- A27, <- A28, <- A29, <- A30, <- A32.
  exact H.
Qed.

(** C1. In both range engines the rows of a report are those of the
    employees hired by the end of the period, in the order of the sort key,
    and the row of an employee satisfies the pay formulas on the data of
    that employee. The inputs: base_salary is the salary text of the
    employee read as a number, working_days = to - from + 1, present_days
    and late_days count the days of the period by the record read for the
    day, leave_encashment_days, allow_other, eobi, tax and fine_adv_extra
    are those of the sheet entry of the employee for (from, to) (0 without
    one), overtime_rate is the last positive rate, overtime_pay,
    late_deduction and fine_deduction are summed over the records of the
    days, advance_deduction is that of the employee for the month label,
    and allowances = 0. The formulas: day_rate = base_salary / working_days
    (0 if working_days <= 0), presents_total = present_days + late_days,
    total_days = max(0, presents_total + leave_encashment_days),
    total_salary = total_days * day_rate, gross_pay = total_salary +
    overtime_rate + overtime_pay + allowances + allow_other and net_pay =
    gross_pay - eobi - tax - (fine_deduction + advance_deduction +
    fine_adv_extra) - late_deduction. *)
Theorem C1_range_rows_follow_the_pay_formulas from_date to_date month db :
  (forall rep,
     payroll.payroll_range_report float_of_str from_date to_date month db = Ok rep ->
     exists start end_,
       payroll._parse_date from_date "from_date" = Ok start
       /\ payroll._parse_date to_date "to_date" = Ok end_
       /\ start <= end_
       /\ Forall2
            (fun e r =>
               range_row_inputs float_of_str db start end_
                 (range_month_label month end_) e r
               /\ range_row_formulas r)
            (range_employees end_ db) (payroll.PayrollReportResponse.rows rep))
  /\ (forall rep,
        payroll2.payroll2_range_report float_of_str from_date to_date month db
        = Ok rep ->
        exists start end_,
          payroll2._parse_date from_date "from_date" = Ok start
          /\ payroll2._parse_date to_date "to_date" = Ok end_
          /\ start <= end_
          /\ Forall2
               (fun e r =>
                  range2_row_inputs float_of_str db start end_
                    (range_month_label month end_) e r
                  /\ range2_row_formulas r)
               (range_employees end_ db) (payroll2.Response.rows rep)).
Proof.
  split; intros rep H.
  - apply payroll_range_report_rows_label in H
      as (start & end_ & Hs & He & Hle & Hrows).
    exists start, end_. repeat split; try assumption; try lia.
    eapply Forall2_impl; [exact Hrows|].
    intros e r ->. split.
    + apply payroll_range_row_inputs.
    + apply payroll_range_row_formulas.
  - apply payroll2_range_report_rows_label in H
      as (start & end_ & Hs & He & Hle & Hrows).
    exists start, end_. repeat split; try assumption; try lia.
    eapply Forall2_impl; [exact Hrows|].
    intros e r ->. split.
    + apply payroll2_range_row_inputs.
    + apply payroll2_range_row_formulas.
Qed.

End RowsAgainstTheStore.

Lemma C1_range_rows_follow_the_pay_formulas_witness :
  (exists rep start end_,
     payroll.payroll_range_report decimal "2024-01-01" "2024-01-31" None
       Example.busy_january = Ok rep
     /\ Forall2
          (fun e r =>
             range_row_inputs decimal Example.busy_january start end_
               (range_month_label None end_) e r
             /\ range_row_formulas r)
          (range_employees end_ Example.busy_january)
          (payroll.PayrollReportResponse.rows rep)
     /\ map (fun r =>
               (payroll.RangeRow.present_days r, payroll.RangeRow.late_days r,
                payroll.RangeRow.leave_encashment_days r,
                payroll.RangeRow.total_days r))
          (payroll.PayrollReportResponse.rows rep)
        = [(20, 2, 2, 24)]
     /\ map (fun r =>
               map this
                 [payroll.RangeRow.base_salary r; payroll.RangeRow.day_rate r;
                  payroll.RangeRow.total_salary r; payroll.RangeRow.overtime_rate r;
                  payroll.RangeRow.overtime_pay r; payroll.RangeRow.allow_other r;
                  payroll.RangeRow.gross_pay r; payroll.RangeRow.eobi r;
                  payroll.RangeRow.tax r; payroll.RangeRow.fine_deduction r;
                  payroll.RangeRow.advance_deduction r;
                  payroll.RangeRow.fine_adv_extra r;
                  payroll.RangeRow.late_deduction r; payroll.RangeRow.net_pay r])
          (payroll.PayrollReportResponse.rows rep)
        = [map inject_Z
             [31000; 1000; 24000; 100; 200; 500; 24800; 200; 300; 30; 1000; 20;
              50; 23200]])
  /\ (exists rep start end_,
        payroll2.payroll2_range_report decimal "2024-01-01" "2024-01-31" None
          Example.busy_january = Ok rep
        /\ Forall2
             (fun e r =>
                range2_row_inputs decimal Example.busy_january start end_
                  (range_month_label None end_) e r
                /\ range2_row_formulas r)
             (range_employees end_ Example.busy_january)
             (payroll2.Response.rows rep)
        /\ map (fun r =>
                  (payroll2.Row.presents_total r,
                   payroll2.Row.leave_encashment_days r, payroll2.Row.total_days r))
             (payroll2.Response.rows rep)
           = [(22, 2, 24)]
        /\ map (fun r =>
                  map this
                    [payroll2.Row.base_salary r; payroll2.Row.day_rate r;
                     payroll2.Row.total_salary r; payroll2.Row.gross_pay r;
                     payroll2.Row.net_pay r])
             (payroll2.Response.rows rep)
           = [map inject_Z [31000; 1000; 24000; 24800; 23200]]).
Proof.
  split.
  - destruct (payroll.payroll_range_report decimal _ _ _ _) as [rep|e] eqn:E.
    + destruct (proj1 (C1_range_rows_follow_the_pay_formulas decimal
                         _ _ _ _) rep E) as (start & end_ & _ & _ & _ & H).
      exists rep, start, end_. split; [reflexivity|]. split; [exact H|].
      vm_compute in E. injection E as <-. split; vm_compute; reflexivity.
    + vm_compute in E. discriminate E.
  - destruct (payroll2.payroll2_range_report decimal _ _ _ _) as [rep|e] eqn:E.
    + destruct (proj2 (C1_range_rows_follow_the_pay_formulas decimal
                         _ _ _ _) rep E) as (start & end_ & _ & _ & _ & H).
      exists rep, start, end_. split; [reflexivity|]. split; [exact H|].
      vm_compute in E. injection E as <-. split; vm_compute; reflexivity.
    + vm_compute in E. discriminate E.
Defined.

(** ** Overtime minutes and overtime pay (claim C10) *)

Lemma report_step_overtime x a :
  Tally.overtime_minutes (payroll.report_step x a)
  = (if both_nonzero a
     then Tally.overtime_minutes x + default 0 (AttendanceRecord.overtime_minutes a)
     else Tally.overtime_minutes x)
  /\ Tally.overtime_pay (payroll.report_step x a)
     = (if both_nonzero a
        then (Tally.overtime_pay x
              + float_of_int (default 0%Z (AttendanceRecord.overtime_minutes a))
                / float_of_int 60
                * default 0%Qc (AttendanceRecord.overtime_rate a))%Qc
        else Tally.overtime_pay x).
Proof.
  unfold payroll.report_step, accrue_late, track_overtime_rate, accrue_overtime.
  rewrite both_nonzero_truthy.
  destruct (both_nonzero a),
    (Py.truthy_float (AttendanceRecord.late_deduction a)),
    (Py.truthy_int (AttendanceRecord.late_minutes a)),
    (Py.truthy_float (AttendanceRecord.overtime_rate a)
     && Qc_ltb 0 (Py.float_or_0 (AttendanceRecord.overtime_rate a)));
    repeat match goal with
           | |- context [if ?c then _ else _] => destruct c
           end;
    destruct x; split; reflexivity.
Qed.

Lemma report_loop_overtime (l : list AttendanceRecord.t) (x : Tally.t) :
  Tally.overtime_minutes (fold_left payroll.report_step l x)
  = fold_left (fun t a => t + default 0 (AttendanceRecord.overtime_minutes a))
      (List.filter both_nonzero l) (Tally.overtime_minutes x)
  /\ Tally.overtime_pay (fold_left payroll.report_step l x)
     = fold_left
         (fun t a =>
            (t + float_of_int (default 0%Z (AttendanceRecord.overtime_minutes a))
                 / float_of_int 60
                 * default 0%Qc (AttendanceRecord.overtime_rate a))%Qc)
         (List.filter both_nonzero l) (Tally.overtime_pay x).
Proof.
  rewrite <- !fold_left_filter.
  revert x. induction l as [|a l IH]; intros x; [split; reflexivity|].
  cbn [fold_left]. destruct (IH (payroll.report_step x a)) as [IH1 IH2].
  destruct (report_step_overtime x a) as [H1 H2].
  rewrite IH1, IH2, H1, H2. split; reflexivity.
Qed.

Lemma without_unmarked_overtime x :
  Tally.overtime_minutes (without_unmarked x) = Tally.overtime_minutes x
  /\ Tally.overtime_pay (without_unmarked x) = Tally.overtime_pay x.
Proof. destruct x; split; reflexivity. Qed.

Section Overtime.
Context (float_of_str : string -> option Qc).

Lemma month_rows_overtime month db rep :
  payroll.payroll_report float_of_str month db = Ok rep ->
  exists start end_,
    payroll._parse_month month = Ok (start, end_)
    /\ Forall (month_row_overtime db start end_)
         (payroll.PayrollReportResponse.rows rep).
Proof.
  intros H. apply payroll_report_inv in H as (start & end_ & Hp & ->).
  exists start, end_. split; [exact Hp|].
  apply List.Forall_forall. intros r Hr.
  apply List.in_map_iff in Hr. destruct Hr as (e & <- & _).
  unfold month_row_overtime, payroll.report_row. cbv zeta.
  cbn [payroll.ReportRow.employee_id payroll.ReportRow.overtime_minutes
       payroll.ReportRow.overtime_pay].
  rewrite group_by_lookup.
  change (List.filter
            (fun a => String.eqb (AttendanceRecord.employee_id a)
                        (payroll.report_employee_id e))
            (List.filter (payroll.in_period start end_) (attendance db)))
    with (records_of db start end_ (payroll.report_employee_id e)).
  exact (report_loop_overtime _ Tally.zero).
Qed.

Lemma range_rows_overtime from_date to_date month db rep :
  payroll.payroll_range_report float_of_str from_date to_date month db = Ok rep ->
  exists start end_,
    payroll._parse_date from_date "from_date" = Ok start
    /\ payroll._parse_date to_date "to_date" = Ok end_
    /\ Forall (range_row_overtime db start end_)
         (payroll.PayrollReportResponse.rows rep).
Proof.
  intros H. apply payroll_range_report_rows_label in H
    as (start & end_ & Hs & He & Hle & Hrows).
  exists start, end_. split; [exact Hs|]. split; [exact He|].
  induction Hrows as [|e r es rows -> _ IH]; constructor; [|exact IH].
  pose proof (payroll_tally_variables db start end_ e) as Hv. cbv zeta in Hv.
  destruct Hv as (Hom & Hop & _).
  split; assumption.
Qed.

Lemma range2_rows_overtime from_date to_date month db rep :
  payroll2.payroll2_range_report float_of_str from_date to_date month db = Ok rep ->
  exists start end_,
    payroll2._parse_date from_date "from_date" = Ok start
    /\ payroll2._parse_date to_date "to_date" = Ok end_
    /\ Forall (range2_row_overtime db start end_) (payroll2.Response.rows rep).
Proof.
  intros H. apply payroll2_range_report_rows_label in H
    as (start & end_ & Hs & He & Hle & Hrows).
  exists start, end_. split; [exact Hs|]. split; [exact He|].
  induction Hrows as [|e r es rows -> _ IH]; constructor; [|exact IH].
  pose proof (payroll_tally_variables db start end_ e) as Hv. cbv zeta in Hv.
  destruct Hv as (Hom & Hop & _).
  rewrite tallies_agree.
  destruct (without_unmarked_overtime
              (payroll_tally
                 (payroll.by_emp_by_date
                    (List.filter (payroll.in_period start end_) (attendance db)))
                 start end_ e)) as [W1 W2].
  unfold range2_row_overtime, payroll2.range_row. cbv zeta.
  cbn [payroll2.Row.employee_id payroll2.Row.overtime_minutes
       payroll2.Row.overtime_pay].
  rewrite W1, W2. split; assumption.
Qed.

Lemma reports_without_idle_minutes db att' :
  Forall2 idle_overtime (attendance db) att' ->
  (forall month,
     payroll.payroll_report float_of_str month (set_attendance db att')
     = payroll.payroll_report float_of_str month db)
  /\ (forall from_date to_date month,
        payroll.payroll_range_report float_of_str from_date to_date month
          (set_attendance db att')
        = payroll.payroll_range_report float_of_str from_date to_date month db)
  /\ (forall from_date to_date month,
        payroll2.payroll2_range_report float_of_str from_date to_date month
          (set_attendance db att')
        = payroll2.payroll2_range_report float_of_str from_date to_date month db).
Proof.
  intros Hidle. apply idle_overtime_map in Hidle.
  assert (Hdb :
    set_attendance (set_attendance db att')
      (map without_idle_minutes (attendance (set_attendance db att')))
    = set_attendance db (map without_idle_minutes (attendance db))).
  { rewrite set_attendance_twice. simpl. rewrite Hidle. reflexivity. }
  split; [|split]; intros.
  - rewrite <- (payroll_report_idle float_of_str month (set_attendance db att')),
      Hdb.
    apply payroll_report_idle.
  - rewrite <- (payroll_range_report_idle float_of_str from_date to_date month
                  (set_attendance db att')), Hdb.
    apply payroll_range_report_idle.
  - rewrite <- (payroll2_range_report_idle float_of_str from_date to_date month
                  (set_attendance db att')), Hdb.
    apply payroll2_range_report_idle.
Qed.

(** C10. In the calendar-month report and in the range report of either
    engine, overtime_minutes of a row is the sum of the overtime minutes,
    and overtime_pay the sum of minutes / 60 * rate, over those records
    read for the employee that have both overtime minutes and an overtime
    rate, neither zero (the records of the month in the order of the table
    for the month report, the record of each day of the period for a range
    report). A record with overtime minutes but a zero or missing rate is
    not among them and adds nothing to any column: two stores that differ
    only in the overtime minutes of such records get the same calendar-month
    report and the same range report from either engine, gross pay and all
    the rest. *)
Theorem C10_idle_overtime_minutes_do_not_count db :
  (forall month rep,
     payroll.payroll_report float_of_str month db = Ok rep ->
     exists start end_,
       payroll._parse_month month = Ok (start, end_)
       /\ Forall (month_row_overtime db start end_)
            (payroll.PayrollReportResponse.rows rep))
  /\ (forall from_date to_date month rep,
        payroll.payroll_range_report float_of_str from_date to_date month db
        = Ok rep ->
        exists start end_,
          payroll._parse_date from_date "from_date" = Ok start
          /\ payroll._parse_date to_date "to_date" = Ok end_
          /\ Forall (range_row_overtime db start end_)
               (payroll.PayrollReportResponse.rows rep))
  /\ (forall from_date to_date month rep,
        payroll2.payroll2_range_report float_of_str from_date to_date month db
        = Ok rep ->
        exists start end_,
          payroll2._parse_date from_date "from_date" = Ok start
          /\ payroll2._parse_date to_date "to_date" = Ok end_
          /\ Forall (range2_row_overtime db start end_)
               (payroll2.Response.rows rep))
  /\ (forall att',
        Forall2 idle_overtime (attendance db) att' ->
        (forall month,
           payroll.payroll_report float_of_str month (set_attendance db att')
           = payroll.payroll_report float_of_str month db)
        /\ (forall from_date to_date month,
              payroll.payroll_range_report float_of_str from_date to_date month
                (set_attendance db att')
              = payroll.payroll_range_report float_of_str from_date to_date month
                  db)
        /\ (forall from_date to_date month,
              payroll2.payroll2_range_report float_of_str from_date to_date month
                (set_attendance db att')
              = payroll2.payroll2_range_report float_of_str from_date to_date
                  month db)).
Proof.
  split; [|split; [|split]].
  - intros month rep. apply month_rows_overtime.
  - intros from_date to_date month rep. apply range_rows_overtime.
  - intros from_date to_date month rep. apply range2_rows_overtime.
  - intros att'. apply reports_without_idle_minutes.
Qed.

End Overtime.

Lemma C10_idle_overtime_minutes_do_not_count_witness :
  (exists rep start end_,
     payroll.payroll_report decimal "2024-01" Example.overtime_store = Ok rep
     /\ Forall (month_row_overtime Example.overtime_store start end_)
          (payroll.PayrollReportResponse.rows rep)
     /\ map (fun r => (payroll.ReportRow.overtime_minutes r,
                       this (payroll.ReportRow.overtime_pay r),
                       this (payroll.ReportRow.gross_pay r)))
          (payroll.PayrollReportResponse.rows rep)
        = [(150, inject_Z 225, inject_Z 31305)])
  /\ (exists rep start end_,
        payroll.payroll_range_report decimal "2024-01-01" "2024-01-31" None
          Example.overtime_store = Ok rep
        /\ Forall (range_row_overtime Example.overtime_store start end_)
             (payroll.PayrollReportResponse.rows rep)
        /\ map (fun r => (payroll.RangeRow.overtime_minutes r,
                          this (payroll.RangeRow.overtime_pay r),
                          this (payroll.RangeRow.gross_pay r)))
             (payroll.PayrollReportResponse.rows rep)
           = [(150, inject_Z 225, inject_Z 4275)])
  /\ (exists rep start end_,
        payroll2.payroll2_range_report decimal "2024-01-01" "2024-01-31" None
          Example.overtime_store = Ok rep
        /\ Forall (range2_row_overtime Example.overtime_store start end_)
             (payroll2.Response.rows rep)
        /\ map (fun r => (payroll2.Row.overtime_minutes r,
                          this (payroll2.Row.overtime_pay r),
                          this (payroll2.Row.gross_pay r)))
             (payroll2.Response.rows rep)
           = [(150, inject_Z 225, inject_Z 4275)])
  /\ (let att' :=
        [Example.overtime_day (Example.jan1 + 3) (Some 30) (Some 50);
         Example.overtime_day Example.jan1 (Some 120) (Some 100);
         Example.overtime_day (Example.jan1 + 1) (Some 999) None;
         Example.overtime_day (Example.jan1 + 2) None (Some 80)] in
      Forall2 idle_overtime (attendance Example.overtime_store) att'
      /\ payroll.payroll_report decimal "2024-01"
           (set_attendance Example.overtime_store att')
         = payroll.payroll_report decimal "2024-01" Example.overtime_store
      /\ payroll.payroll_range_report decimal "2024-01-01" "2024-01-31" None
           (set_attendance Example.overtime_store att')
         = payroll.payroll_range_report decimal "2024-01-01" "2024-01-31" None
             Example.overtime_store
      /\ payroll2.payroll2_range_report decimal "2024-01-01" "2024-01-31" None
           (set_attendance Example.overtime_store att')
         = payroll2.payroll2_range_report decimal "2024-01-01" "2024-01-31" None
             Example.overtime_store).
Proof.
  destruct (C10_idle_overtime_minutes_do_not_count decimal Example.overtime_store)
    as (Hm & Hr & Hr2 & Hidle).
  split; [|split; [|split]].
  - destruct (payroll.payroll_report decimal _ _) as [rep|e] eqn:E.
    + destruct (Hm _ rep E) as (start & end_ & _ & H).
      exists rep, start, end_. split; [reflexivity|]. split; [exact H|].
      vm_compute in E. injection E as <-. vm_compute. reflexivity.
    + vm_compute in E. discriminate E.
  - destruct (payroll.payroll_range_report decimal _ _ _ _) as [rep|e] eqn:E.
    + destruct (Hr _ _ _ rep E) as (start & end_ & _ & _ & H).
      exists rep, start, end_. split; [reflexivity|]. split; [exact H|].
      vm_compute in E. injection E as <-. vm_compute. reflexivity.
    + vm_compute in E. discriminate E.
  - destruct (payroll2.payroll2_range_report decimal _ _ _ _) as [rep|e] eqn:E.
    + destruct (Hr2 _ _ _ rep E) as (start & end_ & _ & _ & H).
      exists rep, start, end_. split; [reflexivity|]. split; [exact H|].
      vm_compute in E. injection E as <-. vm_compute. reflexivity.
    + vm_compute in E. discriminate E.
  - cbv zeta.
    assert (H : Forall2 idle_overtime (attendance Example.overtime_store)
                  [Example.overtime_day (Example.jan1 + 3) (Some 30) (Some 50);
                   Example.overtime_day Example.jan1 (Some 120) (Some 100);
                   Example.overtime_day (Example.jan1 + 1) (Some 999) None;
                   Example.overtime_day (Example.jan1 + 2) None (Some 80)]).
    { constructor; [left; reflexivity|]. constructor; [left; reflexivity|].
      constructor; [|constructor; [left; reflexivity | constructor]].
      right. split; [reflexivity|]. exists (Some 999). reflexivity. }
    split; [exact H|].
    destruct (Hidle _ H) as (H1 & H2 & H3).
    split; [apply H1|]. split; [apply H2 | apply H3].
Defined.
